(** * OpenHydrology: the chunk-processing pipeline

    A shallow embedding of the cleaning, enhancement and evaluation
    stages of the OpenHydrology data pipeline ([src/skills/base.py],
    [cleaner.py], [enhancer.py], [evaluator.py], [pipeline.py] and
    [src/models.py]), followed by the properties of the design document
    that were checked against it.

    Conventions of the embedding.
    - A Python [str] is a list of Unicode code points ([list N]); literals
      are written as UTF-8 Rocq strings and decoded with [py].
    - A Python [float] is an exact rational ([Q]).  The scores only add,
      multiply, divide, compare and clamp non-negative quantities.
    - A chunk is an object on a heap ([gmap loc DataChunk]): the stages
      mutate the chunk they are given, and a batch is a list of references.
    - Code that can raise runs in a state-and-exception monad [M].
    - What the interpreter and third-party packages provide (the Unicode
      character database, jieba, spaCy, numpy, hashlib, the clock and the
      random generator) is a parameter: classes [UnicodeData] and
      [Runtime]. *)

From Stdlib Require Import ZArith NArith QArith Qminmax Lqa Lia.
From Stdlib Require Import Ascii String.
From stdpp Require Import gmap strings list fin_maps.

Local Open Scope list_scope.
Set Warnings "-register-all".

(* ===================================================================== *)
(** * Python text                                                          *)
(* ===================================================================== *)

Abbreviation char := N (only parsing).
Abbreviation str := (list N) (only parsing).

(** ** Literals: UTF-8 decoding of a Rocq string *)

Definition cont_bits (b : N) : N := N.land b 63.

Fixpoint utf8_decode (bs : list N) : str :=
  match bs with
  | [] => []
  | b0 :: t0 =>
    if (b0 <? 192)%N then b0 :: utf8_decode t0
    else if (b0 <? 224)%N then
      match t0 with
      | b1 :: t1 =>
        (N.shiftl (N.land b0 31) 6 + cont_bits b1)%N :: utf8_decode t1
      | [] => [b0]
      end
    else if (b0 <? 240)%N then
      match t0 with
      | b1 :: b2 :: t2 =>
        (N.shiftl (N.land b0 15) 12 + N.shiftl (cont_bits b1) 6
         + cont_bits b2)%N :: utf8_decode t2
      | _ => b0 :: utf8_decode t0
      end
    else
      match t0 with
      | b1 :: b2 :: b3 :: t3 =>
        (N.shiftl (N.land b0 7) 18 + N.shiftl (cont_bits b1) 12
         + N.shiftl (cont_bits b2) 6 + cont_bits b3)%N :: utf8_decode t3
      | _ => b0 :: utf8_decode t0
      end
  end.

Definition py (s : string) : str :=
  utf8_decode (map N_of_ascii (list_ascii_of_string s)).

(** ** Encoding: [str.encode()] (UTF-8, strict) *)

Inductive exn := Exception (kind : string) (msg : str).

Inductive res (A : Type) : Type :=
| Ok (a : A)
| Raise (e : exn).
Arguments Ok {A} a.
Arguments Raise {A} e.

Definition is_ok {A} (r : res A) : bool :=
  match r with Ok _ => true | Raise _ => false end.

Definition exn_msg (e : exn) : str :=
  match e with Exception _ m => m end.

Definition is_surrogate (c : N) : bool := (55296 <=? c)%N && (c <=? 57343)%N.

Definition encode_char (c : N) : list N :=
  if (c <? 128)%N then [c]
  else if (c <? 2048)%N then
    [(192 + N.shiftr c 6)%N; (128 + N.land c 63)%N]
  else if (c <? 65536)%N then
    [(224 + N.shiftr c 12)%N; (128 + N.land (N.shiftr c 6) 63)%N;
     (128 + N.land c 63)%N]
  else
    [(240 + N.shiftr c 18)%N; (128 + N.land (N.shiftr c 12) 63)%N;
     (128 + N.land (N.shiftr c 6) 63)%N; (128 + N.land c 63)%N].

(** [text.encode()] raises [UnicodeEncodeError] on a lone surrogate. *)
Definition str_encode (s : str) : res (list N) :=
  if existsb is_surrogate s
  then Raise (Exception "UnicodeEncodeError" (py "surrogates not allowed"))
  else Ok (flat_map encode_char s).

(** ** Character classes that are fixed ranges *)

Definition in_range (lo hi c : N) : bool := (lo <=? c)%N && (c <=? hi)%N.

(** [[一-鿿]] *)
Definition is_cjk (c : N) : bool := in_range 19968 40959 c.
(** [[a-zA-Z]] *)
Definition is_ascii_alpha (c : N) : bool := in_range 97 122 c || in_range 65 90 c.
(** [[0-9]] *)
Definition is_ascii_digit (c : N) : bool := in_range 48 57 c.

(** The characters for which [Py_UNICODE_ISSPACE] holds: what [str.strip()]
    removes and what [\s] matches in a [str] pattern. *)
Definition py_isspace (c : N) : bool :=
  in_range 9 13 c || in_range 28 32 c || (c =? 133)%N || (c =? 160)%N
  || (c =? 5760)%N || in_range 8192 8202 c || (c =? 8232)%N || (c =? 8233)%N
  || (c =? 8239)%N || (c =? 8287)%N || (c =? 12288)%N.

(** What the Unicode character database of the interpreter decides. *)
Class UnicodeData := {
  (** [\d]: category Nd *)
  re_digit : N -> bool;
  (** [\w]: [str.isalnum()] or the underscore *)
  re_word : N -> bool;
  (** [str.lower()] *)
  py_lower : str -> str;
}.

(** ** Operations on [str] *)

Fixpoint startswith (p s : str) : bool :=
  match p, s with
  | [], _ => true
  | _ :: _, [] => false
  | a :: p', b :: s' => (a =? b)%N && startswith p' s'
  end.

(** [needle in hay] *)
Fixpoint contains (needle hay : str) : bool :=
  startswith needle hay ||
  match hay with
  | [] => false
  | _ :: hay' => contains needle hay'
  end.

(** [any(k in text for k in ks)] *)
Definition contains_any (ks : list str) (text : str) : bool :=
  existsb (fun k => contains k text) ks.

(** [hay.find(needle)]: the index of the first occurrence, or [None] for -1. *)
Fixpoint find_from (needle hay : str) (i : nat) : option nat :=
  if startswith needle hay then Some i
  else match hay with
       | [] => None
       | _ :: hay' => find_from needle hay' (S i)
       end.

Definition str_find (hay needle : str) : option nat := find_from needle hay 0.

(** [s[a:b]] for [0 <= a] and [0 <= b] *)
Definition slice {A} (s : list A) (a b : nat) : list A := firstn (b - a) (skipn a s).

Fixpoint lstrip (s : str) : str :=
  match s with
  | c :: s' => if py_isspace c then lstrip s' else s
  | [] => []
  end.

Definition rstrip (s : str) : str := rev (lstrip (rev s)).

(** [s.strip()] *)
Definition strip (s : str) : str := rstrip (lstrip s).

(** [s.replace(old, new)] for a non-empty [old]: occurrences are replaced
    from the left and do not overlap.  The recursion is on a bound for the
    length of what is left. *)
Fixpoint replace_go (n : nat) (old new s : str) : str :=
  match n with
  | O => s
  | S n' =>
    match s with
    | [] => []
    | c :: s' =>
      if startswith old s
      then new ++ replace_go n' old new (skipn (length old) s)
      else c :: replace_go n' old new s'
    end
  end.

Definition str_replace (s old new : str) : str :=
  match old with
  | [] => s  (* never called with an empty pattern *)
  | _ => replace_go (length s) old new s
  end.

(** [set(text)] *)
Definition char_set (s : str) : gset N := list_to_set s.

Definition str_eqb (a b : str) : bool := bool_decide (a = b).

(** [len(x) / len(y)]-style quotients *)
Definition Qnat (n : nat) : Q := inject_Z (Z.of_nat n).

(** [a < b] on floats *)
Definition Qltb (a b : Q) : bool := if Qlt_le_dec a b then true else false.

(** Python's [min(a, b)] and [max(a, b)] on floats: the first argument wins
    ties. *)
Definition py_min (a b : Q) : Q := if Qlt_le_dec b a then b else a.
Definition py_max (a b : Q) : Q := if Qlt_le_dec a b then b else a.

(* ===================================================================== *)
(** * Regular expressions ([re])                                           *)
(* ===================================================================== *)

(** The fragment of [re] the stages use: character tests, sequence,
    ordered alternation, greedy repetition and the word boundary.  Matching
    backtracks the way [re] does: alternatives are tried from the left, a
    repetition tries one more iteration before it tries to stop. *)
Inductive regex :=
| Eps
| Chr (p : N -> bool)
| Seq (r1 r2 : regex)
| Alt (r1 r2 : regex)
| Star (r : regex)
| WordB.

Definition plus (r : regex) : regex := Seq r (Star r).
Definition opt (r : regex) : regex := Alt r Eps.
Definition lit (c : N) : regex := Chr (N.eqb c).
Definition one_of (s : str) : regex := Chr (fun c => existsb (N.eqb c) s).
Definition none_of (s : str) : regex := Chr (fun c => negb (existsb (N.eqb c) s)).

Fixpoint lits (s : str) : regex :=
  match s with
  | [] => Eps
  | [c] => lit c
  | c :: s' => Seq (lit c) (lits s')
  end.

Fixpoint alts (rs : list regex) : regex :=
  match rs with
  | [] => Chr (fun _ => false)
  | [r] => r
  | r :: rs' => Alt r (alts rs')
  end.

(** [r{n,}] *)
Fixpoint at_least (n : nat) (r : regex) : regex :=
  match n with
  | O => Star r
  | S n' => Seq r (at_least n' r)
  end.

(** [r{n}] for [n >= 1] *)
Fixpoint exactly (n : nat) (r : regex) : regex :=
  match n with
  | O => Eps
  | 1 => r
  | S n' => Seq r (exactly n' r)
  end.

Inductive piece :=
| Gap (c : N)
| Hit (m : str).

Section Matcher.
Context {U : UnicodeData}.

Definition word_before (prev : option N) : bool :=
  match prev with Some c => re_word c | None => false end.

Definition word_after (s : str) : bool :=
  match s with c :: _ => re_word c | [] => false end.

(** [mt r prev s k]: match [r] at the front of [s], the character before
    being [prev], and hand what is left to [k]; the first success in
    backtracking order wins. *)
Fixpoint mt {A : Type} (r : regex) (prev : option N) (s : str)
    (k : option N -> str -> option A) {struct r} : option A :=
  match r with
  | Eps => k prev s
  | Chr p =>
    match s with
    | c :: s' => if p c then k (Some c) s' else None
    | [] => None
    end
  | Seq r1 r2 => mt r1 prev s (fun prev' s' => mt r2 prev' s' k)
  | Alt r1 r2 =>
    match mt r1 prev s k with
    | Some x => Some x
    | None => mt r2 prev s k
    end
  | Star r' =>
    (fix loop (n : nat) (prev : option N) (s : str) {struct n} : option A :=
       match n with
       | O => k prev s
       | S n' =>
         match mt r' prev s
                 (fun prev' s' =>
                    if (length s' <? length s)%nat then loop n' prev' s'
                    else None) with
         | Some x => Some x
         | None => k prev s
         end
       end) (length s) prev s
  | WordB => if xorb (word_before prev) (word_after s) then k prev s else None
  end.

(** The text left after the match of [r] at the front of [s]. *)
Definition match_at (r : regex) (prev : option N) (s : str) : option str :=
  mt r prev s (fun _ rest => Some rest).

(** The scan of [re.sub], [re.findall], [re.split] and [re.search]: matches
    are taken from the left and do not overlap.  No pattern of the stages
    matches the empty string; an empty match is skipped. *)
Fixpoint scan (n : nat) (r : regex) (prev : option N) (s : str) : list piece :=
  match n with
  | O => []
  | S n' =>
    match s with
    | [] => []
    | c :: s' =>
      match match_at r prev s with
      | Some rest =>
        match firstn (length s - length rest) s with
        | [] => Gap c :: scan n' r (Some c) s'
        | m => Hit m :: scan n' r (last m) rest
        end
      | None => Gap c :: scan n' r (Some c) s'
      end
    end
  end.

Definition pieces (r : regex) (s : str) : list piece := scan (length s) r None s.

(** [re.sub(r, repl, s)]; [repl] maps the matched text to its replacement,
    which is how a template with group references is written here. *)
Definition re_sub (r : regex) (repl : str -> str) (s : str) : str :=
  flat_map (fun p => match p with Gap c => [c] | Hit m => repl m end) (pieces r s).

(** [re.findall(r, s)] for a pattern without capturing groups *)
Definition re_findall (r : regex) (s : str) : list str :=
  omap (fun p => match p with Gap _ => None | Hit m => Some m end) (pieces r s).

(** [bool(re.search(r, s))] *)
Definition re_search (r : regex) (s : str) : bool :=
  existsb (fun p => match p with Gap _ => false | Hit _ => true end) (pieces r s).

(** [re.split(r, s)] for a pattern without capturing groups *)
Fixpoint split_pieces (cur : str) (ps : list piece) : list str :=
  match ps with
  | [] => [rev cur]
  | Gap c :: ps' => split_pieces (c :: cur) ps'
  | Hit _ :: ps' => rev cur :: split_pieces [] ps'
  end.

Definition re_split (r : regex) (s : str) : list str := split_pieces [] (pieces r s).

End Matcher.

(** A database that knows the Basic Latin and CJK Unified Ideographs
    blocks only; the closed examples below stay within these blocks (and
    punctuation, which is neither a digit, a word character nor cased). *)
Definition ascii_lower (c : N) : N := if in_range 65 90 c then (c + 32)%N else c.

Definition basic_ucd : UnicodeData := {|
  re_digit := is_ascii_digit;
  re_word := fun c => is_ascii_alpha c || is_ascii_digit c || (c =? 95)%N
                      || is_cjk c || in_range 13312 19903 c;
  py_lower := map ascii_lower;
|}.


(* ===================================================================== *)
(** * Data model ([src/models.py])                                         *)
(* ===================================================================== *)

Inductive DataType := PDF | TEXT | QA | TABLE | IMAGE | JSON | CSV | MARKDOWN.

Inductive ProcessingStatus := PENDING | PROCESSING | COMPLETED | FAILED | SKIPPED.

Inductive Language := CHINESE | ENGLISH | AUTO.

Definition status_eqb (a b : ProcessingStatus) : bool :=
  match a, b with
  | PENDING, PENDING | PROCESSING, PROCESSING | COMPLETED, COMPLETED
  | FAILED, FAILED | SKIPPED, SKIPPED => true
  | _, _ => false
  end.

(** A [datetime] or a [time.time()] reading, in microseconds. *)
Abbreviation time := Z (only parsing).

(** [(a - b).total_seconds()] *)
Definition total_seconds (a b : Z) : Q := inject_Z (a - b) / inject_Z 1000000.

Record SourceMetadata := {
  file_path : string;
  file_name : string;
  file_size : Z;
  file_type : string;
  encoding : option string;
  hash_value : option string;
  created_at : option Z;
  modified_at : option Z;
}.

Record QualityScore := {
  overall_score : Q;
  completeness_score : Q;
  relevance_score : Q;
  consistency_score : Q;
  diversity_score : Q;
  details : list (string * Q);
}.

(** The values a configuration or an extension bag holds. *)
Inductive pyval :=
| VNone
| VBool (b : bool)
| VInt (z : Z)
| VFloat (q : Q)
| VStr (s : str)
| VTime (t : Z)
| VList (l : list pyval)
| VDict (d : list (string * pyval))
| VQuality (q : QualityScore).

Abbreviation pydict := (gmap string pyval) (only parsing).

Record ProcessMetadata := {
  processor_name : string;
  processing_time : Q;
  start_time : Z;
  end_time : Z;
  status : ProcessingStatus;
  error_message : option str;
  parameters : gmap string pyval;
}.

Record DataChunk := {
  id : string;
  content : str;
  data_type : DataType;
  language : Language;
  source_metadata : option SourceMetadata;
  process_metadata : list ProcessMetadata;
  extra_data : gmap string pyval;
}.

(** [DataChunk()] with an identifier *)
Definition new_chunk (i : string) (c : str) : DataChunk := {|
  id := i; content := c; data_type := TEXT; language := AUTO;
  source_metadata := None; process_metadata := []; extra_data := ∅;
|}.

Definition set_content (c : str) (d : DataChunk) : DataChunk := {|
  id := id d; content := c; data_type := data_type d; language := language d;
  source_metadata := source_metadata d; process_metadata := process_metadata d;
  extra_data := extra_data d;
|}.

Definition set_extra (k : string) (v : pyval) (d : DataChunk) : DataChunk := {|
  id := id d; content := content d; data_type := data_type d;
  language := language d; source_metadata := source_metadata d;
  process_metadata := process_metadata d;
  extra_data := <[k := v]> (extra_data d);
|}.

(** [DataChunk.add_process_metadata] *)
Definition add_process_metadata (m : ProcessMetadata) (d : DataChunk) : DataChunk := {|
  id := id d; content := content d; data_type := data_type d;
  language := language d; source_metadata := source_metadata d;
  process_metadata := process_metadata d ++ [m];
  extra_data := extra_data d;
|}.

(** [DataChunk.get_latest_status] *)
Definition get_latest_status (d : DataChunk) : ProcessingStatus :=
  match last (process_metadata d) with
  | None => PENDING
  | Some m => status m
  end.

Record QAData := {
  question : str;
  answer : str;
  context : option str;
  difficulty : option str;
  domain : option str;
  confidence : option Q;
  metadata : gmap string pyval;
}.

(** [QAData(question=q, answer=a, context=c, domain=d, confidence=f)] *)
Definition mkQA (q a : str) (c d : option str) (f : option Q) : QAData := {|
  question := q; answer := a; context := c; difficulty := None; domain := d;
  confidence := f; metadata := ∅;
|}.

Abbreviation loc := nat (only parsing).

Record ProcessedData := {
  pd_name : str;
  pd_description : str;
  pd_chunks : list nat;
  pd_qa_pairs : list QAData;
  pd_quality_score : option QualityScore;
  pd_created_at : Z;
  pd_updated_at : Z;
}.

Record ProcessingResult := {
  success : bool;
  data : option ProcessedData;
  result_error_message : option str;
  result_processing_time : option Q;
}.

(* ===================================================================== *)
(** * What the environment provides                                        *)
(* ===================================================================== *)

Record SpacyToken := {
  tok_text : str;
  is_stop : bool;
  is_punct : bool;
  is_space : bool;
}.

Record Jieba := {
  (** [jieba.lcut] *)
  lcut : str -> res (list str);
  (** [jieba.posseg.cut]: the words, with their part-of-speech flag, that the
      generator yields before it stops *)
  pseg_cut : str -> list (str * str);
}.

Class Runtime := {
  (** the [n]-th reading of the clock ([datetime.now()], [time.time()]) *)
  clock : nat -> Z;
  (** [hashlib.md5(b).hexdigest()] *)
  md5_hexdigest : list N -> string;
  (** the jieba package, when it could be imported *)
  jieba : option Jieba;
  (** the spaCy English model, when it could be loaded *)
  spacy_en : option (str -> res (list SpacyToken));
  (** whether [numpy] (with scikit-learn) could be imported *)
  numpy_loaded : bool;
  (** whether the question-generation model could be loaded *)
  qa_model_loaded : bool;
  (** [random.choice]: the index picked at the [n]-th draw among [k] items *)
  random_index : nat -> nat -> nat;
}.

(* ===================================================================== *)
(** * The state the stages share, and the monad they run in                *)
(* ===================================================================== *)

(** [MonitoredSkill]: the counters of one skill *)
Record Monitor := {
  processed_count : nat;
  failed_count : nat;
  total_processing_time : Q;
}.

Definition new_monitor : Monitor :=
  {| processed_count := 0; failed_count := 0; total_processing_time := 0 |}.

(** [HydroDataCleaner]: the duplicate registry *)
Record CleanerState := {
  seen_hashes : gset string;
  seen_contents : gmap string str;
}.

Record EvaluationRecord := {
  ev_chunk_id : string;
  ev_timestamp : Z;
  ev_scores : list (string * Q);
}.

(** [HydroDataEvaluator]: the running log *)
Record EvaluatorState := {
  evaluation_history : list EvaluationRecord;
  quality_distribution : gmap string (list Q);
}.

(** [HydroDataEnhancer]: the counters *)
Record EnhancerState := {
  generated_qa_count : nat;
  extracted_terms_count : nat;
}.

Inductive Stage := Cleaner | Enhancer | Evaluator.

(** [HydroDataPipeline.processing_stats] *)
Record Stats := {
  total_files : nat;
  processed_files : nat;
  failed_files : nat;
  total_chunks : nat;
  processed_chunks : nat;
  failed_chunks : nat;
  stats_start_time : option Z;
  stats_end_time : option Z;
  total_time : Q;
}.

Definition new_stats : Stats := {|
  total_files := 0; processed_files := 0; failed_files := 0; total_chunks := 0;
  processed_chunks := 0; failed_chunks := 0; stats_start_time := None;
  stats_end_time := None; total_time := 0;
|}.

Record World := {
  heap : gmap nat DataChunk;
  ticks : nat;
  draws : nat;
  cleaner_state : CleanerState;
  enhancer_state : EnhancerState;
  evaluator_state : EvaluatorState;
  monitors : Stage -> Monitor;
  processing_stats : Stats;
}.

Global Instance DataChunk_inhabited : Inhabited DataChunk :=
  populate (new_chunk "" []).

(** The object behind a reference. *)
Definition deref (w : World) (l : nat) : DataChunk := heap w !!! l.

Definition set_heap (h : gmap nat DataChunk) (w : World) : World := {|
  heap := h; ticks := ticks w; draws := draws w;
  cleaner_state := cleaner_state w; enhancer_state := enhancer_state w;
  evaluator_state := evaluator_state w; monitors := monitors w;
  processing_stats := processing_stats w;
|}.

Definition set_ticks (n : nat) (w : World) : World := {|
  heap := heap w; ticks := n; draws := draws w;
  cleaner_state := cleaner_state w; enhancer_state := enhancer_state w;
  evaluator_state := evaluator_state w; monitors := monitors w;
  processing_stats := processing_stats w;
|}.

Definition set_draws (n : nat) (w : World) : World := {|
  heap := heap w; ticks := ticks w; draws := n;
  cleaner_state := cleaner_state w; enhancer_state := enhancer_state w;
  evaluator_state := evaluator_state w; monitors := monitors w;
  processing_stats := processing_stats w;
|}.

Definition set_cleaner_state (s : CleanerState) (w : World) : World := {|
  heap := heap w; ticks := ticks w; draws := draws w;
  cleaner_state := s; enhancer_state := enhancer_state w;
  evaluator_state := evaluator_state w; monitors := monitors w;
  processing_stats := processing_stats w;
|}.

Definition set_enhancer_state (s : EnhancerState) (w : World) : World := {|
  heap := heap w; ticks := ticks w; draws := draws w;
  cleaner_state := cleaner_state w; enhancer_state := s;
  evaluator_state := evaluator_state w; monitors := monitors w;
  processing_stats := processing_stats w;
|}.

Definition set_evaluator_state (s : EvaluatorState) (w : World) : World := {|
  heap := heap w; ticks := ticks w; draws := draws w;
  cleaner_state := cleaner_state w; enhancer_state := enhancer_state w;
  evaluator_state := s; monitors := monitors w;
  processing_stats := processing_stats w;
|}.

Definition set_monitors (m : Stage -> Monitor) (w : World) : World := {|
  heap := heap w; ticks := ticks w; draws := draws w;
  cleaner_state := cleaner_state w; enhancer_state := enhancer_state w;
  evaluator_state := evaluator_state w; monitors := m;
  processing_stats := processing_stats w;
|}.

Definition set_stats (s : Stats) (w : World) : World := {|
  heap := heap w; ticks := ticks w; draws := draws w;
  cleaner_state := cleaner_state w; enhancer_state := enhancer_state w;
  evaluator_state := evaluator_state w; monitors := monitors w;
  processing_stats := s;
|}.

Definition new_world : World := {|
  heap := ∅; ticks := 0; draws := 0;
  cleaner_state := {| seen_hashes := ∅; seen_contents := ∅ |};
  enhancer_state := {| generated_qa_count := 0; extracted_terms_count := 0 |};
  evaluator_state := {| evaluation_history := []; quality_distribution := ∅ |};
  monitors := fun _ => new_monitor;
  processing_stats := new_stats;
|}.

(** A computation that reads and writes the state and may raise. *)
Definition M (A : Type) : Type := World -> res A * World.

Definition ret {A} (a : A) : M A := fun w => (Ok a, w).

Definition raise {A} (e : exn) : M A := fun w => (Raise e, w).

Definition bind {A B} (m : M A) (f : A -> M B) : M B :=
  fun w => match m w with
           | (Ok a, w') => f a w'
           | (Raise e, w') => (Raise e, w')
           end.

(** [try: body except Exception as e: handler(e)] *)
Definition try_except {A} (body : M A) (handler : exn -> M A) : M A :=
  fun w => match body w with
           | (Ok a, w') => (Ok a, w')
           | (Raise e, w') => handler e w'
           end.

Definition lift {A} (r : res A) : M A := fun w => (r, w).

Definition get_world : M World := fun w => (Ok w, w).

Definition modify (f : World -> World) : M unit := fun w => (Ok tt, f w).

Declare Scope py_scope.
Delimit Scope py_scope with py_m.
Notation "'let*' x ':=' c 'in' k" := (bind c (fun x => k))
  (at level 10, x name, c at level 100, k at level 200, only parsing) : py_scope.
Local Open Scope py_scope.

(** Reading an attribute of the chunk behind [l]. *)
Definition read {A} (l : nat) (f : DataChunk -> A) : M A :=
  fun w => (Ok (f (deref w l)), w).

(** Mutating the chunk behind [l] in place. *)
Definition update (l : nat) (f : DataChunk -> DataChunk) : M unit :=
  modify (fun w => set_heap (<[l := f (deref w l)]> (heap w)) w).

Section Clock.
Context {R : Runtime}.

(** [datetime.now()], [time.time()] *)
Definition now : M Z :=
  fun w => (Ok (clock (ticks w)), set_ticks (S (ticks w)) w).

End Clock.

(* ===================================================================== *)
(** * The skill framework ([src/skills/base.py])                           *)
(* ===================================================================== *)

(** What a skill object is made of: its name, the configuration section it
    was built from and its single-chunk transform. *)
Record Skill := {
  name : string;
  config : gmap string pyval;
  process_single : nat -> M nat;
}.

Module BaseSkill.
Section BaseSkill.
Context {R : Runtime}.
Variable self : Skill.

(** One turn of the loop of [process_batch]. *)
Definition process_one (chunk : nat) : M nat :=
  try_except
    (let* process_start := now in
     let* processed_chunk := process_single self chunk in
     let* process_end := now in
     let processing_time := total_seconds process_end process_start in
     let process_metadata := {|
       processor_name := name self;
       processing_time := processing_time;
       start_time := process_start;
       end_time := process_end;
       status := COMPLETED;
       error_message := None;
       parameters := config self |} in
     let* _ := update processed_chunk (add_process_metadata process_metadata) in
     ret processed_chunk)
    (fun e =>
     let* process_end := now in
     let* t1 := now in
     let* t2 := now in
     let error_metadata := {|
       processor_name := name self;
       processing_time := total_seconds process_end t1;
       start_time := t2;
       end_time := process_end;
       status := FAILED;
       error_message := Some (exn_msg e);
       parameters := config self |} in
     let* _ := update chunk (add_process_metadata error_metadata) in
     ret chunk).

Fixpoint process_loop (data_chunks : list nat) (processed_chunks : list nat)
  : M (list nat) :=
  match data_chunks with
  | [] => ret processed_chunks
  | chunk :: rest =>
    let* c := process_one chunk in
    process_loop rest (processed_chunks ++ [c])
  end.

(** [BaseSkill.process_batch] *)
Definition process_batch (data_chunks : list nat) : M (list nat) :=
  let* start_time := now in
  let* processed_chunks := process_loop data_chunks [] in
  let* end_time := now in
  ret processed_chunks.

(** [BaseSkill.validate_input] *)
Definition validate_input (data_chunk : DataChunk) : bool :=
  match strip (content data_chunk) with
  | [] => false
  | _ => true
  end.

End BaseSkill.
End BaseSkill.

Module MonitoredSkill.
Section MonitoredSkill.
Context {R : Runtime}.
Variable self : Skill.
Variable stage : Stage.

Definition count_failed (w : World) (chunks : list nat) : nat :=
  length (filter (fun l => status_eqb (get_latest_status (deref w l)) FAILED = true)
                 chunks).

Definition bump (n failed : nat) (dt : Q) (m : Monitor) : Monitor := {|
  processed_count := processed_count m + n;
  failed_count := failed_count m + failed;
  total_processing_time := total_processing_time m + dt;
|}.

(** [MonitoredSkill.process_batch] *)
Definition process_batch (data_chunks : list nat) : M (list nat) :=
  let* start_time := now in
  let* processed_chunks := BaseSkill.process_batch self data_chunks in
  let* w := get_world in
  let failed := count_failed w processed_chunks in
  let* end_time := now in
  let* _ := modify (fun w =>
    set_monitors (fun s =>
      match s, stage with
      | Cleaner, Cleaner | Enhancer, Enhancer | Evaluator, Evaluator =>
        bump (length data_chunks) failed (total_seconds end_time start_time)
             (monitors w s)
      | _, _ => monitors w s
      end) w) in
  ret processed_chunks.

End MonitoredSkill.
End MonitoredSkill.

(* ===================================================================== *)
(** * The Cleaner ([src/skills/cleaner.py])                                *)
(* ===================================================================== *)

(** The attributes [HydroDataCleaner.__init__] reads from its configuration
    section. *)
Record CleanerSelf := {
  remove_duplicates : bool;
  normalize_whitespace : bool;
  remove_special_chars : bool;
  min_text_length : Z;
  language_detection : bool;
  similarity_threshold : Q;
  protected_terms : list str;
  cleaner_config : gmap string pyval;
}.

(** Under [re.IGNORECASE] a [str] pattern's [[a-z]] or [[A-Z]] matches the 52
    ASCII letters and four more letters: U+0130, U+0131, U+017F and U+212A. *)
Definition ic_alpha (c : N) : bool :=
  is_ascii_alpha c || (c =? 304)%N || (c =? 305)%N || (c =? 383)%N || (c =? 8490)%N.

(** A cased ASCII letter of a pattern under [re.IGNORECASE]; [s] also matches
    U+017F. *)
Definition lit_ic (c : N) : regex :=
  Chr (fun x => (x =? c)%N || (x =? c - 32)%N || ((c =? 115)%N && (x =? 383)%N)).

Module HydroDataCleaner.

(** [self.chinese_punctuation_map], in the order and with the keys the
    dictionary display of [_init_cleaning_rules] yields: the straight double
    quote is given twice, and the two lines that start with three single
    quotes read as one key, a string that runs from the first triple quote
    to the second, mapped to the single quote. *)
Definition chinese_punctuation_map : list (str * str) :=
  [ (py "，", py ","); (py "。", py "."); (py "！", py "!"); (py "？", py "?");
    (py "；", py ";"); (py "：", py ":"); (py "（", py "("); (py "）", py ")");
    (py "【", py "["); (py "】", py "]"); (py "《", py "<"); (py "》", py ">");
    ([34%N], [34%N]);
    ([58; 32; 34; 39; 34; 44; 10]%N ++ repeat 32%N 12, [39%N]) ].

(** [self.protected_terms] *)
Definition default_protected_terms : list str := map py
  [ "水文"; "气象"; "降雨"; "径流"; "蒸发"; "渗透"; "地下水"; "地表水";
    "水库"; "大坝"; "堤防"; "水闸"; "泵站"; "灌溉"; "排涝"; "防洪";
    "水质"; "水量"; "水位"; "流量"; "流速"; "含沙量"; "溶解氧";
    "流域"; "水系"; "河道"; "河床"; "河岸"; "河口"; "三角洲";
    "洪水"; "枯水"; "丰水"; "平水"; "汛期"; "枯水期"; "丰水期";
    "水库调度"; "水资源"; "水环境"; "水生态"; "水安全"; "水管理" ]%string.

(** The attributes when the configuration section gives [min_text_length]
    only. *)
Definition default_self (min_len : Z) (cfg : gmap string pyval) : CleanerSelf := {|
  remove_duplicates := true;
  normalize_whitespace := true;
  remove_special_chars := false;
  min_text_length := min_len;
  language_detection := true;
  similarity_threshold := 85 # 100;
  protected_terms := default_protected_terms;
  cleaner_config := cfg;
|}.

Section Cleaner.
Context {U : UnicodeData} {R : Runtime}.
Variable self : CleanerSelf.

(** ** The patterns of [self.cleanup_patterns], compiled with
    [re.IGNORECASE | re.MULTILINE] *)

(** [\s+] *)
Definition re_spaces : regex := plus (Chr py_isspace).
(** [\n+] *)
Definition re_newlines : regex := plus (lit 10).
(** [<[^>]+>] *)
Definition re_tag : regex := Seq (lit 60) (Seq (plus (none_of [62%N])) (lit 62)).

(** [[$-_@.&+]]: the range from [$] to [_] holds the capital letters. *)
Definition url_punct (c : N) : bool :=
  in_range 36 95 c || ic_alpha c || existsb (N.eqb c) (py "@.&+").
Definition hex_digit (c : N) : bool :=
  is_ascii_digit c || in_range 97 102 c || in_range 65 70 c.

(** [http[s]?://(?:[a-zA-Z]|[0-9]|[$-_@.&+]|[!*\\(\\),]|(?:%[0-9a-fA-F][0-9a-fA-F]))+] *)
Definition re_url : regex :=
  Seq (lit_ic 104) (Seq (lit_ic 116) (Seq (lit_ic 116) (Seq (lit_ic 112)
  (Seq (opt (lit_ic 115)) (Seq (lits (py "://"))
  (plus (alts [ Chr ic_alpha; Chr is_ascii_digit; Chr url_punct;
                one_of [33; 42; 92; 40; 92; 41; 44]%N;
                Seq (lit 37) (Seq (Chr hex_digit) (Chr hex_digit)) ]))))))).

Definition email_local (c : N) : bool :=
  ic_alpha c || is_ascii_digit c || existsb (N.eqb c) (py "._%+-").
Definition email_domain (c : N) : bool :=
  ic_alpha c || is_ascii_digit c || existsb (N.eqb c) (py ".-").
Definition email_tld (c : N) : bool := ic_alpha c || (c =? 124)%N.

(** [\b[A-Za-z0-9._%+-]+@[A-Za-z0-9.-]+\.[A-Z|a-z]{2,}\b] *)
Definition re_email : regex :=
  Seq WordB (Seq (plus (Chr email_local)) (Seq (lit 64)
  (Seq (plus (Chr email_domain)) (Seq (lit 46)
  (Seq (at_least 2 (Chr email_tld)) WordB))))).

(** [[.!?]{3,}] *)
Definition re_punct_run : regex := at_least 3 (one_of (py ".!?")).

(** [(\d)([a-zA-Z])]; the template [\1 \2] puts a space between the two
    characters of the match. *)
Definition re_digit_letter : regex := Seq (Chr re_digit) (Chr ic_alpha).
Definition space_between (m : str) : str :=
  match m with
  | d :: rest => d :: 32%N :: rest
  | [] => []
  end.

Definition const_repl (s : str) : str -> str := fun _ => s.

Definition cleanup_patterns : list (regex * (str -> str)) :=
  [ (re_spaces, const_repl (py " "));
    (re_newlines, const_repl [10%N]);
    (re_tag, const_repl []);
    (re_url, const_repl []);
    (re_email, const_repl []);
    (re_punct_run, const_repl (py "..."));
    (re_digit_letter, space_between) ].

(** [_contains_chinese] *)
Definition _contains_chinese (text : str) : bool := re_search (Chr is_cjk) text.

(** [[ \t]+], [\n[ \t]+] and [[ \t]+\n] *)
Definition blank (c : N) : bool := (c =? 32)%N || (c =? 9)%N.
Definition re_blanks : regex := plus (Chr blank).
Definition re_line_head : regex := Seq (lit 10) (plus (Chr blank)).
Definition re_line_tail : regex := Seq (plus (Chr blank)) (lit 10).

(** [_basic_text_cleaning] *)
Definition _basic_text_cleaning (text : str) : str :=
  match text with
  | [] => text
  | _ =>
    let cleaned := text in
    let cleaned := str_replace (str_replace cleaned [13; 10]%N [10%N]) [13%N] [10%N] in
    let cleaned :=
      fold_left (fun cleaned '(pattern, replacement) =>
                   re_sub pattern replacement cleaned)
                cleanup_patterns cleaned in
    let cleaned :=
      if _contains_chinese cleaned
      then fold_left (fun cleaned '(chinese_punct, english_punct) =>
                        str_replace cleaned chinese_punct english_punct)
                     chinese_punctuation_map cleaned
      else cleaned in
    if normalize_whitespace self then
      let cleaned := re_sub re_blanks (const_repl (py " ")) cleaned in
      let cleaned := re_sub re_line_head (const_repl [10%N]) cleaned in
      let cleaned := re_sub re_line_tail (const_repl [10%N]) cleaned in
      strip cleaned
    else cleaned
  end.

(** [str.join] *)
Fixpoint join (sep : str) (ws : list str) : str :=
  match ws with
  | [] => []
  | [w] => w
  | w :: ws' => w ++ sep ++ join sep ws'
  end.

(** [_chinese_text_cleaning]: without jieba the text passes through; any
    exception of the segmenter is swallowed. *)
Definition _chinese_text_cleaning (text : str) : str :=
  match jieba with
  | None => text
  | Some jb =>
    match lcut jb text with
    | Ok words =>
      let keep word :=
        if bool_decide (word ∈ protected_terms self) then true
        else (1 <? length word)%nat || contains word (py "。！？；：") in
      concat (filter (fun word => keep word = true) words)
    | Raise _ => text
    end
  end.

(** [_english_text_cleaning]: without the spaCy model the text passes
    through; any exception of the model is swallowed. *)
Definition _english_text_cleaning (text : str) : str :=
  match spacy_en with
  | None => text
  | Some nlp =>
    match nlp text with
    | Ok doc =>
      let keep token :=
        negb (is_stop token) && negb (is_punct token) && negb (is_space token)
        && (0 <? length (strip (tok_text token)))%nat in
      join (py " ") (map tok_text (filter (fun token => keep token = true) doc))
    | Raise _ => text
    end
  end.

(** [_mixed_language_cleaning] *)
Definition _mixed_language_cleaning (text : str) : str :=
  _english_text_cleaning (_chinese_text_cleaning text).

Definition language_eqb (a b : Language) : bool :=
  match a, b with
  | CHINESE, CHINESE | ENGLISH, ENGLISH | AUTO, AUTO => true
  | _, _ => false
  end.

(** [_language_specific_cleaning] *)
Definition _language_specific_cleaning (text : str) (language : Language) : str :=
  if language_eqb language CHINESE
     || (language_eqb language AUTO && _contains_chinese text)
  then _chinese_text_cleaning text
  else if language_eqb language ENGLISH
          || (language_eqb language AUTO && negb (_contains_chinese text))
  then _english_text_cleaning text
  else _mixed_language_cleaning text.

(** The rules of [_fix_common_errors]; each template is written as a
    function of the matched text. *)
Definition sentence_punct : regex := one_of (py ".,;:!?").
(** [ +([.,;:!?])] gives [\1] *)
Definition re_space_before : regex := Seq (plus (lit 32)) sentence_punct.
Definition keep_last (m : str) : str :=
  match last m with Some c => [c] | None => [] end.
(** [([.,;:!?]) +] gives [\1 ] *)
Definition re_space_after : regex := Seq sentence_punct (plus (lit 32)).
Definition first_then_space (m : str) : str :=
  match m with c :: _ => [c; 32%N] | [] => [] end.
(** [(\d),(\d{3})] gives [\1\2] *)
Definition re_thousands : regex :=
  Seq (Chr re_digit) (Seq (lit 44) (exactly 3 (Chr re_digit))).
Definition drop_second (m : str) : str :=
  match m with d :: _ :: rest => d :: rest | _ => m end.
(** [\(\s*] and [\s*\)] *)
Definition re_open_paren : regex := Seq (lit 40) (Star (Chr py_isspace)).
Definition re_close_paren : regex := Seq (Star (Chr py_isspace)) (lit 41).

Definition error_fixes : list (regex * (str -> str)) :=
  [ (re_space_before, keep_last);
    (re_space_after, first_then_space);
    (re_thousands, drop_second);
    (re_open_paren, const_repl (py "("));
    (re_close_paren, const_repl (py ")")) ].

(** [_fix_common_errors] *)
Definition _fix_common_errors (text : str) : str :=
  fold_left (fun text '(pattern, replacement) => re_sub pattern replacement text)
            error_fixes text.

(** The negated class of [_advanced_text_cleaning]: the two CJK ranges, [\w],
    [\s], the characters [.,;:!?()[]{}-] and the two straight quotes. *)
Definition special_char (c : N) : bool :=
  negb (is_cjk c || in_range 13312 19903 c || re_word c || py_isspace c
        || existsb (N.eqb c) (py ".,;:!?()[]{}" ++ [34; 39; 45]%N)).

(** [_advanced_text_cleaning] *)
Definition _advanced_text_cleaning (text : str) (language : Language) : str :=
  let text :=
    if remove_special_chars self
    then re_sub (Chr special_char) (const_repl []) text
    else text in
  _fix_common_errors text.

(** [_quality_check] *)
Definition hydro_keywords : list str :=
  map py ["水"; "文"; "雨"; "河"; "湖"; "库"; "坝"; "防"; "洪"; "涝"]%string.

Definition _quality_check (text : str) : bool :=
  if (Z.of_nat (length (strip text)) <? min_text_length self)%Z then false
  else if bool_decide (strip text = []) then false
  else
    let unique_chars := size (char_set text) in
    if (unique_chars <? 5)%nat && (20 <? length text)%nat then false
    else if negb (contains_any hydro_keywords text) then
      if (100 <? length text)%nat && (30 <? unique_chars)%nat then true
      else false
    else true.

(** [_calculate_similarity] *)
Definition _calculate_similarity (text1 text2 : str) : Q :=
  match text1, text2 with
  | [], _ | _, [] => 0
  | _, _ =>
    let set1 := char_set (py_lower text1) in
    let set2 := char_set (py_lower text2) in
    let intersection := size (set1 ∩ set2) in
    let union := size (set1 ∪ set2) in
    if (union =? 0)%nat then 0
    else Qnat intersection / Qnat union
  end.

Definition is_similar (text existing_content : str) : bool :=
  Qltb (similarity_threshold self) (_calculate_similarity text existing_content).

(** [_is_duplicate] *)
Definition _is_duplicate (text : str) (chunk_id : string) : M bool :=
  let* encoded := lift (str_encode text) in
  let text_hash := md5_hexdigest encoded in
  let* w := get_world in
  let st := cleaner_state w in
  if bool_decide (text_hash ∈ seen_hashes st) then ret true
  else if existsb (fun '(existing_id, existing_content) =>
                     is_similar text existing_content)
                  (map_to_list (seen_contents st))
  then ret true
  else
    let* _ := modify (set_cleaner_state
                        {| seen_hashes := {[ text_hash ]} ∪ seen_hashes st;
                           seen_contents := <[chunk_id := text]> (seen_contents st) |}) in
    ret false.

(** [_create_process_metadata] *)
Definition _create_process_metadata (status : ProcessingStatus) (message : str)
  : M ProcessMetadata :=
  let* t0 := now in
  let* t1 := now in
  ret {| processor_name := "HydroDataCleaner";
         processing_time := 0;
         start_time := t0;
         end_time := t1;
         status := status;
         error_message := Some message;
         parameters := cleaner_config self |}.

(** [process_single] *)
Definition process_single (data_chunk : nat) : M nat :=
  let* valid := read data_chunk BaseSkill.validate_input in
  if negb valid then ret data_chunk
  else
    try_except
      (let* original_content := read data_chunk content in
       let cleaned_content := _basic_text_cleaning original_content in
       let* lang := read data_chunk language in
       let cleaned_content := _language_specific_cleaning cleaned_content lang in
       let* lang := read data_chunk language in
       let cleaned_content := _advanced_text_cleaning cleaned_content lang in
       if negb (_quality_check cleaned_content) then ret data_chunk
       else
         let* chunk_id := read data_chunk id in
         let* duplicate :=
           (if remove_duplicates self then _is_duplicate cleaned_content chunk_id
            else ret false) in
         if duplicate then
           let* m := _create_process_metadata SKIPPED (py "重复数据") in
           let* _ := update data_chunk (add_process_metadata m) in
           ret data_chunk
         else
           let* _ := update data_chunk (set_content cleaned_content) in
           let ratio :=
             match original_content with
             | [] => VInt 0
             | _ => VFloat (Qnat (length cleaned_content)
                            / Qnat (length original_content))
             end in
           let* _ := update data_chunk (fun d =>
             set_extra "cleaning_ratio" ratio
               (set_extra "cleaned_length" (VInt (Z.of_nat (length cleaned_content)))
                  (set_extra "original_length" (VInt (Z.of_nat (length original_content)))
                     (set_extra "cleaned" (VBool true) d)))) in
           ret data_chunk)
      (fun e =>
       let* m := _create_process_metadata FAILED (exn_msg e) in
       let* _ := update data_chunk (add_process_metadata m) in
       ret data_chunk).

(** The skill object *)
Definition skill : Skill :=
  Build_Skill "HydroDataCleaner" (cleaner_config self) process_single.

(** [process_batch], inherited from [MonitoredSkill] *)
Definition process_batch : list nat -> M (list nat) :=
  MonitoredSkill.process_batch skill Cleaner.

End Cleaner.
End HydroDataCleaner.

(* ===================================================================== *)
(** * Dynamic values                                                       *)
(* ===================================================================== *)

(** [bool(v)] *)
Definition py_truthy (v : pyval) : bool :=
  match v with
  | VNone => false
  | VBool b => b
  | VInt z => negb (z =? 0)%Z
  | VFloat q => negb (Qeq_bool q 0)
  | VStr s => negb (bool_decide (s = []))
  | VTime _ => true
  | VList l => negb (bool_decide (length l = 0%nat))
  | VDict d => negb (bool_decide (length d = 0%nat))
  | VQuality _ => true
  end.

Definition type_error (msg : string) : exn := Exception "TypeError" (py msg).
Definition attribute_error (msg : string) : exn := Exception "AttributeError" (py msg).

(** [logger._core.start_time].  The core object of loguru's logger has no
    attribute of that name (the start time is a global of loguru's module,
    not a field of the core), so the read raises [AttributeError]. *)
Definition logger_core_start_time : res Z :=
  Raise (attribute_error "'Core' object has no attribute 'start_time'").

(** [len(v)] *)
Definition py_len (v : pyval) : res nat :=
  match v with
  | VStr s => Ok (length s)
  | VList l => Ok (length l)
  | VDict d => Ok (length d)
  | _ => Raise (type_error "object has no len()")
  end.

(** [d.get(k, default)] *)
Definition dict_get (d : gmap string pyval) (k : string) (default : pyval) : pyval :=
  match d !! k with
  | Some v => v
  | None => default
  end.

(** Lookup in a dictionary display kept as a list of items. *)
Fixpoint assoc {A} (k : string) (d : list (string * A)) : option A :=
  match d with
  | [] => None
  | (k', v) :: d' => if String.eqb k k' then Some v else assoc k d'
  end.

(* ===================================================================== *)
(** * The Evaluator ([src/skills/evaluator.py])                            *)
(* ===================================================================== *)

Record EvaluatorSelf := {
  (** [self.quality_metrics] *)
  quality_metrics : list string;
  (** [self.thresholds] *)
  thresholds : gmap string Q;
  evaluator_config : gmap string pyval;
}.

Module HydroDataEvaluator.

(** [self.hydro_keywords]: a set display, so the item given twice counts
    once. *)
Definition hydro_keywords : list str := remove_dups (map py
  [ "水文"; "气象"; "降雨"; "降水"; "径流"; "蒸发"; "渗透"; "地下水"; "地表水";
    "水位"; "流量"; "流速"; "含沙量"; "溶解氧"; "水质"; "水量"; "水环境"; "水生态";
    "流域"; "水系"; "河流"; "河道"; "河床"; "河岸"; "河口"; "三角洲"; "湖泊"; "水库";
    "长江"; "黄河"; "珠江"; "淮河"; "海河"; "松花江"; "辽河";
    "大坝"; "水坝"; "堤坝"; "水闸"; "堤防"; "泵站"; "水电站"; "水库"; "拦河坝";
    "防洪"; "排涝"; "灌溉"; "供水"; "排水"; "调水"; "引水";
    "洪水"; "枯水"; "丰水"; "平水"; "汛期"; "枯水期"; "丰水期"; "干旱"; "洪涝";
    "暴雨"; "特大暴雨"; "连续降雨"; "梅雨"; "台风";
    "水文站"; "雨量站"; "水位站"; "监测"; "预报"; "预警"; "调度"; "管理"; "规划";
    "设计"; "施工"; "运行"; "维护"; "治理"; "保护"; "修复"; "生态" ]%string).

(** [self.metric_weights] *)
Definition metric_weights : list (string * Q) :=
  [ ("completeness", 25 # 100); ("relevance", 30 # 100);
    ("consistency", 20 # 100); ("diversity", 25 # 100) ]%string.

Definition default_self (cfg : gmap string pyval) : EvaluatorSelf := {|
  quality_metrics := ["completeness"; "relevance"; "consistency"; "diversity"]%string;
  thresholds := {[ "min_quality_score"%string := 7 # 10;
                   "min_relevance_score"%string := 6 # 10 ]};
  evaluator_config := cfg;
|}.

Section Evaluator.
Context {U : UnicodeData} {R : Runtime}.
Variable self : EvaluatorSelf.
Local Open Scope Q_scope.

(** [\d+] *)
Definition re_digits : regex := plus (Chr re_digit).
(** [\b\w+\b] *)
Definition re_word_token : regex := Seq WordB (Seq (plus (Chr re_word)) WordB).
(** [[一-鿿]+|[a-zA-Z]+] *)
Definition re_words : regex := Alt (plus (Chr is_cjk)) (plus (Chr is_ascii_alpha)).
(** [[一-鿿]{2,}|[a-zA-Z]{2,}] *)
Definition re_terms : regex :=
  Alt (at_least 2 (Chr is_cjk)) (at_least 2 (Chr is_ascii_alpha)).
(** [\d+(?:\.\d+)?] *)
Definition re_number : regex :=
  Seq (plus (Chr re_digit)) (opt (Seq (lit 46) (plus (Chr re_digit)))).
(** [[。！？.!?]+] *)
Definition re_sentence_end : regex := plus (one_of (py "。！？.!?")).

(** [_evaluate_completeness] *)
Definition _evaluate_completeness (content : str) (data_chunk : DataChunk) : res Q :=
  let score : Q := 0 in
  let length_score := py_min 1 (Qnat (length content) / 200) in
  let score := score + length_score * (3 # 10) in
  let structure_score : Q := 0 in
  let structure_score :=
    if re_search re_digits content then structure_score + (2 # 10)
    else structure_score in
  let terms := dict_get (extra_data data_chunk) "extracted_terms" (VList []) in
  match py_len terms with
  | Raise e => Raise e
  | Ok n_terms =>
    let structure_score :=
      if (2 <=? n_terms)%nat then structure_score + (3 # 10) else structure_score in
    let structure_score :=
      if contains_any (map py ["因为"; "所以"; "由于"; "因此"; "原因"; "原理"]%string) content
      then structure_score + (2 # 10) else structure_score in
    let structure_score :=
      if contains_any (map py ["应用"; "使用"; "方法"; "措施"; "技术"]%string) content
      then structure_score + (3 # 10) else structure_score in
    let score := score + structure_score * (4 # 10) in
    let words := length (re_findall re_word_token content) in
    let density_score := py_min 1 (Qnat words / 50) in
    let score := score + density_score * (3 # 10) in
    Ok (py_min 1 score)
  end.

(** [_is_hydro_word] *)
Definition _is_hydro_word (word : str) : bool :=
  let word_lower := py_lower word in
  existsb (fun keyword =>
             contains (py_lower keyword) word_lower
             || contains word_lower (py_lower keyword))
          hydro_keywords.

(** The alternatives of [domain_patterns]; each pattern is an alternation
    of literal words. *)
Definition domain_patterns : list (string * list str) :=
  [ ("水文", map py ["水文"; "降雨"; "径流"; "蒸发"; "水位"; "流量"]);
    ("工程", map py ["大坝"; "堤防"; "水闸"; "泵站"; "水库"; "工程"]);
    ("管理", map py ["管理"; "调度"; "运行"; "维护"; "监测"; "预报"]);
    ("环境", map py ["水质"; "水环境"; "生态"; "污染"; "保护"; "治理"]) ]%string.

Definition word_alternation (ws : list str) : regex := alts (map lits ws).

(** The number of keywords of the set found in the lower-cased content. *)
Definition matched_keywords (content : str) : nat :=
  let content_lower := py_lower content in
  length (filter (fun keyword => contains (py_lower keyword) content_lower = true)
                 hydro_keywords).

(** [_evaluate_relevance] *)
Definition _evaluate_relevance (content : str) (language : Language) : Q :=
  let score : Q := 0 in
  let keyword_score := Qnat (matched_keywords content) / Qnat (length hydro_keywords) in
  let score := score + keyword_score * (4 # 10) in
  let words := re_findall re_words content in
  let score :=
    match words with
    | [] => score
    | _ =>
      let hydro_words := filter (fun word => _is_hydro_word word = true) words in
      let term_ratio := Qnat (length hydro_words) / Qnat (length words) in
      score + py_min 1 (term_ratio * 5) * (3 # 10)
    end in
  let domain_score :=
    fold_left (fun domain_score '(domain, pattern) =>
                 if re_search (word_alternation pattern) content
                 then domain_score + (25 # 100) else domain_score)
              domain_patterns 0 in
  let score := score + domain_score * (3 # 10) in
  py_min 1 score.

(** [Counter(terms).items()]: the distinct terms with their counts, in the
    order of first occurrence. *)
Definition counter (terms : list str) : list (str * nat) :=
  map (fun t => (t, length (filter (fun x => x = t) terms))) (remove_dups terms).

Definition synonyms_map : list (str * list str) :=
  [ (py "降雨", [py "降水"]);
    (py "径流", [py "水流"]);
    (py "大坝", [py "水坝"; py "堤坝"]) ].

(** [_find_term_variations] *)
Definition _find_term_variations (term content : str) : list str :=
  let variations := [term] in
  let variations :=
    if (2 <=? length term)%nat then
      let variations :=
        if (2 <? length term)%nat then
          let abbreviation := firstn 1 term ++ skipn (length term - 1) term in
          if contains abbreviation content && negb (str_eqb abbreviation term)
          then variations ++ [abbreviation] else variations
        else variations in
      fold_left (fun variations '(main_term, synonyms) =>
                   if str_eqb term main_term then
                     fold_left (fun variations synonym =>
                                  if contains synonym content
                                  then variations ++ [synonym] else variations)
                               synonyms variations
                   else if bool_decide (term ∈ synonyms)
                   then variations ++ [main_term]
                   else variations)
                synonyms_map variations
    else variations in
  remove_dups variations.

(** [_check_number_contradictions]: every path returns [False]. *)
Definition _check_number_contradictions (content : str) (numbers : list str) : bool :=
  false.

(** [_evaluate_consistency] *)
Definition _evaluate_consistency (content : str) (language : Language) : Q :=
  let score : Q := 8 # 10 in
  let chinese_chars := length (re_findall (Chr is_cjk) content) in
  let english_chars := length (re_findall (Chr is_ascii_alpha) content) in
  let total_chars := (chinese_chars + english_chars)%nat in
  let score :=
    if (0 <? total_chars)%nat then
      let chinese_ratio := Qnat chinese_chars / Qnat total_chars in
      if Qltb (2 # 10) chinese_ratio && Qltb chinese_ratio (8 # 10)
      then score + (1 # 10)
      else if Qltb (9 # 10) chinese_ratio || Qltb chinese_ratio (1 # 10)
      then score + (5 # 100)
      else score
    else score in
  let terms := re_findall re_terms content in
  let term_freq := counter terms in
  let inconsistencies :=
    fold_left (fun inconsistencies '(term, freq) =>
                 if (2 <=? freq)%nat then
                   let variations := _find_term_variations term content in
                   if (1 <? length variations)%nat then S inconsistencies
                   else inconsistencies
                 else inconsistencies)
              term_freq 0%nat in
  let inconsistency_penalty := py_min (3 # 10) (Qnat inconsistencies * (1 # 10)) in
  let score := score - inconsistency_penalty in
  let numbers := re_findall re_number content in
  let score :=
    if (1 <? length numbers)%nat then
      if _check_number_contradictions content numbers then score - (2 # 10)
      else score
    else score in
  py_max 0 (py_min 1 score).

Definition Qsum (l : list Q) : Q := fold_right Qplus 0 l.

(** [np.var]: the population variance *)
Definition np_var (xs : list nat) : Q :=
  let n := Qnat (length xs) in
  let mean := Qsum (map Qnat xs) / n in
  Qsum (map (fun x => (Qnat x - mean) * (Qnat x - mean)) xs) / n.

Definition name_error (msg : string) : exn := Exception "NameError" (py msg).

Definition topic_keywords : list (string * list str) :=
  [ ("数据", map py ["数据"; "数值"; "统计"; "测量"; "监测"]);
    ("技术", map py ["技术"; "方法"; "工艺"; "方案"; "措施"]);
    ("管理", map py ["管理"; "制度"; "政策"; "规划"; "调度"]);
    ("工程", map py ["工程"; "建设"; "施工"; "设计"; "维护"]);
    ("环境", map py ["环境"; "生态"; "保护"; "治理"; "修复"]) ]%string.

(** The class of the description test of [_evaluate_diversity]: the two
    adjacent string literals of the source read as one pattern. *)
Definition description_punct : regex :=
  one_of (py "，。！？；：" ++ [34; 34]%N ++ py "（）【】").

(** [_evaluate_diversity] *)
Definition _evaluate_diversity (content : str) (language : Language) : res Q :=
  let score : Q := 0 in
  let words := re_findall re_words (py_lower content) in
  let score :=
    if (0 <? length words)%nat then
      let unique_words := remove_dups words in
      let vocab_diversity := Qnat (length unique_words) / Qnat (length words) in
      score + vocab_diversity * (3 # 10)
    else score in
  let sentences := re_split re_sentence_end content in
  let sentences :=
    map strip (filter (fun s => strip s <> []) sentences) in
  let after_sentences : res Q :=
    if (1 <? length sentences)%nat then
      let sentence_lengths := map (@length N) sentences in
      if negb numpy_loaded then Raise (name_error "name 'np' is not defined")
      else
        let length_variance :=
          if (1 <? length sentence_lengths)%nat then np_var sentence_lengths else 0 in
        let max_length := Qnat (list_max sentence_lengths) in
        let normalized_variance :=
          if Qltb 0 max_length
          then length_variance / (max_length * max_length) else 0 in
        Ok (score + py_min 1 (normalized_variance * 10) * (2 # 10))
    else Ok score in
  match after_sentences with
  | Raise e => Raise e
  | Ok score =>
    let topics :=
      filter (fun '(topic, keywords) => contains_any keywords content = true)
             topic_keywords in
    let topic_diversity := Qnat (length topics) / Qnat (length topic_keywords) in
    let score := score + topic_diversity * (3 # 10) in
    let info_types : list string := [] in
    let info_types :=
      if re_search re_number content then info_types ++ ["数值"%string] else info_types in
    let info_types :=
      if re_search description_punct content
      then info_types ++ ["描述"%string] else info_types in
    let info_types :=
      if contains_any (map py ["因为"; "所以"; "由于"; "因此"]%string) content
      then info_types ++ ["因果"%string] else info_types in
    let info_types :=
      if contains_any (map py ["首先"; "其次"; "最后"; "另外"]%string) content
      then info_types ++ ["逻辑"%string] else info_types in
    let info_diversity := Qnat (length info_types) / 4 in
    let score := score + info_diversity * (2 # 10) in
    Ok (py_min 1 score)
  end.

(** [_calculate_overall_score] *)
Definition _calculate_overall_score (scores : list (string * Q)) : Q :=
  let '(overall, total_weight) :=
    fold_left (fun '(overall, total_weight) '(metric, score) =>
                 let weight := default (25 # 100) (assoc metric metric_weights) in
                 (overall + score * weight, total_weight + weight))
              scores (0, 0) in
  if Qltb 0 total_weight then overall / total_weight else 0.

Definition in_metrics (m : string) : bool :=
  bool_decide (m ∈ quality_metrics self).

(** [_evaluate_quality] *)
Definition _evaluate_quality (data_chunk : DataChunk) : res QualityScore :=
  let content := content data_chunk in
  let language := language data_chunk in
  let scores : list (string * Q) := [] in
  match (if in_metrics "completeness"
         then match _evaluate_completeness content data_chunk with
              | Ok s => Ok (scores ++ [("completeness"%string, s)])
              | Raise e => Raise e
              end
         else Ok scores) with
  | Raise e => Raise e
  | Ok scores =>
    let scores :=
      if in_metrics "relevance"
      then scores ++ [("relevance"%string, _evaluate_relevance content language)]
      else scores in
    let scores :=
      if in_metrics "consistency"
      then scores ++ [("consistency"%string, _evaluate_consistency content language)]
      else scores in
    match (if in_metrics "diversity"
           then match _evaluate_diversity content language with
                | Ok s => Ok (scores ++ [("diversity"%string, s)])
                | Raise e => Raise e
                end
           else Ok scores) with
    | Raise e => Raise e
    | Ok scores =>
      let overall_score := _calculate_overall_score scores in
      Ok {| overall_score := overall_score;
            completeness_score := default 0 (assoc "completeness" scores);
            relevance_score := default 0 (assoc "relevance" scores);
            consistency_score := default 0 (assoc "consistency" scores);
            diversity_score := default 0 (assoc "diversity" scores);
            details := scores |}
    end
  end.

(** [_record_evaluation] *)
Definition _record_evaluation (chunk_id : string) (quality_score : QualityScore)
  : M unit :=
  let* timestamp := lift logger_core_start_time in
  let scores :=
    [ ("overall", overall_score quality_score);
      ("completeness", completeness_score quality_score);
      ("relevance", relevance_score quality_score);
      ("consistency", consistency_score quality_score);
      ("diversity", diversity_score quality_score) ]%string in
  let evaluation_record :=
    {| ev_chunk_id := chunk_id; ev_timestamp := timestamp;
       ev_scores := scores |} in
  modify (fun w =>
    let st := evaluator_state w in
    set_evaluator_state
      {| evaluation_history := evaluation_history st ++ [evaluation_record];
         quality_distribution :=
           fold_left (fun dist '(metric, score) =>
                        <[metric := default [] (dist !! metric) ++ [score]]> dist)
                     scores (quality_distribution st) |} w).

(** [_generate_suggestions] *)
Definition _generate_suggestions (data_chunk : DataChunk) (quality_score : QualityScore)
  : list str :=
  let content := content data_chunk in
  let lt := Qltb in
  let suggestions : list str := [] in
  let suggestions :=
    if lt (completeness_score quality_score) (7 # 10) then
      let suggestions :=
        if (length content <? 100)%nat
        then suggestions ++ [py "内容较短，建议增加更多详细信息"] else suggestions in
      let suggestions :=
        if negb (re_search re_digits content)
        then suggestions ++ [py "缺少具体数据，建议添加相关数值信息"] else suggestions in
      if negb (py_truthy (dict_get (extra_data data_chunk) "extracted_terms" VNone))
      then suggestions ++ [py "缺少专业术语，建议增加水利专业概念"] else suggestions
    else suggestions in
  let suggestions :=
    if lt (relevance_score quality_score) (6 # 10) then
      let suggestions := suggestions ++ [py "水利相关性较弱，建议增加专业领域内容"] in
      if lt (relevance_score quality_score) (4 # 10)
      then suggestions ++ [py "建议明确阐述与水利领域的关联性"] else suggestions
    else suggestions in
  let suggestions :=
    if lt (consistency_score quality_score) (7 # 10)
    then suggestions ++ [py "内容一致性有待改善，建议检查术语使用和逻辑结构"]
    else suggestions in
  if lt (diversity_score quality_score) (6 # 10) then
    let suggestions := suggestions ++ [py "表达较为单一，建议丰富词汇和句式"] in
    if lt (diversity_score quality_score) (4 # 10)
    then suggestions ++ [py "建议从多个角度展开描述，增加信息层次"] else suggestions
  else suggestions.

(** [_create_process_metadata] *)
Definition _create_process_metadata (status : ProcessingStatus) (message : str)
  : M ProcessMetadata :=
  let* t0 := now in
  let* t1 := now in
  ret {| processor_name := "HydroDataEvaluator";
         processing_time := 0;
         start_time := t0;
         end_time := t1;
         status := status;
         error_message := Some message;
         parameters := evaluator_config self |}.

Definition min_quality_score : Q :=
  default (7 # 10) (thresholds self !! "min_quality_score"%string).

(** [process_single] *)
Definition process_single (data_chunk : nat) : M nat :=
  let* valid := read data_chunk BaseSkill.validate_input in
  if negb valid then ret data_chunk
  else
    try_except
      (let* chunk := read data_chunk (fun d => d) in
       let* quality_score := lift (_evaluate_quality chunk) in
       let* _ := update data_chunk (set_extra "quality_score" (VQuality quality_score)) in
       let* chunk_id := read data_chunk id in
       let* _ := _record_evaluation chunk_id quality_score in
       let* chunk := read data_chunk (fun d => d) in
       let suggestions := _generate_suggestions chunk quality_score in
       let* _ :=
         match suggestions with
         | [] => ret tt
         | _ => update data_chunk
                  (set_extra "improvement_suggestions" (VList (map VStr suggestions)))
         end in
       let* _ :=
         if Qltb (overall_score quality_score) min_quality_score
         then update data_chunk (set_extra "quality_warning" (VBool true))
         else ret tt in
       ret data_chunk)
      (fun e =>
       let* m := _create_process_metadata FAILED (exn_msg e) in
       let* _ := update data_chunk (add_process_metadata m) in
       ret data_chunk).

(** [filter_by_quality] *)
Fixpoint filter_loop (min_score : Q) (data_chunks filtered_chunks : list nat)
  : M (list nat) :=
  match data_chunks with
  | [] => ret filtered_chunks
  | chunk :: rest =>
    let* bag := read chunk extra_data in
    let quality_score := dict_get bag "quality_score" VNone in
    if py_truthy quality_score then
      match quality_score with
      | VQuality q =>
        if Qle_bool min_score (overall_score q)
        then filter_loop min_score rest (filtered_chunks ++ [chunk])
        else filter_loop min_score rest filtered_chunks
      | _ => raise (attribute_error "object has no attribute 'overall_score'")
      end
    else filter_loop min_score rest filtered_chunks
  end.

Definition filter_by_quality (data_chunks : list nat) (min_score : option Q)
  : M (list nat) :=
  let min_score :=
    match min_score with
    | None => min_quality_score
    | Some m => m
    end in
  filter_loop min_score data_chunks [].

Definition skill : Skill :=
  Build_Skill "HydroDataEvaluator" (evaluator_config self) process_single.

(** [process_batch], inherited from [MonitoredSkill] *)
Definition process_batch : list nat -> M (list nat) :=
  MonitoredSkill.process_batch skill Evaluator.

End Evaluator.
End HydroDataEvaluator.

(* ===================================================================== *)
(** * The Enhancer ([src/skills/enhancer.py])                              *)
(* ===================================================================== *)

(** [v[k]] for a string key *)
Definition py_getitem (v : pyval) (k : string) : res pyval :=
  match v with
  | VDict d =>
    match assoc k d with
    | Some x => Ok x
    | None => Raise (Exception "KeyError" (py k))
    end
  | _ => Raise (type_error "object is not subscriptable")
  end.

(** [iter(v)] *)
Definition py_iter (v : pyval) : res (list pyval) :=
  match v with
  | VList l => Ok l
  | VStr s => Ok (map (fun c => VStr [c]) s)
  | VDict d => Ok (map (fun kv => VStr (py (fst kv))) d)
  | _ => Raise (type_error "object is not iterable")
  end.

(** [v[:n]], then iterated *)
Definition py_head (n : nat) (v : pyval) : res (list pyval) :=
  match v with
  | VList l => Ok (firstn n l)
  | VStr s => Ok (map (fun c => VStr [c]) (firstn n s))
  | _ => Raise (type_error "object is not subscriptable")
  end.

(** A value used where the code needs a string. *)
Definition as_str (v : pyval) : res str :=
  match v with
  | VStr s => Ok s
  | _ => Raise (type_error "expected str")
  end.

Definition res_bind {A B} (r : res A) (f : A -> res B) : res B :=
  match r with
  | Ok a => f a
  | Raise e => Raise e
  end.

Fixpoint res_map {A B} (f : A -> res B) (l : list A) : res (list B) :=
  match l with
  | [] => Ok []
  | a :: l' =>
    res_bind (f a) (fun b => res_bind (res_map f l') (fun bs => Ok (b :: bs)))
  end.

Record EnhancerSelf := {
  enable_qa_generation : bool;
  enable_term_extraction : bool;
  enable_knowledge_enrichment : bool;
  (** [self.knowledge_base.terms] *)
  kb_terms : list (str * list str);
  (** [self.knowledge_base.entities] *)
  kb_entities : list (str * list (string * pyval));
  enhancer_config : gmap string pyval;
}.

(** A piece of a question template: text, [{term}] or [{other}]. *)
Inductive template_piece := TText (s : str) | TTerm | TOther.

Module HydroDataEnhancer.

(** [hydro_terms] of [_init_hydro_knowledge_base] *)
Definition hydro_terms : list (str * list str) :=
  map (fun '(t, al) => (py t, map py al))
  [ ("水文", ["水文学"; "水文分析"; "水文资料"]);
    ("降雨", ["降水"; "降雨量"; "降水量"; "降雨强度"]);
    ("径流", ["地表径流"; "地下径流"; "径流量"; "径流系数"]);
    ("蒸发", ["蒸发量"; "蒸发能力"; "蒸散发"]);
    ("渗透", ["入渗"; "下渗"; "渗透率"; "渗透系数"]);
    ("流域", ["集水区"; "汇水区"; "流域面积"; "分水岭"]);
    ("河流", ["河道"; "河床"; "河岸"; "河口"]);
    ("湖泊", ["水库"; "人工湖"; "天然湖"; "湖泊水位"]);
    ("地下水", ["含水层"; "地下水位"; "地下水补给"]);
    ("大坝", ["水坝"; "堤坝"; "重力坝"; "拱坝"]);
    ("水闸", ["节制闸"; "泄洪闸"; "冲沙闸"]);
    ("堤防", ["防洪堤"; "海堤"; "河堤"]);
    ("泵站", ["抽水站"; "排水泵站"; "灌溉泵站"]);
    ("防洪", ["防洪工程"; "防洪标准"; "洪水预警"]);
    ("灌溉", ["农田灌溉"; "节水灌溉"; "灌溉制度"]);
    ("排涝", ["排水"; "除涝"; "排水系统"]);
    ("供水", ["水源地"; "供水工程"; "水质保障"]);
    ("水质", ["水环境"; "水污染"; "水质监测"]);
    ("水生态", ["生态系统"; "生物多样性"; "生态保护"]);
    ("水土保持", ["土壤侵蚀"; "植被恢复"; "综合治理"]) ]%string.

(** [entities] of [_init_hydro_knowledge_base] *)
Definition entities : list (str * list (string * pyval)) :=
  [ (py "长江", [("type", VStr (py "河流")); ("length", VStr (py "6300km"));
                 ("basin_area", VStr (py "180万km²"))]);
    (py "黄河", [("type", VStr (py "河流")); ("length", VStr (py "5464km"));
                 ("basin_area", VStr (py "79.5万km²"))]);
    (py "三峡", [("type", VStr (py "水利工程")); ("purpose", VStr (py "防洪、发电、航运"))]);
    (py "南水北调", [("type", VStr (py "调水工程"));
                     ("routes", VList [VStr (py "东线"); VStr (py "中线"); VStr (py "西线")])])
  ]%string.

Definition default_self (cfg : gmap string pyval) : EnhancerSelf := {|
  enable_qa_generation := true;
  enable_term_extraction := true;
  enable_knowledge_enrichment := true;
  kb_terms := hydro_terms;
  kb_entities := entities;
  enhancer_config := cfg;
|}.

(** [self.qa_templates], in the order of the dictionary display *)
Definition qa_templates : list (str * list (list template_piece)) :=
  [ (py "定义型",
     [ [TText (py "什么是"); TTerm; TText (py "？")];
       [TTerm; TText (py "的定义是什么？")];
       [TText (py "请解释一下"); TTerm; TText (py "的含义。")] ]);
    (py "原理型",
     [ [TTerm; TText (py "的原理是什么？")];
       [TTerm; TText (py "是如何工作的？")];
       [TText (py "请说明"); TTerm; TText (py "的工作机制。")] ]);
    (py "应用型",
     [ [TTerm; TText (py "在实际中有什么应用？")];
       [TTerm; TText (py "的主要用途是什么？")];
       [TText (py "如何应用"); TTerm; TText (py "解决实际问题？")] ]);
    (py "计算型",
     [ [TText (py "如何计算"); TTerm; TText (py "？")];
       [TTerm; TText (py "的计算公式是什么？")];
       [TText (py "请说明"); TTerm; TText (py "的计算方法。")] ]);
    (py "比较型",
     [ [TTerm; TText (py "和"); TOther; TText (py "有什么区别？")];
       [TTerm; TText (py "与"); TOther; TText (py "相比有什么优势？")];
       [TText (py "请比较"); TTerm; TText (py "和"); TOther; TText (py "的特点。")] ]) ].

(** [template.format(term=term, other=other)]; a template that names
    [{other}] raises [KeyError] when [other] is not given. *)
Fixpoint format (template : list template_piece) (term : str) (other : option str)
  : res str :=
  match template with
  | [] => Ok []
  | TText s :: t => res_bind (format t term other) (fun r => Ok (s ++ r))
  | TTerm :: t => res_bind (format t term other) (fun r => Ok (term ++ r))
  | TOther :: t =>
    match other with
    | Some o => res_bind (format t term other) (fun r => Ok (o ++ r))
    | None => Raise (Exception "KeyError" (py "other"))
    end
  end.

Section Enhancer.
Context {U : UnicodeData} {R : Runtime}.
Variable self : EnhancerSelf.

(** [_contains_chinese] *)
Definition _contains_chinese (text : str) : bool := re_search (Chr is_cjk) text.

(** [_is_hydro_term] *)
Definition _is_hydro_term (word : str) : bool :=
  contains_any (map py ["水"; "文"; "雨"; "洪"; "涝"; "旱"; "河"; "湖"; "库"; "坝";
                        "闸"; "泵"; "灌"; "排"]%string) word.

Fixpoint lookup_str {A} (k : str) (d : list (str * A)) : option A :=
  match d with
  | [] => None
  | (k', v) :: d' => if str_eqb k k' then Some v else lookup_str k d'
  end.

(** [_extract_chinese_terms]: an exception that stops the segmenter is
    logged and the terms found so far are returned. *)
Definition _extract_chinese_terms (text : str) : list pyval :=
  match jieba with
  | None => []
  | Some jb =>
    let words := pseg_cut jb text in
      flat_map (fun '(word, flag) =>
        match lookup_str word (kb_terms self) with
        | Some aliases =>
          [VDict [("term", VStr word); ("type", VStr (py "专业术语"));
                  ("confidence", VFloat (9 # 10)); ("pos", VStr flag);
                  ("aliases", VList (map VStr aliases))]%string]
        | None =>
          match lookup_str word (kb_entities self) with
          | Some info =>
            [VDict [("term", VStr word); ("type", VStr (py "实体"));
                    ("confidence", VFloat (95 # 100));
                    ("entity_info", VDict info)]%string]
          | None =>
            if (2 <=? length word)%nat && (length word <=? 4)%nat
               && _is_hydro_term word
            then [VDict [("term", VStr word); ("type", VStr (py "疑似专业术语"));
                         ("confidence", VFloat (7 # 10)); ("pos", VStr flag)]%string]
            else []
          end
        end) words
  end.

Definition english_hydro_terms : list str :=
  map py [ "hydrology"; "water"; "river"; "dam"; "reservoir"; "flood";
           "drought"; "precipitation"; "evaporation"; "runoff"; "watershed";
           "groundwater"; "irrigation"; "drainage"; "water quality"; "ecosystem" ]%string.

(** [\b[a-zA-Z]+\b] *)
Definition re_english_word : regex :=
  Seq WordB (Seq (plus (Chr is_ascii_alpha)) WordB).

(** [_extract_english_terms] *)
Definition _extract_english_terms (text : str) : list pyval :=
  let words := re_findall re_english_word (py_lower text) in
  flat_map (fun word =>
    if bool_decide (word ∈ english_hydro_terms)
    then [VDict [("term", VStr word); ("type", VStr (py "English专业术语"));
                 ("confidence", VFloat (8 # 10))]%string]
    else []) words.

Definition term_text (t : pyval) : str :=
  match t with
  | VDict d => match assoc "term" d with Some (VStr s) => s | _ => [] end
  | _ => []
  end.

(** The loop of [_extract_terms] that keeps the first occurrence of a term
    and drops one-character terms. *)
Fixpoint unique_terms (terms : list pyval) (seen_terms : list str) : list pyval :=
  match terms with
  | [] => []
  | term :: rest =>
    let term_text := term_text term in
    if negb (bool_decide (term_text ∈ seen_terms)) && (1 <? length term_text)%nat
    then term :: unique_terms rest (term_text :: seen_terms)
    else unique_terms rest seen_terms
  end.

(** [_extract_terms] *)
Definition _extract_terms (text : str) (language : Language) : list pyval :=
  let terms :=
    match language with
    | CHINESE => _extract_chinese_terms text
    | AUTO =>
      if _contains_chinese text then _extract_chinese_terms text
      else _extract_chinese_terms text ++ _extract_english_terms text
    | ENGLISH => _extract_english_terms text
    end in
  unique_terms terms [].

(** [random.choice(seq)] *)
Definition random_choice {A} (seq : list A) : M A :=
  fun w =>
    match seq !! random_index (draws w) (length seq) with
    | Some x => (Ok x, set_draws (S (draws w)) w)
    | None => (Raise (Exception "IndexError" (py "Cannot choose from an empty sequence")), w)
    end.

(** All the positions the search loop of [_generate_answer_for_term]
    visits. *)
Fixpoint find_all (needle hay : str) (i : nat) : list nat :=
  (if startswith needle hay then [i] else []) ++
  match hay with
  | [] => []
  | _ :: hay' => find_all needle hay' (S i)
  end.

(** [_generate_default_answer] *)
Definition _generate_default_answer (term qa_type : str) : str :=
  if str_eqb qa_type (py "定义型")
  then term ++ py "是水利领域的重要概念，具体定义需要结合专业文献确定。"
  else if str_eqb qa_type (py "原理型")
  then term ++ py "的工作原理涉及多个水利专业知识点，需要详细分析。"
  else if str_eqb qa_type (py "应用型")
  then term ++ py "在水利工程中有重要应用，具体应用场景需要根据实际情况确定。"
  else if str_eqb qa_type (py "计算型")
  then term ++ py "的计算方法需要参考相关的水利计算规范和手册。"
  else if str_eqb qa_type (py "比较型")
  then term ++ py "与其他概念的比较需要从多个维度进行分析。"
  else py "关于" ++ term ++ py "的详细信息需要进一步分析。".

(** [max(answers, key=len)]: the first of the longest *)
Fixpoint longest (best : str) (answers : list str) : str :=
  match answers with
  | [] => best
  | a :: rest => if (length best <? length a)%nat then longest a rest
                 else longest best rest
  end.

(** [_generate_answer_for_term] *)
Definition _generate_answer_for_term (term content qa_type : str) : str :=
  let term_positions := find_all term content 0 in
  match term_positions with
  | [] => _generate_default_answer term qa_type
  | _ =>
    let answers :=
      flat_map (fun pos =>
        let start_pos := (pos - 100)%nat in
        let end_pos := Nat.min (length content) (pos + length term + 100) in
        let context := strip (slice content start_pos end_pos) in
        if (20 <? length context)%nat then [context] else []) term_positions in
    match answers with
    | [] => _generate_default_answer term qa_type
    | a :: rest => longest a rest
    end
  end.

(** [_determine_domain] *)
Definition _determine_domain (term : str) : str :=
  default (py "综合")
    (lookup_str term
       [ (py "水文", py "水文学"); (py "降雨", py "水文学"); (py "径流", py "水文学");
         (py "大坝", py "水工程"); (py "防洪", py "防洪"); (py "灌溉", py "灌溉");
         (py "水质", py "水环境") ]).

Definition term_of (term_info : pyval) : res str :=
  res_bind (py_getitem term_info "term") as_str.

(** [_generate_template_qa] *)
Fixpoint template_loop (content : str) (terms : pyval) (n_terms : nat)
    (head : list pyval) (qa_pairs : list QAData) : M (list QAData) :=
  match head with
  | [] => ret qa_pairs
  | term_info :: rest =>
    let* term := lift (term_of term_info) in
    let* choice := random_choice qa_templates in
    let '(qa_type, templates) := choice in
    let* template := random_choice templates in
    let* question :=
      (if str_eqb qa_type (py "比较型") && (1 <? n_terms)%nat then
         let* all := lift (py_iter terms) in
         let* names := lift (res_map term_of all) in
         let* other_term := random_choice (filter (fun t => t <> term) names) in
         lift (format template term (Some other_term))
       else lift (format template term None)) in
    let answer := _generate_answer_for_term term content qa_type in
    let qa_pairs :=
      match answer with
      | [] => qa_pairs
      | _ =>
        qa_pairs ++
        [ mkQA question answer
            (Some (if (200 <? length content)%nat
                   then firstn 200 content ++ py "..." else content))
            (Some (_determine_domain term))
            (Some (8 # 10)) ]
      end in
    template_loop content terms n_terms rest qa_pairs
  end.

Definition _generate_template_qa (data_chunk : DataChunk) : M (list QAData) :=
  let terms := dict_get (extra_data data_chunk) "extracted_terms" (VList []) in
  let* head := lift (py_head 3 terms) in
  let* n_terms := lift (py_len terms) in
  template_loop (content data_chunk) terms n_terms head [].

(** [_generate_model_qa] *)
Definition _generate_model_qa (data_chunk : DataChunk) : list QAData := [].

(** [\d+(?:\.\d+)?\s*(?:km|mm|m|℃|%|万|亿|吨|立方米)] *)
Definition re_quantity : regex :=
  Seq (plus (Chr re_digit))
  (Seq (opt (Seq (lit 46) (plus (Chr re_digit))))
  (Seq (Star (Chr py_isspace))
       (alts (map (fun u => lits (py u))
                  ["km"; "mm"; "m"; "℃"; "%"; "万"; "亿"; "吨"; "立方米"]%string)))).

(** [_generate_content_based_qa] *)
Definition _generate_content_based_qa (data_chunk : DataChunk) : list QAData :=
  let content := content data_chunk in
  let numbers := re_findall re_quantity content in
  flat_map (fun num =>
    match str_find content num with
    | None => []
    | Some num_pos =>
      let start := (num_pos - 50)%nat in
      let end_ := Nat.min (length content) (num_pos + length num + 50) in
      let sentence := strip (slice content start end_) in
      let question := py "文中提到的" ++ num ++ py "这个数据代表什么含义？" in
      let answer := py "根据原文内容，" ++ sentence in
      [ mkQA question answer (Some sentence) (Some (py "数据")) (Some (7 # 10)) ]
    end) (firstn 2 numbers).

(** [_generate_qa_pairs] *)
Definition _generate_qa_pairs (data_chunk : DataChunk) : M (list QAData) :=
  let* template_qa := _generate_template_qa data_chunk in
  let model_qa := if qa_model_loaded then _generate_model_qa data_chunk else [] in
  let content_qa := _generate_content_based_qa data_chunk in
  ret (firstn 5 (template_qa ++ model_qa ++ content_qa)).

(** [_get_term_explanation] *)
Definition _get_term_explanation (term : str) : str :=
  default []
    (lookup_str term
       [ (py "水文", py "研究水的各种现象和规律");
         (py "降雨", py "大气中的水汽凝结后降落到地面的现象");
         (py "径流", py "降水或融雪形成的地表水流");
         (py "蒸发", py "水从液态转变为气态的过程");
         (py "流域", py "分水线所包围的集水区域");
         (py "防洪", py "防止洪水灾害的各种措施");
         (py "灌溉", py "人为补给农田水分的措施") ]).

(** [term_info.get("type") == "专业术语"] *)
Definition is_dictionary_term (term_info : pyval) : res bool :=
  match term_info with
  | VDict d =>
    Ok match assoc "type" d with
       | Some (VStr s) => str_eqb s (py "专业术语")
       | _ => false
       end
  | _ => Raise (attribute_error "object has no attribute 'get'")
  end.

(** [_enrich_content] *)
Fixpoint enrich_loop (content : str) (terms : list pyval) : res str :=
  match terms with
  | [] => Ok content
  | term_info :: rest =>
    res_bind (term_of term_info) (fun term =>
    res_bind (is_dictionary_term term_info) (fun is_term =>
      let content :=
        if is_term && contains term content then
          let explanation := _get_term_explanation term in
          if negb (bool_decide (explanation = []))
             && negb (contains (term ++ explanation) content)
          then str_replace content term (term ++ py "（" ++ explanation ++ py "）")
          else content
        else content in
      enrich_loop content rest))
  end.

Definition _enrich_content (data_chunk : DataChunk) : res str :=
  let terms := dict_get (extra_data data_chunk) "extracted_terms" (VList []) in
  res_bind (py_iter terms) (enrich_loop (content data_chunk)).

(** [_assign_domain_tags] *)
Definition domain_keywords : list (str * list str) :=
  map (fun '(d, ks) => (py d, map py ks))
  [ ("水资源", ["水资源"; "水量"; "用水"; "供水"; "节水"]);
    ("水文学", ["水文"; "降雨"; "径流"; "蒸发"; "渗透"]);
    ("水工程", ["大坝"; "水闸"; "堤防"; "泵站"; "水库"]);
    ("水环境", ["水质"; "水环境"; "污染"; "生态"; "保护"]);
    ("防洪", ["洪水"; "防洪"; "防汛"; "预警"; "调度"]);
    ("灌溉", ["灌溉"; "农田"; "排水"; "旱情"; "抗旱"]) ]%string.

Definition _assign_domain_tags (content : str) : list str :=
  map fst (filter (fun '(domain, keywords) => contains_any keywords content = true)
                  domain_keywords).

(** [_create_process_metadata] *)
Definition _create_process_metadata (status : ProcessingStatus) (message : str)
  : M ProcessMetadata :=
  let* t0 := now in
  let* t1 := now in
  ret {| processor_name := "HydroDataEnhancer";
         processing_time := 0;
         start_time := t0;
         end_time := t1;
         status := status;
         error_message := Some message;
         parameters := enhancer_config self |}.

(** The entry the Enhancer stores for a generated pair. *)
Definition qa_entry (qa : QAData) : pyval :=
  VDict [("question", VStr (question qa)); ("answer", VStr (answer qa))]%string.

Definition count_terms (n : nat) (st : EnhancerState) : EnhancerState :=
  {| generated_qa_count := generated_qa_count st;
     extracted_terms_count := extracted_terms_count st + n |}.

Definition count_qa (n : nat) (st : EnhancerState) : EnhancerState :=
  {| generated_qa_count := generated_qa_count st + n;
     extracted_terms_count := extracted_terms_count st |}.

(** [process_single] *)
Definition process_single (data_chunk : nat) : M nat :=
  let* valid := read data_chunk BaseSkill.validate_input in
  if negb valid then ret data_chunk
  else
    try_except
      (let enhanced_chunk := data_chunk in
       let* _ :=
         if enable_term_extraction self then
           let* chunk := read enhanced_chunk (fun d => d) in
           let terms := _extract_terms (content chunk) (language chunk) in
           match terms with
           | [] => ret tt
           | _ =>
             let* _ := update enhanced_chunk (set_extra "extracted_terms" (VList terms)) in
             modify (fun w => set_enhancer_state
                                (count_terms (length terms) (enhancer_state w)) w)
           end
         else ret tt in
       let* _ :=
         if enable_qa_generation self then
           let* chunk := read enhanced_chunk (fun d => d) in
           let* qa_pairs := _generate_qa_pairs chunk in
           match qa_pairs with
           | [] => ret tt
           | _ =>
             let* _ := update enhanced_chunk
                         (set_extra "generated_qa" (VList (map qa_entry qa_pairs))) in
             modify (fun w => set_enhancer_state
                                (count_qa (length qa_pairs) (enhancer_state w)) w)
           end
         else ret tt in
       let* _ :=
         if enable_knowledge_enrichment self then
           let* chunk := read enhanced_chunk (fun d => d) in
           let* enriched_content := lift (_enrich_content chunk) in
           if negb (str_eqb enriched_content (content chunk)) then
             let* _ := update enhanced_chunk
                         (set_extra "original_content" (VStr (content chunk))) in
             let* _ := update enhanced_chunk (set_content enriched_content) in
             update enhanced_chunk (set_extra "knowledge_enriched" (VBool true))
           else ret tt
         else ret tt in
       let* text := read enhanced_chunk content in
       let domain_tags := _assign_domain_tags text in
       let* _ :=
         match domain_tags with
         | [] => ret tt
         | _ => update enhanced_chunk (set_extra "domain_tags" (VList (map VStr domain_tags)))
         end in
       let* _ := update enhanced_chunk (set_extra "enhanced" (VBool true)) in
       let* start_time := lift logger_core_start_time in
       let* _ := update enhanced_chunk
                   (set_extra "enhancement_time" (VTime start_time)) in
       ret enhanced_chunk)
      (fun e =>
       let* m := _create_process_metadata FAILED (exn_msg e) in
       let* _ := update data_chunk (add_process_metadata m) in
       ret data_chunk).

Definition skill : Skill :=
  Build_Skill "HydroDataEnhancer" (enhancer_config self) process_single.

(** [process_batch], inherited from [MonitoredSkill] *)
Definition process_batch : list nat -> M (list nat) :=
  MonitoredSkill.process_batch skill Enhancer.

End Enhancer.
End HydroDataEnhancer.

(* ===================================================================== *)
(** * The pipeline controller ([src/skills/pipeline.py], [PipelineConfig]) *)
(* ===================================================================== *)

(** [obj.name]: an object is the dictionary of its attributes. *)
Definition py_getattr (obj : gmap string pyval) (attr : string) : res pyval :=
  match obj !! attr with
  | Some v => Ok v
  | None =>
    Raise (Exception "AttributeError"
             (py "'PipelineConfig' object has no attribute '" ++ py attr ++ py "'"))
  end.

(** [v > 1] *)
Definition py_gt_one (v : pyval) : res bool :=
  match v with
  | VInt z => Ok (1 <? z)%Z
  | VBool _ => Ok false
  | VFloat q => Ok (Qltb 1 q)
  | _ => Raise (type_error "'>' not supported")
  end.

Definition as_int (v : pyval) : res Z :=
  match v with
  | VInt z => Ok z
  | VBool b => Ok (if b then 1 else 0)%Z
  | _ => Raise (type_error "object cannot be interpreted as an integer")
  end.

Module PipelineConfig.

(** [PipelineConfig.__init__]: the attributes of a new object *)
Definition init : gmap string pyval :=
  list_to_map
    [ ("parser_enabled", VBool true); ("cleaner_enabled", VBool true);
      ("enhancer_enabled", VBool true); ("evaluator_enabled", VBool true);
      ("parser_params", VDict []); ("cleaner_params", VDict []);
      ("enhancer_params", VDict []); ("evaluator_params", VDict []);
      ("batch_size", VInt 100); ("max_workers", VInt 4);
      ("checkpoint_enabled", VBool true);
      ("error_handling", VStr (py "skip")) ]%string.

End PipelineConfig.

(** What the controller reaches outside the stages: the parser, the JSON
    writers and the thread pool. *)
Record PipelineIO := {
  (** [HydroDataParser.parse_file]: puts the chunks of a file on the heap *)
  parse_file : string -> M (list nat);
  (** [save_json] of a checkpoint: skill name, index, and per chunk the
      identifier, content and extension bag *)
  save_checkpoint_json :
    string -> nat -> list (string * str * gmap string pyval) -> M unit;
  (** [save_json] of the final dataset *)
  save_dataset_json : ProcessedData -> string -> M unit;
  (** [_process_parallel]: the batches of a stage run on a thread pool *)
  _process_parallel : Skill -> Stage -> list nat -> Z -> M (list nat);
}.

Record PipelineSelf := {
  (** the attributes of [self.pipeline_config] *)
  pipeline_config : gmap string pyval;
  (** [self.skills], the parser apart *)
  cleaner_skill : option CleanerSelf;
  enhancer_skill : option EnhancerSelf;
  evaluator_skill : option EvaluatorSelf;
  (** [self.dataflow is not None] *)
  dataflow_enabled : bool;
}.


Module HydroDataPipeline.

(** [_load_pipeline_config], on the object [PipelineConfig()] made *)
Definition _load_pipeline_config (config_manager : gmap string (gmap string pyval))
    (pipeline_config : gmap string pyval) : gmap string pyval :=
  let section k := default ∅ (config_manager !! k) in
  let config := section "pipeline"%string in
  let pc := pipeline_config in
  let pc := <["batch_size"%string := dict_get config "batch_size" (VInt 100)]> pc in
  let pc := <["max_workers"%string := dict_get config "max_workers" (VInt 4)]> pc in
  let pc := <["checkpoint_enabled"%string :=
                dict_get config "checkpoint_enabled" (VBool true)]> pc in
  let pc := <["error_handling"%string :=
                dict_get config "error_handling" (VStr (py "skip"))]> pc in
  let pc := <["parser_enabled"%string := VBool true]> pc in
  let pc := <["cleaner_enabled"%string :=
                dict_get (section "cleaner"%string) "remove_duplicates" (VBool true)]> pc in
  let pc := <["enhancer_enabled"%string :=
                dict_get (section "enhancer"%string) "enable_qa_generation" (VBool true)]> pc in
  let pc := <["evaluator_enabled"%string :=
                dict_get (section "evaluator"%string) "quality_metrics" (VList [])]> pc in
  pc.

Definition enabled (pc : gmap string pyval) (attr : string) : bool :=
  py_truthy (dict_get pc attr VNone).

(** [HydroDataPipeline.__init__]: the configuration object is made and
    loaded, and a stage is built when its flag is set; the stage objects
    themselves are given. *)
Definition init (config_manager : gmap string (gmap string pyval))
    (cleaner : CleanerSelf) (enhancer : EnhancerSelf) (evaluator : EvaluatorSelf)
    (dataflow : bool) : PipelineSelf :=
  let pc := _load_pipeline_config config_manager PipelineConfig.init in
  {| pipeline_config := pc;
     cleaner_skill := if enabled pc "cleaner_enabled" then Some cleaner else None;
     enhancer_skill := if enabled pc "enhancer_enabled" then Some enhancer else None;
     evaluator_skill := if enabled pc "evaluator_enabled" then Some evaluator else None;
     dataflow_enabled := dataflow |}.

Section Pipeline.
Context {U : UnicodeData} {R : Runtime}.
Variable io : PipelineIO.
Variable self : PipelineSelf.

(** [_save_checkpoint] *)
Definition _save_checkpoint (skill_name : string) (chunks : list nat) (index : nat)
  : M unit :=
  let* flag := lift (py_getattr (pipeline_config self) "checkpoint_enabled") in
  if negb (py_truthy flag) then ret tt
  else
    let* t0 := now in
    let* t1 := now in
    let* w := get_world in
    let checkpoint_data :=
      map (fun l => let d := deref w l in (id d, content d, extra_data d)) chunks in
    try_except (save_checkpoint_json io skill_name index checkpoint_data)
               (fun e => ret tt).

(** The sequential loop of [_process_batches], for a positive batch size:
    [i] runs over [range(0, len(chunks), batch_size)]. *)
Fixpoint batch_loop (fuel : nat) (skill : Skill) (stage : Stage) (chunks : list nat)
    (batch_size : nat) (i : nat) (processed_chunks : list nat) : M (list nat) :=
  match fuel with
  | O => ret processed_chunks
  | S fuel' =>
    if (length chunks <=? i)%nat then ret processed_chunks
    else
      let batch := slice chunks i (i + batch_size) in
      let* processed_batch := MonitoredSkill.process_batch skill stage batch in
      let processed_chunks := processed_chunks ++ processed_batch in
      let* flag := lift (py_getattr (pipeline_config self) "checkpoint_enabled") in
      let* _ :=
        if py_truthy flag && (i mod (batch_size * 5) =? 0)%nat
        then _save_checkpoint (name skill) processed_batch i
        else ret tt in
      batch_loop fuel' skill stage chunks batch_size (i + batch_size) processed_chunks
  end.

(** [_process_batches] *)
Definition _process_batches (skill : Skill) (stage : Stage) (chunks : list nat)
    (batch_size : Z) : M (list nat) :=
  let* max_workers := lift (py_getattr (pipeline_config self) "max_workers") in
  let* many := lift (py_gt_one max_workers) in
  let* parallel :=
    (if many then
       let* flag := lift (py_getattr (pipeline_config self) "parallel_processing") in
       ret (py_truthy flag)
     else ret false) in
  if parallel then _process_parallel io skill stage chunks batch_size
  else if (batch_size =? 0)%Z
  then raise (Exception "ValueError" (py "range() arg 3 must not be zero"))
  else if (batch_size <? 0)%Z then ret []
  else batch_loop (length chunks) skill stage chunks (Z.to_nat batch_size) 0 [].

(** [_process_chunks]: the stages in their fixed order *)
Definition run_stage (present : option (Skill * Stage)) (processed_chunks : list nat)
  : M (list nat) :=
  match present with
  | None => ret processed_chunks
  | Some (skill, stage) =>
    let* v := lift (py_getattr (pipeline_config self) "batch_size") in
    let* batch_size := lift (as_int v) in
    _process_batches skill stage processed_chunks batch_size
  end.

Definition cleaner_entry : option (Skill * Stage) :=
  option_map (fun s => (HydroDataCleaner.skill s, Cleaner)) (cleaner_skill self).
Definition enhancer_entry : option (Skill * Stage) :=
  option_map (fun s => (HydroDataEnhancer.skill s, Enhancer)) (enhancer_skill self).
Definition evaluator_entry : option (Skill * Stage) :=
  option_map (fun s => (HydroDataEvaluator.skill s, Evaluator)) (evaluator_skill self).

Definition _process_chunks (chunks : list nat) : M (list nat) :=
  let processed_chunks := chunks in
  let* processed_chunks := run_stage cleaner_entry processed_chunks in
  let* processed_chunks := run_stage enhancer_entry processed_chunks in
  let* processed_chunks := run_stage evaluator_entry processed_chunks in
  ret processed_chunks.

Definition set_files (f : Stats -> Stats) : M unit :=
  modify (fun w => set_stats (f (processing_stats w)) w).

Definition stats_with (s : Stats) (tf pf ff tc pc : nat) (st en : option Z) (tt : Q)
  : Stats := {|
  total_files := tf; processed_files := pf; failed_files := ff; total_chunks := tc;
  processed_chunks := pc; failed_chunks := failed_chunks s;
  stats_start_time := st; stats_end_time := en; total_time := tt;
|}.

(** The parsing loop of [process_files]. *)
Fixpoint parse_loop (file_paths : list string) (all_chunks : list nat) : M (list nat) :=
  match file_paths with
  | [] => ret all_chunks
  | file_path :: rest =>
    let* all_chunks :=
      try_except
        (let* chunks := parse_file io file_path in
         let* _ := set_files (fun s =>
           stats_with s (total_files s) (S (processed_files s)) (failed_files s)
             (total_chunks s) (processed_chunks s) (stats_start_time s)
             (stats_end_time s) (total_time s)) in
         ret (all_chunks ++ chunks))
        (fun e =>
         let* _ := set_files (fun s =>
           stats_with s (total_files s) (processed_files s) (S (failed_files s))
             (total_chunks s) (processed_chunks s) (stats_start_time s)
             (stats_end_time s) (total_time s)) in
         let* policy := lift (py_getattr (pipeline_config self) "error_handling") in
         match policy with
         | VStr p => if str_eqb p (py "stop") then raise e else ret all_chunks
         | _ => ret all_chunks
         end) in
    parse_loop rest all_chunks
  end.

(** [QAData] called with the items of an entry as keyword arguments *)
Definition qa_fields : list string :=
  ["question"; "answer"; "context"; "difficulty"; "domain"; "confidence"; "metadata"]%string.

Definition opt_str (v : option pyval) : res (option str) :=
  match v with
  | None | Some VNone => Ok None
  | Some (VStr s) => Ok (Some s)
  | Some _ => Raise (type_error "expected str")
  end.

Definition opt_float (v : option pyval) : res (option Q) :=
  match v with
  | None | Some VNone => Ok None
  | Some (VFloat q) => Ok (Some q)
  | Some (VInt z) => Ok (Some (inject_Z z))
  | Some _ => Raise (type_error "expected float")
  end.

Definition qa_of_entry (qa_data : pyval) : res QAData :=
  match qa_data with
  | VDict d =>
    if negb (forallb (fun kv => bool_decide (fst kv ∈ qa_fields)) d)
    then Raise (type_error "QAData.__init__() got an unexpected keyword argument")
    else
      match assoc "question" d, assoc "answer" d with
      | Some q, Some a =>
        res_bind (as_str q) (fun q =>
        res_bind (as_str a) (fun a =>
        res_bind (opt_str (assoc "context" d)) (fun c =>
        res_bind (opt_str (assoc "difficulty" d)) (fun df =>
        res_bind (opt_str (assoc "domain" d)) (fun dm =>
        res_bind (opt_float (assoc "confidence" d)) (fun cf =>
          Ok {| question := q; answer := a; context := c; difficulty := df;
                domain := dm; confidence := cf; metadata := ∅ |}))))))
      | _, _ => Raise (type_error "QAData.__init__() missing required argument")
      end
  | _ => Raise (type_error "argument after ** must be a mapping")
  end.

(** [ProcessedData.add_qa_pair] *)
Definition add_qa_pair (qa : QAData) (pd : ProcessedData) : M ProcessedData :=
  let* t := now in
  ret {| pd_name := pd_name pd; pd_description := pd_description pd;
         pd_chunks := pd_chunks pd; pd_qa_pairs := pd_qa_pairs pd ++ [qa];
         pd_quality_score := pd_quality_score pd; pd_created_at := pd_created_at pd;
         pd_updated_at := t |}.

Fixpoint add_entries (entries : list pyval) (pd : ProcessedData) : M ProcessedData :=
  match entries with
  | [] => ret pd
  | qa_data :: rest =>
    let* qa := lift (qa_of_entry qa_data) in
    let* pd := add_qa_pair qa pd in
    add_entries rest pd
  end.

(** The loop of [process_files] that copies the generated pairs. *)
Fixpoint collect_qa (processed_chunks : list nat) (pd : ProcessedData) : M ProcessedData :=
  match processed_chunks with
  | [] => ret pd
  | chunk :: rest =>
    let* bag := read chunk extra_data in
    let* pd :=
      match bag !! "generated_qa"%string with
      | Some v =>
        let* entries := lift (py_iter v) in
        add_entries entries pd
      | None => ret pd
      end in
    collect_qa rest pd
  end.

(** [process_files], for a list of paths *)
Definition process_files (file_paths : list string) (output_path : option string)
  : M ProcessingResult :=
  let* start_time := now in
  let* t := now in
  let* _ := set_files (fun s =>
    stats_with s (length file_paths) (processed_files s) (failed_files s)
      (total_chunks s) (processed_chunks s) (Some t) (stats_end_time s)
      (total_time s)) in
  try_except
    (let* all_chunks := parse_loop file_paths [] in
     let* _ := set_files (fun s =>
       stats_with s (total_files s) (processed_files s) (failed_files s)
         (length all_chunks) (processed_chunks s) (stats_start_time s)
         (stats_end_time s) (total_time s)) in
     let* processed_chunks :=
       match all_chunks with
       | [] => ret []
       | _ => _process_chunks all_chunks
       end in
     let* stamp := now in
     let* created := now in
     let* updated := now in
     let processed_data :=
       {| pd_name := py "processed_data_"; pd_description := py "处理文件生成的数据";
          pd_chunks := processed_chunks; pd_qa_pairs := [];
          pd_quality_score := None; pd_created_at := created;
          pd_updated_at := updated |} in
     let* processed_data := collect_qa processed_chunks processed_data in
     let* _ :=
       match output_path with
       | Some path => save_dataset_json io processed_data path
       | None => ret tt
       end in
     let* end_time := now in
     let* t := now in
     let* _ := set_files (fun s =>
       stats_with s (total_files s) (processed_files s) (failed_files s)
         (total_chunks s) (length processed_chunks) (stats_start_time s)
         (Some t) (total_seconds end_time start_time)) in
     ret {| success := true; data := Some processed_data;
            result_error_message := None;
            result_processing_time := Some (total_seconds end_time start_time) |})
    (fun e =>
     let* t := now in
     ret {| success := false; data := None;
            result_error_message := Some (exn_msg e);
            result_processing_time := Some (total_seconds t start_time) |}).


End Pipeline.
End HydroDataPipeline.
(* ===================================================================== *)
(** * Further parts of the code base                                       *)
(* ===================================================================== *)

(* ===================================================================== *)
(** * The monitoring counters ([MonitoredSkill], [src/skills/base.py])     *)
(* ===================================================================== *)

Module SkillMonitor.

(** The dictionary [get_monitoring_info] returns. *)
Record MonitoringInfo := {
  info_processed_count : nat;
  info_failed_count : nat;
  success_rate : Q;
  average_processing_time : Q;
  info_total_processing_time : Q;
}.

(** [MonitoredSkill.get_monitoring_info], on the counters of the skill *)
Definition get_monitoring_info (self : Monitor) : MonitoringInfo :=
  let success_rate : Q :=
    if (0 <? processed_count self)%nat
    then (inject_Z (Z.of_nat (processed_count self) - Z.of_nat (failed_count self))
          / Qnat (processed_count self) * 100)%Q
    else 0%Q in
  let avg_processing_time : Q :=
    if (0 <? processed_count self)%nat
    then (total_processing_time self / Qnat (processed_count self))%Q
    else 0%Q in
  {| info_processed_count := processed_count self;
     info_failed_count := failed_count self;
     success_rate := success_rate;
     average_processing_time := avg_processing_time;
     info_total_processing_time := total_processing_time self |}.

(** [MonitoredSkill.reset_statistics] *)
Definition reset_statistics (stage : Stage) : M unit :=
  modify (fun w =>
    set_monitors (fun s =>
      match s, stage with
      | Cleaner, Cleaner | Enhancer, Enhancer | Evaluator, Evaluator => new_monitor
      | _, _ => monitors w s
      end) w).

End SkillMonitor.


(* ===================================================================== *)
(** * The Evaluator on question-answer pairs ([src/skills/evaluator.py])   *)
(* ===================================================================== *)

Module EvaluatorQA.

(** The dictionary [evaluate_qa_pairs] returns; for no pair at all the
    distribution is the empty dictionary and there is no list of scores. *)
Record QAEvaluation := {
  total_pairs : nat;
  average_quality : Q;
  distribution : list (string * nat);
  scores : option (list Q);
}.

Section EvaluatorQA.
Context {U : UnicodeData} {R : Runtime}.
Local Open Scope Q_scope.

Definition question_markers : list str :=
  map py ["什么"; "如何"; "为什么"; "怎样"; "请"; "解释"]%string.

(** [set(re.findall(r'[一-鿿]+|[a-zA-Z]+', text.lower()))] *)
Definition word_set (text : str) : gset str :=
  list_to_set (re_findall HydroDataEvaluator.re_words (py_lower text)).

(** [_evaluate_qa_quality] *)
Definition _evaluate_qa_quality (qa : QAData) : Q :=
  let score : Q := 0 in
  let question := question qa in
  let score :=
    if (10 <=? length question)%nat && (length question <=? 50)%nat
    then score + (2 # 10)
    else if (length question <? 10)%nat then score + (1 # 10)
    else score + (15 # 100) in
  let score :=
    if contains_any question_markers question then score + (2 # 10) else score in
  let answer := answer qa in
  let score :=
    if (20 <=? length answer)%nat && (length answer <=? 200)%nat
    then score + (2 # 10)
    else if (length answer <? 20)%nat then score + (1 # 10)
    else score + (15 # 100) in
  let score :=
    if re_search HydroDataEvaluator.re_digits answer then score + (1 # 10) else score in
  let score :=
    if HydroDataEvaluator._is_hydro_word answer then score + (1 # 10) else score in
  let score :=
    match context qa with
    | Some ctx =>
      if negb (bool_decide (ctx = [])) && negb (bool_decide (question = [])) then
        let context_words := word_set ctx in
        let question_words := word_set question in
        let overlap := size (context_words ∩ question_words) in
        let relevance_score :=
          if bool_decide (question_words = ∅) then 0
          else Qnat overlap / Qnat (size question_words) in
        score + py_min (2 # 10) relevance_score
      else score
    | None => score
    end in
  let score :=
    match confidence qa with
    | Some c => if negb (Qeq_bool c 0) then score * c else score
    | None => score
    end in
  py_min 1 score.

(** [sum(1 for s in qa_scores if ...)] for the four bands *)
Definition excellent (s : Q) : bool := Qle_bool (8 # 10) s.
Definition good (s : Q) : bool := Qle_bool (6 # 10) s && Qltb s (8 # 10).
Definition fair (s : Q) : bool := Qle_bool (4 # 10) s && Qltb s (6 # 10).
Definition poor (s : Q) : bool := Qltb s (4 # 10).

Definition count (band : Q -> bool) (qa_scores : list Q) : nat :=
  length (filter (fun s => band s = true) qa_scores).

(** [evaluate_qa_pairs] *)
Definition evaluate_qa_pairs (qa_pairs : list QAData) : res QAEvaluation :=
  match qa_pairs with
  | [] => Ok {| total_pairs := 0; average_quality := 0; distribution := [];
                scores := None |}
  | _ =>
    let qa_scores := map _evaluate_qa_quality qa_pairs in
    if negb numpy_loaded
    then Raise (HydroDataEvaluator.name_error "name 'np' is not defined")
    else
      let avg_quality := HydroDataEvaluator.Qsum qa_scores / Qnat (length qa_scores) in
      let distribution :=
        [ ("excellent", count excellent qa_scores); ("good", count good qa_scores);
          ("fair", count fair qa_scores); ("poor", count poor qa_scores) ]%string in
      Ok {| total_pairs := length qa_pairs; average_quality := avg_quality;
            distribution := distribution; scores := Some qa_scores |}
  end.

End EvaluatorQA.
End EvaluatorQA.

(* ===================================================================== *)
(** * The duplicate registry of the Cleaner ([src/skills/cleaner.py])      *)
(* ===================================================================== *)

Module CleanerTracker.

(** The dictionary [get_cleaning_statistics] returns: the monitoring
    information and three counts. *)
Record CleaningStatistics := {
  monitoring : SkillMonitor.MonitoringInfo;
  duplicate_hashes_detected : nat;
  contents_stored : nat;
  protected_terms_count : nat;
}.

(** [get_cleaning_statistics]; [self.protected_terms] is a set *)
Definition get_cleaning_statistics (self : CleanerSelf) : M CleaningStatistics :=
  let* w := get_world in
  let stats := SkillMonitor.get_monitoring_info (monitors w Cleaner) in
  ret {| monitoring := stats;
         duplicate_hashes_detected := size (seen_hashes (cleaner_state w));
         contents_stored := size (seen_contents (cleaner_state w));
         protected_terms_count := length (remove_dups (protected_terms self)) |}.

(** [reset_duplicate_tracker] *)
Definition reset_duplicate_tracker : M unit :=
  modify (set_cleaner_state {| seen_hashes := ∅; seen_contents := ∅ |}).

End CleanerTracker.

(* ===================================================================== *)
(** * The statistics of a dataset ([ProcessedData], [src/models.py])       *)
(* ===================================================================== *)

Module ProcessedDataStatistics.

(** The value of an enumeration member, the key under which it is counted. *)
Definition data_type_value (t : DataType) : string :=
  match t with
  | PDF => "pdf" | TEXT => "text" | QA => "qa" | TABLE => "table"
  | IMAGE => "image" | JSON => "json" | CSV => "csv" | MARKDOWN => "markdown"
  end.

Definition language_value (l : Language) : string :=
  match l with CHINESE => "zh" | ENGLISH => "en" | AUTO => "auto" end.

(** [for dtype in DataType], [for lang in Language]: the members in the
    order of their definition *)
Definition all_data_types : list DataType :=
  [PDF; TEXT; QA; TABLE; IMAGE; JSON; CSV; MARKDOWN].
Definition all_languages : list Language := [CHINESE; ENGLISH; AUTO].

#[global] Instance DataType_eq_dec : EqDecision DataType.
Proof. solve_decision. Defined.
#[global] Instance Language_eq_dec : EqDecision Language.
Proof. solve_decision. Defined.

Record Statistics := {
  total_chunks : nat;
  total_qa_pairs : nat;
  data_types : list (string * nat);
  languages : list (string * nat);
  total_characters : nat;
  average_chunk_length : Q;
}.

(** [sum(len(chunk.content) for chunk in self.chunks)] *)
Definition characters (chunks : list DataChunk) : nat :=
  fold_right (fun chunk n => (length (content chunk) + n)%nat) 0%nat chunks.

(** [ProcessedData.get_statistics]; the chunks of the dataset are read from
    the store. *)
Definition get_statistics (self : ProcessedData) : M Statistics :=
  let* w := get_world in
  let chunks := map (deref w) (pd_chunks self) in
  ret {| total_chunks := length chunks;
         total_qa_pairs := length (pd_qa_pairs self);
         data_types :=
           map (fun dtype =>
                  (data_type_value dtype,
                   length (filter (fun chunk => data_type chunk = dtype) chunks)))
               all_data_types;
         languages :=
           map (fun lang =>
                  (language_value lang,
                   length (filter (fun chunk => language chunk = lang) chunks)))
               all_languages;
         total_characters := characters chunks;
         average_chunk_length :=
           match chunks with
           | [] => 0%Q
           | _ => (Qnat (characters chunks) / Qnat (length chunks))%Q
           end |}.

End ProcessedDataStatistics.

(* ===================================================================== *)
(** * The knowledge base ([KnowledgeBase], [update_knowledge_base])        *)
(* ===================================================================== *)

Module KnowledgeBase.

(** [d[k] = v] on a dictionary kept as the list of its items: the value of
    a key that is there is replaced where it stands, a new key goes to the
    end. *)
Fixpoint setitem {A} (k : str) (v : A) (d : list (str * A)) : list (str * A) :=
  match d with
  | [] => [(k, v)]
  | (k', v') :: d' =>
    if str_eqb k k' then (k, v) :: d' else (k', v') :: setitem k v d'
  end.

(** [add_term]: [aliases or []] *)
Definition add_term (term : str) (aliases : option (list str))
    (terms : list (str * list str)) : list (str * list str) :=
  setitem term (match aliases with Some a => a | None => [] end) terms.

(** [add_entity] *)
Definition add_entity (entity_id : str) (entity_info : list (string * pyval))
    (entities : list (str * list (string * pyval)))
  : list (str * list (string * pyval)) :=
  setitem entity_id entity_info entities.

End KnowledgeBase.

Module EnhancerKnowledge.

Definition with_terms (terms : list (str * list str)) (self : EnhancerSelf)
  : EnhancerSelf := {|
  enable_qa_generation := enable_qa_generation self;
  enable_term_extraction := enable_term_extraction self;
  enable_knowledge_enrichment := enable_knowledge_enrichment self;
  kb_terms := terms;
  kb_entities := kb_entities self;
  enhancer_config := enhancer_config self;
|}.

Definition with_entities (entities : list (str * list (string * pyval)))
    (self : EnhancerSelf) : EnhancerSelf := {|
  enable_qa_generation := enable_qa_generation self;
  enable_term_extraction := enable_term_extraction self;
  enable_knowledge_enrichment := enable_knowledge_enrichment self;
  kb_terms := kb_terms self;
  kb_entities := entities;
  enhancer_config := enhancer_config self;
|}.

(** [update_knowledge_base]: the Enhancer after the call, and how the call
    ends.  The message of the last line takes [len(new_entities)], also when
    [new_entities] is [None]. *)
Definition update_knowledge_base (self : EnhancerSelf) (new_terms : list str)
    (new_entities : option (list (str * list (string * pyval))))
  : res unit * EnhancerSelf :=
  let self :=
    fold_left (fun self term =>
                 with_terms (KnowledgeBase.add_term term None (kb_terms self)) self)
              new_terms self in
  let self :=
    match new_entities with
    | Some ((_ :: _) as items) =>
      fold_left (fun self '(entity_id, entity_info) =>
                   with_entities
                     (KnowledgeBase.add_entity entity_id entity_info (kb_entities self))
                     self)
                items self
    | _ => self
    end in
  match new_entities with
  | None => (Raise (type_error "object of type 'NoneType' has no len()"), self)
  | Some _ => (Ok tt, self)
  end.

End EnhancerKnowledge.

(* ===================================================================== *)
(** * The controller as a skill ([HydroDataPipeline.process_single])       *)
(* ===================================================================== *)

Module PipelineInterface.
Section PipelineInterface.
Context {U : UnicodeData} {R : Runtime}.
Variable self : PipelineSelf.

(** [process_single]: the stages that are there, in their order, each on
    the chunk the one before returned *)
Definition process_single (data_chunk : nat) : M nat :=
  let processed_chunk := data_chunk in
  let* processed_chunk :=
    match cleaner_skill self with
    | Some skill => HydroDataCleaner.process_single skill processed_chunk
    | None => ret processed_chunk
    end in
  let* processed_chunk :=
    match enhancer_skill self with
    | Some skill => HydroDataEnhancer.process_single skill processed_chunk
    | None => ret processed_chunk
    end in
  let* processed_chunk :=
    match evaluator_skill self with
    | Some skill => HydroDataEvaluator.process_single skill processed_chunk
    | None => ret processed_chunk
    end in
  ret processed_chunk.

End PipelineInterface.
End PipelineInterface.

(* ===================================================================== *)
(** * The configuration manager ([src/config.py])                          *)
(* ===================================================================== *)

Module ConfigManager.

(** [key.split('.')] *)
Fixpoint split_from (current : string) (key : string) : list string :=
  match key with
  | EmptyString => [current]
  | String c rest =>
    if Ascii.eqb c "."%char then current :: split_from EmptyString rest
    else split_from (current ++ String c EmptyString)%string rest
  end.

Definition split (key : string) : list string := split_from EmptyString key.

(** [d[k] = v] on a dictionary kept as the list of its items *)
Fixpoint setitem (k : string) (v : pyval) (d : list (string * pyval))
  : list (string * pyval) :=
  match d with
  | [] => [(k, v)]
  | (k', v') :: d' =>
    if String.eqb k k' then (k, v) :: d' else (k', v') :: setitem k v d'
  end.

(** The loop of [get]: one level down for each key, the default as soon as
    the value at hand is not a dictionary or lacks the key. *)
Fixpoint get_keys (value : pyval) (keys : list string) (default : pyval) : pyval :=
  match keys with
  | [] => value
  | k :: keys' =>
    match value with
    | VDict d =>
      match assoc k d with
      | Some v => get_keys v keys' default
      | None => default
      end
    | _ => default
    end
  end.

(** [ConfigManager.get], on [self.config] *)
Definition get (config : pyval) (key : string) (default : pyval) : pyval :=
  get_keys config (split key) default.

(** What [set] raises at a value that is not a dictionary: on the way, at
    the membership test [k not in config] (a string or a list passes the
    test and fails at the subscript or the assignment that follows); at the
    end, at the assignment. *)
Definition on_the_way_error (config : pyval) (k : string) : exn :=
  match config with
  | VStr s =>
    if contains (py k) s then type_error "string indices must be integers"
    else type_error "object does not support item assignment"
  | VList _ => type_error "list indices must be integers or slices, not str"
  | _ => type_error "argument is not iterable"
  end.

Definition assignment_error (config : pyval) : exn :=
  match config with
  | VList _ => type_error "list indices must be integers or slices, not str"
  | _ => type_error "object does not support item assignment"
  end.

(** The loop and the final assignment of [set]: how the call ends and the
    configuration after it.  A missing key on the way gets an empty
    dictionary. *)
Fixpoint set_keys (config : pyval) (keys : list string) (value : pyval)
  : res unit * pyval :=
  match keys with
  | [] => (Ok tt, config)
  | [k] =>
    match config with
    | VDict d => (Ok tt, VDict (setitem k value d))
    | _ => (Raise (assignment_error config), config)
    end
  | k :: keys' =>
    match config with
    | VDict d =>
      let d := match assoc k d with
               | Some _ => d
               | None => setitem k (VDict []) d
               end in
      let child := match assoc k d with Some c => c | None => VDict [] end in
      match set_keys child keys' value with
      | (Ok _, child') => (Ok tt, VDict (setitem k child' d))
      | (Raise e, _) => (Raise e, config)
      end
    | _ => (Raise (on_the_way_error config k), config)
    end
  end.

(** [ConfigManager.set], on [self.config] *)
Definition set (config : pyval) (key : string) (value : pyval) : res unit * pyval :=
  set_keys config (split key) value.

End ConfigManager.
Example py_literal : py "水文a" = [27700%N; 25991%N; 97%N].
Proof. reflexivity. Qed.

Example contains_example :
  contains (py "水库") (py "三峡水库调度") = true
  /\ contains (py "大坝") (py "三峡水库调度") = false
  /\ str_find (py "三峡水库调度") (py "水库") = Some 2.
Proof. repeat split; reflexivity. Qed.

Example replace_example :
  str_replace (py "《水法》，《防洪法》") (py "《") (py "<") = py "<水法》，<防洪法》"
  /\ strip (py "  水 文 ") = py "水 文".
Proof. split; vm_compute; reflexivity. Qed.


Example findall_example :
  @re_findall basic_ucd (Alt (plus (Chr is_cjk)) (plus (Chr is_ascii_alpha)))
    (py "三峡dam, 水库") = [py "三峡"; py "dam"; py "水库"]
  /\ @re_split basic_ucd (plus (one_of (py "。！？.!?"))) (py "水文。。气象!x.")
     = [py "水文"; py "气象"; py "x"; []]
  /\ @re_sub basic_ucd (Seq (lit 60) (Seq (plus (none_of [62%N])) (lit 62)))
       (fun _ => []) (py "a<b>c<<d>e>") = py "ace>".
Proof. repeat split; vm_compute; reflexivity. Qed.

(* ===================================================================== *)
(** * Reasoning about the monad                                            *)
(* ===================================================================== *)

Local Open Scope py_scope.

Lemma bind_ok {A B} (m : M A) (f : A -> M B) w a w' :
  m w = (Ok a, w') -> bind m f w = f a w'.
Proof. intros H. unfold bind. now rewrite H. Qed.

Lemma bind_raise {A B} (m : M A) (f : A -> M B) w e w' :
  m w = (Raise e, w') -> bind m f w = (Raise e, w').
Proof. intros H. unfold bind. now rewrite H. Qed.

Lemma try_ok {A} (m : M A) h w a w' :
  m w = (Ok a, w') -> try_except m h w = (Ok a, w').
Proof. intros H. unfold try_except. now rewrite H. Qed.

Lemma try_raise {A} (m : M A) h w e w' :
  m w = (Raise e, w') -> try_except m h w = h e w'.
Proof. intros H. unfold try_except. now rewrite H. Qed.

(** The history of the chunk behind a reference. *)
Definition history (w : World) (l : nat) : list ProcessMetadata :=
  process_metadata (deref w l).

Lemma deref_update_eq w l f :
  deref (set_heap (<[l := f (deref w l)]> (heap w)) w) l = f (deref w l).
Proof. unfold deref. simpl. now rewrite lookup_total_insert_eq. Qed.

Lemma deref_update_ne w l l' f :
  l <> l' -> deref (set_heap (<[l := f (deref w l)]> (heap w)) w) l' = deref w l'.
Proof. intros H. unfold deref. simpl. now rewrite lookup_total_insert_ne. Qed.

(* ===================================================================== *)
(** * Filtering by quality                                                 *)
(* ===================================================================== *)

(** The quality score a chunk carries in its extension bag, if any. *)
Definition attached_score (d : DataChunk) : option QualityScore :=
  match extra_data d !! "quality_score"%string with
  | Some (VQuality q) => Some q
  | _ => None
  end.

(** The bag holds a quality score under the key, or nothing that counts. *)
Definition score_entry_ok (d : DataChunk) : Prop :=
  match extra_data d !! "quality_score"%string with
  | Some (VQuality _) => True
  | Some v => py_truthy v = false
  | None => True
  end.

(** The chunk carries a score whose overall value is at least [m]. *)
Definition scored_at_least (m : Q) (d : DataChunk) : bool :=
  match attached_score d with
  | Some q => Qle_bool m (overall_score q)
  | None => false
  end.

(** The threshold [filter_by_quality] uses. *)
Definition threshold_used (self : EvaluatorSelf) (min_score : option Q) : Q :=
  match min_score with
  | Some m => m
  | None => default (7 # 10) (thresholds self !! "min_quality_score"%string)
  end.

Lemma filter_loop_spec m w chunks acc :
  Forall (fun l => score_entry_ok (deref w l)) chunks ->
  HydroDataEvaluator.filter_loop m chunks acc w
  = (Ok (acc ++ List.filter (fun l => scored_at_least m (deref w l)) chunks), w).
Proof.
  intros H. revert acc. induction H as [|l chunks Hl _ IH]; intros acc.
  - simpl. unfold ret. now rewrite app_nil_r.
  - cbn [HydroDataEvaluator.filter_loop List.filter].
    unfold bind at 1. unfold read at 1. unfold dict_get.
    unfold score_entry_ok in Hl. unfold scored_at_least at 1. unfold attached_score.
    destruct (extra_data (deref w l) !! "quality_score"%string) as [v|] eqn:E.
    + destruct v as [ | b | z | f | s | t | vs | d | qs].
      1-8: rewrite Hl; apply IH.
      cbn [py_truthy]. destruct (Qle_bool m (overall_score qs)).
      * rewrite IH. now rewrite <- app_assoc.
      * apply IH.
    + cbn [py_truthy]. apply IH.
Qed.

(** C9.  [filter_by_quality] returns, in the order of the input, exactly the
    chunks that carry a quality score whose overall value is at least the
    threshold; the threshold is the argument when one is given and else the
    configured [min_quality_score], 0.7 when the configuration names none;
    a chunk with no score attached is left out, and nothing is changed. *)
Theorem filter_by_quality_subsequence
    (self : EvaluatorSelf) (w : World) (chunks : list nat) (min_score : option Q) :
  Forall (fun l => score_entry_ok (deref w l)) chunks ->
  let m := threshold_used self min_score in
  let kept := List.filter (fun l => scored_at_least m (deref w l)) chunks in
  HydroDataEvaluator.filter_by_quality self chunks min_score w = (Ok kept, w)
  /\ sublist kept chunks
  /\ (forall l, l ∈ kept <->
        l ∈ chunks /\ exists q, attached_score (deref w l) = Some q
                                /\ (m <= overall_score q)%Q)
  /\ (forall l, l ∈ chunks -> attached_score (deref w l) = None -> l ∉ kept)
  /\ (min_score = None ->
      thresholds self !! "min_quality_score"%string = None -> m = 7 # 10).
Proof.
  intros H m kept.
  assert (Hmem : forall l, l ∈ kept <->
            l ∈ chunks /\ scored_at_least m (deref w l) = true).
  { intros l. subst kept. rewrite !list_elem_of_In. apply filter_In. }
  split; [|split; [|split; [|split]]].
  - unfold HydroDataEvaluator.filter_by_quality.
    replace (match min_score with Some m0 => m0
             | None => HydroDataEvaluator.min_quality_score self end) with m.
    + now rewrite filter_loop_spec.
    + unfold m, threshold_used, HydroDataEvaluator.min_quality_score.
      now destruct min_score.
  - subst kept. clear H Hmem. induction chunks as [|l chunks IH]; simpl.
    + constructor.
    + destruct (scored_at_least m (deref w l)); now constructor.
  - intros l. rewrite Hmem. unfold scored_at_least.
    split; intros [Hin Hk]; (split; [exact Hin|]).
    + destruct (attached_score (deref w l)) as [q|]; [|discriminate].
      exists q. split; [reflexivity|]. now apply Qle_bool_iff.
    + destruct Hk as (q & -> & Hle). now apply Qle_bool_iff.
  - intros l _ Hnone Hin. apply Hmem in Hin. destruct Hin as [_ Hk].
    unfold scored_at_least in Hk. now rewrite Hnone in Hk.
  - intros -> Hn. unfold m, threshold_used. now rewrite Hn.
Qed.

(** A batch with assorted scores: 0.96, none, 0.5 and 0.95. *)
Definition score_of_overall (o : Q) : QualityScore := {|
  overall_score := o; completeness_score := o; relevance_score := o;
  consistency_score := o; diversity_score := o; details := [];
|}.

Definition scored_chunk (i : string) (o : Q) : DataChunk :=
  set_extra "quality_score" (VQuality (score_of_overall o)) (new_chunk i (py "水文")).

Definition assorted_world : World :=
  set_heap (list_to_map
    [ (0, scored_chunk "a" (96 # 100)); (1, new_chunk "b" (py "水库"));
      (2, scored_chunk "c" (50 # 100)); (3, scored_chunk "d" (95 # 100)) ]%nat)
    new_world.

Definition strict_evaluator : EvaluatorSelf := {|
  quality_metrics := ["completeness"; "relevance"; "consistency"; "diversity"]%string;
  thresholds := {[ "min_quality_score"%string := 95 # 100 ]};
  evaluator_config := ∅;
|}.

Lemma filter_by_quality_witness :
  Forall (fun l => score_entry_ok (deref assorted_world l)) [0; 1; 2; 3]%nat
  /\ HydroDataEvaluator.filter_by_quality strict_evaluator [0; 1; 2; 3]%nat None
       assorted_world = (Ok [0; 3]%nat, assorted_world).
Proof.
  assert (H : Forall (fun l => score_entry_ok (deref assorted_world l)) [0; 1; 2; 3]%nat).
  { repeat constructor; vm_compute; trivial. }
  split; [exact H|].
  destruct (filter_by_quality_subsequence strict_evaluator assorted_world
              [0; 1; 2; 3]%nat None H) as [E _].
  rewrite E. f_equal.
Defined.

(* ===================================================================== *)
(** * The pipeline configuration and the parallel branch                   *)
(* ===================================================================== *)



Lemma getattr_present pc attr v : pc !! attr = Some v -> py_getattr pc attr = Ok v.
Proof. intros H. unfold py_getattr. now rewrite H. Qed.




Section ParallelBranch.
Context {U : UnicodeData} {R : Runtime}.
Variable io : PipelineIO.
Variable self : PipelineSelf.
Hypothesis no_attr : pipeline_config self !! "parallel_processing"%string = None.



Definition some_stage : Prop :=
  is_Some (cleaner_skill self) \/ is_Some (enhancer_skill self)
  \/ is_Some (evaluator_skill self).


End ParallelBranch.

(** The state in which [process_files] enters its [try] block. *)
Definition at_parsing {R : Runtime} (file_paths : list string) (w : World) : World :=
  let w1 := set_ticks (S (S (ticks w))) w in
  let s := processing_stats w1 in
  set_stats
    (HydroDataPipeline.stats_with s (length file_paths) (processed_files s)
       (failed_files s) (total_chunks s) (processed_chunks s)
       (Some (clock (S (ticks w)))) (stats_end_time s) (total_time s)) w1.


(** An environment for closed examples: no jieba, no spaCy model, no
    question-generation model, numpy there; the clock counts its readings
    and the digest of a byte string is the text of its bytes. *)
Definition example_runtime : Runtime := {|
  clock := fun n => Z.of_nat n;
  md5_hexdigest := fun bs => string_of_list_ascii (map ascii_of_N bs);
  jieba := None;
  spacy_en := None;
  numpy_loaded := true;
  qa_model_loaded := false;
  random_index := fun _ _ => 0%nat;
|}.

(** A parser that yields one chunk per file, whose content is given. *)
Definition one_chunk_parser (text : str) (file_path : string) : M (list nat) :=
  fun w =>
    let l := size (heap w) in
    (Ok [l], set_heap (<[l := new_chunk file_path text]> (heap w)) w).

Definition example_io (text : str) : PipelineIO := {|
  parse_file := one_chunk_parser text;
  save_checkpoint_json := fun _ _ _ => ret tt;
  save_dataset_json := fun _ _ => ret tt;
  _process_parallel := fun _ _ chunks _ => ret chunks;
|}.

(** The controller built from an empty configuration: four workers, batches
    of a hundred, all three stages. *)
Definition default_pipeline : PipelineSelf :=
  HydroDataPipeline.init ∅ (HydroDataCleaner.default_self 10 ∅)
    (HydroDataEnhancer.default_self ∅) (HydroDataEvaluator.default_self ∅) false.


(* ===================================================================== *)
(** * Histories only grow                                                  *)
(* ===================================================================== *)

(** Every chunk's history in [w] is a prefix of its history in [w']. *)
Definition extends (w w' : World) : Prop :=
  forall l, history w l `prefix_of` history w' l.

Lemma extends_refl w : extends w w.
Proof. intros l. reflexivity. Qed.

Lemma extends_trans w1 w2 w3 : extends w1 w2 -> extends w2 w3 -> extends w1 w3.
Proof. intros H1 H2 l. etransitivity; [apply H1 | apply H2]. Qed.

Lemma extends_same_heap w w' : heap w' = heap w -> extends w w'.
Proof. intros H l. unfold history, deref. rewrite H. reflexivity. Qed.

(** A computation that leaves every history a prefix of what it becomes. *)
Definition appends {A} (m : M A) : Prop := forall w, extends w (snd (m w)).

(** A computation that, when it returns, returns [a]. *)
Definition gives {A} (a : A) (m : M A) : Prop :=
  forall w v, fst (m w) = Ok v -> v = a.

(** A computation that returns [a] and never raises. *)
Definition always {A} (a : A) (m : M A) : Prop := forall w, fst (m w) = Ok a.

(** A computation that never raises. *)
Definition total {A} (m : M A) : Prop := forall w, is_ok (fst (m w)) = true.

Lemma appends_ret {A} (a : A) : appends (ret a).
Proof. intros w. apply extends_refl. Qed.

Lemma appends_raise {A} e : appends (@raise A e).
Proof. intros w. apply extends_refl. Qed.

Lemma appends_lift {A} (r : res A) : appends (lift r).
Proof. intros w. apply extends_refl. Qed.

Lemma appends_get_world : appends get_world.
Proof. intros w. apply extends_refl. Qed.

Lemma appends_read {A} l (f : DataChunk -> A) : appends (read l f).
Proof. intros w. apply extends_refl. Qed.

Lemma appends_now {R : Runtime} : appends now.
Proof. intros w. now apply extends_same_heap. Qed.

Lemma appends_modify f : (forall w, heap (f w) = heap w) -> appends (modify f).
Proof. intros H w. apply extends_same_heap. simpl. apply H. Qed.

Lemma appends_update l f :
  (forall d, process_metadata d `prefix_of` process_metadata (f d)) ->
  appends (update l f).
Proof.
  intros H w x. unfold update, modify, history. simpl.
  destruct (decide (l = x)) as [->|Hne].
  - rewrite deref_update_eq. apply H.
  - now rewrite deref_update_ne.
Qed.

Lemma appends_bind {A B} (m : M A) (f : A -> M B) :
  appends m -> (forall a, appends (f a)) -> appends (bind m f).
Proof.
  intros Hm Hf w. unfold bind. specialize (Hm w).
  destruct (m w) as [[a|e] w1]; simpl in *.
  - eapply extends_trans; [exact Hm | apply Hf].
  - exact Hm.
Qed.

Lemma appends_try {A} (m : M A) h :
  appends m -> (forall e, appends (h e)) -> appends (try_except m h).
Proof.
  intros Hm Hh w. unfold try_except. specialize (Hm w).
  destruct (m w) as [[a|e] w1]; simpl in *.
  - exact Hm.
  - eapply extends_trans; [exact Hm | apply Hh].
Qed.

Lemma gives_ret {A} (a : A) : gives a (ret a).
Proof. intros w v H. simpl in H. congruence. Qed.

Lemma gives_raise {A} (a : A) e : gives a (raise e).
Proof. intros w v H. discriminate H. Qed.

Lemma gives_bind {A B} (b : B) (m : M A) (f : A -> M B) :
  (forall a, gives b (f a)) -> gives b (bind m f).
Proof.
  intros Hf w v. unfold bind. destruct (m w) as [[a|e] w1].
  - apply Hf.
  - discriminate.
Qed.

Lemma always_ret {A} (a : A) : always a (ret a).
Proof. intros w. reflexivity. Qed.

Lemma always_bind {A B} (b : B) (m : M A) (f : A -> M B) :
  total m -> (forall a, always b (f a)) -> always b (bind m f).
Proof.
  intros Hm Hf w. unfold bind. specialize (Hm w).
  destruct (m w) as [[a|e] w1]; [apply Hf | discriminate Hm].
Qed.

Lemma always_try {A} (a : A) (m : M A) h :
  gives a m -> (forall e, always a (h e)) -> always a (try_except m h).
Proof.
  intros Hm Hh w. unfold try_except. specialize (Hm w).
  destruct (m w) as [[v|e] w1]; simpl in *.
  - now rewrite (Hm v).
  - apply Hh.
Qed.

Lemma total_now {R : Runtime} : total now.
Proof. intros w. reflexivity. Qed.

Lemma total_read {A} l (f : DataChunk -> A) : total (read l f).
Proof. intros w. reflexivity. Qed.

Lemma total_update l f : total (update l f).
Proof. intros w. reflexivity. Qed.

Lemma total_modify f : total (modify f).
Proof. intros w. reflexivity. Qed.

Lemma total_ret {A} (a : A) : total (ret a).
Proof. intros w. reflexivity. Qed.

Lemma total_bind {A B} (m : M A) (f : A -> M B) :
  total m -> (forall a, total (f a)) -> total (bind m f).
Proof.
  intros Hm Hf w. unfold bind. specialize (Hm w).
  destruct (m w) as [[a|e] w1]; [apply Hf | discriminate Hm].
Qed.

Lemma prefix_set_extra k v d :
  process_metadata d `prefix_of` process_metadata (set_extra k v d).
Proof. reflexivity. Qed.

Lemma prefix_set_content c d :
  process_metadata d `prefix_of` process_metadata (set_content c d).
Proof. reflexivity. Qed.

Lemma prefix_add_metadata m d :
  process_metadata d `prefix_of` process_metadata (add_process_metadata m d).
Proof. simpl. now apply prefix_app_r. Qed.

Create HintDb pyflow discriminated.
#[export] Hint Resolve appends_ret appends_raise appends_lift appends_get_world
  appends_read appends_now total_now total_read total_update total_modify
  total_ret always_ret gives_ret gives_raise prefix_set_extra prefix_set_content
  prefix_add_metadata : pyflow.

(** Walks a computation down its binds, branches and handlers. *)
Ltac flow :=
  repeat first
    [ progress intros
    | progress cbv zeta
    | solve [auto with pyflow]
    | apply appends_bind | apply appends_try | apply appends_update
    | apply appends_modify; reflexivity
    | apply gives_bind | apply always_bind | apply always_try | apply total_bind
    | match goal with
      | |- appends (if ?b then _ else _) => destruct b
      | |- gives _ (if ?b then _ else _) => destruct b
      | |- always _ (if ?b then _ else _) => destruct b
      | |- total (if ?b then _ else _) => destruct b
      | |- appends (match ?x with _ => _ end) => destruct x
      | |- gives _ (match ?x with _ => _ end) => destruct x
      | |- always _ (match ?x with _ => _ end) => destruct x
      | |- total (match ?x with _ => _ end) => destruct x
      end ].

Section StageHistories.
Context {U : UnicodeData} {R : Runtime}.

Lemma cleaner_metadata_total self s m :
  total (HydroDataCleaner._create_process_metadata self s m).
Proof. unfold HydroDataCleaner._create_process_metadata. flow. Qed.

Lemma cleaner_metadata_appends self s m :
  appends (HydroDataCleaner._create_process_metadata self s m).
Proof. unfold HydroDataCleaner._create_process_metadata. flow. Qed.

Lemma is_duplicate_appends self text i :
  appends (HydroDataCleaner._is_duplicate self text i).
Proof. unfold HydroDataCleaner._is_duplicate. flow. Qed.

Lemma cleaner_single_appends self l :
  appends (HydroDataCleaner.process_single self l).
Proof.
  unfold HydroDataCleaner.process_single. cbv zeta.
  pose proof cleaner_metadata_appends. pose proof is_duplicate_appends.
  flow.
Qed.

Lemma cleaner_single_always self l :
  always l (HydroDataCleaner.process_single self l).
Proof.
  unfold HydroDataCleaner.process_single. cbv zeta.
  pose proof cleaner_metadata_total.
  flow.
Qed.

Lemma evaluator_metadata_total self s m :
  total (HydroDataEvaluator._create_process_metadata self s m).
Proof. unfold HydroDataEvaluator._create_process_metadata. flow. Qed.

Lemma evaluator_metadata_appends self s m :
  appends (HydroDataEvaluator._create_process_metadata self s m).
Proof. unfold HydroDataEvaluator._create_process_metadata. flow. Qed.

Lemma record_evaluation_appends i q :
  appends (HydroDataEvaluator._record_evaluation i q).
Proof. unfold HydroDataEvaluator._record_evaluation. flow. Qed.

Lemma evaluator_single_appends self l :
  appends (HydroDataEvaluator.process_single self l).
Proof.
  unfold HydroDataEvaluator.process_single.
  pose proof evaluator_metadata_appends. pose proof record_evaluation_appends.
  flow.
Qed.

Lemma evaluator_single_always self l :
  always l (HydroDataEvaluator.process_single self l).
Proof.
  unfold HydroDataEvaluator.process_single.
  pose proof evaluator_metadata_total.
  flow.
Qed.

Lemma enhancer_metadata_total self s m :
  total (HydroDataEnhancer._create_process_metadata self s m).
Proof. unfold HydroDataEnhancer._create_process_metadata. flow. Qed.

Lemma enhancer_metadata_appends self s m :
  appends (HydroDataEnhancer._create_process_metadata self s m).
Proof. unfold HydroDataEnhancer._create_process_metadata. flow. Qed.

Lemma random_choice_appends {A} (seq : list A) :
  appends (HydroDataEnhancer.random_choice seq).
Proof.
  intros w. unfold HydroDataEnhancer.random_choice.
  destruct (seq !! _); now apply extends_same_heap.
Qed.

Lemma template_loop_appends content terms n head qa_pairs :
  appends (HydroDataEnhancer.template_loop content terms n head qa_pairs).
Proof.
  revert qa_pairs. induction head as [|term_info rest IH]; intros qa_pairs.
  - apply appends_ret.
  - cbn [HydroDataEnhancer.template_loop].
    pose proof (@random_choice_appends). flow.
Qed.

Lemma generate_qa_pairs_appends d :
  appends (HydroDataEnhancer._generate_qa_pairs d).
Proof.
  unfold HydroDataEnhancer._generate_qa_pairs, HydroDataEnhancer._generate_template_qa.
  pose proof template_loop_appends. flow.
Qed.

Lemma enhancer_single_appends self l :
  appends (HydroDataEnhancer.process_single self l).
Proof.
  unfold HydroDataEnhancer.process_single.
  pose proof enhancer_metadata_appends. pose proof generate_qa_pairs_appends.
  flow.
Qed.

Lemma enhancer_single_always self l :
  always l (HydroDataEnhancer.process_single self l).
Proof.
  unfold HydroDataEnhancer.process_single.
  pose proof enhancer_metadata_total.
  flow.
Qed.

End StageHistories.

(* ===================================================================== *)
(** * The batch harness                                                    *)
(* ===================================================================== *)

(** What the batch results below need of a single-chunk transform: when
    it returns it returns the chunk it was given, and whether it returns or
    raises it has only appended to histories. *)
Definition transform_contract (ps : nat -> M nat) : Prop :=
  forall l w,
    match ps l w with
    | (Ok l', w') => l' = l /\ extends w w'
    | (Raise e, w') => extends w w'
    end.

Lemma contract_of_stage (ps : nat -> M nat) :
  (forall l, always l (ps l)) -> (forall l, appends (ps l)) -> transform_contract ps.
Proof.
  intros Ha Hp l w. specialize (Ha l w). specialize (Hp l w).
  destruct (ps l w) as [[l'|e] w']; simpl in *.
  - split; [congruence | exact Hp].
  - discriminate Ha.
Qed.

(** The state once the clock has been read. *)
Definition started (w : World) : World := set_ticks (S (ticks w)) w.

Lemma started_deref w l : deref (started w) l = deref w l.
Proof. reflexivity. Qed.

Lemma length_prefix {A} (l1 l2 : list A) : l1 `prefix_of` l2 -> length l1 <= length l2.
Proof. intros [k ->]. rewrite length_app. lia. Qed.

Section Turns.
Context {R : Runtime}.
Variable self : Skill.

(** A turn of the loop whose transform returns the chunk [c] in the state
    [w1]: the harness adds a COMPLETED record to [c] and touches nothing
    else. *)
Lemma turn_returned l w c w1 :
  process_single self l (started w) = (Ok c, w1) ->
  exists m w',
    BaseSkill.process_one self l w = (Ok c, w')
    /\ status m = COMPLETED /\ error_message m = None
    /\ processor_name m = name self /\ parameters m = config self
    /\ deref w' c = add_process_metadata m (deref w1 c)
    /\ (forall x, x <> c -> deref w' x = deref w1 x).
Proof.
  intros E. unfold BaseSkill.process_one.
  erewrite try_ok.
  2:{ unfold bind at 1. unfold now at 1. fold (started w).
      unfold bind at 1. rewrite E.
      unfold bind at 1. unfold now at 1.
      unfold bind at 1. unfold update, modify, ret. reflexivity. }
  exists {| processor_name := name self;
            processing_time := total_seconds (clock (ticks w1)) (clock (ticks w));
            start_time := clock (ticks w); end_time := clock (ticks w1);
            status := COMPLETED; error_message := None;
            parameters := config self |}.
  eexists. split; [reflexivity|]. split; [reflexivity|].
  split; [reflexivity|]. split; [reflexivity|]. split; [reflexivity|]. split.
  - apply (deref_update_eq (set_ticks (S (ticks w1)) w1)).
  - intros x Hx. now apply (deref_update_ne (set_ticks (S (ticks w1)) w1)).
Qed.

(** A turn of the loop whose transform raises [e] in the state [w1]: the
    harness adds a FAILED record with the message of [e] to the chunk it
    was given, as the transform left it, and touches nothing else. *)
Lemma turn_raised l w e w1 :
  process_single self l (started w) = (Raise e, w1) ->
  exists m w',
    BaseSkill.process_one self l w = (Ok l, w')
    /\ status m = FAILED /\ error_message m = Some (exn_msg e)
    /\ processor_name m = name self /\ parameters m = config self
    /\ deref w' l = add_process_metadata m (deref w1 l)
    /\ (forall x, x <> l -> deref w' x = deref w1 x).
Proof.
  intros E. unfold BaseSkill.process_one.
  erewrite try_raise.
  2:{ unfold bind at 1. unfold now at 1. fold (started w).
      unfold bind at 1. rewrite E. reflexivity. }
  unfold bind, now, update, modify, ret. cbn [ticks set_ticks].
  exists {| processor_name := name self;
            processing_time :=
              total_seconds (clock (ticks w1)) (clock (S (ticks w1)));
            start_time := clock (S (S (ticks w1))); end_time := clock (ticks w1);
            status := FAILED; error_message := Some (exn_msg e);
            parameters := config self |}.
  eexists. split; [reflexivity|]. split; [reflexivity|].
  split; [reflexivity|]. split; [reflexivity|]. split; [reflexivity|].
  split.
  - apply (deref_update_eq (set_ticks (S (S (S (ticks w1)))) w1)).
  - intros x Hx.
    now apply (deref_update_ne (set_ticks (S (S (S (ticks w1)))) w1)).
Qed.

End Turns.

Section Harness.
Context {R : Runtime}.
Variable self : Skill.
Hypothesis contract : transform_contract (process_single self).

(** Every turn returns its chunk, with one record more in its history. *)
Lemma turn_spec l w :
  exists w',
    BaseSkill.process_one self l w = (Ok l, w')
    /\ extends w w'
    /\ length (history w l) < length (history w' l).
Proof.
  pose proof (contract l (started w)) as Hc.
  destruct (process_single self l (started w)) as [[l'|e] w1] eqn:E.
  - destruct Hc as [-> Hext].
    destruct (turn_returned self l w l w1 E) as (m & w' & E1 & _ & _ & _ & _ & Hl & Hx).
    exists w'. split; [exact E1|]. split.
    + intros x. unfold history. destruct (decide (x = l)) as [->|Hne].
      * rewrite Hl. etransitivity; [apply (Hext l)|]. apply prefix_add_metadata.
      * rewrite (Hx x Hne). apply (Hext x).
    + unfold history. rewrite Hl. simpl. rewrite length_app. simpl.
      pose proof (length_prefix _ _ (Hext l)) as Hlen. unfold history in Hlen.
      rewrite started_deref in Hlen. lia.
  - destruct (turn_raised self l w e w1 E) as (m & w' & E1 & _ & _ & _ & _ & Hl & Hx).
    exists w'. split; [exact E1|]. split.
    + intros x. unfold history. destruct (decide (x = l)) as [->|Hne].
      * rewrite Hl. etransitivity; [apply (Hc l)|]. apply prefix_add_metadata.
      * rewrite (Hx x Hne). apply (Hc x).
    + unfold history. rewrite Hl. simpl. rewrite length_app. simpl.
      pose proof (length_prefix _ _ (Hc l)) as Hlen. unfold history in Hlen.
      rewrite started_deref in Hlen. lia.
Qed.

Lemma loop_spec chunks acc w :
  exists w',
    BaseSkill.process_loop self chunks acc w = (Ok (acc ++ chunks), w')
    /\ extends w w'
    /\ (forall l, l ∈ chunks -> length (history w l) < length (history w' l)).
Proof.
  revert acc w. induction chunks as [|c chunks IH]; intros acc w.
  - exists w. simpl. rewrite app_nil_r. split; [reflexivity|].
    split; [apply extends_refl|]. intros l Hl. inversion Hl.
  - destruct (turn_spec c w) as (w1 & E1 & Hext1 & Hlen1).
    destruct (IH (acc ++ [c]) w1) as (w2 & E2 & Hext2 & Hlen2).
    exists w2. cbn [BaseSkill.process_loop]. unfold bind at 1. rewrite E1.
    rewrite E2. rewrite <- app_assoc. split; [reflexivity|].
    split; [eapply extends_trans; eassumption|].
    intros l Hl. apply list_elem_of_In in Hl. destruct Hl as [<-|Hl].
    + pose proof (length_prefix _ _ (Hext2 c)). lia.
    + apply list_elem_of_In in Hl. specialize (Hlen2 l Hl).
      pose proof (length_prefix _ _ (Hext1 l)). lia.
Qed.

Lemma batch_spec chunks w :
  exists w',
    BaseSkill.process_batch self chunks w = (Ok chunks, w')
    /\ extends w w'
    /\ (forall l, l ∈ chunks -> length (history w l) < length (history w' l)).
Proof.
  unfold BaseSkill.process_batch.
  destruct (loop_spec chunks [] (started w)) as (w1 & E1 & Hext & Hlen).
  exists (started w1). unfold bind at 1. unfold now at 1. fold (started w).
  unfold bind at 1. rewrite E1. unfold bind, now, ret. fold (started w1).
  split; [reflexivity|]. split.
  - intros l. apply (Hext l).
  - intros l Hl. apply (Hlen l Hl).
Qed.

Lemma monitored_batch_spec stage chunks w :
  exists w',
    MonitoredSkill.process_batch self stage chunks w = (Ok chunks, w')
    /\ extends w w'
    /\ (forall l, l ∈ chunks -> length (history w l) < length (history w' l)).
Proof.
  unfold MonitoredSkill.process_batch.
  destruct (batch_spec chunks (started w)) as (w1 & E1 & Hext & Hlen).
  unfold bind at 1. unfold now at 1. fold (started w).
  unfold bind at 1. rewrite E1.
  unfold bind, get_world, now, modify, ret.
  eexists. split; [reflexivity|]. split.
  - intros l. apply (Hext l).
  - intros l Hl. apply (Hlen l Hl).
Qed.

End Harness.

Section Stages.
Context {U : UnicodeData} {R : Runtime}.
Variable cleaner : CleanerSelf.
Variable enhancer : EnhancerSelf.
Variable evaluator : EvaluatorSelf.

(** The three stages of the pipeline. *)
Definition stage_skill (stage : Stage) : Skill :=
  match stage with
  | Cleaner => HydroDataCleaner.skill cleaner
  | Enhancer => HydroDataEnhancer.skill enhancer
  | Evaluator => HydroDataEvaluator.skill evaluator
  end.

Definition stage_process_single (stage : Stage) : nat -> M nat :=
  match stage with
  | Cleaner => HydroDataCleaner.process_single cleaner
  | Enhancer => HydroDataEnhancer.process_single enhancer
  | Evaluator => HydroDataEvaluator.process_single evaluator
  end.

Definition stage_process_batch (stage : Stage) : list nat -> M (list nat) :=
  match stage with
  | Cleaner => HydroDataCleaner.process_batch cleaner
  | Enhancer => HydroDataEnhancer.process_batch enhancer
  | Evaluator => HydroDataEvaluator.process_batch evaluator
  end.

Lemma stage_single_spec stage l w :
  exists w', stage_process_single stage l w = (Ok l, w') /\ extends w w'.
Proof.
  destruct stage; cbn [stage_process_single].
  - pose proof (cleaner_single_always cleaner l w) as Ha.
    pose proof (cleaner_single_appends cleaner l w) as Hp.
    destruct (HydroDataCleaner.process_single cleaner l w) as [r w'].
    simpl in *. subst r. now exists w'.
  - pose proof (enhancer_single_always enhancer l w) as Ha.
    pose proof (enhancer_single_appends enhancer l w) as Hp.
    destruct (HydroDataEnhancer.process_single enhancer l w) as [r w'].
    simpl in *. subst r. now exists w'.
  - pose proof (evaluator_single_always evaluator l w) as Ha.
    pose proof (evaluator_single_appends evaluator l w) as Hp.
    destruct (HydroDataEvaluator.process_single evaluator l w) as [r w'].
    simpl in *. subst r. now exists w'.
Qed.

Lemma stage_contract stage : transform_contract (process_single (stage_skill stage)).
Proof.
  intros l w. destruct (stage_single_spec stage l w) as (w' & E & Hext).
  destruct stage; cbn [stage_skill stage_process_single process_single
                       HydroDataCleaner.skill HydroDataEnhancer.skill
                       HydroDataEvaluator.skill] in *;
    rewrite E; now split.
Qed.

End Stages.

(** C8.  For each of the three stages and every chunk, [process_single]
    returns the chunk it was given and leaves every history a prefix of what
    it becomes; [process_batch] does the same for the whole batch and, for
    each chunk of the batch, leaves a history that is strictly longer.
    Records are appended; none is reordered, dropped or rewritten. *)
Theorem history_is_append_only
    (U : UnicodeData) (R : Runtime) (cleaner : CleanerSelf)
    (enhancer : EnhancerSelf) (evaluator : EvaluatorSelf) (stage : Stage) :
  (forall l w,
     exists w',
       stage_process_single cleaner enhancer evaluator stage l w = (Ok l, w')
       /\ forall x, history w x `prefix_of` history w' x)
  /\ (forall chunks w,
        exists w',
          stage_process_batch cleaner enhancer evaluator stage chunks w
          = (Ok chunks, w')
          /\ (forall x, history w x `prefix_of` history w' x)
          /\ (forall l, l ∈ chunks ->
                length (history w l) < length (history w' l))).
Proof.
  split.
  - intros l w. apply stage_single_spec.
  - intros chunks w.
    pose proof (stage_contract cleaner enhancer evaluator stage) as Hc.
    destruct (monitored_batch_spec _ Hc stage chunks w) as (w' & E & Hext & Hlen).
    exists w'. split; [|split; assumption].
    destruct stage; exact E.
Qed.

(* ===================================================================== *)
(** * The Cleaner: rejection and duplicates                                *)
(* ===================================================================== *)

Section CleanerPaths.
Context {U : UnicodeData} {R : Runtime}.
Variable self : CleanerSelf.

(** The text the quality gate and the duplicate gate look at. *)
Definition cleaned_text (d : DataChunk) : str :=
  HydroDataCleaner._advanced_text_cleaning self
    (HydroDataCleaner._language_specific_cleaning self
       (HydroDataCleaner._basic_text_cleaning self (content d)) (language d))
    (language d).

(** The record [_create_process_metadata] makes in state [w]. *)
Definition cleaner_record (st : ProcessingStatus) (msg : str) (w : World)
  : ProcessMetadata := {|
  processor_name := "HydroDataCleaner";
  processing_time := 0;
  start_time := clock (ticks w);
  end_time := clock (S (ticks w));
  status := st;
  error_message := Some msg;
  parameters := cleaner_config self;
|}.

(** The state once that record is appended to the chunk behind [l]. *)
Definition recorded (st : ProcessingStatus) (msg : str) (l : nat) (w : World) : World :=
  let w2 := set_ticks (S (S (ticks w))) w in
  set_heap (<[l := add_process_metadata (cleaner_record st msg w) (deref w2 l)]> (heap w2)) w2.

Lemma record_and_return st msg l w :
  bind (HydroDataCleaner._create_process_metadata self st msg)
       (fun m => bind (update l (add_process_metadata m)) (fun _ => ret l)) w
  = (Ok l, recorded st msg l w).
Proof. reflexivity. Qed.

Lemma recorded_deref_eq st msg l w :
  deref (recorded st msg l w) l
  = add_process_metadata (cleaner_record st msg w) (deref w l).
Proof.
  unfold recorded. cbv zeta.
  now rewrite (deref_update_eq (set_ticks (S (S (ticks w))) w)).
Qed.

Lemma recorded_deref_ne st msg l w x :
  x <> l -> deref (recorded st msg l w) x = deref w x.
Proof.
  intros H. unfold recorded. cbv zeta.
  now rewrite (deref_update_ne (set_ticks (S (S (ticks w))) w)) by congruence.
Qed.

(** Whether the registry [st] holds a duplicate of a text with digest
    [text_hash]. *)
Definition known_duplicate (st : CleanerState) (text : str) (text_hash : string) : bool :=
  bool_decide (text_hash ∈ seen_hashes st)
  || existsb (fun '(_, existing_content) =>
                HydroDataCleaner.is_similar self text existing_content)
             (map_to_list (seen_contents st)).

(** The registry once a text is registered. *)
Definition registered (st : CleanerState) (text : str) (text_hash : string)
    (chunk_id : string) : CleanerState :=
  {| seen_hashes := {[ text_hash ]} ∪ seen_hashes st;
     seen_contents := <[chunk_id := text]> (seen_contents st) |}.

Lemma is_duplicate_eq text chunk_id w :
  HydroDataCleaner._is_duplicate self text chunk_id w
  = match str_encode text with
    | Raise e => (Raise e, w)
    | Ok encoded =>
      let h := md5_hexdigest encoded in
      if known_duplicate (cleaner_state w) text h then (Ok true, w)
      else (Ok false,
            set_cleaner_state (registered (cleaner_state w) text h chunk_id) w)
    end.
Proof.
  unfold HydroDataCleaner._is_duplicate, known_duplicate.
  unfold bind at 1. unfold lift at 1.
  destruct (str_encode text) as [encoded|e]; [|reflexivity].
  unfold bind at 1. unfold get_world at 1. cbv zeta.
  destruct (bool_decide (md5_hexdigest encoded ∈ seen_hashes (cleaner_state w)));
    [reflexivity|].
  cbn [orb].
  destruct (existsb _ _); reflexivity.
Qed.

(** The duplicate gate of [process_single]. *)
Definition duplicate_gate (text : str) (chunk_id : string) : M bool :=
  if remove_duplicates self then HydroDataCleaner._is_duplicate self text chunk_id
  else ret false.

(** The state after a chunk is cleaned. *)
Definition cleaned_state (l : nat) (original text : str) (w : World) : World :=
  let ratio :=
    match original with
    | [] => VInt 0
    | _ => VFloat (Qnat (length text) / Qnat (length original))
    end in
  let w1 := set_heap (<[l := set_content text (deref w l)]> (heap w)) w in
  set_heap (<[l :=
    set_extra "cleaning_ratio" ratio
      (set_extra "cleaned_length" (VInt (Z.of_nat (length text)))
         (set_extra "original_length" (VInt (Z.of_nat (length original)))
            (set_extra "cleaned" (VBool true) (deref w1 l))))]> (heap w1)) w1.

(** [process_single], path by path. *)
Lemma cleaner_single_eq l w :
  HydroDataCleaner.process_single self l w
  = let d := deref w l in
    if negb (BaseSkill.validate_input d) then (Ok l, w)
    else
      let text := cleaned_text d in
      if negb (HydroDataCleaner._quality_check self text) then (Ok l, w)
      else
        match duplicate_gate text (id d) w with
        | (Ok true, w1) => (Ok l, recorded SKIPPED (py "重复数据") l w1)
        | (Ok false, w1) => (Ok l, cleaned_state l (content d) text w1)
        | (Raise e, w1) => (Ok l, recorded FAILED (exn_msg e) l w1)
        end.
Proof.
  unfold HydroDataCleaner.process_single. cbv zeta.
  unfold bind at 1. unfold read at 1.
  destruct (negb (BaseSkill.validate_input (deref w l))); [reflexivity|].
  unfold try_except.
  unfold bind at 1. unfold read at 1.
  unfold bind at 1. unfold read at 1.
  unfold bind at 1. unfold read at 1.
  fold (cleaned_text (deref w l)).
  destruct (negb (HydroDataCleaner._quality_check self (cleaned_text (deref w l))));
    [reflexivity|].
  unfold bind at 1. unfold read at 1.
  unfold bind at 1. fold (duplicate_gate (cleaned_text (deref w l)) (id (deref w l))).
  destruct (duplicate_gate (cleaned_text (deref w l)) (id (deref w l)) w)
    as [[[|]|e] w1].
  - rewrite record_and_return. reflexivity.
  - reflexivity.
  - rewrite record_and_return. reflexivity.
Qed.

End CleanerPaths.

Section CleanerRejection.
Context {U : UnicodeData} {R : Runtime}.
Variable self : CleanerSelf.

(** What the source calls a duplicate: the digest of the text is registered,
    or a registered text is more similar than the threshold. *)
Definition duplicate_of_registered (st : CleanerState) (text : str) (encoded : list N)
  : Prop :=
  md5_hexdigest encoded ∈ seen_hashes st
  \/ exists chunk_id existing,
       seen_contents st !! chunk_id = Some existing
       /\ (similarity_threshold self
           < HydroDataCleaner._calculate_similarity text existing)%Q.

Lemma Qltb_true (a b : Q) : Qltb a b = true <-> (a < b)%Q.
Proof.
  unfold Qltb. destruct (Qlt_le_dec a b) as [H|H]; split; intros H'; auto.
  - discriminate.
  - exfalso. apply (Qlt_irrefl a). eapply Qlt_le_trans; eauto.
Qed.

Lemma known_duplicate_iff st text encoded :
  known_duplicate self st text (md5_hexdigest encoded) = true
  <-> duplicate_of_registered st text encoded.
Proof.
  unfold known_duplicate, duplicate_of_registered.
  rewrite orb_true_iff, bool_decide_eq_true, existsb_exists.
  split; (intros [H|H]; [left; exact H|right]).
  - destruct H as [[chunk_id existing] [Hin Hs]].
    exists chunk_id, existing. split.
    + apply elem_of_map_to_list. now apply list_elem_of_In.
    + now apply Qltb_true.
  - destruct H as (chunk_id & existing & Hin & Hs).
    exists (chunk_id, existing). split.
    + apply list_elem_of_In. now apply elem_of_map_to_list.
    + now apply Qltb_true.
Qed.

(** The duplicate path of [process_single]. *)
Lemma duplicate_path l w encoded :
  let d := deref w l in
  remove_duplicates self = true ->
  BaseSkill.validate_input d = true ->
  HydroDataCleaner._quality_check self (cleaned_text self d) = true ->
  str_encode (cleaned_text self d) = Ok encoded ->
  known_duplicate self (cleaner_state w) (cleaned_text self d) (md5_hexdigest encoded) = true ->
  HydroDataCleaner.process_single self l w
  = (Ok l, recorded self SKIPPED (py "重复数据") l w).
Proof.
  intros d Hr Hv Hq He Hk. rewrite cleaner_single_eq. cbv zeta. fold d.
  rewrite Hv, Hq. cbn [negb].
  unfold duplicate_gate. rewrite Hr, is_duplicate_eq, He. cbv zeta.
  rewrite Hk. reflexivity.
Qed.

(** The rejection path of the quality gate. *)
Lemma quality_rejection_path l w :
  HydroDataCleaner._quality_check self (cleaned_text self (deref w l)) = false ->
  HydroDataCleaner.process_single self l w = (Ok l, w).
Proof.
  intros Hq. rewrite cleaner_single_eq. cbv zeta.
  destruct (negb (BaseSkill.validate_input (deref w l))); [reflexivity|].
  now rewrite Hq.
Qed.

Lemma recorded_history st msg l w :
  history (recorded self st msg l w) l = history w l ++ [cleaner_record self st msg w].
Proof. unfold history. now rewrite recorded_deref_eq. Qed.

Lemma recorded_cleaner_state st msg l w :
  cleaner_state (recorded self st msg l w) = cleaner_state w.
Proof. reflexivity. Qed.

(** The registry after one call of [process_single] on a chunk that passes
    both gates and whose cleaned text can be encoded: the text is known. *)
Lemma processed_text_is_known l w encoded :
  let d := deref w l in
  remove_duplicates self = true ->
  BaseSkill.validate_input d = true ->
  HydroDataCleaner._quality_check self (cleaned_text self d) = true ->
  str_encode (cleaned_text self d) = Ok encoded ->
  known_duplicate self
    (cleaner_state (snd (HydroDataCleaner.process_single self l w)))
    (cleaned_text self d) (md5_hexdigest encoded) = true.
Proof.
  intros d Hr Hv Hq He. rewrite cleaner_single_eq. cbv zeta. fold d.
  rewrite Hv, Hq. cbn [negb].
  unfold duplicate_gate. rewrite Hr, is_duplicate_eq, He. cbv zeta.
  destruct (known_duplicate self (cleaner_state w) (cleaned_text self d)
              (md5_hexdigest encoded)) eqn:Hk.
  - cbn [snd]. now rewrite recorded_cleaner_state.
  - cbn [snd]. unfold cleaned_state. cbv zeta. cbn [cleaner_state set_heap set_cleaner_state].
    unfold known_duplicate, registered. cbn [seen_hashes].
    rewrite bool_decide_eq_true_2; [reflexivity|]. set_solver.
Qed.

(** One call of [process_single] leaves every other chunk alone. *)
Lemma cleaner_single_frame l w x :
  x <> l -> deref (snd (HydroDataCleaner.process_single self l w)) x = deref w x.
Proof.
  intros Hx. rewrite cleaner_single_eq. cbv zeta.
  destruct (negb (BaseSkill.validate_input (deref w l))); [reflexivity|].
  destruct (negb (HydroDataCleaner._quality_check self _)); [reflexivity|].
  unfold duplicate_gate.
  destruct (remove_duplicates self).
  - rewrite is_duplicate_eq.
    destruct (str_encode _) as [encoded|e]; cbv zeta.
    + destruct (known_duplicate _ _ _ _); cbn [snd].
      * now apply recorded_deref_ne.
      * unfold cleaned_state, deref. cbn [heap set_heap set_cleaner_state].
        rewrite !lookup_total_insert_ne by congruence. reflexivity.
    + cbn [snd]. now apply recorded_deref_ne.
  - cbn [ret snd]. unfold cleaned_state, deref. cbn [heap set_heap].
    rewrite !lookup_total_insert_ne by congruence. reflexivity.
Qed.

End CleanerRejection.

(** ** Concrete batches for the Cleaner *)

(** The Cleaner as the controller builds it, with a minimum length of ten. *)
Definition example_cleaner : CleanerSelf := HydroDataCleaner.default_self 10 ∅.

Definition flood_text : str := py "三峡水库的防洪调度方案，保障长江流域安全。".

(** Two chunks with one and the same text. *)
Definition two_chunks : World :=
  set_heap (list_to_map [ (0, new_chunk "a" flood_text);
                          (1, new_chunk "b" flood_text) ]%nat) new_world.

(** Three chunks the quality gate turns away: one too short, one that
    repeats four characters, one with no water vocabulary. *)
Definition rejected_chunks : World :=
  set_heap (list_to_map
    [ (0, new_chunk "short" (py "水库调度"));
      (1, new_chunk "repeated" (py "水水水水水库库库库库坝坝坝坝坝河河河河河水水水水水"));
      (2, new_chunk "off-topic" (py "今天我们一起去公园散步，然后顺便买点东西。")) ]%nat)
    new_world.

(** C2, as the specification words it, fails: each of the three chunks passes
    input validation and is turned away by the quality gate, one for its
    length, one for its repetition, one for its vocabulary;
    [process_single] returns it with the state
    untouched, so that its history holds no record at all and its latest
    status is still PENDING, not SKIPPED. *)
Lemma quality_rejection_is_silent :
  let process := @HydroDataCleaner.process_single basic_ucd example_runtime example_cleaner in
  let gate l := HydroDataCleaner._quality_check example_cleaner
                  (@cleaned_text basic_ucd example_runtime example_cleaner
                     (deref rejected_chunks l)) in
  Forall (fun l =>
            BaseSkill.validate_input (deref rejected_chunks l) = true
            /\ gate l = false
            /\ process l rejected_chunks = (Ok l, rejected_chunks)
            /\ history (snd (process l rejected_chunks)) l = []
            /\ get_latest_status (deref (snd (process l rejected_chunks)) l) = PENDING)
         [0; 1; 2]%nat
  /\ (Z.of_nat (length (strip (@cleaned_text basic_ucd example_runtime example_cleaner
                                 (deref rejected_chunks 0))))
      <? min_text_length example_cleaner)%Z = true
  /\ (size (char_set (@cleaned_text basic_ucd example_runtime example_cleaner
                        (deref rejected_chunks 1))) <? 5)%nat = true
  /\ contains_any HydroDataCleaner.hydro_keywords
       (@cleaned_text basic_ucd example_runtime example_cleaner (deref rejected_chunks 2)) = false.
Proof.
  cbv zeta.
  split; [|split; [|split]]; [|vm_compute; reflexivity..].
  repeat (constructor 2;
          [split; [|split; [|split; [|split]]]; vm_compute; reflexivity|]).
  constructor 1.
Qed.

(** C2, amended. A chunk that passes input validation and that the Cleaner
    turns away comes back as follows. When it fails the quality gate,
    [process_single] returns it with the whole state unchanged: no record is
    appended. When it passes the quality gate and the duplicate check answers
    yes, exactly one record is appended; its status is SKIPPED and its
    message the duplicate notice, so the latest status of the chunk is
    SKIPPED, and the chunk is still the one returned. *)
Theorem cleaner_rejection_record {U : UnicodeData} {R : Runtime}
    (self : CleanerSelf) (l : nat) (w : World) :
  let d := deref w l in
  let text := cleaned_text self d in
  BaseSkill.validate_input d = true ->
  (HydroDataCleaner._quality_check self text = false ->
     HydroDataCleaner.process_single self l w = (Ok l, w))
  /\ (HydroDataCleaner._quality_check self text = true ->
      remove_duplicates self = true ->
      forall w1,
        HydroDataCleaner._is_duplicate self text (id d) w = (Ok true, w1) ->
        exists m w',
          HydroDataCleaner.process_single self l w = (Ok l, w')
          /\ status m = SKIPPED
          /\ error_message m = Some (py "重复数据")
          /\ history w' l = history w l ++ [m]
          /\ get_latest_status (deref w' l) = SKIPPED).
Proof.
  intros d text Hv. split.
  - intros Hq. now apply quality_rejection_path.
  - intros Hq Hr w1 Hd.
    exists (cleaner_record self SKIPPED (py "重复数据") w1),
           (recorded self SKIPPED (py "重复数据") l w1).
    assert (Hs : HydroDataCleaner.process_single self l w
                 = (Ok l, recorded self SKIPPED (py "重复数据") l w1)).
    { rewrite cleaner_single_eq. cbv zeta. fold d. rewrite Hv. fold text.
      rewrite Hq. cbn [negb]. unfold duplicate_gate. rewrite Hr, Hd. reflexivity. }
    assert (Hw : w1 = w).
    { rewrite is_duplicate_eq in Hd.
      destruct (str_encode text); [|discriminate]. cbv zeta in Hd.
      destruct (known_duplicate _ _ _ _); congruence. }
    subst w1.
    split; [exact Hs|]. split; [reflexivity|]. split; [reflexivity|].
    split; [apply recorded_history|].
    unfold get_latest_status. fold (history (recorded self SKIPPED (py "重复数据") l w) l).
    rewrite recorded_history, last_snoc. reflexivity.
Qed.

(** The state in which the first of the two chunks has been processed. *)
Definition first_done : World :=
  snd (@HydroDataCleaner.process_single basic_ucd example_runtime example_cleaner 0%nat two_chunks).

Lemma cleaner_rejection_record_witness :
  BaseSkill.validate_input (deref first_done 1) = true
  /\ HydroDataCleaner._quality_check example_cleaner
       (@cleaned_text basic_ucd example_runtime example_cleaner (deref first_done 1)) = true
  /\ exists m w',
       @HydroDataCleaner.process_single basic_ucd example_runtime example_cleaner 1%nat first_done
       = (Ok 1%nat, w')
       /\ status m = SKIPPED
       /\ error_message m = Some (py "重复数据")
       /\ history w' 1 = history first_done 1 ++ [m]
       /\ get_latest_status (deref w' 1) = SKIPPED.
Proof.
  split; [vm_compute; reflexivity|]. split; [vm_compute; reflexivity|].
  refine (proj2 (@cleaner_rejection_record basic_ucd example_runtime example_cleaner
                   1%nat first_done _) _ _ first_done _);
    vm_compute; reflexivity.
Defined.

(** C3, amended. With duplicate removal on, take a chunk that passes input validation
    and the quality gate and whose cleaned text can be encoded. If the digest
    of the cleaned text is registered, or a registered text has a
    character-set similarity above the threshold, [process_single] returns
    the chunk with exactly one record appended, of status SKIPPED, and with
    everything else, the original content included, as it was; no other chunk
    changes. And of two distinct chunks with the same content and the same
    language tag, once [process_single] has run on the first, a run on the
    second marks the second SKIPPED and leaves its content alone.  The
    language tag matters: the cleaned text depends on it, as the two tagged
    chunks below show. *)
Theorem duplicate_keeps_original_content {U : UnicodeData} {R : Runtime}
    (self : CleanerSelf) :
  remove_duplicates self = true ->
  (forall l w encoded,
     let d := deref w l in
     BaseSkill.validate_input d = true ->
     HydroDataCleaner._quality_check self (cleaned_text self d) = true ->
     str_encode (cleaned_text self d) = Ok encoded ->
     duplicate_of_registered self (cleaner_state w) (cleaned_text self d) encoded ->
     exists m w',
       HydroDataCleaner.process_single self l w = (Ok l, w')
       /\ status m = SKIPPED
       /\ deref w' l = add_process_metadata m d
       /\ content (deref w' l) = content d
       /\ forall x, x <> l -> deref w' x = deref w x)
  /\ (forall l1 l2 w encoded,
        let d1 := deref w l1 in
        let d2 := deref w l2 in
        l1 <> l2 ->
        content d2 = content d1 ->
        language d2 = language d1 ->
        BaseSkill.validate_input d1 = true ->
        HydroDataCleaner._quality_check self (cleaned_text self d1) = true ->
        str_encode (cleaned_text self d1) = Ok encoded ->
        let w1 := snd (HydroDataCleaner.process_single self l1 w) in
        exists m w2,
          HydroDataCleaner.process_single self l2 w1 = (Ok l2, w2)
          /\ status m = SKIPPED
          /\ deref w2 l2 = add_process_metadata m d2
          /\ content (deref w2 l2) = content d2
          /\ get_latest_status (deref w2 l2) = SKIPPED).
Proof.
  intros Hr.
  assert (Hdup : forall l w encoded,
     BaseSkill.validate_input (deref w l) = true ->
     HydroDataCleaner._quality_check self (cleaned_text self (deref w l)) = true ->
     str_encode (cleaned_text self (deref w l)) = Ok encoded ->
     known_duplicate self (cleaner_state w) (cleaned_text self (deref w l))
       (md5_hexdigest encoded) = true ->
     exists m w',
       HydroDataCleaner.process_single self l w = (Ok l, w')
       /\ status m = SKIPPED
       /\ deref w' l = add_process_metadata m (deref w l)
       /\ content (deref w' l) = content (deref w l)
       /\ forall x, x <> l -> deref w' x = deref w x).
  { intros l w encoded Hv Hq He Hk.
    exists (cleaner_record self SKIPPED (py "重复数据") w),
           (recorded self SKIPPED (py "重复数据") l w).
    split; [now apply (duplicate_path self l w encoded)|].
    split; [reflexivity|]. split; [apply recorded_deref_eq|].
    split; [now rewrite recorded_deref_eq|].
    intros x Hx. now apply recorded_deref_ne. }
  split.
  - intros l w encoded d Hv Hq He Hk.
    apply (Hdup l w encoded Hv Hq He). now apply known_duplicate_iff.
  - intros l1 l2 w encoded d1 d2 Hne Hc Hl Hv Hq He w1.
    assert (Hd2 : deref w1 l2 = d2).
    { unfold w1. apply cleaner_single_frame. congruence. }
    assert (Ht : cleaned_text self (deref w1 l2) = cleaned_text self d1).
    { rewrite Hd2. unfold cleaned_text. now rewrite Hc, Hl. }
    destruct (Hdup l2 w1 encoded) as (m & w2 & Hs & Hm & Hd & Hcont & _).
    + rewrite Hd2. unfold BaseSkill.validate_input in *. now rewrite Hc.
    + now rewrite Ht.
    + now rewrite Ht.
    + rewrite Ht. unfold w1. now apply processed_text_is_known.
    + exists m, w2. rewrite Hd2 in Hd, Hcont.
      split; [exact Hs|]. split; [exact Hm|]. split; [exact Hd|].
      split; [exact Hcont|].
      rewrite Hd. unfold get_latest_status, add_process_metadata.
      cbn [process_metadata]. now rewrite last_snoc.
Qed.

(** The encoding of the cleaned text of the first chunk. *)
Definition flood_bytes : list N :=
  match str_encode (@cleaned_text basic_ucd example_runtime example_cleaner
                      (deref two_chunks 0)) with
  | Ok encoded => encoded
  | Raise _ => []
  end.

Lemma duplicate_keeps_original_content_witness :
  remove_duplicates example_cleaner = true
  /\ exists m w2,
       @HydroDataCleaner.process_single basic_ucd example_runtime example_cleaner 1%nat first_done
       = (Ok 1%nat, w2)
       /\ status m = SKIPPED
       /\ deref w2 1 = add_process_metadata m (deref two_chunks 1)
       /\ content (deref w2 1) = content (deref two_chunks 1)
       /\ get_latest_status (deref w2 1) = SKIPPED.
Proof.
  split; [reflexivity|].
  assert (H1 : 0%nat <> 1%nat) by discriminate.
  assert (H2 : content (deref two_chunks 1) = content (deref two_chunks 0))
    by (vm_compute; reflexivity).
  assert (H3 : language (deref two_chunks 1) = language (deref two_chunks 0))
    by (vm_compute; reflexivity).
  assert (H4 : BaseSkill.validate_input (deref two_chunks 0) = true)
    by (vm_compute; reflexivity).
  assert (H5 : HydroDataCleaner._quality_check example_cleaner
                 (@cleaned_text basic_ucd example_runtime example_cleaner
                    (deref two_chunks 0)) = true)
    by (vm_compute; reflexivity).
  assert (H6 : str_encode (@cleaned_text basic_ucd example_runtime example_cleaner
                                  (deref two_chunks 0)) = Ok flood_bytes)
    by (vm_compute; reflexivity).
  exact (proj2 (@duplicate_keeps_original_content basic_ucd example_runtime
                  example_cleaner eq_refl)
           0%nat 1%nat two_chunks flood_bytes H1 H2 H3 H4 H5 H6).
Defined.

(** ** The same content under two language tags *)

(** A segmenter that cuts a text at its spaces, each space a word of its
    own, the way jieba cuts a line of dictionary words set apart by spaces. *)
Fixpoint cut_at_spaces (word text : str) : list str :=
  let flush := match word with [] => [] | _ => [word] end in
  match text with
  | [] => flush
  | c :: rest =>
    if (c =? 32)%N then flush ++ [[c]] ++ cut_at_spaces [] rest
    else cut_at_spaces (word ++ [c]) rest
  end.

(** An environment like [example_runtime], with that segmenter as jieba. *)
Definition segmenting_runtime : Runtime := {|
  clock := fun n => Z.of_nat n;
  md5_hexdigest := fun bs => string_of_list_ascii (map ascii_of_N bs);
  jieba := Some {| lcut := fun text => Ok (cut_at_spaces [] text);
                   pseg_cut := fun _ => [] |};
  spacy_en := None;
  numpy_loaded := true;
  qa_model_loaded := false;
  random_index := fun _ _ => 0%nat;
|}.

Definition reservoirs : str := py "水库 水库 水库 水库 水库".

Definition with_language (lang : Language) (d : DataChunk) : DataChunk := {|
  id := id d; content := content d; data_type := data_type d; language := lang;
  source_metadata := source_metadata d; process_metadata := process_metadata d;
  extra_data := extra_data d;
|}.

(** Two chunks with one and the same content, the first tagged English,
    the second tagged Chinese. *)
Definition tagged_chunks : World :=
  set_heap (list_to_map [ (0, with_language ENGLISH (new_chunk "a" reservoirs));
                          (1, with_language CHINESE (new_chunk "b" reservoirs)) ]%nat)
           new_world.

(** Both chunks have content and pass the quality gate, and the Cleaner
    with duplicate removal on has run on the first.  The second is cleaned
    as Chinese text: the segmenter is asked, the spaces are dropped, and the
    cleaned text shares two of three characters with the registered one, a
    similarity of 2/3.  It is not a duplicate: it gets no SKIPPED record,
    and its content is rewritten. *)
Lemma same_content_other_tag_is_not_skipped :
  let process :=
    @HydroDataCleaner.process_single basic_ucd segmenting_runtime example_cleaner in
  let text l :=
    @cleaned_text basic_ucd segmenting_runtime example_cleaner (deref tagged_chunks l) in
  let w1 := snd (process 0%nat tagged_chunks) in
  let w2 := snd (process 1%nat w1) in
  remove_duplicates example_cleaner = true
  /\ content (deref tagged_chunks 1) = content (deref tagged_chunks 0)
  /\ language (deref tagged_chunks 0) = ENGLISH
  /\ language (deref tagged_chunks 1) = CHINESE
  /\ BaseSkill.validate_input (deref tagged_chunks 0) = true
  /\ BaseSkill.validate_input (deref tagged_chunks 1) = true
  /\ HydroDataCleaner._quality_check example_cleaner (text 0%nat) = true
  /\ HydroDataCleaner._quality_check example_cleaner (text 1%nat) = true
  /\ fst (process 0%nat tagged_chunks) = Ok 0%nat
  /\ fst (process 1%nat w1) = Ok 1%nat
  /\ history w2 1 = []
  /\ get_latest_status (deref w2 1) = PENDING
  /\ content (deref w2 1) = py "水库水库水库水库水库"
  /\ @HydroDataCleaner._calculate_similarity basic_ucd (text 1%nat) (text 0%nat) = 2 # 3.
Proof.
  cbv zeta.
  repeat (split; [vm_compute; reflexivity|]).
  vm_compute; reflexivity.
Qed.

(** ** The batch harness and a transform that raises *)

(** C1.  For each of the three stages (Cleaner, Enhancer, Evaluator) and
    every list of chunks, [process_batch], the one of [BaseSkill] and the
    monitored one the stages run, returns the very list it was given, same
    length and same order, and every chunk of the batch ends with a history
    that extends the one it had by at least one record.  The transform of a
    stage never raises (each stage catches its own exceptions), so the
    failure path of the harness is not taken by them.  For any skill, in
    the turn of a chunk whose transform raises, the harness catches the
    exception and puts that same chunk in the output with one more history
    record, of status FAILED and carrying the message of the exception;
    the chunk is otherwise as the transform left it when it raised, not as
    it was before the turn: nothing the transform changed is undone. *)
Theorem process_batch_keeps_every_chunk (U : UnicodeData) (R : Runtime)
    (cleaner : CleanerSelf) (enhancer : EnhancerSelf) (evaluator : EvaluatorSelf) :
  (forall stage chunks w,
     exists w',
       BaseSkill.process_batch (stage_skill cleaner enhancer evaluator stage) chunks w
       = (Ok chunks, w')
       /\ (forall l, l ∈ chunks ->
             history w l `prefix_of` history w' l
             /\ length (history w l) < length (history w' l)))
  /\ (forall stage chunks w,
        exists w',
          stage_process_batch cleaner enhancer evaluator stage chunks w
          = (Ok chunks, w')
          /\ (forall l, l ∈ chunks ->
                history w l `prefix_of` history w' l
                /\ length (history w l) < length (history w' l)))
  /\ (forall stage l w,
        exists w',
          stage_process_single cleaner enhancer evaluator stage l w = (Ok l, w'))
  /\ (forall (self : Skill) l w e w1,
        process_single self l (started w) = (Raise e, w1) ->
        exists m w',
          BaseSkill.process_one self l w = (Ok l, w')
          /\ status m = FAILED /\ error_message m = Some (exn_msg e)
          /\ processor_name m = name self
          /\ deref w' l = add_process_metadata m (deref w1 l)
          /\ (forall x, x <> l -> deref w' x = deref w1 x)).
Proof.
  split; [|split; [|split]].
  - intros stage chunks w.
    pose proof (stage_contract cleaner enhancer evaluator stage) as Hc.
    destruct (batch_spec _ Hc chunks w) as (w' & E & Hext & Hlen).
    exists w'. split; [exact E|]. intros l Hl. split; [apply Hext | now apply Hlen].
  - intros stage chunks w.
    pose proof (stage_contract cleaner enhancer evaluator stage) as Hc.
    destruct (monitored_batch_spec _ Hc stage chunks w) as (w' & E & Hext & Hlen).
    exists w'. split; [destruct stage; exact E|].
    intros l Hl. split; [apply Hext | now apply Hlen].
  - intros stage l w.
    destruct (stage_single_spec cleaner enhancer evaluator stage l w) as (w' & E & _).
    now exists w'.
  - intros self l w e w1 E.
    destruct (turn_raised self l w e w1 E) as (m & w' & E1 & Hs & Hmsg & Hn & _ & Hl & Hx).
    exists m, w'. repeat (split; [assumption|]). exact Hx.
Qed.

(** A skill whose transform overwrites the content of its chunk and then
    raises. *)
Definition overwriting_skill : Skill :=
  Build_Skill "Overwriting" ∅
    (fun l => let* _ := update l (set_content (py "changed")) in
              raise (Exception "ValueError" (py "boom"))).

(** A batch of one chunk through that skill: the chunk is in the output
    with a FAILED record that carries the message, and with the content
    the transform wrote, not the content it had. *)
Lemma failed_chunk_is_not_restored :
  let run := @BaseSkill.process_batch example_runtime overwriting_skill [0%nat] two_chunks in
  fst run = Ok [0%nat]
  /\ get_latest_status (deref (snd run) 0) = FAILED
  /\ (exists m, last (process_metadata (deref (snd run) 0)) = Some m
                /\ error_message m = Some (py "boom"))
  /\ content (deref two_chunks 0) = flood_text
  /\ content (deref (snd run) 0) = py "changed"
  /\ content (deref (snd run) 0) <> content (deref two_chunks 0).
Proof.
  cbv zeta.
  split; [vm_compute; reflexivity|].
  split; [vm_compute; reflexivity|].
  split; [eexists; split; vm_compute; reflexivity|].
  split; [vm_compute; reflexivity|].
  split; [vm_compute; reflexivity|].
  vm_compute. discriminate.
Qed.

(* ===================================================================== *)
(** * Question-answer pairs on their way to the dataset                    *)
(* ===================================================================== *)

(** What is left of a pair once it went through the entry the Enhancer
    stores and through [QAData] called on that entry. *)
Definition stored_pair (qa : QAData) : QAData := {|
  question := question qa; answer := answer qa;
  context := None; difficulty := None; domain := None; confidence := None;
  metadata := ∅;
|}.

Lemma qa_round_trip (qa : QAData) :
  HydroDataPipeline.qa_of_entry (HydroDataEnhancer.qa_entry qa) = Ok (stored_pair qa).
Proof. reflexivity. Qed.

Section QACopy.
Context {U : UnicodeData} {R : Runtime}.

Lemma add_entries_spec (qas : list QAData) (pd : ProcessedData) (w : World) :
  exists pd' w',
    HydroDataPipeline.add_entries (map HydroDataEnhancer.qa_entry qas) pd w = (Ok pd', w')
    /\ pd_qa_pairs pd' = pd_qa_pairs pd ++ map stored_pair qas
    /\ pd_chunks pd' = pd_chunks pd
    /\ heap w' = heap w.
Proof.
  revert pd w. induction qas as [|qa qas IH]; intros pd w.
  - exists pd, w. cbn. rewrite app_nil_r. auto.
  - cbn [map HydroDataPipeline.add_entries].
    unfold bind at 1. rewrite qa_round_trip. unfold lift at 1.
    unfold bind at 1. unfold HydroDataPipeline.add_qa_pair at 1.
    unfold bind at 1. unfold now at 1. unfold ret at 1.
    match goal with |- context [HydroDataPipeline.add_entries _ ?p ?v] =>
      destruct (IH p v) as (pd' & w' & E & Hp & Hc & Hh) end.
    exists pd', w'. split; [exact E|]. cbn [pd_qa_pairs pd_chunks] in Hp, Hc.
    split; [|split; [exact Hc | exact Hh]].
    rewrite Hp, <- app_assoc. reflexivity.
Qed.

(** The pairs [_generate_qa_pairs] makes for a chunk, none when it raises. *)
Definition generated_pairs (d : DataChunk) (w : World) : list QAData :=
  match fst (HydroDataEnhancer._generate_qa_pairs d w) with
  | Ok qa_pairs => qa_pairs
  | Raise _ => []
  end.

(** Every generated pair comes with a context, a domain and a confidence. *)
Definition fully_described (qa : QAData) : Prop :=
  context qa <> None /\ domain qa <> None
  /\ (confidence qa = Some (8 # 10) \/ confidence qa = Some (7 # 10)).

Lemma template_loop_described content terms n_terms head :
  forall acc w,
    Forall fully_described acc ->
    match fst (HydroDataEnhancer.template_loop content terms n_terms head acc w) with
    | Ok qa_pairs => Forall fully_described qa_pairs
    | Raise _ => True
    end.
Proof.
  induction head as [|term_info rest IH]; intros acc w Hacc.
  - exact Hacc.
  - cbn [HydroDataEnhancer.template_loop].
    unfold bind at 1.
    destruct (lift (HydroDataEnhancer.term_of term_info) w) as [[term|e] w1];
      [|exact I].
    unfold bind at 1.
    destruct (HydroDataEnhancer.random_choice HydroDataEnhancer.qa_templates w1)
      as [[[qa_type templates]|e] w2]; [|exact I].
    unfold bind at 1.
    destruct (HydroDataEnhancer.random_choice templates w2) as [[template|e] w3];
      [|exact I].
    unfold bind at 1.
    match goal with |- context [(if ?c then ?a else ?b) w3] =>
      destruct ((if c then a else b) w3) as [[question|e] w4] end; [|exact I].
    apply IH.
    destruct (HydroDataEnhancer._generate_answer_for_term term content qa_type);
      [exact Hacc|].
    apply Forall_app. split; [exact Hacc|].
    apply Forall_cons. split; [|apply Forall_nil; exact I].
    unfold fully_described, mkQA. cbn [context domain confidence].
    split; [discriminate|]. split; [discriminate|]. now left.
Qed.

Lemma content_based_described (d : DataChunk) :
  Forall fully_described (HydroDataEnhancer._generate_content_based_qa d).
Proof.
  unfold HydroDataEnhancer._generate_content_based_qa. cbv zeta.
  apply Forall_flat_map. apply Forall_forall. intros num _.
  destruct (str_find (content d) num); [|apply Forall_nil; exact I].
  apply Forall_cons. split; [|apply Forall_nil; exact I].
  unfold fully_described, mkQA. cbn [context domain confidence].
  split; [discriminate|]. split; [discriminate|]. now right.
Qed.

Lemma generated_pairs_described (d : DataChunk) (w : World) :
  Forall fully_described (generated_pairs d w).
Proof.
  unfold generated_pairs, HydroDataEnhancer._generate_qa_pairs.
  unfold bind at 1. unfold HydroDataEnhancer._generate_template_qa.
  unfold bind at 1.
  destruct (lift (py_head 3 _) w) as [[head|e] w1]; [|apply Forall_nil; exact I].
  unfold bind at 1.
  destruct (lift (py_len _) w1) as [[n_terms|e] w2]; [|apply Forall_nil; exact I].
  match goal with |- context [HydroDataEnhancer.template_loop ?c ?t ?n ?h [] ?v] =>
    pose proof (template_loop_described c t n h [] v) as Ht;
    destruct (HydroDataEnhancer.template_loop c t n h [] v) as [[template_qa|e] w3]
  end; [|apply Forall_nil; exact I].
  cbn [fst] in *. cbv zeta. unfold ret. cbn [fst].
  specialize (Ht (proj2 (Forall_nil _) I)).
  apply Forall_take. apply Forall_app. split; [exact Ht|].
  apply Forall_app. split; [|apply content_based_described].
  destruct qa_model_loaded; apply Forall_nil; exact I.
Qed.

End QACopy.

(** A chunk that states two quantities, alone in the store. *)
Definition dam_text : str :=
  py "三峡水库的总库容为393亿立方米，防洪库容为221.5亿立方米。".

Definition dam_world : World :=
  set_heap {[ 0%nat := new_chunk "a.txt" dam_text ]} new_world.

(** A configuration with one worker, so that the batches are run in turn. *)
Definition serial_config : gmap string (gmap string pyval) :=
  {[ "pipeline"%string := {[ "max_workers"%string := VInt 1 ]} ]}.

Definition serial_pipeline : PipelineSelf :=
  HydroDataPipeline.init serial_config (HydroDataCleaner.default_self 10 ∅)
    (HydroDataEnhancer.default_self ∅) (HydroDataEvaluator.default_self ∅) false.

(** The pairs of the dataset [process_files] returns, none when it fails. *)
Definition dataset_pairs (r : res ProcessingResult) : list QAData :=
  match r with
  | Ok {| data := Some pd |} => pd_qa_pairs pd
  | _ => []
  end.

(** C4, what the code does instead.  Every pair the Enhancer generates has a
    context, a domain and a confidence of 0.8 or 0.7.  The entry it stores
    under [generated_qa] keeps the question and the answer only, so that the
    pair the controller builds from the entry has the question and the answer
    of the generated pair and no context, no difficulty, no domain and no
    confidence; the loop that fills the dataset appends these stripped pairs,
    in order.  On the chunk of [dam_world] the Enhancer generates two pairs of
    domain 数据 and confidence 0.7, stores their entries, and the dataset of
    the whole run holds two pairs without context, domain or confidence. *)
Theorem dataset_pairs_lose_context_domain_confidence :
  (forall (U : UnicodeData) (R : Runtime) d w,
     Forall fully_described (@generated_pairs U R d w))
  /\ (forall qa,
        HydroDataPipeline.qa_of_entry (HydroDataEnhancer.qa_entry qa)
        = Ok {| question := question qa; answer := answer qa;
                context := None; difficulty := None; domain := None;
                confidence := None; metadata := ∅ |})
  /\ (forall (R : Runtime) l qas pd w,
        let w1 :=
          set_heap (<[l := set_extra "generated_qa"
                             (VList (map HydroDataEnhancer.qa_entry qas))
                             (deref w l)]> (heap w)) w in
        exists pd' w',
          HydroDataPipeline.collect_qa [l] pd w1 = (Ok pd', w')
          /\ pd_qa_pairs pd' = pd_qa_pairs pd ++ map stored_pair qas)
  /\ (let generated :=
        @generated_pairs basic_ucd example_runtime (deref dam_world 0) dam_world in
      let enhanced :=
        snd (@HydroDataEnhancer.process_single basic_ucd example_runtime
               (HydroDataEnhancer.default_self ∅) 0%nat dam_world) in
      let run :=
        @HydroDataPipeline.process_files basic_ucd example_runtime
          (example_io dam_text) serial_pipeline ["a.txt"%string] None new_world in
      map confidence generated = [Some (7 # 10); Some (7 # 10)]
      /\ map domain generated = [Some (py "数据"); Some (py "数据")]
      /\ extra_data (deref enhanced 0) !! "generated_qa"%string
         = Some (VList (map HydroDataEnhancer.qa_entry generated))
      /\ length (dataset_pairs (fst run)) = 2%nat
      /\ map confidence (dataset_pairs (fst run)) = [None; None]
      /\ map domain (dataset_pairs (fst run)) = [None; None]
      /\ map context (dataset_pairs (fst run)) = [None; None]).
Proof.
  split; [|split; [|split]].
  - intros U R d w. apply generated_pairs_described.
  - intros qa. apply qa_round_trip.
  - intros R l qas pd w w1.
    cbn [HydroDataPipeline.collect_qa].
    unfold bind at 1. unfold read at 1.
    assert (Hb : extra_data (deref w1 l) !! "generated_qa"%string
                 = Some (VList (map HydroDataEnhancer.qa_entry qas))).
    { unfold w1. rewrite deref_update_eq. unfold set_extra. cbn [extra_data].
      apply lookup_insert_eq. }
    rewrite Hb. unfold bind at 1. unfold bind at 1. unfold lift at 1.
    cbn [py_iter].
    destruct (add_entries_spec qas pd w1) as (pd' & w' & E & Hp & _).
    rewrite E. exists pd', w'. split; [reflexivity | exact Hp].
  - cbv zeta.
    split; [vm_compute; reflexivity|].
    split; [vm_compute; reflexivity|].
    split; [vm_compute; reflexivity|].
    split; [vm_compute; reflexivity|].
    split; [vm_compute; reflexivity|].
    split; vm_compute; reflexivity.
Qed.

(* ===================================================================== *)
(** * The bounds of the scores                                             *)
(* ===================================================================== *)

Definition in_unit (q : Q) : Prop := (0 <= q /\ q <= 1)%Q.

Lemma Qnat_nonneg (n : nat) : (0 <= Qnat n)%Q.
Proof. unfold Qnat, Qle. simpl. lia. Qed.

Lemma Qdiv_nonneg (a b : Q) : (0 <= a -> 0 <= b -> 0 <= a / b)%Q.
Proof.
  intros Ha Hb. unfold Qdiv. apply Qmult_le_0_compat; [exact Ha|].
  now apply Qinv_le_0_compat.
Qed.

Lemma Qnat_ratio_nonneg (n m : nat) : (0 <= Qnat n / Qnat m)%Q.
Proof. apply Qdiv_nonneg; apply Qnat_nonneg. Qed.

Lemma py_min_unit (x : Q) : (0 <= x)%Q -> in_unit (py_min 1 x).
Proof. intros H. unfold in_unit, py_min. destruct (Qlt_le_dec x 1); split; lra. Qed.

Lemma py_max_unit (x : Q) : (x <= 1)%Q -> in_unit (py_max 0 x).
Proof. intros H. unfold in_unit, py_max. destruct (Qlt_le_dec 0 x); split; lra. Qed.

Lemma py_min_le_one (x : Q) : (py_min 1 x <= 1)%Q.
Proof. unfold py_min. destruct (Qlt_le_dec x 1); lra. Qed.

Lemma Qsquare_nonneg (x : Q) : (0 <= x * x)%Q.
Proof. unfold Qle, Qmult. simpl. nia. Qed.

Lemma Qsum_nonneg (l : list Q) : Forall (fun x => (0 <= x)%Q) l -> (0 <= HydroDataEvaluator.Qsum l)%Q.
Proof.
  induction 1 as [|x l Hx _ IH]; simpl.
  - lra.
  - lra.
Qed.

Lemma np_var_nonneg (xs : list nat) : (0 <= HydroDataEvaluator.np_var xs)%Q.
Proof.
  unfold HydroDataEvaluator.np_var. cbv zeta.
  apply Qdiv_nonneg; [|apply Qnat_nonneg].
  apply Qsum_nonneg. apply Forall_map. apply Forall_forall. intros x _.
  apply Qsquare_nonneg.
Qed.

Lemma weight_positive (metric : string) :
  (0 < default (25 # 100) (assoc metric HydroDataEvaluator.metric_weights))%Q.
Proof.
  unfold HydroDataEvaluator.metric_weights. cbn [assoc].
  repeat match goal with |- context [String.eqb ?a ?b] => destruct (String.eqb a b) end;
    reflexivity.
Qed.

Lemma weighted_sum_bounds (scores : list (string * Q)) :
  forall overall total_weight,
    (0 <= overall /\ overall <= total_weight)%Q ->
    Forall (fun ms => in_unit (snd ms)) scores ->
    let r :=
      fold_left (fun '(overall, total_weight) '(metric, score) =>
                   let weight :=
                     default (25 # 100) (assoc metric HydroDataEvaluator.metric_weights) in
                   ((overall + score * weight)%Q, (total_weight + weight)%Q))
                scores (overall, total_weight) in
    (0 <= fst r /\ fst r <= snd r)%Q.
Proof.
  induction scores as [|[metric score] scores IH]; intros overall total_weight Hb Hs.
  - exact Hb.
  - cbn [fold_left]. cbv zeta. apply IH.
    + apply Forall_cons in Hs. destruct Hs as [[H0 H1] _]. cbn [snd] in *.
      pose proof (weight_positive metric) as Hw.
      set (weight := default (25 # 100) (assoc metric HydroDataEvaluator.metric_weights)) in *.
      assert (0 <= score * weight)%Q by (apply Qmult_le_0_compat; lra).
      assert (score * weight <= 1 * weight)%Q by (apply Qmult_le_compat_r; lra).
      split; lra.
    + apply Forall_cons in Hs. tauto.
Qed.

Lemma overall_score_unit (scores : list (string * Q)) :
  Forall (fun ms => in_unit (snd ms)) scores ->
  in_unit (HydroDataEvaluator._calculate_overall_score scores).
Proof.
  intros Hs. unfold HydroDataEvaluator._calculate_overall_score.
  assert (H00 : (0 <= 0 /\ 0 <= 0)%Q) by (split; lra).
  pose proof (weighted_sum_bounds scores 0 0 H00 Hs) as Hb. cbv zeta in Hb.
  destruct (fold_left _ scores _) as [overall total_weight]. cbn [fst snd] in Hb.
  unfold Qltb. destruct (Qlt_le_dec 0 total_weight) as [Hpos|_].
  - split.
    + apply Qdiv_nonneg; lra.
    + apply Qle_shift_div_r; [exact Hpos|]. lra.
  - split; lra.
Qed.

Lemma assoc_unit (k : string) (scores : list (string * Q)) :
  Forall (fun ms => in_unit (snd ms)) scores ->
  in_unit (default 0%Q (assoc k scores)).
Proof.
  induction 1 as [|[k' s] scores Hs _ IH]; cbn [assoc default].
  - split; simpl; lra.
  - destruct (String.eqb k k'); [exact Hs | exact IH].
Qed.

Section ScoreBounds.
Context {U : UnicodeData} {R : Runtime}.

Lemma completeness_unit content d :
  match HydroDataEvaluator._evaluate_completeness content d with
  | Ok s => in_unit s
  | Raise e =>
    py_len (dict_get (extra_data d) "extracted_terms" (VList [])) = Raise e
  end.
Proof.
  unfold HydroDataEvaluator._evaluate_completeness. cbv zeta.
  destruct (py_len _) as [n_terms|e]; [|reflexivity].
  apply py_min_unit.
  pose proof (py_min_unit (Qnat (length content) / 200)) as [H1 _].
  { apply Qdiv_nonneg; [apply Qnat_nonneg | lra]. }
  pose proof (py_min_unit
                (Qnat (length (re_findall HydroDataEvaluator.re_word_token content)) / 50))
    as [H2 _].
  { apply Qdiv_nonneg; [apply Qnat_nonneg | lra]. }
  set (a := py_min 1 (Qnat (length content) / 200)) in *.
  set (b := py_min 1 (Qnat (length (re_findall HydroDataEvaluator.re_word_token content)) / 50)) in *.
  clearbody a b.
  repeat match goal with |- context [if ?c then _ else _] => destruct c end; lra.
Qed.

Lemma relevance_unit content lang :
  in_unit (HydroDataEvaluator._evaluate_relevance content lang).
Proof.
  unfold HydroDataEvaluator._evaluate_relevance. cbv zeta.
  apply py_min_unit.
  pose proof (Qnat_ratio_nonneg (HydroDataEvaluator.matched_keywords content)
                (length HydroDataEvaluator.hydro_keywords)) as Hk.
  set (k := (Qnat (HydroDataEvaluator.matched_keywords content)
             / Qnat (length HydroDataEvaluator.hydro_keywords))%Q) in *.
  clearbody k.
  assert (Hd : (0 <= fold_left
                  (fun domain_score '(_, pattern) =>
                     if re_search (HydroDataEvaluator.word_alternation pattern) content
                     then domain_score + (25 # 100) else domain_score)
                  HydroDataEvaluator.domain_patterns 0)%Q).
  { unfold HydroDataEvaluator.domain_patterns. cbn [fold_left].
    repeat match goal with |- context [if ?c then _ else _] => destruct c end; lra. }
  match type of Hd with (0 <= ?t)%Q => set (ds := t) in * end. clearbody ds.
  destruct (re_findall HydroDataEvaluator.re_words content) as [|word words].
  - lra.
  - match goal with |- context [py_min 1 ?x] =>
      pose proof (py_min_unit x) as [Ht _]; [|set (t := py_min 1 x) in *; clearbody t]
    end.
    + apply Qmult_le_0_compat; [apply Qnat_ratio_nonneg | lra].
    + lra.
Qed.

Lemma consistency_unit content lang :
  in_unit (HydroDataEvaluator._evaluate_consistency content lang).
Proof.
  unfold HydroDataEvaluator._evaluate_consistency. cbv zeta.
  apply py_max_unit. apply py_min_le_one.
Qed.

(** The sentences [_evaluate_diversity] counts: the pieces between the
    marks that end a sentence, stripped, the empty ones left out. *)
Definition sentences_of (content : str) : list str :=
  map strip (filter (fun s => strip s <> [])
                    (re_split HydroDataEvaluator.re_sentence_end content)).

Lemma diversity_unit content lang :
  match HydroDataEvaluator._evaluate_diversity content lang with
  | Ok s => in_unit s
  | Raise e =>
    numpy_loaded = false /\ (1 <? length (sentences_of content))%nat = true
    /\ e = HydroDataEvaluator.name_error "name 'np' is not defined"
  end.
Proof.
  unfold HydroDataEvaluator._evaluate_diversity. cbv zeta.
  set (words := re_findall HydroDataEvaluator.re_words (py_lower content)).
  fold (sentences_of content).
  set (sentences := sentences_of content).
  assert (Hv : (0 <= (if (0 <? length words)%nat
                      then 0 + Qnat (length (remove_dups words)) / Qnat (length words)
                               * (3 # 10)
                      else 0))%Q).
  { destruct (0 <? length words)%nat; [|lra].
    pose proof (Qnat_ratio_nonneg (length (remove_dups words)) (length words)). lra. }
  match type of Hv with (0 <= ?t)%Q => set (v := t) in * end. clearbody v.
  assert (Htail : forall score, (0 <= score)%Q ->
    in_unit (py_min 1
      (score
       + Qnat (length (filter (fun '(_, keywords) => contains_any keywords content = true)
                         HydroDataEvaluator.topic_keywords))
         / Qnat (length HydroDataEvaluator.topic_keywords) * (3 # 10)
       + Qnat (length
           (let info_types : list string := [] in
            let info_types :=
              if re_search HydroDataEvaluator.re_number content
              then info_types ++ ["数值"%string] else info_types in
            let info_types :=
              if re_search HydroDataEvaluator.description_punct content
              then info_types ++ ["描述"%string] else info_types in
            let info_types :=
              if contains_any (map py ["因为"; "所以"; "由于"; "因此"]%string) content
              then info_types ++ ["因果"%string] else info_types in
            let info_types :=
              if contains_any (map py ["首先"; "其次"; "最后"; "另外"]%string) content
              then info_types ++ ["逻辑"%string] else info_types in
            info_types)) / 4 * (2 # 10)))).
  { intros score Hs. apply py_min_unit.
    match goal with |- (0 <= _ + ?a * _ + ?b / 4 * _)%Q =>
      assert (0 <= a)%Q by apply Qnat_ratio_nonneg;
      assert (0 <= b)%Q by apply Qnat_nonneg;
      set (x := a) in *; set (y := b) in *; clearbody x y
    end.
    assert (0 <= y / 4)%Q by (apply Qdiv_nonneg; lra).
    set (z := (y / 4)%Q) in *. clearbody z. lra. }
  destruct (1 <? length sentences)%nat.
  - destruct numpy_loaded; cbn [negb]; [|repeat split; reflexivity].
    apply Htail.
    match goal with |- context [py_min 1 ?x] =>
      pose proof (py_min_unit x) as [Ht _]; [|set (t := py_min 1 x) in *; clearbody t]
    end.
    + apply Qmult_le_0_compat; [|lra].
      destruct (Qltb 0 _); [|lra].
      apply Qdiv_nonneg.
      * destruct (1 <? _)%nat; [apply np_var_nonneg | lra].
      * apply Qsquare_nonneg.
    + lra.
  - apply Htail. exact Hv.
Qed.

(** When the diversity sub-score is returned, numpy was there or was not
    needed. *)
Lemma diversity_returns content lang :
  match HydroDataEvaluator._evaluate_diversity content lang with
  | Ok s => numpy_loaded = true \/ (length (sentences_of content) <= 1)%nat
  | Raise e => True
  end.
Proof.
  unfold HydroDataEvaluator._evaluate_diversity. cbv zeta.
  fold (sentences_of content).
  destruct (1 <? length (sentences_of content))%nat eqn:Hs.
  - destruct numpy_loaded; cbn [negb]; [now left | exact I].
  - right. apply Nat.ltb_ge in Hs. exact Hs.
Qed.

End ScoreBounds.

Lemma quality_unit {U : UnicodeData} {R : Runtime} (self : EvaluatorSelf) (d : DataChunk) :
  match HydroDataEvaluator._evaluate_quality self d with
  | Ok q =>
    in_unit (overall_score q) /\ in_unit (completeness_score q)
    /\ in_unit (relevance_score q) /\ in_unit (consistency_score q)
    /\ in_unit (diversity_score q)
    /\ Forall (fun ms => in_unit (snd ms)) (details q)
  | Raise e =>
    py_len (dict_get (extra_data d) "extracted_terms" (VList [])) = Raise e
    \/ numpy_loaded = false
  end.
Proof.
  unfold HydroDataEvaluator._evaluate_quality. cbv zeta.
  pose proof (completeness_unit (content d) d) as Hc.
  pose proof (relevance_unit (content d) (language d)) as Hr.
  pose proof (consistency_unit (content d) (language d)) as Hk.
  pose proof (diversity_unit (content d) (language d)) as Hv.
  set (P := fun ms : string * Q => in_unit (snd ms)).
  assert (H1 : match (if HydroDataEvaluator.in_metrics self "completeness"
                      then match HydroDataEvaluator._evaluate_completeness (content d) d with
                           | Ok s => Ok ([] ++ [("completeness"%string, s)])
                           | Raise e => Raise e
                           end
                      else Ok []) with
               | Ok scores => Forall P scores
               | Raise e =>
                 py_len (dict_get (extra_data d) "extracted_terms" (VList [])) = Raise e
               end).
  { destruct (HydroDataEvaluator.in_metrics self "completeness").
    - destruct (HydroDataEvaluator._evaluate_completeness (content d) d) as [s|e].
      + cbn [app]. apply Forall_cons. split; [exact Hc | apply Forall_nil; exact I].
      + exact Hc.
    - apply Forall_nil; exact I. }
  match type of H1 with match ?t with _ => _ end => destruct t as [scores1|e] end;
    [|left; exact H1].
  match goal with |- context [if HydroDataEvaluator.in_metrics self "diversity" then _ else Ok ?sc] =>
    assert (H3 : Forall P sc); [|set (scores3 := sc) in *; clearbody scores3]
  end.
  { assert (H2 : Forall P
        (if HydroDataEvaluator.in_metrics self "relevance"
         then scores1 ++ [("relevance"%string,
                           HydroDataEvaluator._evaluate_relevance (content d) (language d))]
         else scores1)).
    { destruct (HydroDataEvaluator.in_metrics self "relevance"); [|exact H1].
      apply Forall_app. split; [exact H1|].
      apply Forall_cons. split; [exact Hr | apply Forall_nil; exact I]. }
    destruct (HydroDataEvaluator.in_metrics self "consistency"); [|exact H2].
    apply Forall_app. split; [exact H2|].
    apply Forall_cons. split; [exact Hk | apply Forall_nil; exact I]. }
  assert (H4 : match (if HydroDataEvaluator.in_metrics self "diversity"
                      then match HydroDataEvaluator._evaluate_diversity
                                   (content d) (language d) with
                           | Ok s => Ok (scores3 ++ [("diversity"%string, s)])
                           | Raise e => Raise e
                           end
                      else Ok scores3) with
               | Ok scores => Forall P scores
               | Raise e => numpy_loaded = false
               end).
  { destruct (HydroDataEvaluator.in_metrics self "diversity"); [|exact H3].
    destruct (HydroDataEvaluator._evaluate_diversity (content d) (language d)) as [s|e].
    - apply Forall_app. split; [exact H3|].
      apply Forall_cons. split; [exact Hv | apply Forall_nil; exact I].
    - exact (proj1 Hv). }
  match type of H4 with match ?t with _ => _ end => destruct t as [scores|e] end;
    [|right; exact H4].
  cbn [overall_score completeness_score relevance_score consistency_score
       diversity_score details].
  split; [now apply overall_score_unit|].
  split; [now apply assoc_unit|]. split; [now apply assoc_unit|].
  split; [now apply assoc_unit|]. split; [now apply assoc_unit|]. exact H4.
Qed.

(** C5, amended.  In the model where a float is a rational.  Whatever the
    content, the language tag and the chunk, the relevance and the
    consistency sub-scores lie between 0 and 1, and the completeness
    sub-score does whenever the length of the extracted terms can be taken,
    failing which the function raises the error of [len].  When numpy could
    be imported the diversity sub-score is returned for every content and
    lies between 0 and 1.  In general it lies between 0 and 1 whenever it is
    returned, and it is not returned exactly when numpy is missing and the
    content has more than one sentence: the function then raises
    [NameError].  The overall score of any scores within the interval is
    within the interval; and the quality score [_evaluate_quality] builds
    has its overall score and its four sub-scores within the interval. *)
Theorem scores_lie_in_unit_interval {U : UnicodeData} {R : Runtime} (self : EvaluatorSelf) :
  (forall content d,
     match HydroDataEvaluator._evaluate_completeness content d with
     | Ok s => in_unit s
     | Raise e =>
       py_len (dict_get (extra_data d) "extracted_terms" (VList [])) = Raise e
     end)
  /\ (forall content lang, in_unit (HydroDataEvaluator._evaluate_relevance content lang))
  /\ (forall content lang, in_unit (HydroDataEvaluator._evaluate_consistency content lang))
  /\ (numpy_loaded = true ->
      forall content lang,
        exists s, HydroDataEvaluator._evaluate_diversity content lang = Ok s /\ in_unit s)
  /\ (forall content lang,
        match HydroDataEvaluator._evaluate_diversity content lang with
        | Ok s =>
          in_unit s
          /\ (numpy_loaded = true \/ (length (sentences_of content) <= 1)%nat)
        | Raise e =>
          numpy_loaded = false /\ (1 < length (sentences_of content))%nat
          /\ e = HydroDataEvaluator.name_error "name 'np' is not defined"
        end)
  /\ (forall scores,
        Forall (fun ms => in_unit (snd ms)) scores ->
        in_unit (HydroDataEvaluator._calculate_overall_score scores))
  /\ (forall d,
        match HydroDataEvaluator._evaluate_quality self d with
        | Ok q =>
          in_unit (overall_score q) /\ in_unit (completeness_score q)
          /\ in_unit (relevance_score q) /\ in_unit (consistency_score q)
          /\ in_unit (diversity_score q)
          /\ Forall (fun ms => in_unit (snd ms)) (details q)
        | Raise e =>
          py_len (dict_get (extra_data d) "extracted_terms" (VList [])) = Raise e
          \/ numpy_loaded = false
        end).
Proof.
  split; [intros; apply completeness_unit|].
  split; [intros; apply relevance_unit|].
  split; [intros; apply consistency_unit|].
  split.
  { intros Hn content lang. pose proof (diversity_unit content lang) as H.
    destruct (HydroDataEvaluator._evaluate_diversity content lang) as [s|e].
    - now exists s.
    - destruct H as [H _]. congruence. }
  split.
  { intros content lang. pose proof (diversity_unit content lang) as H.
    pose proof (diversity_returns content lang) as Hr.
    destruct (HydroDataEvaluator._evaluate_diversity content lang) as [s|e].
    - split; [exact H|]. exact Hr.
    - destruct H as (Hn & Hs & He). apply Nat.ltb_lt in Hs. auto. }
  split; [intros scores Hs; now apply overall_score_unit|].
  intros d. apply quality_unit.
Qed.

(** The scores of a chunk about flood control, and an overall score. *)
Lemma scores_lie_in_unit_interval_witness :
  let scores := [("completeness"%string, 1 # 2); ("relevance"%string, 1)]%Q in
  Forall (fun ms => in_unit (snd ms)) scores
  /\ in_unit (HydroDataEvaluator._calculate_overall_score scores)
  /\ @numpy_loaded example_runtime = true
  /\ (exists s,
        @HydroDataEvaluator._evaluate_diversity basic_ucd example_runtime flood_text AUTO
        = Ok s /\ in_unit s)
  /\ match @HydroDataEvaluator._evaluate_quality basic_ucd example_runtime
             (HydroDataEvaluator.default_self ∅) (new_chunk "a" flood_text) with
     | Ok q =>
       in_unit (overall_score q) /\ in_unit (completeness_score q)
       /\ in_unit (relevance_score q) /\ in_unit (consistency_score q)
       /\ in_unit (diversity_score q)
       /\ Forall (fun ms => in_unit (snd ms)) (details q)
     | Raise e =>
       py_len (dict_get (extra_data (new_chunk "a" flood_text)) "extracted_terms"
                 (VList [])) = Raise e
       \/ @numpy_loaded example_runtime = false
     end.
Proof.
  cbv zeta.
  assert (Hs : Forall (fun ms : string * Q => in_unit (snd ms))
                 [("completeness"%string, 1 # 2); ("relevance"%string, 1)]%Q).
  { repeat (apply List.Forall_cons; [split; vm_compute; discriminate|]).
    apply List.Forall_nil. }
  split; [exact Hs|].
  split.
  - exact (proj1 (proj2 (proj2 (proj2 (proj2 (proj2
             (@scores_lie_in_unit_interval basic_ucd example_runtime
                (HydroDataEvaluator.default_self ∅))))))) _ Hs).
  - split; [reflexivity|]. split.
    + exact (proj1 (proj2 (proj2 (proj2
               (@scores_lie_in_unit_interval basic_ucd example_runtime
                  (HydroDataEvaluator.default_self ∅)))))
               eq_refl flood_text AUTO).
    + exact (proj2 (proj2 (proj2 (proj2 (proj2 (proj2
               (@scores_lie_in_unit_interval basic_ucd example_runtime
                  (HydroDataEvaluator.default_self ∅)))))))
               (new_chunk "a" flood_text)).
Defined.

(** An environment like [example_runtime] in which numpy could not be
    imported. *)
Definition bare_runtime : Runtime := {|
  clock := fun n => Z.of_nat n;
  md5_hexdigest := fun bs => string_of_list_ascii (map ascii_of_N bs);
  jieba := None;
  spacy_en := None;
  numpy_loaded := false;
  qa_model_loaded := false;
  random_index := fun _ _ => 0%nat;
|}.

Definition two_sentences : str := py "水库蓄水。大坝防洪。".

(** Without numpy a content of two sentences has no diversity sub-score
    and no quality score: both functions raise [NameError]; and the
    Evaluator, which catches the exception, returns the chunk with a FAILED
    record and without a score. *)
Lemma diversity_raises_without_numpy :
  let chunks := set_heap {[ 0%nat := new_chunk "a" two_sentences ]} new_world in
  let run := @HydroDataEvaluator.process_single basic_ucd bare_runtime
               (HydroDataEvaluator.default_self ∅) 0%nat chunks in
  @sentences_of basic_ucd two_sentences = [py "水库蓄水"; py "大坝防洪"]
  /\ @HydroDataEvaluator._evaluate_diversity basic_ucd bare_runtime two_sentences AUTO
     = Raise (HydroDataEvaluator.name_error "name 'np' is not defined")
  /\ @HydroDataEvaluator._evaluate_quality basic_ucd bare_runtime
       (HydroDataEvaluator.default_self ∅) (new_chunk "a" two_sentences)
     = Raise (HydroDataEvaluator.name_error "name 'np' is not defined")
  /\ fst run = Ok 0%nat
  /\ get_latest_status (deref (snd run) 0) = FAILED
  /\ extra_data (deref (snd run) 0) !! "quality_score"%string = None.
Proof.
  cbv zeta.
  repeat (split; [vm_compute; reflexivity|]).
  vm_compute; reflexivity.
Qed.

Example quality_of_flood_text :
  exists q,
    @HydroDataEvaluator._evaluate_quality basic_ucd example_runtime
      (HydroDataEvaluator.default_self ∅) (new_chunk "a" flood_text) = Ok q
    /\ map fst (details q) = ["completeness"; "relevance"; "consistency"; "diversity"]%string.
Proof. eexists. split; vm_compute; reflexivity. Qed.

(* ===================================================================== *)
(** * The matcher on the patterns of the relevance score                   *)
(* ===================================================================== *)

Section MatcherFacts.
Context {U : UnicodeData}.

Lemma startswith_app (w a b : str) :
  startswith w a = true -> startswith w (a ++ b) = true.
Proof.
  revert a. induction w as [|c w IH]; intros a H; [reflexivity|].
  destruct a as [|x a]; [discriminate|]. cbn [startswith app] in *.
  apply andb_true_iff in H. destruct H as [Hc Hw].
  rewrite Hc. cbn [andb]. now apply IH.
Qed.

Lemma contains_app_l (w a b : str) :
  contains w a = true -> contains w (a ++ b) = true.
Proof.
  induction a as [|x a IH]; intros H.
  - cbn [contains] in H. rewrite orb_false_r in H.
    destruct w; [|discriminate]. destruct b; reflexivity.
  - cbn [contains app] in *. apply orb_true_iff in H. apply orb_true_iff.
    destruct H as [H|H].
    + left. now apply (startswith_app w (x :: a) b).
    + right. now apply IH.
Qed.













End MatcherFacts.

(** ** Runs of characters and the words of a text *)









Section Words.
Context {U : UnicodeData}.











End Words.





(** ** Quotients of counts *)




Lemma filter_length_le {A} (f : A -> bool) (l : list A) :
  (length (List.filter f l) <= length l)%nat.
Proof. induction l as [|x l IH]; cbn; [lia|]. destruct (f x); cbn; lia. Qed.

(* ===================================================================== *)
(** * Relevance and appended keywords                                      *)
(* ===================================================================== *)








Section Relevance.
Context {U : UnicodeData}.
Hypothesis lower_empty : py_lower [] = [].
Hypothesis lower_chinese_suffix :
  forall a b, forallb is_cjk b = true -> py_lower (a ++ b) = py_lower a ++ b.







End Relevance.





(* ===================================================================== *)
(** * The matcher and the scan, in general                                 *)
(* ===================================================================== *)

Section ScanFacts.
Context {U : UnicodeData}.










End ScanFacts.

(* ===================================================================== *)
(** * Runs squeezed to one space, replaced strings, stripped ends          *)
(* ===================================================================== *)













Section SqueezeScan.
Context {U : UnicodeData}.



End SqueezeScan.

(** ** [str.replace] *)











(** ** [str.strip] *)










(* ===================================================================== *)
(** * Basic cleaning, pass by pass                                         *)
(* ===================================================================== *)

Import HydroDataCleaner.




(** The characters the punctuation map replaces by other ones, and the line
    feed, which the long key of the map holds. *)
Definition mapped_chars : list N :=
  flat_map (fun kv => match kv with
                      | ([k], [v]) => if (k =? v)%N then [] else [k]
                      | _ => []
                      end) chinese_punctuation_map.













Lemma punctuation_values_plain :
  forallb (fun kv => forallb (fun c => negb (is_cjk c)
                                        && negb (existsb (N.eqb c) mapped_chars))
                             (snd kv))
          chinese_punctuation_map = true.
Proof. vm_compute. reflexivity. Qed.


Section Passes.
Context {U : UnicodeData}.

(** ** No match without a line feed *)




(** ** The three passes *)










(** ** Chinese characters *)



(** ** The form of a cleaned text *)




End Passes.



(** Two lines with doubled blanks, a unit after a number, a tag and Chinese
    punctuation. *)
Definition report_text : str :=
  py "三峡水库  总库容393亿立方米。" ++ [13; 10]%N
  ++ py "坝长2309m，防洪库容221.5亿立方米！ 详见 <b>Report</b> 2020年版。".


Example report_text_cleaned :
  @HydroDataCleaner._basic_text_cleaning basic_ucd
    (HydroDataCleaner.default_self 10 ∅) report_text
  = py "三峡水库 总库容393亿立方米. 坝长2309 m,防洪库容221.5亿立方米! 详见 Report 2020年版.".
Proof. vm_compute. reflexivity. Qed.

(* ===================================================================== *)
(** * What a stage touches                                                 *)
(* ===================================================================== *)

(** [w'] differs from [w] at most in the chunk behind [l], the clock, the
    random draws and the registries of the stages: the monitors, the
    statistics of the controller and every other chunk are as they were. *)
Definition only (l : nat) (w w' : World) : Prop :=
  monitors w' = monitors w
  /\ processing_stats w' = processing_stats w
  /\ forall x, x <> l -> deref w' x = deref w x.

Lemma only_refl l w : only l w w.
Proof. repeat split. Qed.

Lemma only_trans l w1 w2 w3 : only l w1 w2 -> only l w2 w3 -> only l w1 w3.
Proof.
  intros (Hm1 & Hs1 & Hd1) (Hm2 & Hs2 & Hd2). split; [congruence|].
  split; [congruence|]. intros x Hx. rewrite Hd2, Hd1; auto.
Qed.

(** A computation that touches the chunk behind [l] only. *)
Definition touches {A} (l : nat) (m : M A) : Prop := forall w, only l w (snd (m w)).

Lemma touches_ret {A} l (a : A) : touches l (ret a).
Proof. intros w. apply only_refl. Qed.

Lemma touches_raise {A} l e : touches l (@raise A e).
Proof. intros w. apply only_refl. Qed.

Lemma touches_lift {A} l (r : res A) : touches l (lift r).
Proof. intros w. apply only_refl. Qed.

Lemma touches_get_world l : touches l get_world.
Proof. intros w. apply only_refl. Qed.

Lemma touches_read {A} l x (f : DataChunk -> A) : touches l (read x f).
Proof. intros w. apply only_refl. Qed.

Lemma touches_now {R : Runtime} l : touches l now.
Proof. intros w. repeat split. Qed.

Lemma touches_modify l f :
  (forall w, heap (f w) = heap w /\ monitors (f w) = monitors w
             /\ processing_stats (f w) = processing_stats w) ->
  touches l (modify f).
Proof.
  intros H w. destruct (H w) as (Hh & Hm & Hs). cbn [modify snd].
  split; [exact Hm|]. split; [exact Hs|]. intros x _. unfold deref. now rewrite Hh.
Qed.

Lemma touches_update l f : touches l (update l f).
Proof.
  intros w. unfold update, modify. cbn [snd]. split; [reflexivity|].
  split; [reflexivity|]. intros x Hx. apply deref_update_ne. congruence.
Qed.

Lemma touches_bind {A B} l (m : M A) (f : A -> M B) :
  touches l m -> (forall a, touches l (f a)) -> touches l (bind m f).
Proof.
  intros Hm Hf w. unfold bind. specialize (Hm w).
  destruct (m w) as [[a|e] w1]; cbn [snd] in *.
  - eapply only_trans; [exact Hm | apply Hf].
  - exact Hm.
Qed.

Lemma touches_try {A} l (m : M A) h :
  touches l m -> (forall e, touches l (h e)) -> touches l (try_except m h).
Proof.
  intros Hm Hh w. unfold try_except. specialize (Hm w).
  destruct (m w) as [[a|e] w1]; cbn [snd] in *.
  - exact Hm.
  - eapply only_trans; [exact Hm | apply Hh].
Qed.

Create HintDb pyframe discriminated.
#[export] Hint Resolve touches_ret touches_raise touches_lift touches_get_world
  touches_read touches_now touches_update : pyframe.

(** Walks a computation down its binds, branches and handlers. *)
Ltac framed :=
  repeat first
    [ progress intros
    | progress cbv zeta
    | solve [auto with pyframe]
    | apply touches_bind | apply touches_try
    | apply touches_modify; intros; split; [reflexivity | split; reflexivity]
    | match goal with
      | |- touches _ (if ?b then _ else _) => destruct b
      | |- touches _ (match ?x with _ => _ end) => destruct x
      end ].

Section StageFrames.
Context {U : UnicodeData} {R : Runtime}.

Lemma cleaner_metadata_touches l self s m :
  touches l (HydroDataCleaner._create_process_metadata self s m).
Proof. unfold HydroDataCleaner._create_process_metadata. framed. Qed.

Lemma is_duplicate_touches l self text i :
  touches l (HydroDataCleaner._is_duplicate self text i).
Proof. unfold HydroDataCleaner._is_duplicate. framed. Qed.

Lemma cleaner_single_touches self l :
  touches l (HydroDataCleaner.process_single self l).
Proof.
  unfold HydroDataCleaner.process_single. cbv zeta.
  pose proof cleaner_metadata_touches. pose proof is_duplicate_touches.
  framed.
Qed.

Lemma evaluator_metadata_touches l self s m :
  touches l (HydroDataEvaluator._create_process_metadata self s m).
Proof. unfold HydroDataEvaluator._create_process_metadata. framed. Qed.

Lemma record_evaluation_touches l i q :
  touches l (HydroDataEvaluator._record_evaluation i q).
Proof. unfold HydroDataEvaluator._record_evaluation. framed. Qed.

Lemma evaluator_single_touches self l :
  touches l (HydroDataEvaluator.process_single self l).
Proof.
  unfold HydroDataEvaluator.process_single.
  pose proof evaluator_metadata_touches. pose proof record_evaluation_touches.
  framed.
Qed.

Lemma enhancer_metadata_touches l self s m :
  touches l (HydroDataEnhancer._create_process_metadata self s m).
Proof. unfold HydroDataEnhancer._create_process_metadata. framed. Qed.

Lemma random_choice_touches {A} l (seq : list A) :
  touches l (HydroDataEnhancer.random_choice seq).
Proof.
  intros w. unfold HydroDataEnhancer.random_choice.
  destruct (seq !! _); repeat split.
Qed.

Lemma template_loop_touches l content terms n head qa_pairs :
  touches l (HydroDataEnhancer.template_loop content terms n head qa_pairs).
Proof.
  revert qa_pairs. induction head as [|term_info rest IH]; intros qa_pairs.
  - apply touches_ret.
  - cbn [HydroDataEnhancer.template_loop].
    pose proof (@random_choice_touches). framed.
Qed.

Lemma generate_qa_pairs_touches l d :
  touches l (HydroDataEnhancer._generate_qa_pairs d).
Proof.
  unfold HydroDataEnhancer._generate_qa_pairs, HydroDataEnhancer._generate_template_qa.
  pose proof template_loop_touches. framed.
Qed.

Lemma enhancer_single_touches self l :
  touches l (HydroDataEnhancer.process_single self l).
Proof.
  unfold HydroDataEnhancer.process_single.
  pose proof enhancer_metadata_touches. pose proof generate_qa_pairs_touches.
  framed.
Qed.

Lemma stage_single_touches cleaner enhancer evaluator stage l :
  touches l (stage_process_single cleaner enhancer evaluator stage l).
Proof.
  destruct stage; cbn [stage_process_single].
  - apply cleaner_single_touches.
  - apply enhancer_single_touches.
  - apply evaluator_single_touches.
Qed.

End StageFrames.

Section TurnState.
Context {R : Runtime}.

Definition completed_state (n : string) (cfg : gmap string pyval) (l : nat)
    (w w1 : World) : World :=
  let w2 := set_ticks (S (ticks w1)) w1 in
  set_heap (<[l := add_process_metadata
                     {| processor_name := n;
                        processing_time :=
                          total_seconds (clock (ticks w1)) (clock (ticks w));
                        start_time := clock (ticks w);
                        end_time := clock (ticks w1);
                        status := COMPLETED;
                        error_message := None;
                        parameters := cfg |} (deref w2 l)]> (heap w2)) w2.

Lemma turn_completed_state n cfg ps l w w1 :
  ps l (started w) = (Ok l, w1) ->
  BaseSkill.process_one (Build_Skill n cfg ps) l w = (Ok l, completed_state n cfg l w w1).
Proof.
  intros E. unfold BaseSkill.process_one.
  erewrite try_ok; [reflexivity|].
  unfold bind at 1. unfold now at 1. fold (started w).
  unfold bind at 1.
  match goal with |- context [?p (Build_Skill n cfg ps) l (started w)] =>
    change (p (Build_Skill n cfg ps) l (started w)) with (ps l (started w)) end.
  rewrite E. reflexivity.
Qed.
End TurnState.

Section StageBatches.
Context {U : UnicodeData} {R : Runtime}.
Variable cleaner : CleanerSelf.
Variable enhancer : EnhancerSelf.
Variable evaluator : EvaluatorSelf.

Definition stage_name (stage : Stage) : string :=
  match stage with
  | Cleaner => "HydroDataCleaner"
  | Enhancer => "HydroDataEnhancer"
  | Evaluator => "HydroDataEvaluator"
  end.

Definition stage_config (stage : Stage) : gmap string pyval :=
  match stage with
  | Cleaner => cleaner_config cleaner
  | Enhancer => enhancer_config enhancer
  | Evaluator => evaluator_config evaluator
  end.

Lemma stage_skill_eq stage :
  stage_skill cleaner enhancer evaluator stage
  = Build_Skill (stage_name stage) (stage_config stage)
      (stage_process_single cleaner enhancer evaluator stage).
Proof. destruct stage; reflexivity. Qed.

(** A turn of the batch loop on a stage: the chunk ends COMPLETED, whatever
    the stage recorded before, and nothing else is touched. *)
Lemma stage_turn stage l w :
  exists w',
    BaseSkill.process_one (stage_skill cleaner enhancer evaluator stage) l w = (Ok l, w')
    /\ get_latest_status (deref w' l) = COMPLETED
    /\ only l w w'.
Proof.
  rewrite stage_skill_eq.
  destruct (stage_single_spec cleaner enhancer evaluator stage l (started w))
    as (w1 & E & _).
  pose proof (stage_single_touches cleaner enhancer evaluator stage l (started w)) as Ht.
  rewrite E in Ht. cbn [snd] in Ht. destruct Ht as (Hm & Hs & Hd).
  eexists. split; [apply turn_completed_state; exact E|].
  unfold completed_state. cbv zeta. split.
  - rewrite (deref_update_eq (set_ticks (S (ticks w1)) w1)).
    unfold get_latest_status. cbn [process_metadata add_process_metadata].
    now rewrite last_snoc.
  - split; [exact Hm|]. split; [exact Hs|]. intros x Hx.
    rewrite (deref_update_ne (set_ticks (S (ticks w1)) w1)) by congruence.
    apply (Hd x Hx).
Qed.

Lemma stage_loop stage chunks :
  forall acc w,
    exists w',
      BaseSkill.process_loop (stage_skill cleaner enhancer evaluator stage) chunks acc w
      = (Ok (acc ++ chunks), w')
      /\ monitors w' = monitors w
      /\ processing_stats w' = processing_stats w
      /\ (forall x, x ∉ chunks -> deref w' x = deref w x)
      /\ (forall l, l ∈ chunks -> get_latest_status (deref w' l) = COMPLETED).
Proof.
  induction chunks as [|c chunks IH]; intros acc w.
  - exists w. cbn [BaseSkill.process_loop]. rewrite app_nil_r.
    split; [reflexivity|]. split; [reflexivity|]. split; [reflexivity|].
    split; [reflexivity|]. intros l Hl. inversion Hl.
  - destruct (stage_turn stage c w) as (w1 & E1 & Hc & Hm1 & Hs1 & Hd1).
    destruct (IH (acc ++ [c]) w1) as (w2 & E2 & Hm2 & Hs2 & Hd2 & Hl2).
    exists w2. cbn [BaseSkill.process_loop]. unfold bind at 1. rewrite E1, E2.
    rewrite <- app_assoc. split; [reflexivity|]. split; [congruence|].
    split; [congruence|]. split.
    + intros x Hx. apply not_elem_of_cons in Hx. destruct Hx as [Hxc Hx].
      rewrite (Hd2 x Hx). now apply Hd1.
    + intros l Hl. destruct (decide (l ∈ chunks)) as [Hin|Hnin].
      * now apply Hl2.
      * apply elem_of_cons in Hl. destruct Hl as [->|Hl]; [|contradiction].
        now rewrite (Hd2 c Hnin).
Qed.

Lemma count_failed_completed w chunks :
  (forall l, l ∈ chunks -> get_latest_status (deref w l) = COMPLETED) ->
  MonitoredSkill.count_failed w chunks = 0%nat.
Proof.
  intros H. unfold MonitoredSkill.count_failed.
  induction chunks as [|c chunks IH]; [reflexivity|].
  rewrite filter_cons. rewrite (H c) by apply list_elem_of_here.
  cbn [status_eqb]. destruct (decide (false = true)) as [Hf|_]; [discriminate|].
  apply IH. intros l Hl. apply H. now apply list_elem_of_further.
Qed.

Lemma stage_batch stage chunks w :
  exists w',
    MonitoredSkill.process_batch (stage_skill cleaner enhancer evaluator stage) stage
      chunks w = (Ok chunks, w')
    /\ (forall l, l ∈ chunks -> get_latest_status (deref w' l) = COMPLETED)
    /\ (forall x, x ∉ chunks -> deref w' x = deref w x)
    /\ processed_count (monitors w' stage)
       = (processed_count (monitors w stage) + length chunks)%nat
    /\ failed_count (monitors w' stage) = failed_count (monitors w stage)
    /\ (forall s, s <> stage -> monitors w' s = monitors w s)
    /\ processing_stats w' = processing_stats w.
Proof.
  destruct (stage_loop stage chunks [] (started (started w)))
    as (w1 & E1 & Hm & Hs & Hd & Hl).
  assert (Hf : MonitoredSkill.count_failed (started w1) chunks = 0%nat).
  { apply count_failed_completed. intros l Hin. rewrite started_deref. now apply Hl. }
  unfold MonitoredSkill.process_batch.
  unfold bind at 1. unfold now at 1. fold (started w).
  unfold bind at 1. unfold BaseSkill.process_batch.
  unfold bind at 1. unfold now at 1. fold (started (started w)).
  unfold bind at 1. rewrite E1. cbn [app].
  unfold bind at 1. unfold now at 1. fold (started w1). unfold ret at 1.
  unfold bind at 1. unfold get_world at 1.
  unfold bind at 1. unfold now at 1. fold (started (started w1)).
  unfold bind at 1. unfold modify at 1. unfold ret.
  rewrite Hf.
  eexists. split; [reflexivity|].
  split; [intros l Hin; apply (Hl l Hin)|].
  split; [intros x Hx; apply (Hd x Hx)|].
  cbn [monitors set_monitors started set_ticks processing_stats].
  split; [destruct stage; cbn [MonitoredSkill.bump processed_count]; now rewrite Hm|].
  split; [destruct stage; cbn [MonitoredSkill.bump failed_count]; rewrite Hm; change (monitors (started (started w))) with (monitors w); lia|].
  split; [|exact Hs].
  intros s Hne. rewrite Hm. change (monitors (started (started w))) with (monitors w). destruct s, stage; try reflexivity; congruence.
Qed.

End StageBatches.

Section AnySkill.
Context {R : Runtime}.
Variable self : Skill.

Lemma process_one_returns l w :
  exists c w', BaseSkill.process_one self l w = (Ok c, w').
Proof.
  unfold BaseSkill.process_one, try_except.
  unfold bind at 1. unfold now at 1. fold (started w).
  unfold bind at 1.
  match goal with |- context [?p self l (started w)] =>
    destruct (p self l (started w)) as [[c|e] w1] end.
  - unfold bind, now, update, modify, ret. eexists c, _. reflexivity.
  - unfold bind, now, update, modify, ret. eexists l, _. reflexivity.
Qed.

Lemma process_loop_returns chunks :
  forall acc w,
    exists out w',
      BaseSkill.process_loop self chunks acc w = (Ok (acc ++ out), w')
      /\ length out = length chunks.
Proof.
  induction chunks as [|c chunks IH]; intros acc w.
  - exists [], w. cbn [BaseSkill.process_loop]. now rewrite app_nil_r.
  - destruct (process_one_returns c w) as (c' & w1 & E1).
    destruct (IH (acc ++ [c']) w1) as (out & w2 & E2 & Hlen).
    exists (c' :: out), w2. cbn [BaseSkill.process_loop]. unfold bind at 1.
    rewrite E1, E2. rewrite <- app_assoc. split; [reflexivity|].
    cbn [length]. now rewrite Hlen.
Qed.

Lemma process_batch_returns chunks w :
  exists out w',
    BaseSkill.process_batch self chunks w = (Ok out, w')
    /\ length out = length chunks.
Proof.
  destruct (process_loop_returns chunks [] (started w)) as (out & w1 & E & Hlen).
  exists out, (started w1). unfold BaseSkill.process_batch.
  unfold bind at 1. unfold now at 1. fold (started w).
  unfold bind at 1. rewrite E. cbn [app]. split; [reflexivity | exact Hlen].
Qed.

Lemma monitored_batch_returns stage chunks w :
  exists out w',
    MonitoredSkill.process_batch self stage chunks w = (Ok out, w')
    /\ length out = length chunks.
Proof.
  destruct (process_batch_returns chunks (started w)) as (out & w1 & E & Hlen).
  unfold MonitoredSkill.process_batch.
  unfold bind at 1. unfold now at 1. fold (started w).
  unfold bind at 1. rewrite E.
  unfold bind, get_world, now, modify, ret.
  eexists out, _. split; [reflexivity | exact Hlen].
Qed.

End AnySkill.

(** X1.  A batch run by any of the three stages (Cleaner, Enhancer,
    Evaluator) returns the list it was given, and afterwards every chunk of
    the batch has COMPLETED as its latest status, also a chunk the stage
    itself marked SKIPPED or FAILED: the stages catch their own exceptions,
    so the harness always closes the turn with a COMPLETED record.  The
    stage's [processed_count] grows by the size of the batch, its
    [failed_count] stays as it was, and neither the other stages' counters,
    the pipeline statistics nor any chunk outside the batch change. *)
Theorem stage_batch_reports_no_failure (U : UnicodeData) (R : Runtime)
    (cleaner : CleanerSelf) (enhancer : EnhancerSelf) (evaluator : EvaluatorSelf)
    (stage : Stage) (chunks : list nat) (w : World) :
  exists w',
    stage_process_batch cleaner enhancer evaluator stage chunks w = (Ok chunks, w')
    /\ (forall l, l ∈ chunks -> get_latest_status (deref w' l) = COMPLETED)
    /\ (forall x, x ∉ chunks -> deref w' x = deref w x)
    /\ processed_count (monitors w' stage)
       = (processed_count (monitors w stage) + length chunks)%nat
    /\ failed_count (monitors w' stage) = failed_count (monitors w stage)
    /\ (forall s, s <> stage -> monitors w' s = monitors w s)
    /\ processing_stats w' = processing_stats w.
Proof.
  destruct (stage_batch cleaner enhancer evaluator stage chunks w) as (w' & E & H).
  exists w'. split; [|exact H].
  destruct stage; exact E.
Qed.

(** X2.  Whatever the transform of a skill does, [process_batch] (the one
    of [BaseSkill] and the monitored one) never raises and returns as many
    chunks as it was given.  Each turn of its loop ends with one record
    written by the harness under the skill's name and parameters, after
    whatever the transform left.  When the transform returned a chunk, the
    turn returns that chunk and the record is appended to its history with
    status COMPLETED and no message.  When the transform raised, the turn
    returns the chunk it was given and the record is appended to the history
    of that chunk with status FAILED and the message of the exception. *)
Theorem process_batch_never_raises (R : Runtime)
    (n : string) (cfg : gmap string pyval) (ps : nat -> M nat) :
  let self := Build_Skill n cfg ps in
  (forall chunks w,
     exists out w',
       BaseSkill.process_batch self chunks w = (Ok out, w')
       /\ length out = length chunks)
  /\ (forall stage chunks w,
        exists out w',
          MonitoredSkill.process_batch self stage chunks w = (Ok out, w')
          /\ length out = length chunks)
  /\ (forall l w,
        match ps l (started w) with
        | (Ok c, w1) =>
          exists m w',
            BaseSkill.process_one self l w = (Ok c, w')
            /\ process_metadata (deref w' c) = process_metadata (deref w1 c) ++ [m]
            /\ processor_name m = n /\ parameters m = cfg
            /\ status m = COMPLETED /\ error_message m = None
        | (Raise e, w1) =>
          exists m w',
            BaseSkill.process_one self l w = (Ok l, w')
            /\ process_metadata (deref w' l) = process_metadata (deref w1 l) ++ [m]
            /\ processor_name m = n /\ parameters m = cfg
            /\ status m = FAILED /\ error_message m = Some (exn_msg e)
        end).
Proof.
  intros self. split; [|split].
  - apply process_batch_returns.
  - apply monitored_batch_returns.
  - intros l w. destruct (ps l (started w)) as [[c|e] w1] eqn:E.
    + destruct (turn_returned self l w c w1 E)
        as (m & w' & E1 & Hs & Hmsg & Hn & Hp & Hd & _).
      exists m, w'. split; [exact E1|]. rewrite Hd. auto.
    + destruct (turn_raised self l w e w1 E)
        as (m & w' & E1 & Hs & Hmsg & Hn & Hp & Hd & _).
      exists m, w'. split; [exact E1|]. rewrite Hd. auto.
Qed.

Lemma success_rate_bounds (m : Monitor) :
  (failed_count m <= processed_count m)%nat ->
  (0 <= SkillMonitor.success_rate (SkillMonitor.get_monitoring_info m) <= 100)%Q.
Proof.
  intros H. unfold SkillMonitor.get_monitoring_info. cbv zeta.
  cbn [SkillMonitor.success_rate].
  destruct (0 <? processed_count m)%nat eqn:Hp; [|split; lra].
  apply Nat.ltb_lt in Hp.
  assert (Hq : (0 < Qnat (processed_count m))%Q).
  { unfold Qnat, Qlt. simpl. lia. }
  assert (H0 : (0 <= inject_Z (Z.of_nat (processed_count m) - Z.of_nat (failed_count m)))%Q).
  { unfold Qle. simpl. lia. }
  assert (H1 : (inject_Z (Z.of_nat (processed_count m) - Z.of_nat (failed_count m))
                <= Qnat (processed_count m))%Q).
  { unfold Qnat, Qle. simpl. lia. }
  set (a := inject_Z _) in *. set (b := Qnat _) in *.
  assert (Hr0 : (0 <= a / b)%Q) by (apply Qdiv_nonneg; lra).
  assert (Hr1 : (a / b <= 1)%Q) by (apply Qle_shift_div_r; lra).
  split; lra.
Qed.

(** X3.  [get_monitoring_info]: as long as the failures counted do not
    exceed the chunks counted, the success rate is a percentage, between 0
    and 100; before anything was processed the success rate and the average
    time are both 0 (there is no division by zero), and the counters are
    reported as they are. *)
Theorem monitoring_info_rates (m : Monitor) :
  (failed_count m <= processed_count m)%nat ->
  let info := SkillMonitor.get_monitoring_info m in
  (0 <= SkillMonitor.success_rate info <= 100)%Q
  /\ (processed_count m = 0%nat ->
      SkillMonitor.success_rate info = 0%Q
      /\ SkillMonitor.average_processing_time info = 0%Q)
  /\ ((0 < processed_count m)%nat ->
      (SkillMonitor.average_processing_time info * Qnat (processed_count m)
       == total_processing_time m)%Q)
  /\ SkillMonitor.info_processed_count info = processed_count m
  /\ SkillMonitor.info_failed_count info = failed_count m.
Proof.
  intros H info. split; [now apply success_rate_bounds|].
  split; [|split; [|split; reflexivity]].
  - intros Hz. unfold info, SkillMonitor.get_monitoring_info. cbv zeta.
    cbn [SkillMonitor.success_rate SkillMonitor.average_processing_time].
    rewrite Hz. split; reflexivity.
  - intros Hp. unfold info, SkillMonitor.get_monitoring_info. cbv zeta.
    cbn [SkillMonitor.average_processing_time].
    apply Nat.ltb_lt in Hp as Hb. rewrite Hb.
    assert (Hq : (0 < Qnat (processed_count m))%Q).
    { unfold Qnat, Qlt. simpl. lia. }
    field. lra.
Qed.

Lemma monitoring_info_rates_witness :
  let m := {| processed_count := 4; failed_count := 1; total_processing_time := 2 |} in
  let info := SkillMonitor.get_monitoring_info m in
  (0 <= SkillMonitor.success_rate info <= 100)%Q
  /\ (processed_count m = 0%nat ->
      SkillMonitor.success_rate info = 0%Q
      /\ SkillMonitor.average_processing_time info = 0%Q)
  /\ ((0 < processed_count m)%nat ->
      (SkillMonitor.average_processing_time info * Qnat (processed_count m)
       == total_processing_time m)%Q)
  /\ SkillMonitor.info_processed_count info = processed_count m
  /\ SkillMonitor.info_failed_count info = failed_count m.
Proof.
  apply (monitoring_info_rates
           {| processed_count := 4; failed_count := 1; total_processing_time := 2 |}).
  simpl. lia.
Defined.

(** X4.  The success rate a stage reports never shows a failure: when the
    stage has counted no failure so far (as in a new pipeline) and runs a
    batch that is not empty, [get_monitoring_info] afterwards gives a
    success rate of 100 and a failure count of 0, whatever happened to the
    chunks inside the stage. *)
Theorem stage_success_rate_is_full (U : UnicodeData) (R : Runtime)
    (cleaner : CleanerSelf) (enhancer : EnhancerSelf) (evaluator : EvaluatorSelf)
    (stage : Stage) (chunks : list nat) (w : World) :
  failed_count (monitors w stage) = 0%nat ->
  chunks <> [] ->
  exists w',
    stage_process_batch cleaner enhancer evaluator stage chunks w = (Ok chunks, w')
    /\ let info := SkillMonitor.get_monitoring_info (monitors w' stage) in
       (SkillMonitor.success_rate info == 100)%Q
       /\ SkillMonitor.info_failed_count info = 0%nat
       /\ SkillMonitor.info_processed_count info
          = (processed_count (monitors w stage) + length chunks)%nat.
Proof.
  intros Hf Hne.
  destruct (stage_batch cleaner enhancer evaluator stage chunks w)
    as (w' & E & _ & _ & Hp & Hf' & _).
  exists w'. split; [destruct stage; exact E|].
  unfold SkillMonitor.get_monitoring_info. cbv zeta.
  cbn [SkillMonitor.success_rate SkillMonitor.info_failed_count
       SkillMonitor.info_processed_count].
  rewrite Hf', Hf, Hp.
  assert (Hpos : (0 < processed_count (monitors w stage) + length chunks)%nat).
  { destruct chunks; [congruence|]. cbn [length]. lia. }
  apply Nat.ltb_lt in Hpos as Hb. rewrite Hb.
  split; [|split; reflexivity].
  change (Z.of_nat 0) with 0%Z. rewrite Z.sub_0_r.
  fold (Qnat (processed_count (monitors w stage) + length chunks)).
  assert (Hq : (0 < Qnat (processed_count (monitors w stage) + length chunks))%Q).
  { unfold Qnat, Qlt. simpl. lia. }
  field. lra.
Qed.

Lemma stage_success_rate_is_full_witness :
  exists w',
    @stage_process_batch basic_ucd example_runtime example_cleaner
      (HydroDataEnhancer.default_self ∅) (HydroDataEvaluator.default_self ∅)
      Cleaner [0%nat] two_chunks = (Ok [0%nat], w')
    /\ let info := SkillMonitor.get_monitoring_info (monitors w' Cleaner) in
       (SkillMonitor.success_rate info == 100)%Q
       /\ SkillMonitor.info_failed_count info = 0%nat
       /\ SkillMonitor.info_processed_count info
          = (processed_count (monitors two_chunks Cleaner) + length [0%nat])%nat.
Proof.
  apply (stage_success_rate_is_full basic_ucd example_runtime example_cleaner
           (HydroDataEnhancer.default_self ∅) (HydroDataEvaluator.default_self ∅)
           Cleaner [0%nat] two_chunks).
  - reflexivity.
  - discriminate.
Defined.

(* ===================================================================== *)
(** * The controller: batches run in turn                                  *)
(* ===================================================================== *)

Lemma slice_then_rest {A} (l : list A) (i b : nat) :
  drop i l = slice l i (i + b) ++ drop (i + b) l.
Proof.
  unfold slice. replace (i + b - i)%nat with b by lia.
  rewrite <- drop_drop. symmetry. apply take_drop.
Qed.

Section SerialBatches.
Context {U : UnicodeData} {R : Runtime}.
Variable io : PipelineIO.
Variable self : PipelineSelf.
Variable cleaner : CleanerSelf.
Variable enhancer : EnhancerSelf.
Variable evaluator : EvaluatorSelf.

Lemma save_checkpoint_returns skill_name chunks index v w :
  pipeline_config self !! "checkpoint_enabled"%string = Some v ->
  exists w', HydroDataPipeline._save_checkpoint io self skill_name chunks index w
             = (Ok tt, w').
Proof.
  intros Hv. unfold HydroDataPipeline._save_checkpoint.
  unfold bind at 1. unfold lift at 1. rewrite (getattr_present _ _ _ Hv).
  destruct (negb (py_truthy v)); [eexists; reflexivity|].
  unfold bind at 1. unfold now at 1.
  unfold bind at 1. unfold now at 1.
  unfold bind at 1. unfold get_world at 1.
  unfold try_except.
  match goal with |- context [save_checkpoint_json io ?n ?i ?d ?v] =>
    destruct (save_checkpoint_json io n i d v) as [[[]|e] w1] end;
    eexists; reflexivity.
Qed.

Lemma batch_loop_serial stage chunks b v :
  pipeline_config self !! "checkpoint_enabled"%string = Some v ->
  (0 < b)%nat ->
  forall fuel i acc w,
    (length chunks <= i + fuel)%nat ->
    exists w',
      HydroDataPipeline.batch_loop io self fuel
        (stage_skill cleaner enhancer evaluator stage) stage chunks b i acc w
      = (Ok (acc ++ drop i chunks), w').
Proof.
  intros Hv Hb. induction fuel as [|fuel IH]; intros i acc w Hlen.
  - exists w. cbn [HydroDataPipeline.batch_loop].
    rewrite drop_ge by lia. now rewrite app_nil_r.
  - cbn [HydroDataPipeline.batch_loop].
    destruct (length chunks <=? i)%nat eqn:Hi.
    + apply Nat.leb_le in Hi. exists w. rewrite drop_ge by lia.
      now rewrite app_nil_r.
    + cbv zeta.
      destruct (stage_batch cleaner enhancer evaluator stage
                  (slice chunks i (i + b)) w) as (w1 & E1 & _).
      unfold bind at 1. rewrite E1.
      unfold bind at 1. unfold lift at 1. rewrite (getattr_present _ _ _ Hv).
      unfold bind at 1.
      assert (Hck : exists w2,
        (if py_truthy v && (i mod (b * 5) =? 0)%nat
         then HydroDataPipeline._save_checkpoint io self
                (name (stage_skill cleaner enhancer evaluator stage))
                (slice chunks i (i + b)) i
         else ret tt) w1 = (Ok tt, w2)).
      { destruct (py_truthy v && (i mod (b * 5) =? 0)%nat).
        - now apply save_checkpoint_returns with v.
        - eexists. reflexivity. }
      destruct Hck as (w2 & E2). rewrite E2.
      destruct (IH (i + b)%nat (acc ++ slice chunks i (i + b)) w2) as (w3 & E3);
        [lia|].
      exists w3. rewrite E3. rewrite <- app_assoc.
      now rewrite <- slice_then_rest.
Qed.

Lemma process_batches_serial stage chunks batch_size z v w :
  pipeline_config self !! "max_workers"%string = Some (VInt z) -> (z <= 1)%Z ->
  pipeline_config self !! "checkpoint_enabled"%string = Some v ->
  (0 < batch_size)%Z ->
  exists w',
    HydroDataPipeline._process_batches io self
      (stage_skill cleaner enhancer evaluator stage) stage chunks batch_size w
    = (Ok chunks, w').
Proof.
  intros Hm Hz Hv Hb. unfold HydroDataPipeline._process_batches.
  unfold bind at 1. unfold lift at 1. rewrite (getattr_present _ _ _ Hm).
  unfold bind at 1. unfold lift at 1. cbn [py_gt_one].
  assert (Hlt : (1 <? z)%Z = false) by (apply Z.ltb_ge; lia). rewrite Hlt.
  unfold bind at 1. unfold ret at 1.
  assert (H0 : (batch_size =? 0)%Z = false) by (apply Z.eqb_neq; lia).
  assert (Hn : (batch_size <? 0)%Z = false) by (apply Z.ltb_ge; lia).
  rewrite H0, Hn.
  destruct (batch_loop_serial stage chunks (Z.to_nat batch_size) v Hv
              ltac:(lia) (length chunks) 0%nat [] w ltac:(lia)) as (w' & E).
  exists w'. exact E.
Qed.

Lemma process_batches_degenerate skill stage chunks batch_size z w :
  pipeline_config self !! "max_workers"%string = Some (VInt z) -> (z <= 1)%Z ->
  (batch_size <= 0)%Z ->
  HydroDataPipeline._process_batches io self skill stage chunks batch_size w
  = if (batch_size =? 0)%Z
    then (Raise (Exception "ValueError" (py "range() arg 3 must not be zero")), w)
    else (Ok [], w).
Proof.
  intros Hm Hz Hb. unfold HydroDataPipeline._process_batches.
  unfold bind at 1. unfold lift at 1. rewrite (getattr_present _ _ _ Hm).
  unfold bind at 1. unfold lift at 1. cbn [py_gt_one].
  assert (Hlt : (1 <? z)%Z = false) by (apply Z.ltb_ge; lia). rewrite Hlt.
  unfold bind at 1. unfold ret at 1.
  destruct (batch_size =? 0)%Z eqn:H0; [reflexivity|].
  apply Z.eqb_neq in H0.
  assert (Hn : (batch_size <? 0)%Z = true) by (apply Z.ltb_lt; lia).
  now rewrite Hn.
Qed.

End SerialBatches.

Lemma bind_ok_inv {A B} (m : M A) (f : A -> M B) w b w' :
  bind m f w = (Ok b, w') -> exists a w1, m w = (Ok a, w1) /\ f a w1 = (Ok b, w').
Proof.
  unfold bind. destruct (m w) as [[a|e] w1]; [|discriminate].
  intros H. now exists a, w1.
Qed.

Section ProcessFiles.
Context {U : UnicodeData} {R : Runtime}.
Variable io : PipelineIO.
Variable self : PipelineSelf.

(** What [process_files] returns when everything went well. *)
Definition success_result (r : ProcessingResult) : Prop :=
  success r = true /\ result_error_message r = None
  /\ is_Some (data r) /\ is_Some (result_processing_time r).

(** What it returns when an exception reached its handler. *)
Definition failure_result (r : ProcessingResult) : Prop :=
  success r = false /\ data r = None
  /\ is_Some (result_error_message r) /\ is_Some (result_processing_time r).

Lemma process_files_returns file_paths output_path w :
  exists r w',
    HydroDataPipeline.process_files io self file_paths output_path w = (Ok r, w')
    /\ (success_result r \/ failure_result r).
Proof.
  unfold HydroDataPipeline.process_files.
  unfold bind at 1. unfold now at 1.
  unfold bind at 1. unfold now at 1. cbn [ticks set_ticks].
  unfold bind at 1. unfold HydroDataPipeline.set_files at 1. unfold modify at 1.
  unfold try_except.
  match goal with |- context [match ?b ?w0 with _ => _ end] =>
    destruct (b w0) as [[r|e] w1] eqn:E end.
  - exists r, w1. split; [reflexivity|]. left.
    repeat (apply bind_ok_inv in E; destruct E as (? & ? & _ & E)).
    unfold ret in E. injection E as <- _.
    unfold success_result. cbn [success result_error_message data result_processing_time].
    repeat split; eauto.
  - unfold bind, now, ret. eexists _, _. split; [reflexivity|]. right.
    unfold failure_result. cbn [success result_error_message data result_processing_time].
    repeat split; eauto.
Qed.

End ProcessFiles.

Section DegenerateBatchSize.
Context {U : UnicodeData} {R : Runtime}.
Variable io : PipelineIO.
Variable self : PipelineSelf.
Variables z b : Z.
Hypothesis workers : pipeline_config self !! "max_workers"%string = Some (VInt z).
Hypothesis serial : (z <= 1)%Z.
Hypothesis size : pipeline_config self !! "batch_size"%string = Some (VInt b).

(** The exception [range] raises for a step of zero. *)
Definition zero_step : exn :=
  Exception "ValueError" (py "range() arg 3 must not be zero").

Lemma run_stage_degenerate present chunks w :
  (b <= 0)%Z ->
  HydroDataPipeline.run_stage io self present chunks w
  = match present with
    | None => (Ok chunks, w)
    | Some _ => if (b =? 0)%Z then (Raise zero_step, w) else (Ok [], w)
    end.
Proof.
  intros Hb. destruct present as [[skill stage]|]; [|reflexivity].
  unfold HydroDataPipeline.run_stage.
  unfold bind at 1. unfold lift at 1. rewrite (getattr_present _ _ _ size).
  unfold bind at 1. unfold lift at 1. cbn [as_int].
  now apply process_batches_degenerate with z.
Qed.

Lemma process_chunks_negative chunks w :
  (b < 0)%Z -> some_stage self ->
  HydroDataPipeline._process_chunks io self chunks w = (Ok [], w).
Proof.
  intros Hb Hs. unfold some_stage in Hs.
  assert (Hb0 : (b =? 0)%Z = false) by (apply Z.eqb_neq; lia).
  unfold HydroDataPipeline._process_chunks.
  unfold HydroDataPipeline.cleaner_entry, HydroDataPipeline.enhancer_entry,
    HydroDataPipeline.evaluator_entry.
  destruct (cleaner_skill self) as [c|], (enhancer_skill self) as [e|],
    (evaluator_skill self) as [v|]; cbn [option_map];
    try (destruct Hs as [[? H]|[[? H]|[? H]]]; discriminate H);
    repeat (unfold bind at 1; rewrite run_stage_degenerate by lia; rewrite ?Hb0);
    reflexivity.
Qed.

Lemma process_chunks_zero chunks w :
  b = 0%Z -> some_stage self ->
  HydroDataPipeline._process_chunks io self chunks w = (Raise zero_step, w).
Proof.
  intros Hb Hs. unfold some_stage in Hs.
  assert (Hb0 : (b =? 0)%Z = true) by (apply Z.eqb_eq; lia).
  unfold HydroDataPipeline._process_chunks.
  unfold HydroDataPipeline.cleaner_entry, HydroDataPipeline.enhancer_entry,
    HydroDataPipeline.evaluator_entry.
  destruct (cleaner_skill self) as [c|], (enhancer_skill self) as [e|],
    (evaluator_skill self) as [v|]; cbn [option_map];
    try (destruct Hs as [[? H]|[[? H]|[? H]]]; discriminate H);
    repeat (unfold bind at 1; rewrite run_stage_degenerate by lia; rewrite ?Hb0);
    reflexivity.
Qed.

End DegenerateBatchSize.

Section FilesThroughStages.
Context {U : UnicodeData} {R : Runtime}.
Variable io : PipelineIO.
Variable self : PipelineSelf.

Lemma process_files_no_chunks file_paths w w1 :
  HydroDataPipeline.parse_loop io self file_paths [] (at_parsing file_paths w)
  = (Ok [], w1) ->
  exists r w' pd,
    HydroDataPipeline.process_files io self file_paths None w = (Ok r, w')
    /\ success r = true /\ data r = Some pd
    /\ pd_chunks pd = [] /\ pd_qa_pairs pd = []
    /\ heap w' = heap w1 /\ monitors w' = monitors w1
    /\ total_chunks (processing_stats w') = 0%nat
    /\ processed_chunks (processing_stats w') = 0%nat.
Proof.
  intros Hparse. unfold HydroDataPipeline.process_files.
  unfold bind at 1. unfold now at 1.
  unfold bind at 1. unfold now at 1. cbn [ticks set_ticks].
  unfold bind at 1. unfold HydroDataPipeline.set_files at 1. unfold modify at 1.
  erewrite try_ok; cycle 1.
  - unfold bind at 1.
    match goal with
    | |- context [HydroDataPipeline.parse_loop _ _ _ _ ?W] =>
      change W with (at_parsing file_paths w)
    end.
    rewrite Hparse.
    unfold bind, HydroDataPipeline.set_files, modify, now, ret.
    cbn [HydroDataPipeline.collect_qa]. unfold ret. reflexivity.
  - eexists _, _, _. split; [reflexivity|].
    cbn [success data pd_chunks pd_qa_pairs heap monitors set_ticks set_stats
         processing_stats HydroDataPipeline.stats_with total_chunks processed_chunks
         length].
    repeat split; reflexivity.
Qed.

Lemma process_files_negative_size z b file_paths w chunks w1 :
  pipeline_config self !! "max_workers"%string = Some (VInt z) -> (z <= 1)%Z ->
  pipeline_config self !! "batch_size"%string = Some (VInt b) -> (b < 0)%Z ->
  some_stage self ->
  HydroDataPipeline.parse_loop io self file_paths [] (at_parsing file_paths w)
  = (Ok chunks, w1) ->
  exists r w' pd,
    HydroDataPipeline.process_files io self file_paths None w = (Ok r, w')
    /\ success r = true /\ data r = Some pd
    /\ pd_chunks pd = [] /\ pd_qa_pairs pd = []
    /\ heap w' = heap w1 /\ monitors w' = monitors w1
    /\ total_chunks (processing_stats w') = length chunks
    /\ processed_chunks (processing_stats w') = 0%nat.
Proof.
  intros Hm Hz Hb Hneg Hs Hparse.
  destruct chunks as [|c chunks].
  { destruct (process_files_no_chunks file_paths w w1 Hparse)
      as (r & w' & pd & H). now exists r, w', pd. }
  unfold HydroDataPipeline.process_files.
  unfold bind at 1. unfold now at 1.
  unfold bind at 1. unfold now at 1. cbn [ticks set_ticks].
  unfold bind at 1. unfold HydroDataPipeline.set_files at 1. unfold modify at 1.
  erewrite try_ok; cycle 1.
  - unfold bind at 1.
    match goal with
    | |- context [HydroDataPipeline.parse_loop _ _ _ _ ?W] =>
      change W with (at_parsing file_paths w)
    end.
    rewrite Hparse.
    unfold bind at 1. unfold HydroDataPipeline.set_files at 1. unfold modify at 1.
    unfold bind at 1.
    rewrite (process_chunks_negative io self z b Hm Hz Hb) by assumption.
    unfold bind, HydroDataPipeline.set_files, modify, now, ret.
    cbn [HydroDataPipeline.collect_qa]. unfold ret. reflexivity.
  - eexists _, _, _. split; [reflexivity|].
    cbn [success data pd_chunks pd_qa_pairs heap monitors set_ticks set_stats
         processing_stats HydroDataPipeline.stats_with total_chunks processed_chunks].
    repeat split; reflexivity.
Qed.

End FilesThroughStages.

(** A controller with one worker and a negative batch size. *)
Definition negative_batch_config : gmap string (gmap string pyval) :=
  {[ "pipeline"%string :=
       {[ "max_workers"%string := VInt 1; "batch_size"%string := VInt (-5) ]} ]}.

Definition negative_batch_pipeline : PipelineSelf :=
  HydroDataPipeline.init negative_batch_config (HydroDataCleaner.default_self 10 ∅)
    (HydroDataEnhancer.default_self ∅) (HydroDataEvaluator.default_self ∅) false.

(** A parser that fails on every file. *)
Definition failing_io : PipelineIO := {|
  parse_file := fun _ => raise (Exception "FileNotFoundError" (py "no such file"));
  save_checkpoint_json := fun _ _ _ => ret tt;
  save_dataset_json := fun _ _ => ret tt;
  _process_parallel := fun _ _ chunks _ => ret chunks;
|}.

(** X5.  With at most one worker and a positive batch size,
    [_process_batches] run on one of the three stages returns the chunks it
    was given, all of them and in their order, whatever the batch size and
    whether or not the checkpoints can be written: cutting the list into
    batches and joining the processed batches loses and reorders nothing. *)
Theorem serial_batches_return_every_chunk (U : UnicodeData) (R : Runtime)
    (io : PipelineIO) (self : PipelineSelf)
    (cleaner : CleanerSelf) (enhancer : EnhancerSelf) (evaluator : EvaluatorSelf)
    (stage : Stage) (chunks : list nat) (batch_size z : Z) (v : pyval) (w : World) :
  pipeline_config self !! "max_workers"%string = Some (VInt z) -> (z <= 1)%Z ->
  pipeline_config self !! "checkpoint_enabled"%string = Some v ->
  (0 < batch_size)%Z ->
  exists w',
    HydroDataPipeline._process_batches io self
      (stage_skill cleaner enhancer evaluator stage) stage chunks batch_size w
    = (Ok chunks, w').
Proof. apply process_batches_serial. Qed.

Lemma serial_batches_return_every_chunk_witness :
  exists w',
    @HydroDataPipeline._process_batches example_runtime (example_io flood_text)
      serial_pipeline
      (@stage_skill basic_ucd example_runtime example_cleaner
         (HydroDataEnhancer.default_self ∅) (HydroDataEvaluator.default_self ∅) Cleaner)
      Cleaner [0; 1]%nat 1%Z two_chunks
    = (Ok [0; 1]%nat, w').
Proof.
  apply (serial_batches_return_every_chunk basic_ucd example_runtime
           (example_io flood_text) serial_pipeline example_cleaner
           (HydroDataEnhancer.default_self ∅) (HydroDataEvaluator.default_self ∅)
           Cleaner [0; 1]%nat 1%Z 1%Z (VBool true) two_chunks).
  - reflexivity.
  - lia.
  - reflexivity.
  - lia.
Defined.

(** X6.  With at most one worker, a batch size of zero makes
    [_process_batches] raise the [ValueError] of [range] before any chunk is
    touched, and a negative batch size makes it return the empty list: the
    loop has no turn, no chunk is processed and the chunks given are
    dropped without an error. *)
Theorem nonpositive_batch_size (U : UnicodeData) (R : Runtime)
    (io : PipelineIO) (self : PipelineSelf) (skill : Skill) (stage : Stage)
    (chunks : list nat) (batch_size z : Z) (w : World) :
  pipeline_config self !! "max_workers"%string = Some (VInt z) -> (z <= 1)%Z ->
  (batch_size <= 0)%Z ->
  HydroDataPipeline._process_batches io self skill stage chunks batch_size w
  = if (batch_size =? 0)%Z then (Raise zero_step, w) else (Ok [], w).
Proof. apply process_batches_degenerate. Qed.

Lemma nonpositive_batch_size_witness :
  @HydroDataPipeline._process_batches example_runtime (example_io flood_text)
    serial_pipeline (@HydroDataCleaner.skill basic_ucd example_runtime example_cleaner)
    Cleaner [0; 1]%nat (-3)%Z two_chunks
  = (Ok [], two_chunks).
Proof.
  apply (nonpositive_batch_size basic_ucd example_runtime (example_io flood_text)
           serial_pipeline
           (@HydroDataCleaner.skill basic_ucd example_runtime example_cleaner)
           Cleaner [0; 1]%nat (-3)%Z 1%Z two_chunks).
  - reflexivity.
  - lia.
  - lia.
Defined.

(** X7.  A negative batch size in the configuration makes [process_files]
    lose its input without saying so: with at most one worker and at least
    one stage, whatever the parser produced, the call reports success with
    a dataset that has no chunk and no question-answer pair; the chunks
    are left as the parser made them, no stage counter moves, and the
    statistics show the number of parsed chunks next to zero processed
    chunks. *)
Theorem negative_batch_size_empties_dataset (U : UnicodeData) (R : Runtime)
    (io : PipelineIO) (self : PipelineSelf) (z b : Z)
    (file_paths : list string) (w : World) (chunks : list nat) (w1 : World) :
  pipeline_config self !! "max_workers"%string = Some (VInt z) -> (z <= 1)%Z ->
  pipeline_config self !! "batch_size"%string = Some (VInt b) -> (b < 0)%Z ->
  some_stage self ->
  HydroDataPipeline.parse_loop io self file_paths [] (at_parsing file_paths w)
  = (Ok chunks, w1) ->
  exists r w' pd,
    HydroDataPipeline.process_files io self file_paths None w = (Ok r, w')
    /\ success r = true /\ data r = Some pd
    /\ pd_chunks pd = [] /\ pd_qa_pairs pd = []
    /\ heap w' = heap w1 /\ monitors w' = monitors w1
    /\ total_chunks (processing_stats w') = length chunks
    /\ processed_chunks (processing_stats w') = 0%nat.
Proof. apply process_files_negative_size. Qed.

Lemma negative_batch_size_empties_dataset_witness :
  exists r w' pd,
    @HydroDataPipeline.process_files basic_ucd example_runtime
      (example_io flood_text) negative_batch_pipeline ["a.txt"%string] None new_world
    = (Ok r, w')
    /\ success r = true /\ data r = Some pd
    /\ pd_chunks pd = [] /\ pd_qa_pairs pd = []
    /\ heap w' = heap (snd (one_chunk_parser flood_text "a.txt"
                              (@at_parsing example_runtime ["a.txt"%string] new_world)))
    /\ monitors w' = monitors new_world
    /\ total_chunks (processing_stats w') = 1%nat
    /\ processed_chunks (processing_stats w') = 0%nat.
Proof.
  apply (negative_batch_size_empties_dataset basic_ucd example_runtime
           (example_io flood_text) negative_batch_pipeline 1%Z (-5)%Z
           ["a.txt"%string] new_world [0%nat]
           (set_stats
              (HydroDataPipeline.stats_with
                 (processing_stats (@at_parsing example_runtime ["a.txt"%string] new_world))
                 1 1 0 0 0 (Some 1%Z) None 0)
              (snd (one_chunk_parser flood_text "a.txt"
                      (@at_parsing example_runtime ["a.txt"%string] new_world))))).
  - reflexivity.
  - lia.
  - reflexivity.
  - lia.
  - left. eexists. reflexivity.
  - reflexivity.
Defined.

(** X8.  [process_files] never raises.  It always returns a result, of one
    of two shapes: success, with a dataset, a processing time and no error
    message; or failure, with an error message, a processing time and no
    dataset.  Every exception of the parser, of a stage or of the writer
    ends up in the second shape. *)
Theorem process_files_always_returns (U : UnicodeData) (R : Runtime)
    (io : PipelineIO) (self : PipelineSelf)
    (file_paths : list string) (output_path : option string) (w : World) :
  exists r w',
    HydroDataPipeline.process_files io self file_paths output_path w = (Ok r, w')
    /\ (success_result r \/ failure_result r).
Proof. apply process_files_returns. Qed.

(** X9.  When parsing yields no chunk (there is no file, or every file
    fails and the policy is not to stop), [process_files] runs no stage and
    reports success with an empty dataset; this holds for every
    configuration, also the default one whose stages cannot run. *)
Theorem no_chunks_is_a_success (U : UnicodeData) (R : Runtime)
    (io : PipelineIO) (self : PipelineSelf)
    (file_paths : list string) (w w1 : World) :
  HydroDataPipeline.parse_loop io self file_paths [] (at_parsing file_paths w)
  = (Ok [], w1) ->
  exists r w' pd,
    HydroDataPipeline.process_files io self file_paths None w = (Ok r, w')
    /\ success r = true /\ data r = Some pd
    /\ pd_chunks pd = [] /\ pd_qa_pairs pd = []
    /\ heap w' = heap w1 /\ monitors w' = monitors w1
    /\ total_chunks (processing_stats w') = 0%nat
    /\ processed_chunks (processing_stats w') = 0%nat.
Proof. apply process_files_no_chunks. Qed.

Lemma no_chunks_is_a_success_witness :
  exists r w' pd,
    @HydroDataPipeline.process_files basic_ucd example_runtime failing_io
      default_pipeline ["a.txt"; "b.txt"]%string None new_world = (Ok r, w')
    /\ success r = true /\ data r = Some pd
    /\ pd_chunks pd = [] /\ pd_qa_pairs pd = []
    /\ heap w' = heap new_world /\ monitors w' = monitors new_world
    /\ total_chunks (processing_stats w') = 0%nat
    /\ processed_chunks (processing_stats w') = 0%nat.
Proof.
  apply (no_chunks_is_a_success basic_ucd example_runtime failing_io default_pipeline
           ["a.txt"; "b.txt"]%string new_world
           (set_stats
              (HydroDataPipeline.stats_with
                 (processing_stats
                    (@at_parsing example_runtime ["a.txt"; "b.txt"]%string new_world))
                 2 0 2 0 0 (Some 1%Z) None 0)
              (@at_parsing example_runtime ["a.txt"; "b.txt"]%string new_world))).
  reflexivity.
Defined.

(* ===================================================================== *)
(** * The file counters                                                    *)
(* ===================================================================== *)

(** A parser that leaves the statistics of the controller alone. *)
Definition parser_keeps_statistics (io : PipelineIO) : Prop :=
  forall file_path w,
    processing_stats (snd (parse_file io file_path w)) = processing_stats w.

Section FileCounters.
Variable io : PipelineIO.
Variable self : PipelineSelf.
Variable policy : pyval.
Hypothesis error_handling :
  pipeline_config self !! "error_handling"%string = Some policy.
Hypothesis skip : policy <> VStr (py "stop").
Hypothesis parser : parser_keeps_statistics io.

Lemma parse_loop_counts file_paths :
  forall all_chunks w,
    exists chunks w',
      HydroDataPipeline.parse_loop io self file_paths all_chunks w = (Ok chunks, w')
      /\ all_chunks `prefix_of` chunks
      /\ let s := processing_stats w in
         let s' := processing_stats w' in
         (processed_files s' + failed_files s'
          = processed_files s + failed_files s + length file_paths)%nat
         /\ (processed_files s <= processed_files s')%nat
         /\ (failed_files s <= failed_files s')%nat
         /\ total_files s' = total_files s
         /\ failed_chunks s' = failed_chunks s.
Proof.
  induction file_paths as [|file_path rest IH]; intros all_chunks w.
  - exists all_chunks, w. cbn [HydroDataPipeline.parse_loop length].
    split; [reflexivity|]. split; [reflexivity|]. cbv zeta.
    repeat split; lia.
  - cbn [HydroDataPipeline.parse_loop]. unfold bind at 1.
    assert (Hturn : exists chunks1 w1,
      try_except
        (let* chunks := parse_file io file_path in
         let* _ := HydroDataPipeline.set_files (fun s =>
           HydroDataPipeline.stats_with s (total_files s) (S (processed_files s))
             (failed_files s) (total_chunks s) (processed_chunks s)
             (stats_start_time s) (stats_end_time s) (total_time s)) in
         ret (all_chunks ++ chunks))
        (fun e =>
         let* _ := HydroDataPipeline.set_files (fun s =>
           HydroDataPipeline.stats_with s (total_files s) (processed_files s)
             (S (failed_files s)) (total_chunks s) (processed_chunks s)
             (stats_start_time s) (stats_end_time s) (total_time s)) in
         let* policy := lift (py_getattr (pipeline_config self) "error_handling") in
         match policy with
         | VStr p => if str_eqb p (py "stop") then raise e else ret all_chunks
         | _ => ret all_chunks
         end) w = (Ok chunks1, w1)
      /\ all_chunks `prefix_of` chunks1
      /\ (processed_files (processing_stats w1) + failed_files (processing_stats w1)
          = S (processed_files (processing_stats w) + failed_files (processing_stats w)))%nat
      /\ (processed_files (processing_stats w) <= processed_files (processing_stats w1))%nat
      /\ (failed_files (processing_stats w) <= failed_files (processing_stats w1))%nat
      /\ total_files (processing_stats w1) = total_files (processing_stats w)
      /\ failed_chunks (processing_stats w1) = failed_chunks (processing_stats w)).
    { unfold try_except. unfold bind at 1.
      pose proof (parser file_path w) as Hp.
      destruct (parse_file io file_path w) as [[chunks|e] w0]; cbn [snd] in Hp.
      - unfold bind, HydroDataPipeline.set_files, modify, ret.
        eexists _, _. split; [reflexivity|].
        split; [now apply prefix_app_r|].
        cbn [processing_stats set_stats HydroDataPipeline.stats_with
             processed_files failed_files total_files failed_chunks].
        rewrite Hp. repeat split; lia.
      - unfold bind at 1. unfold HydroDataPipeline.set_files at 1. unfold modify at 1.
        unfold bind at 1. unfold lift at 1.
        rewrite (getattr_present _ _ _ error_handling).
        assert (Hk : forall W,
          match policy with
          | VStr p => if str_eqb p (py "stop") then raise e else ret all_chunks
          | _ => ret all_chunks
          end W = (Ok all_chunks, W)).
        { intros W. destruct policy as [| | | |p| | | |]; try reflexivity.
          unfold str_eqb. destruct (bool_decide_reflect (p = py "stop")) as [->|_];
            [congruence | reflexivity]. }
        rewrite Hk. eexists _, _. split; [reflexivity|].
        split; [reflexivity|].
        cbn [processing_stats set_stats HydroDataPipeline.stats_with
             processed_files failed_files total_files failed_chunks].
        rewrite Hp. repeat split; lia. }
    destruct Hturn as (chunks1 & w1 & E1 & Hpre1 & Hsum1 & Hp1 & Hf1 & Ht1 & Hc1).
    rewrite E1.
    destruct (IH chunks1 w1) as (chunks & w' & E & Hpre & Hsum & Hp & Hf & Ht & Hc).
    exists chunks, w'. split; [exact E|].
    split; [etransitivity; eassumption|].
    cbv zeta in *. cbn [length]. repeat split; lia.
Qed.

End FileCounters.

(** X10.  The parsing loop of [process_files] counts every file exactly
    once.  When the error policy is anything but the string stop and the
    parser leaves the statistics alone, the loop never raises, keeps the
    chunks collected so far, and the sum of [processed_files] and
    [failed_files] grows by the number of files; both counters only grow
    from the values they had before the call (neither is reset at the start
    of a run), while [total_files] and [failed_chunks] are not touched. *)
Theorem parsing_counts_every_file
    (io : PipelineIO) (self : PipelineSelf) (policy : pyval)
    (file_paths : list string) (all_chunks : list nat) (w : World) :
  pipeline_config self !! "error_handling"%string = Some policy ->
  policy <> VStr (py "stop") ->
  parser_keeps_statistics io ->
  exists chunks w',
    HydroDataPipeline.parse_loop io self file_paths all_chunks w = (Ok chunks, w')
    /\ all_chunks `prefix_of` chunks
    /\ let s := processing_stats w in
       let s' := processing_stats w' in
       (processed_files s' + failed_files s'
        = processed_files s + failed_files s + length file_paths)%nat
       /\ (processed_files s <= processed_files s')%nat
       /\ (failed_files s <= failed_files s')%nat
       /\ total_files s' = total_files s
       /\ failed_chunks s' = failed_chunks s.
Proof.
  intros Hp Hs Hk. now apply parse_loop_counts with policy.
Qed.

Lemma parsing_counts_every_file_witness :
  exists chunks w',
    @HydroDataPipeline.parse_loop failing_io default_pipeline
      ["a.txt"; "b.txt"]%string [] new_world = (Ok chunks, w')
    /\ [] `prefix_of` chunks
    /\ let s := processing_stats new_world in
       let s' := processing_stats w' in
       (processed_files s' + failed_files s'
        = processed_files s + failed_files s + length ["a.txt"; "b.txt"]%string)%nat
       /\ (processed_files s <= processed_files s')%nat
       /\ (failed_files s <= failed_files s')%nat
       /\ total_files s' = total_files s
       /\ failed_chunks s' = failed_chunks s.
Proof.
  apply (parsing_counts_every_file failing_io
           default_pipeline (VStr (py "skip")) ["a.txt"; "b.txt"]%string [] new_world).
  - reflexivity.
  - discriminate.
  - intros file_path w. reflexivity.
Defined.

(* ===================================================================== *)
(** * The Evaluator: ranges, the running log and the filter                *)
(* ===================================================================== *)

Lemma py_min_between (a x : Q) : (0 <= a -> 0 <= x -> 0 <= py_min a x <= a)%Q.
Proof. intros Ha Hx. unfold py_min. destruct (Qlt_le_dec x a); split; lra. Qed.

Section ConsistencyRange.
Context {U : UnicodeData}.

Lemma consistency_range content lang :
  (1 # 2 <= HydroDataEvaluator._evaluate_consistency content lang <= 9 # 10)%Q.
Proof.
  unfold HydroDataEvaluator._evaluate_consistency. cbv zeta.
  unfold HydroDataEvaluator._check_number_contradictions.
  match goal with |- context [py_min (3 # 10) ?x] =>
    pose proof (py_min_between (3 # 10) x) as Hp;
    set (p := py_min (3 # 10) x) in *; clearbody p
  end.
  destruct Hp as [Hp0 Hp1]; [lra | |].
  { apply Qmult_le_0_compat; [apply Qnat_nonneg | lra]. }
  match goal with |- context [py_min 1 ?x] => set (s := x) end.
  assert (Hs : (1 # 2 <= s <= 9 # 10)%Q).
  { unfold s.
    repeat match goal with |- context [if ?c then _ else _] => destruct c end;
      split; lra. }
  clearbody s. unfold py_max, py_min.
  destruct (Qlt_le_dec s 1); destruct (Qlt_le_dec 0 _); lra.
Qed.

End ConsistencyRange.

Lemma weighted_mean_bounds (lo hi : Q) (scores : list (string * Q)) :
  forall overall total_weight,
    (0 <= total_weight)%Q ->
    (lo * total_weight <= overall <= hi * total_weight)%Q ->
    Forall (fun ms => (lo <= snd ms <= hi)%Q) scores ->
    let r :=
      fold_left (fun '(overall, total_weight) '(metric, score) =>
                   let weight :=
                     default (25 # 100) (assoc metric HydroDataEvaluator.metric_weights) in
                   ((overall + score * weight)%Q, (total_weight + weight)%Q))
                scores (overall, total_weight) in
    (total_weight <= snd r)%Q
    /\ (scores <> [] -> (0 < snd r)%Q)
    /\ (lo * snd r <= fst r <= hi * snd r)%Q.
Proof.
  induction scores as [|[metric score] scores IH]; intros overall total_weight Hw Hb Hs.
  - cbn [fold_left fst snd]. split; [lra|]. split; [congruence | exact Hb].
  - cbn [fold_left]. cbv zeta.
    apply Forall_cons in Hs. destruct Hs as [[H0 H1] Hs]. cbn [snd] in H0, H1.
    pose proof (weight_positive metric) as Hm.
    set (weight := default (25 # 100) (assoc metric HydroDataEvaluator.metric_weights)) in *.
    assert (Hlo : (lo * weight <= score * weight)%Q)
      by (apply Qmult_le_compat_r; lra).
    assert (Hhi : (score * weight <= hi * weight)%Q)
      by (apply Qmult_le_compat_r; lra).
    destruct (IH (overall + score * weight)%Q (total_weight + weight)%Q)
      as (Hmono & _ & Hr); [lra | split; lra | exact Hs |].
    cbv zeta in Hmono, Hr.
    match type of Hmono with (_ <= snd ?t)%Q => set (r := t) in * end.
    split; [lra|]. split; [intros _; lra | exact Hr].
Qed.

Lemma overall_score_between (lo hi : Q) (scores : list (string * Q)) :
  scores <> [] ->
  Forall (fun ms => (lo <= snd ms <= hi)%Q) scores ->
  (lo <= HydroDataEvaluator._calculate_overall_score scores <= hi)%Q.
Proof.
  intros Hne Hs. unfold HydroDataEvaluator._calculate_overall_score.
  destruct (weighted_mean_bounds lo hi scores 0 0) as (_ & Hpos & Hb);
    [lra | split; lra | exact Hs |].
  cbv zeta in Hpos, Hb. specialize (Hpos Hne).
  destruct (fold_left _ scores _) as [overall total_weight]. cbn [fst snd] in *.
  unfold Qltb. destruct (Qlt_le_dec 0 total_weight) as [_|Hle]; [|lra].
  split.
  - apply Qle_shift_div_l; [exact Hpos | lra].
  - apply Qle_shift_div_r; [exact Hpos | lra].
Qed.

(* ===================================================================== *)
(** * The Evaluator: what a chunk is left with, and the running log        *)
(* ===================================================================== *)

(** A computation that leaves the running log of the Evaluator as it is. *)
Definition quiet {A} (m : M A) : Prop :=
  forall w, evaluator_state (snd (m w)) = evaluator_state w.

Lemma quiet_ret {A} (a : A) : quiet (ret a).
Proof. intros w. reflexivity. Qed.

Lemma quiet_raise {A} e : quiet (@raise A e).
Proof. intros w. reflexivity. Qed.

Lemma quiet_lift {A} (r : res A) : quiet (lift r).
Proof. intros w. reflexivity. Qed.

Lemma quiet_get_world : quiet get_world.
Proof. intros w. reflexivity. Qed.

Lemma quiet_read {A} x (f : DataChunk -> A) : quiet (read x f).
Proof. intros w. reflexivity. Qed.

Lemma quiet_now {R : Runtime} : quiet now.
Proof. intros w. reflexivity. Qed.

Lemma quiet_update l f : quiet (update l f).
Proof. intros w. reflexivity. Qed.

Lemma quiet_modify f :
  (forall w, evaluator_state (f w) = evaluator_state w) -> quiet (modify f).
Proof. intros H w. apply H. Qed.

Lemma quiet_bind {A B} (m : M A) (f : A -> M B) :
  quiet m -> (forall a, quiet (f a)) -> quiet (bind m f).
Proof.
  intros Hm Hf w. unfold bind. specialize (Hm w).
  destruct (m w) as [[a|e] w1]; cbn [snd] in *.
  - now rewrite Hf.
  - exact Hm.
Qed.

Lemma quiet_try {A} (m : M A) h :
  quiet m -> (forall e, quiet (h e)) -> quiet (try_except m h).
Proof.
  intros Hm Hh w. unfold try_except. specialize (Hm w).
  destruct (m w) as [[a|e] w1]; cbn [snd] in *.
  - exact Hm.
  - now rewrite Hh.
Qed.

Create HintDb pyquiet discriminated.
#[export] Hint Resolve quiet_ret quiet_raise quiet_lift quiet_get_world
  quiet_read quiet_now quiet_update : pyquiet.

(** Walks a computation down its binds, branches and handlers. *)
Ltac hushed :=
  repeat first
    [ progress intros
    | progress cbv zeta
    | solve [auto with pyquiet]
    | apply quiet_bind | apply quiet_try
    | apply quiet_modify; intros; reflexivity
    | match goal with
      | |- quiet (if ?b then _ else _) => destruct b
      | |- quiet (match ?x with _ => _ end) => destruct x
      end ].

Section QuietStages.
Context {U : UnicodeData} {R : Runtime}.

(** [_record_evaluation] raises while it builds the record, whatever it is
    given: nothing is appended. *)
Lemma record_evaluation_raises chunk_id q w :
  HydroDataEvaluator._record_evaluation chunk_id q w
  = (Raise (attribute_error "'Core' object has no attribute 'start_time'"), w).
Proof. reflexivity. Qed.

Lemma record_evaluation_quiet chunk_id q :
  quiet (HydroDataEvaluator._record_evaluation chunk_id q).
Proof. intros w. now rewrite record_evaluation_raises. Qed.

Lemma cleaner_metadata_quiet self s m :
  quiet (HydroDataCleaner._create_process_metadata self s m).
Proof. unfold HydroDataCleaner._create_process_metadata. hushed. Qed.

Lemma is_duplicate_quiet self text i :
  quiet (HydroDataCleaner._is_duplicate self text i).
Proof. unfold HydroDataCleaner._is_duplicate. hushed. Qed.

Lemma cleaner_single_quiet self l : quiet (HydroDataCleaner.process_single self l).
Proof.
  unfold HydroDataCleaner.process_single. cbv zeta.
  pose proof cleaner_metadata_quiet. pose proof is_duplicate_quiet.
  hushed.
Qed.

Lemma evaluator_metadata_quiet self s m :
  quiet (HydroDataEvaluator._create_process_metadata self s m).
Proof. unfold HydroDataEvaluator._create_process_metadata. hushed. Qed.

Lemma evaluator_single_quiet self l : quiet (HydroDataEvaluator.process_single self l).
Proof.
  unfold HydroDataEvaluator.process_single.
  pose proof evaluator_metadata_quiet. pose proof record_evaluation_quiet.
  hushed.
Qed.

Lemma enhancer_metadata_quiet self s m :
  quiet (HydroDataEnhancer._create_process_metadata self s m).
Proof. unfold HydroDataEnhancer._create_process_metadata. hushed. Qed.

Lemma random_choice_quiet {A} (seq : list A) : quiet (HydroDataEnhancer.random_choice seq).
Proof.
  intros w. unfold HydroDataEnhancer.random_choice.
  destruct (seq !! _); reflexivity.
Qed.

Lemma template_loop_quiet content terms n head qa_pairs :
  quiet (HydroDataEnhancer.template_loop content terms n head qa_pairs).
Proof.
  revert qa_pairs. induction head as [|term_info rest IH]; intros qa_pairs.
  - apply quiet_ret.
  - cbn [HydroDataEnhancer.template_loop].
    pose proof (@random_choice_quiet). hushed.
Qed.

Lemma generate_qa_pairs_quiet d : quiet (HydroDataEnhancer._generate_qa_pairs d).
Proof.
  unfold HydroDataEnhancer._generate_qa_pairs, HydroDataEnhancer._generate_template_qa.
  pose proof template_loop_quiet. hushed.
Qed.

Lemma enhancer_single_quiet self l : quiet (HydroDataEnhancer.process_single self l).
Proof.
  unfold HydroDataEnhancer.process_single.
  pose proof enhancer_metadata_quiet. pose proof generate_qa_pairs_quiet.
  hushed.
Qed.

Lemma stage_single_quiet cleaner enhancer evaluator stage l :
  quiet (stage_process_single cleaner enhancer evaluator stage l).
Proof.
  destruct stage; cbn [stage_process_single].
  - apply cleaner_single_quiet.
  - apply enhancer_single_quiet.
  - apply evaluator_single_quiet.
Qed.

End QuietStages.

Section QuietHarness.
Context {R : Runtime}.
Variable n : string.
Variable cfg : gmap string pyval.
Variable ps : nat -> M nat.
Hypothesis single_quiet : forall l, quiet (ps l).

Lemma process_one_quiet l : quiet (BaseSkill.process_one (Build_Skill n cfg ps) l).
Proof. unfold BaseSkill.process_one. hushed. Qed.

Lemma process_loop_quiet chunks :
  forall acc, quiet (BaseSkill.process_loop (Build_Skill n cfg ps) chunks acc).
Proof.
  induction chunks as [|c chunks IH]; intros acc.
  - apply quiet_ret.
  - cbn [BaseSkill.process_loop]. pose proof process_one_quiet. hushed.
Qed.

Lemma process_batch_quiet chunks :
  quiet (BaseSkill.process_batch (Build_Skill n cfg ps) chunks).
Proof. unfold BaseSkill.process_batch. pose proof process_loop_quiet. hushed. Qed.

Lemma monitored_batch_quiet stage chunks :
  quiet (MonitoredSkill.process_batch (Build_Skill n cfg ps) stage chunks).
Proof. unfold MonitoredSkill.process_batch. pose proof process_batch_quiet. hushed. Qed.

End QuietHarness.

Section EvaluatorSingle.
Context {U : UnicodeData} {R : Runtime}.
Variable self : EvaluatorSelf.

(** The record the Evaluator writes when it fails with the message [msg]. *)
Definition evaluator_failure (msg : str) (m : ProcessMetadata) : Prop :=
  status m = FAILED /\ processor_name m = "HydroDataEvaluator"%string
  /\ parameters m = evaluator_config self /\ error_message m = Some msg.

(** The way of a chunk that has content and can be scored: the score is
    stored, then the record of the evaluation cannot be built and the
    handler takes over. *)
Lemma evaluator_single_scored l w q :
  BaseSkill.validate_input (deref w l) = true ->
  HydroDataEvaluator._evaluate_quality self (deref w l) = Ok q ->
  exists m w',
    HydroDataEvaluator.process_single self l w = (Ok l, w')
    /\ evaluator_failure (py "'Core' object has no attribute 'start_time'") m
    /\ deref w' l
       = add_process_metadata m (set_extra "quality_score" (VQuality q) (deref w l))
    /\ (forall x, x <> l -> deref w' x = deref w x).
Proof.
  intros Hv Hq. unfold HydroDataEvaluator.process_single.
  unfold bind at 1. unfold read at 1. rewrite Hv. cbn [negb].
  unfold try_except.
  unfold bind at 1. unfold read at 1.
  unfold bind at 1. unfold lift at 1. rewrite Hq.
  unfold bind at 1. unfold update at 1. unfold modify at 1.
  set (w1 := set_heap (<[l := set_extra "quality_score" (VQuality q) (deref w l)]>
                         (heap w)) w).
  assert (H1 : deref w1 l = set_extra "quality_score" (VQuality q) (deref w l))
    by apply deref_update_eq.
  assert (H1' : forall x, x <> l -> deref w1 x = deref w x).
  { intros x Hx. apply deref_update_ne. congruence. }
  unfold bind at 1. unfold read at 1.
  unfold bind at 1. rewrite record_evaluation_raises.
  unfold HydroDataEvaluator._create_process_metadata.
  unfold bind, now, update, modify, ret, attribute_error. cbn [ticks set_ticks exn_msg].
  exists {| processor_name := "HydroDataEvaluator";
            processing_time := 0;
            start_time := clock (ticks w1); end_time := clock (S (ticks w1));
            status := FAILED;
            error_message := Some (py "'Core' object has no attribute 'start_time'");
            parameters := evaluator_config self |}.
  eexists. split; [reflexivity|]. split.
  { split; [reflexivity|]. split; [reflexivity|]. split; reflexivity. }
  split.
  - rewrite (deref_update_eq (set_ticks (S (S (ticks w1))) w1)).
    change (deref (set_ticks (S (S (ticks w1))) w1) l) with (deref w1 l).
    rewrite H1. reflexivity.
  - intros x Hx.
    rewrite (deref_update_ne (set_ticks (S (S (ticks w1))) w1)) by congruence.
    now apply H1'.
Qed.

Lemma filter_scored l w q min_score :
  extra_data (deref w l) !! "quality_score"%string = Some (VQuality q) ->
  HydroDataEvaluator.filter_by_quality self [l] min_score w
  = (Ok (if Qle_bool (match min_score with
                      | None => HydroDataEvaluator.min_quality_score self
                      | Some m => m
                      end) (overall_score q)
         then [l] else []), w).
Proof.
  intros Hd. unfold HydroDataEvaluator.filter_by_quality.
  cbn [HydroDataEvaluator.filter_loop].
  unfold bind at 1. unfold read at 1.
  unfold dict_get. rewrite Hd.
  cbn [py_truthy].
  destruct (Qle_bool _ (overall_score q)); reflexivity.
Qed.

End EvaluatorSingle.

Lemma Qle_bool_Qltb (a b : Q) : Qle_bool b a = negb (Qltb a b).
Proof.
  unfold Qltb. destruct (Qlt_le_dec a b) as [Hlt|Hle]; cbn [negb].
  - destruct (Qle_bool b a) eqn:E; [|reflexivity].
    apply Qle_bool_iff in E. lra.
  - now apply Qle_bool_iff.
Qed.

(** The score of the chunk about flood control under the default
    Evaluator. *)
Definition flood_quality : QualityScore :=
  Eval vm_compute in
    match @HydroDataEvaluator._evaluate_quality basic_ucd example_runtime
            (HydroDataEvaluator.default_self ∅) (new_chunk "a" flood_text) with
    | Ok q => q
    | Raise _ =>
      {| overall_score := 0; completeness_score := 0; relevance_score := 0;
         consistency_score := 0; diversity_score := 0; details := [] |}
    end.

(** X11.  What the Evaluator leaves on a chunk it can score.  When a chunk
    has content and the evaluation gives the score [q], [process_single]
    stores [q] under [quality_score] and then fails: [_record_evaluation]
    reads [logger._core.start_time], which raises [AttributeError].  The
    chunk comes back with that one new entry in its extension bag (so with
    no [improvement_suggestions] and no [quality_warning] of this run), the
    same content and identifier, and one more history record, a FAILED one
    of the Evaluator that carries the message of the exception; no other
    chunk changes.  [filter_by_quality] with the default threshold then
    keeps the chunk exactly when its overall score is not below
    [min_quality_score]. *)
Theorem evaluated_chunk_is_scored_and_failed (U : UnicodeData) (R : Runtime)
    (self : EvaluatorSelf) (l : nat) (w : World) (q : QualityScore) :
  BaseSkill.validate_input (deref w l) = true ->
  HydroDataEvaluator._evaluate_quality self (deref w l) = Ok q ->
  exists w' m,
    HydroDataEvaluator.process_single self l w = (Ok l, w')
    /\ extra_data (deref w' l)
       = <["quality_score"%string := VQuality q]> (extra_data (deref w l))
    /\ content (deref w' l) = content (deref w l)
    /\ id (deref w' l) = id (deref w l)
    /\ process_metadata (deref w' l) = process_metadata (deref w l) ++ [m]
    /\ status m = FAILED
    /\ processor_name m = "HydroDataEvaluator"%string
    /\ error_message m = Some (py "'Core' object has no attribute 'start_time'")
    /\ (forall x, x <> l -> deref w' x = deref w x)
    /\ HydroDataEvaluator.filter_by_quality self [l] None w'
       = (Ok (if Qltb (overall_score q) (HydroDataEvaluator.min_quality_score self)
              then [] else [l]), w').
Proof.
  intros Hv Hq.
  destruct (evaluator_single_scored self l w q Hv Hq)
    as (m & w' & E & (Hs & Hn & _ & Hmsg) & Hd & Hx).
  exists w', m. split; [exact E|].
  assert (Hbag : extra_data (deref w' l)
                 = <["quality_score"%string := VQuality q]> (extra_data (deref w l)))
    by now rewrite Hd.
  split; [exact Hbag|]. rewrite Hd.
  split; [reflexivity|]. split; [reflexivity|]. split; [reflexivity|].
  split; [exact Hs|]. split; [exact Hn|]. split; [exact Hmsg|]. split; [exact Hx|].
  rewrite (filter_scored self l w' q None) by (rewrite Hbag; apply lookup_insert_eq).
  rewrite Qle_bool_Qltb.
  now destruct (Qltb (overall_score q) (HydroDataEvaluator.min_quality_score self)).
Qed.

Lemma evaluated_chunk_is_scored_and_failed_witness :
  exists w' m,
    @HydroDataEvaluator.process_single basic_ucd example_runtime
      (HydroDataEvaluator.default_self ∅) 0%nat two_chunks = (Ok 0%nat, w')
    /\ extra_data (deref w' 0)
       = <["quality_score"%string := VQuality flood_quality]>
           (extra_data (deref two_chunks 0))
    /\ content (deref w' 0) = content (deref two_chunks 0)
    /\ id (deref w' 0) = id (deref two_chunks 0)
    /\ process_metadata (deref w' 0) = process_metadata (deref two_chunks 0) ++ [m]
    /\ status m = FAILED
    /\ processor_name m = "HydroDataEvaluator"%string
    /\ error_message m = Some (py "'Core' object has no attribute 'start_time'")
    /\ (forall x, x <> 0%nat -> deref w' x = deref two_chunks x)
    /\ @HydroDataEvaluator.filter_by_quality
         (HydroDataEvaluator.default_self ∅) [0%nat] None w'
       = (Ok (if Qltb (overall_score flood_quality)
                   (HydroDataEvaluator.min_quality_score
                      (HydroDataEvaluator.default_self ∅))
              then [] else [0%nat]), w').
Proof.
  assert (Hv : BaseSkill.validate_input (deref two_chunks 0) = true)
    by (vm_compute; reflexivity).
  assert (Hq : @HydroDataEvaluator._evaluate_quality basic_ucd example_runtime
                 (HydroDataEvaluator.default_self ∅) (deref two_chunks 0)
               = Ok flood_quality)
    by (vm_compute; reflexivity).
  exact (evaluated_chunk_is_scored_and_failed basic_ucd example_runtime
           (HydroDataEvaluator.default_self ∅) 0%nat two_chunks flood_quality Hv Hq).
Defined.

(** X12.  The running log of the Evaluator is never written.
    [_record_evaluation] raises before it appends anything, so
    [process_single] of the Evaluator leaves [evaluation_history] and
    [quality_distribution] as they are, whatever the chunk and however the
    call ends, and so does a whole batch run by any of the three stages:
    the log of an Evaluator stays as empty as it was made. *)
Theorem evaluator_log_is_never_written (U : UnicodeData) (R : Runtime)
    (cleaner : CleanerSelf) (enhancer : EnhancerSelf) (evaluator : EvaluatorSelf) :
  (forall chunk_id q w,
     exists e,
       HydroDataEvaluator._record_evaluation chunk_id q w = (Raise e, w))
  /\ (forall l w,
        evaluator_state (snd (HydroDataEvaluator.process_single evaluator l w))
        = evaluator_state w)
  /\ (forall stage chunks w,
        evaluator_state
          (snd (stage_process_batch cleaner enhancer evaluator stage chunks w))
        = evaluator_state w)
  /\ evaluation_history (evaluator_state new_world) = []
  /\ quality_distribution (evaluator_state new_world) = ∅.
Proof.
  split; [|split; [|split; [|split; reflexivity]]].
  - intros chunk_id q w. eexists. apply record_evaluation_raises.
  - intros l w. apply evaluator_single_quiet.
  - intros stage chunks w.
    destruct stage; apply monitored_batch_quiet; intros l;
      [apply cleaner_single_quiet | apply enhancer_single_quiet
      | apply evaluator_single_quiet].
Qed.


(** X13.  The consistency sub-score never leaves the range from 0.5 to
    0.9: it starts at 0.8, the language mix adds at most 0.1, the term
    variations take away at most 0.3, and the check for contradicting
    numbers never finds one, so its penalty is never applied. *)
Theorem consistency_score_range (U : UnicodeData) (content : str) (lang : Language) :
  (1 # 2 <= HydroDataEvaluator._evaluate_consistency content lang <= 9 # 10)%Q
  /\ forall numbers,
       HydroDataEvaluator._check_number_contradictions content numbers = false.
Proof. split; [apply consistency_range | reflexivity]. Qed.

(** X14.  The overall score is a weighted mean of the sub-scores it is
    given: for a dictionary of scores that is not empty it lies between
    any lower and upper bound of them, whatever the metric names (a name
    without a weight counts with weight 0.25); for the empty dictionary it
    is 0. *)
Theorem overall_score_is_a_mean (lo hi : Q) (scores : list (string * Q)) :
  scores <> [] ->
  Forall (fun ms => (lo <= snd ms <= hi)%Q) scores ->
  (lo <= HydroDataEvaluator._calculate_overall_score scores <= hi)%Q
  /\ HydroDataEvaluator._calculate_overall_score [] = 0%Q.
Proof.
  intros Hne Hs. split; [now apply overall_score_between | reflexivity].
Qed.

Lemma overall_score_is_a_mean_witness :
  let scores := [("completeness"%string, 1 # 2); ("fluency"%string, 3 # 4)]%Q in
  (1 # 2 <= HydroDataEvaluator._calculate_overall_score scores <= 3 # 4)%Q
  /\ HydroDataEvaluator._calculate_overall_score [] = 0%Q.
Proof.
  apply (overall_score_is_a_mean (1 # 2) (3 # 4)
           [("completeness"%string, 1 # 2); ("fluency"%string, 3 # 4)]%Q).
  - discriminate.
  - repeat (apply List.Forall_cons; [split; vm_compute; discriminate|]).
    apply List.Forall_nil.
Defined.

(* ===================================================================== *)
(** * The Evaluator on question-answer pairs                               *)
(* ===================================================================== *)

(** The pair with another confidence. *)
Definition with_confidence (c : option Q) (qa : QAData) : QAData := {|
  question := question qa; answer := answer qa; context := context qa;
  difficulty := difficulty qa; domain := domain qa; confidence := c;
  metadata := metadata qa;
|}.

Section QAScores.
Context {U : UnicodeData}.

Lemma qa_score_shape (qa : QAData) :
  exists base : Q,
    (forall c,
       EvaluatorQA._evaluate_qa_quality (with_confidence c qa)
       = py_min 1 (match c with
                   | Some c => if negb (Qeq_bool c 0) then (base * c)%Q else base
                   | None => base
                   end))
    /\ (2 # 10 <= base <= 1)%Q.
Proof.
  eexists. split.
  - intros c. unfold EvaluatorQA._evaluate_qa_quality. cbv zeta.
    cbn [with_confidence question answer context confidence]. reflexivity.
  - cbv beta.
    assert (Hr : forall x : Q, (0 <= x)%Q -> (0 <= py_min (2 # 10) x <= 2 # 10)%Q).
    { intros x Hx. apply py_min_between; lra. }
    destruct (context qa) as [ctx|].
    + destruct (negb (bool_decide (ctx = [])) && negb (bool_decide (question qa = []))).
      * match goal with |- context [py_min (2 # 10) ?x] =>
          pose proof (Hr x) as Hx; set (r := py_min (2 # 10) x) in *; clearbody r
        end.
        destruct Hx as [Hx0 Hx1].
        { destruct (bool_decide _); [lra | apply Qnat_ratio_nonneg]. }
        repeat match goal with |- context [if ?c then _ else _] => destruct c end;
          split; lra.
      * repeat match goal with |- context [if ?c then _ else _] => destruct c end;
          split; lra.
    + repeat match goal with |- context [if ?c then _ else _] => destruct c end;
        split; lra.
Qed.

Lemma py_min_one_id (x : Q) : (x <= 1)%Q -> (py_min 1 x == x)%Q.
Proof. intros H. unfold py_min. destruct (Qlt_le_dec x 1); lra. Qed.

Lemma qa_score_le_one (qa : QAData) : (EvaluatorQA._evaluate_qa_quality qa <= 1)%Q.
Proof. unfold EvaluatorQA._evaluate_qa_quality. cbv zeta. apply py_min_le_one. Qed.

Lemma qa_score_unrated (qa : QAData) :
  (2 # 10 <= EvaluatorQA._evaluate_qa_quality (with_confidence None qa) <= 1)%Q.
Proof.
  destruct (qa_score_shape qa) as (base & Hs & Hb). rewrite (Hs None).
  rewrite py_min_one_id by lra. exact Hb.
Qed.

Lemma qa_score_zero_confidence (qa : QAData) (c : Q) :
  (c == 0)%Q ->
  EvaluatorQA._evaluate_qa_quality (with_confidence (Some c) qa)
  = EvaluatorQA._evaluate_qa_quality (with_confidence None qa).
Proof.
  intros Hc. destruct (qa_score_shape qa) as (base & Hs & _).
  rewrite (Hs (Some c)), (Hs None).
  apply Qeq_bool_iff in Hc. now rewrite Hc.
Qed.

Lemma qa_score_scaled (qa : QAData) (c : Q) :
  (0 < c <= 1)%Q ->
  (EvaluatorQA._evaluate_qa_quality (with_confidence (Some c) qa)
   == c * EvaluatorQA._evaluate_qa_quality (with_confidence None qa))%Q.
Proof.
  intros [Hc0 Hc1]. destruct (qa_score_shape qa) as (base & Hs & Hb0 & Hb1).
  rewrite (Hs (Some c)), (Hs None).
  assert (Hne : Qeq_bool c 0 = false).
  { destruct (Qeq_bool c 0) eqn:E; [|reflexivity]. apply Qeq_bool_iff in E. lra. }
  rewrite Hne. cbn [negb].
  assert (Hprod : (base * c <= 1)%Q) by nra.
  rewrite (py_min_one_id (base * c)) by exact Hprod.
  rewrite (py_min_one_id base) by exact Hb1. ring.
Qed.

End QAScores.

Lemma band_exclusive (s : Q) :
  let bands := (EvaluatorQA.excellent s, EvaluatorQA.good s,
                EvaluatorQA.fair s, EvaluatorQA.poor s) in
  bands = (true, false, false, false) \/ bands = (false, true, false, false)
  \/ bands = (false, false, true, false) \/ bands = (false, false, false, true).
Proof.
  cbv zeta. unfold EvaluatorQA.excellent, EvaluatorQA.good, EvaluatorQA.fair,
    EvaluatorQA.poor.
  rewrite !Qle_bool_Qltb. unfold Qltb.
  destruct (Qlt_le_dec s (8 # 10)), (Qlt_le_dec s (6 # 10)), (Qlt_le_dec s (4 # 10));
    cbn [negb andb]; try lra; tauto.
Qed.

Lemma bands_partition (qa_scores : list Q) :
  (EvaluatorQA.count EvaluatorQA.excellent qa_scores
   + EvaluatorQA.count EvaluatorQA.good qa_scores
   + EvaluatorQA.count EvaluatorQA.fair qa_scores
   + EvaluatorQA.count EvaluatorQA.poor qa_scores = length qa_scores)%nat.
Proof.
  unfold EvaluatorQA.count. induction qa_scores as [|s ss IH]; [reflexivity|].
  rewrite !filter_cons. cbn [length].
  destruct (band_exclusive s) as [H|[H|[H|H]]]; cbv zeta in H;
    injection H as -> -> -> ->;
    repeat match goal with
           | |- context [decide (true = true)] =>
             destruct (decide (true = true)); [|congruence]
           | |- context [decide (false = true)] =>
             destruct (decide (false = true)); [discriminate|]
           end;
    cbn [length]; lia.
Qed.

Lemma Qsum_le_length (l : list Q) :
  Forall (fun x => (x <= 1)%Q) l -> (HydroDataEvaluator.Qsum l <= Qnat (length l))%Q.
Proof.
  induction 1 as [|x l Hx _ IH].
  - unfold Qle. simpl. lia.
  - change (HydroDataEvaluator.Qsum (x :: l)) with (x + HydroDataEvaluator.Qsum l)%Q.
    cbn [length].
    assert (Hs : (Qnat (S (length l)) == 1 + Qnat (length l))%Q).
    { unfold Qnat. rewrite Nat2Z.inj_succ, <- Z.add_1_l, inject_Z_plus. reflexivity. }
    rewrite Hs. lra.
Qed.

Section QAPairs.
Context {U : UnicodeData} {R : Runtime}.

Lemma evaluate_qa_pairs_spec (qa_pairs : list QAData) :
  qa_pairs <> [] ->
  numpy_loaded = true ->
  exists r,
    EvaluatorQA.evaluate_qa_pairs qa_pairs = Ok r
    /\ EvaluatorQA.total_pairs r = length qa_pairs
    /\ EvaluatorQA.scores r = Some (map EvaluatorQA._evaluate_qa_quality qa_pairs)
    /\ (exists e g f p,
          EvaluatorQA.distribution r
          = [("excellent", e); ("good", g); ("fair", f); ("poor", p)]%string
          /\ (e + g + f + p = length qa_pairs)%nat)
    /\ (EvaluatorQA.average_quality r <= 1)%Q.
Proof.
  intros Hne Hnp. unfold EvaluatorQA.evaluate_qa_pairs.
  destruct qa_pairs as [|qa rest]; [congruence|].
  rewrite Hnp. cbn [negb]. cbv zeta.
  set (qa_scores := map EvaluatorQA._evaluate_qa_quality (qa :: rest)).
  eexists. split; [reflexivity|].
  cbn [EvaluatorQA.total_pairs EvaluatorQA.scores EvaluatorQA.distribution
       EvaluatorQA.average_quality].
  split; [reflexivity|]. split; [reflexivity|]. split.
  - eexists _, _, _, _. split; [reflexivity|].
    rewrite bands_partition. unfold qa_scores. now rewrite length_map.
  - apply Qle_shift_div_r.
    + unfold qa_scores. cbn [map length]. unfold Qnat, Qlt. simpl. lia.
    + rewrite Qmult_1_l. apply Qsum_le_length. unfold qa_scores.
      apply Forall_map. apply Forall_forall. intros x _. apply qa_score_le_one.
Qed.

Lemma evaluate_qa_pairs_without_numpy (qa_pairs : list QAData) :
  qa_pairs <> [] ->
  numpy_loaded = false ->
  EvaluatorQA.evaluate_qa_pairs qa_pairs
  = Raise (HydroDataEvaluator.name_error "name 'np' is not defined").
Proof.
  intros Hne Hnp. unfold EvaluatorQA.evaluate_qa_pairs.
  destruct qa_pairs as [|qa rest]; [congruence|].
  now rewrite Hnp.
Qed.

End QAPairs.

(** X15.  The score of a question-answer pair, with floats read as
    rationals.  It never exceeds 1.  Without a confidence it is at least
    0.2.  A confidence of 0 is not applied: the pair scores as if it had no
    confidence at all.  A confidence between 0 (excluded) and 1 multiplies
    the score the pair has without confidence. *)
Theorem qa_score_and_confidence (U : UnicodeData) (qa : QAData) :
  (EvaluatorQA._evaluate_qa_quality qa <= 1)%Q
  /\ (2 # 10 <= EvaluatorQA._evaluate_qa_quality (with_confidence None qa))%Q
  /\ (forall c : Q,
        (c == 0)%Q ->
        EvaluatorQA._evaluate_qa_quality (with_confidence (Some c) qa)
        = EvaluatorQA._evaluate_qa_quality (with_confidence None qa))
  /\ (forall c : Q,
        (0 < c <= 1)%Q ->
        (EvaluatorQA._evaluate_qa_quality (with_confidence (Some c) qa)
         == c * EvaluatorQA._evaluate_qa_quality (with_confidence None qa))%Q).
Proof.
  split; [apply qa_score_le_one|].
  split; [apply qa_score_unrated|].
  split; [apply qa_score_zero_confidence | apply qa_score_scaled].
Qed.

(** X16.  [evaluate_qa_pairs].  For no pair it returns zero pairs, an
    average of 0 and an empty distribution, with or without numpy.  For at
    least one pair it needs numpy: without it the call raises [NameError];
    with it the report counts the pairs, lists one score per pair in
    order, and its four bands (excellent, good, fair, poor) count every
    score exactly once, so that they add up to the number of pairs; the
    average is at most 1. *)
Theorem qa_pairs_report (U : UnicodeData) (R : Runtime) (qa_pairs : list QAData) :
  EvaluatorQA.evaluate_qa_pairs []
  = Ok {| EvaluatorQA.total_pairs := 0; EvaluatorQA.average_quality := 0;
          EvaluatorQA.distribution := []; EvaluatorQA.scores := None |}
  /\ (qa_pairs <> [] -> numpy_loaded = false ->
      EvaluatorQA.evaluate_qa_pairs qa_pairs
      = Raise (HydroDataEvaluator.name_error "name 'np' is not defined"))
  /\ (qa_pairs <> [] -> numpy_loaded = true ->
      exists r,
        EvaluatorQA.evaluate_qa_pairs qa_pairs = Ok r
        /\ EvaluatorQA.total_pairs r = length qa_pairs
        /\ EvaluatorQA.scores r = Some (map EvaluatorQA._evaluate_qa_quality qa_pairs)
        /\ (exists e g f p,
              EvaluatorQA.distribution r
              = [("excellent", e); ("good", g); ("fair", f); ("poor", p)]%string
              /\ (e + g + f + p = length qa_pairs)%nat)
        /\ (EvaluatorQA.average_quality r <= 1)%Q).
Proof.
  split; [reflexivity|].
  split; [apply evaluate_qa_pairs_without_numpy | apply evaluate_qa_pairs_spec].
Qed.

(** The pairs the Enhancer makes for the chunk about the dam, scored. *)
Example qa_pairs_of_dam_text :
  let pairs :=
    @generated_pairs basic_ucd example_runtime (deref dam_world 0) dam_world in
  match @EvaluatorQA.evaluate_qa_pairs basic_ucd example_runtime pairs with
  | Ok r =>
    EvaluatorQA.total_pairs r = 2%nat
    /\ EvaluatorQA.distribution r
       = [("excellent", 0); ("good", 0); ("fair", 2); ("poor", 0)]%string%nat
  | Raise _ => False
  end.
Proof. vm_compute. split; reflexivity. Qed.

(* ===================================================================== *)
(** * The Cleaner: similarity and the duplicate registry                   *)
(* ===================================================================== *)

Lemma gset_inter_comm (A B : gset N) : A ∩ B = B ∩ A.
Proof. apply (comm_L (∩)). Qed.

Lemma gset_union_comm (A B : gset N) : A ∪ B = B ∪ A.
Proof. apply (comm_L (∪)). Qed.

Lemma gset_inter_idemp (A : gset N) : A ∩ A = A.
Proof. apply (idemp_L (∩)). Qed.

Lemma gset_union_idemp (A : gset N) : A ∪ A = A.
Proof. apply (idemp_L (∪)). Qed.

Lemma gset_union_empty (A : gset string) : A ∪ ∅ = A.
Proof. apply (right_id_L ∅ (∪)). Qed.

Lemma gset_inter_le (A B : gset N) : (size (A ∩ B) <= size (A ∪ B))%nat.
Proof.
  apply subseteq_size. intros x Hx. apply elem_of_intersection in Hx.
  apply elem_of_union_l. tauto.
Qed.

Section Similarity.
Context {U : UnicodeData}.

Lemma similarity_unit (text1 text2 : str) :
  in_unit (HydroDataCleaner._calculate_similarity text1 text2).
Proof.
  unfold in_unit, HydroDataCleaner._calculate_similarity.
  destruct text1 as [|a t1]; [split; lra|].
  destruct text2 as [|b t2]; [split; lra|].
  cbv zeta.
  set (set1 := char_set (py_lower (a :: t1))).
  set (set2 := char_set (py_lower (b :: t2))).
  destruct (size (set1 ∪ set2) =? 0)%nat eqn:Hu; [split; lra|].
  apply Nat.eqb_neq in Hu.
  pose proof (gset_inter_le set1 set2) as Hle.
  split; [apply Qnat_ratio_nonneg|].
  apply Qle_shift_div_r.
  - unfold Qnat, Qlt. simpl. lia.
  - rewrite Qmult_1_l. unfold Qnat, Qle. simpl. lia.
Qed.

Lemma similarity_sym (text1 text2 : str) :
  HydroDataCleaner._calculate_similarity text1 text2
  = HydroDataCleaner._calculate_similarity text2 text1.
Proof.
  unfold HydroDataCleaner._calculate_similarity.
  destruct text1 as [|a t1], text2 as [|b t2]; try reflexivity.
  cbv zeta.
  rewrite (gset_inter_comm (char_set (py_lower (a :: t1)))).
  rewrite (gset_union_comm (char_set (py_lower (a :: t1)))).
  reflexivity.
Qed.

Lemma similarity_same_characters (text1 text2 : str) :
  text1 <> [] -> text2 <> [] -> py_lower text1 <> [] ->
  char_set (py_lower text1) = char_set (py_lower text2) ->
  (HydroDataCleaner._calculate_similarity text1 text2 == 1)%Q.
Proof.
  intros H1 H2 Hl Hs. unfold HydroDataCleaner._calculate_similarity.
  destruct text1 as [|a t1]; [congruence|].
  destruct text2 as [|b t2]; [congruence|].
  cbv zeta. rewrite <- Hs.
  rewrite gset_inter_idemp, gset_union_idemp.
  assert (Hpos : (0 < size (char_set (py_lower (a :: t1))))%nat).
  { destruct (py_lower (a :: t1)) as [|c s]; [congruence|].
    unfold char_set. cbn [list_to_set].
    destruct (size ({[c]} ∪ list_to_set s : gset N)) eqn:Hz; [|lia].
    apply size_empty_inv in Hz. exfalso. apply (not_elem_of_empty (C:=gset N) c).
    apply Hz. apply elem_of_union_l, elem_of_singleton. reflexivity. }
  destruct (size _ =? 0)%nat eqn:Hz; [apply Nat.eqb_eq in Hz; lia|].
  assert (Hq : (0 < Qnat (size (char_set (py_lower (a :: t1)))))%Q).
  { unfold Qnat, Qlt. simpl. lia. }
  field. lra.
Qed.

End Similarity.

Section Registry.
Context {U : UnicodeData} {R : Runtime}.
Variable self : CleanerSelf.

Lemma registered_is_known st text h chunk_id :
  known_duplicate self (registered st text h chunk_id) text h = true.
Proof.
  unfold known_duplicate, registered. cbn [seen_hashes].
  rewrite bool_decide_eq_true_2; [reflexivity|].
  apply elem_of_union_l, elem_of_singleton. reflexivity.
Qed.

Lemma is_duplicate_twice text encoded id1 id2 w :
  str_encode text = Ok encoded ->
  let w1 := snd (HydroDataCleaner._is_duplicate self text id1 w) in
  HydroDataCleaner._is_duplicate self text id2 w1 = (Ok true, w1).
Proof.
  intros He w1. unfold w1. rewrite !is_duplicate_eq, He. cbv zeta.
  destruct (known_duplicate self (cleaner_state w) text (md5_hexdigest encoded)) eqn:Hk;
    cbn [snd].
  - now rewrite Hk.
  - cbn [cleaner_state set_cleaner_state]. now rewrite registered_is_known.
Qed.

Lemma is_duplicate_after_reset text encoded chunk_id w :
  str_encode text = Ok encoded ->
  let w1 := snd (CleanerTracker.reset_duplicate_tracker w) in
  HydroDataCleaner._is_duplicate self text chunk_id w1
  = (Ok false,
     set_cleaner_state
       {| seen_hashes := {[ md5_hexdigest encoded ]};
          seen_contents := {[ chunk_id := text ]} |} w1).
Proof.
  intros He w1. rewrite is_duplicate_eq, He. cbv zeta.
  unfold w1, CleanerTracker.reset_duplicate_tracker, modify. cbn [snd].
  unfold known_duplicate. cbn [cleaner_state set_cleaner_state seen_hashes seen_contents].
  rewrite map_to_list_empty. cbn [existsb orb].
  rewrite bool_decide_eq_false_2 by apply not_elem_of_empty.
  unfold registered. cbn [seen_hashes seen_contents].
  rewrite gset_union_empty. reflexivity.
Qed.

Lemma same_characters_duplicate text existing encoded existing_id chunk_id w :
  text <> [] -> existing <> [] -> py_lower text <> [] ->
  char_set (py_lower text) = char_set (py_lower existing) ->
  (similarity_threshold self < 1)%Q ->
  seen_contents (cleaner_state w) !! existing_id = Some existing ->
  str_encode text = Ok encoded ->
  HydroDataCleaner._is_duplicate self text chunk_id w = (Ok true, w).
Proof.
  intros H1 H2 Hl Hs Ht Hin He. rewrite is_duplicate_eq, He. cbv zeta.
  assert (Hk : known_duplicate self (cleaner_state w) text (md5_hexdigest encoded) = true).
  { apply known_duplicate_iff. right. exists existing_id, existing.
    split; [exact Hin|].
    rewrite (similarity_same_characters text existing H1 H2 Hl Hs). exact Ht. }
  now rewrite Hk.
Qed.

End Registry.

Section RegistrySizes.
Context {U : UnicodeData} {R : Runtime}.
Variable self : CleanerSelf.

Lemma registered_sizes st text h chunk_id :
  h ∉ seen_hashes st ->
  size (seen_hashes (registered st text h chunk_id)) = S (size (seen_hashes st))
  /\ (size (seen_contents st) <= size (seen_contents (registered st text h chunk_id))
      <= S (size (seen_contents st)))%nat
  /\ seen_contents (registered st text h chunk_id) !! chunk_id = Some text.
Proof.
  intros Hh. unfold registered. cbn [seen_hashes seen_contents].
  split; [|split].
  - rewrite size_union.
    + now rewrite size_singleton.
    + intros x Hx Hx'. apply elem_of_singleton in Hx. congruence.
  - rewrite map_size_insert. destruct (seen_contents st !! chunk_id);
      unfold Datatypes.id; lia.
  - apply lookup_insert_eq.
Qed.

Lemma is_duplicate_registry text chunk_id w :
  let run := HydroDataCleaner._is_duplicate self text chunk_id w in
  let st := cleaner_state w in
  let st' := cleaner_state (snd run) in
  match fst run with
  | Ok false =>
    size (seen_hashes st') = S (size (seen_hashes st))
    /\ (size (seen_contents st) <= size (seen_contents st')
        <= S (size (seen_contents st)))%nat
    /\ seen_contents st' !! chunk_id = Some text
  | _ => st' = st
  end.
Proof.
  cbv zeta. rewrite is_duplicate_eq.
  destruct (str_encode text) as [encoded|e]; [|reflexivity].
  cbv zeta.
  destruct (known_duplicate self (cleaner_state w) text (md5_hexdigest encoded)) eqn:Hk;
    [reflexivity|].
  cbn [fst snd cleaner_state set_cleaner_state].
  apply registered_sizes.
  unfold known_duplicate in Hk. apply orb_false_iff in Hk. destruct Hk as [Hk _].
  now apply bool_decide_eq_false in Hk.
Qed.

Lemma valid_has_content (d : DataChunk) :
  BaseSkill.validate_input d = true -> content d <> [].
Proof.
  unfold BaseSkill.validate_input. intros H E. rewrite E in H. discriminate H.
Qed.

Lemma cleaned_state_chunk l original text w :
  original <> [] ->
  let d := deref (cleaned_state l original text w) l in
  content d = text
  /\ extra_data d !! "cleaned"%string = Some (VBool true)
  /\ extra_data d !! "original_length"%string = Some (VInt (Z.of_nat (length original)))
  /\ extra_data d !! "cleaned_length"%string = Some (VInt (Z.of_nat (length text)))
  /\ extra_data d !! "cleaning_ratio"%string
     = Some (VFloat (Qnat (length text) / Qnat (length original)))
  /\ process_metadata d = process_metadata (deref w l)
  /\ id d = id (deref w l)
  /\ language d = language (deref w l).
Proof.
  intros Ho. cbv zeta. unfold cleaned_state, deref. cbv zeta.
  cbn [heap set_heap]. rewrite !lookup_total_insert_eq.
  cbn [set_extra set_content content extra_data process_metadata id language].
  destruct original as [|c original]; [congruence|].
  repeat split;
    repeat (rewrite lookup_insert_ne by discriminate); now rewrite ?lookup_insert_eq.
Qed.

Lemma cleaned_state_frame l original text w x :
  x <> l -> deref (cleaned_state l original text w) x = deref w x.
Proof.
  intros Hx. unfold cleaned_state, deref. cbn [heap set_heap].
  rewrite !lookup_total_insert_ne by congruence. reflexivity.
Qed.

Lemma cleaner_success_path l w encoded :
  let d := deref w l in
  let text := cleaned_text self d in
  BaseSkill.validate_input d = true ->
  HydroDataCleaner._quality_check self text = true ->
  str_encode text = Ok encoded ->
  known_duplicate self (cleaner_state w) text (md5_hexdigest encoded) = false ->
  HydroDataCleaner.process_single self l w
  = (Ok l,
     cleaned_state l (content d) text
       (if remove_duplicates self
        then set_cleaner_state
               (registered (cleaner_state w) text (md5_hexdigest encoded) (id d)) w
        else w)).
Proof.
  intros d text Hv Hq He Hk. rewrite cleaner_single_eq. cbv zeta.
  fold d. fold text. rewrite Hv, Hq. cbn [negb].
  unfold duplicate_gate. destruct (remove_duplicates self).
  - rewrite is_duplicate_eq, He. cbv zeta. now rewrite Hk.
  - reflexivity.
Qed.

End RegistrySizes.

(** X17.  The similarity of two texts is the ratio of shared to all
    distinct lower-cased characters: it lies between 0 and 1, it does not
    depend on the order of its arguments, and it is 0 as soon as one of
    the texts is empty. *)
Theorem similarity_is_a_symmetric_ratio (U : UnicodeData) (text1 text2 : str) :
  in_unit (HydroDataCleaner._calculate_similarity text1 text2)
  /\ HydroDataCleaner._calculate_similarity text1 text2
     = HydroDataCleaner._calculate_similarity text2 text1
  /\ HydroDataCleaner._calculate_similarity [] text2 = 0%Q
  /\ HydroDataCleaner._calculate_similarity text1 [] = 0%Q.
Proof.
  split; [apply similarity_unit|]. split; [apply similarity_sym|].
  split; [reflexivity|]. destruct text1; reflexivity.
Qed.

(** A registry that holds one text, and a text made of the same
    characters in another order. *)
Definition one_text_registry : World :=
  set_cleaner_state
    {| seen_hashes := {[ "d1" ]}; seen_contents := {[ "a" := py "flood control" ]} |}
    new_world.

(** X18.  The duplicate test looks at the set of characters only: a text
    that is not empty and has the same lower-cased characters as a
    registered text (in any order, any number of times) has similarity 1
    with it, and so, for every threshold below 1, [_is_duplicate] reports
    it as a duplicate and registers nothing, however different the two
    texts are. *)
Theorem same_characters_count_as_duplicate (U : UnicodeData) (R : Runtime)
    (self : CleanerSelf) (text existing : str) (encoded : list N)
    (existing_id chunk_id : string) (w : World) :
  text <> [] -> existing <> [] -> py_lower text <> [] ->
  char_set (py_lower text) = char_set (py_lower existing) ->
  (similarity_threshold self < 1)%Q ->
  seen_contents (cleaner_state w) !! existing_id = Some existing ->
  str_encode text = Ok encoded ->
  (HydroDataCleaner._calculate_similarity text existing == 1)%Q
  /\ HydroDataCleaner._is_duplicate self text chunk_id w = (Ok true, w).
Proof.
  intros H1 H2 Hl Hs Ht Hin He. split.
  - now apply similarity_same_characters.
  - now apply same_characters_duplicate with existing encoded existing_id.
Qed.

Lemma same_characters_count_as_duplicate_witness :
  (@HydroDataCleaner._calculate_similarity basic_ucd
     (py "control of flood") (py "flood control") == 1)%Q
  /\ @HydroDataCleaner._is_duplicate basic_ucd example_runtime example_cleaner
       (py "control of flood") "b" one_text_registry
     = (Ok true, one_text_registry).
Proof.
  apply (same_characters_count_as_duplicate basic_ucd example_runtime example_cleaner
           (py "control of flood") (py "flood control")
           (flat_map encode_char (py "control of flood")) "a" "b" one_text_registry).
  - discriminate.
  - discriminate.
  - vm_compute. discriminate.
  - vm_compute. reflexivity.
  - reflexivity.
  - reflexivity.
  - reflexivity.
Defined.

(** X19.  The duplicate registry remembers, until it is reset.  For a
    text that can be encoded: once [_is_duplicate] has been asked about it,
    whatever the answer was, asking again (under any chunk identifier)
    answers that it is a duplicate and changes nothing; after
    [reset_duplicate_tracker] the same text is new again, and the registry
    then holds this text only. *)
Theorem duplicate_registry_round_trip (U : UnicodeData) (R : Runtime)
    (self : CleanerSelf) (text : str) (encoded : list N)
    (id1 id2 : string) (w : World) :
  str_encode text = Ok encoded ->
  let w1 := snd (HydroDataCleaner._is_duplicate self text id1 w) in
  let w2 := snd (CleanerTracker.reset_duplicate_tracker w1) in
  HydroDataCleaner._is_duplicate self text id2 w1 = (Ok true, w1)
  /\ HydroDataCleaner._is_duplicate self text id2 w2
     = (Ok false,
        set_cleaner_state
          {| seen_hashes := {[ md5_hexdigest encoded ]};
             seen_contents := {[ id2 := text ]} |} w2).
Proof.
  intros He w1 w2. split.
  - now apply is_duplicate_twice with encoded.
  - now apply is_duplicate_after_reset.
Qed.

Lemma duplicate_registry_round_trip_witness :
  let w1 := snd (@HydroDataCleaner._is_duplicate basic_ucd example_runtime
                   example_cleaner flood_text "a" new_world) in
  let w2 := snd (CleanerTracker.reset_duplicate_tracker w1) in
  @HydroDataCleaner._is_duplicate basic_ucd example_runtime example_cleaner
    flood_text "b" w1 = (Ok true, w1)
  /\ @HydroDataCleaner._is_duplicate basic_ucd example_runtime example_cleaner
       flood_text "b" w2
     = (Ok false,
        set_cleaner_state
          {| seen_hashes := {[ @md5_hexdigest example_runtime
                                 (flat_map encode_char flood_text) ]};
             seen_contents := {[ "b" := flood_text ]} |} w2).
Proof.
  apply (duplicate_registry_round_trip basic_ucd example_runtime example_cleaner
           flood_text (flat_map encode_char flood_text) "a" "b" new_world).
  reflexivity.
Defined.

(** X20.  What [get_cleaning_statistics] counts.  The number it gives
    under [duplicate_hashes_detected] grows by one exactly when
    [_is_duplicate] answers that a text is new, and stays as it is when a
    duplicate is found or the text cannot be encoded: it is the number of
    texts accepted, not of duplicates.  [contents_stored] never exceeds it,
    if it did not before, since a new text under an identifier already
    used replaces the stored one. *)
Theorem cleaning_statistics_count_new_texts (U : UnicodeData) (R : Runtime)
    (self : CleanerSelf) (text : str) (chunk_id : string) (w : World) :
  (size (seen_contents (cleaner_state w)) <= size (seen_hashes (cleaner_state w)))%nat ->
  exists s r w' s',
    CleanerTracker.get_cleaning_statistics self w = (Ok s, w)
    /\ HydroDataCleaner._is_duplicate self text chunk_id w = (r, w')
    /\ CleanerTracker.get_cleaning_statistics self w' = (Ok s', w')
    /\ (CleanerTracker.contents_stored s'
        <= CleanerTracker.duplicate_hashes_detected s')%nat
    /\ match r with
       | Ok false =>
         CleanerTracker.duplicate_hashes_detected s'
         = S (CleanerTracker.duplicate_hashes_detected s)
       | _ =>
         CleanerTracker.duplicate_hashes_detected s'
         = CleanerTracker.duplicate_hashes_detected s
         /\ CleanerTracker.contents_stored s' = CleanerTracker.contents_stored s
       end.
Proof.
  intros Hinv.
  pose proof (is_duplicate_registry self text chunk_id w) as H. cbv zeta in H.
  destruct (HydroDataCleaner._is_duplicate self text chunk_id w) as [r w'].
  cbn [fst snd] in H.
  eexists _, r, w', _. split; [reflexivity|]. split; [reflexivity|].
  split; [reflexivity|].
  cbn [CleanerTracker.contents_stored CleanerTracker.duplicate_hashes_detected].
  destruct r as [[|]|e].
  - rewrite H. split; [exact Hinv | split; reflexivity].
  - destruct H as (Hh & Hc & _). split; [lia | exact Hh].
  - rewrite H. split; [exact Hinv | split; reflexivity].
Qed.

Lemma cleaning_statistics_count_new_texts_witness :
  exists s r w' s',
    @CleanerTracker.get_cleaning_statistics example_cleaner one_text_registry
    = (Ok s, one_text_registry)
    /\ @HydroDataCleaner._is_duplicate basic_ucd example_runtime example_cleaner
         flood_text "a" one_text_registry = (r, w')
    /\ @CleanerTracker.get_cleaning_statistics example_cleaner w' = (Ok s', w')
    /\ (CleanerTracker.contents_stored s'
        <= CleanerTracker.duplicate_hashes_detected s')%nat
    /\ match r with
       | Ok false =>
         CleanerTracker.duplicate_hashes_detected s'
         = S (CleanerTracker.duplicate_hashes_detected s)
       | _ =>
         CleanerTracker.duplicate_hashes_detected s'
         = CleanerTracker.duplicate_hashes_detected s
         /\ CleanerTracker.contents_stored s' = CleanerTracker.contents_stored s
       end.
Proof.
  apply (cleaning_statistics_count_new_texts basic_ucd example_runtime example_cleaner
           flood_text "a" one_text_registry).
  vm_compute. lia.
Defined.

(** X21.  What the Cleaner leaves on a chunk it accepts.  When a chunk
    has content, its cleaned text passes the quality gate, can be encoded
    and is not a duplicate, [process_single] returns the chunk with the
    cleaned text as its content and with four entries in its extension
    bag: [cleaned] is true, [original_length] is the length of the content
    it had, [cleaned_length] is the length of the content it has now, and
    [cleaning_ratio] is their quotient.  The identifier, the language tag
    and the history are as before (the Cleaner itself adds no record for
    an accepted chunk) and no other chunk changes.  With duplicate removal
    on, the cleaned text is registered under the chunk's identifier. *)
Theorem accepted_chunk_bookkeeping (U : UnicodeData) (R : Runtime)
    (self : CleanerSelf) (l : nat) (w : World) (encoded : list N) :
  let d := deref w l in
  let text := cleaned_text self d in
  BaseSkill.validate_input d = true ->
  HydroDataCleaner._quality_check self text = true ->
  str_encode text = Ok encoded ->
  known_duplicate self (cleaner_state w) text (md5_hexdigest encoded) = false ->
  exists w',
    HydroDataCleaner.process_single self l w = (Ok l, w')
    /\ content (deref w' l) = text
    /\ extra_data (deref w' l) !! "cleaned"%string = Some (VBool true)
    /\ extra_data (deref w' l) !! "original_length"%string
       = Some (VInt (Z.of_nat (length (content d))))
    /\ extra_data (deref w' l) !! "cleaned_length"%string
       = Some (VInt (Z.of_nat (length (content (deref w' l)))))
    /\ extra_data (deref w' l) !! "cleaning_ratio"%string
       = Some (VFloat (Qnat (length text) / Qnat (length (content d))))
    /\ process_metadata (deref w' l) = process_metadata d
    /\ id (deref w' l) = id d
    /\ language (deref w' l) = language d
    /\ (forall x, x <> l -> deref w' x = deref w x)
    /\ (remove_duplicates self = true ->
        seen_contents (cleaner_state w') !! id d = Some text
        /\ md5_hexdigest encoded ∈ seen_hashes (cleaner_state w')).
Proof.
  intros d text Hv Hq He Hk.
  set (w1 := if remove_duplicates self
             then set_cleaner_state
                    (registered (cleaner_state w) text (md5_hexdigest encoded) (id d)) w
             else w).
  exists (cleaned_state l (content d) text w1).
  split; [exact (cleaner_success_path self l w encoded Hv Hq He Hk)|].
  assert (Hd : forall x, deref w1 x = deref w x).
  { intros x. unfold w1. destruct (remove_duplicates self); reflexivity. }
  destruct (cleaned_state_chunk l (content d) text w1 (valid_has_content d Hv))
    as (Hc & H1 & H2 & H3 & H4 & H5 & H6 & H7).
  rewrite Hc, H1, H2, H3, H4, H5, H6, H7, (Hd l).
  repeat (split; [reflexivity|]).
  split.
  - intros x Hx. rewrite cleaned_state_frame by exact Hx. apply Hd.
  - intros Hr. unfold w1. rewrite Hr.
    unfold cleaned_state. cbn [cleaner_state set_heap set_cleaner_state registered
                               seen_hashes seen_contents].
    split; [apply lookup_insert_eq|].
    apply elem_of_union_l, elem_of_singleton. reflexivity.
Qed.

Lemma accepted_chunk_bookkeeping_witness :
  let d := deref two_chunks 0 in
  let text := @cleaned_text basic_ucd example_runtime example_cleaner d in
  exists w',
    @HydroDataCleaner.process_single basic_ucd example_runtime example_cleaner
      0%nat two_chunks = (Ok 0%nat, w')
    /\ content (deref w' 0) = text
    /\ extra_data (deref w' 0) !! "cleaned"%string = Some (VBool true)
    /\ extra_data (deref w' 0) !! "original_length"%string
       = Some (VInt (Z.of_nat (length (content d))))
    /\ extra_data (deref w' 0) !! "cleaned_length"%string
       = Some (VInt (Z.of_nat (length (content (deref w' 0)))))
    /\ extra_data (deref w' 0) !! "cleaning_ratio"%string
       = Some (VFloat (Qnat (length text) / Qnat (length (content d))))
    /\ process_metadata (deref w' 0) = process_metadata d
    /\ id (deref w' 0) = id d
    /\ language (deref w' 0) = language d
    /\ (forall x, x <> 0%nat -> deref w' x = deref two_chunks x)
    /\ (remove_duplicates example_cleaner = true ->
        seen_contents (cleaner_state w') !! id d = Some text
        /\ @md5_hexdigest example_runtime flood_bytes ∈ seen_hashes (cleaner_state w')).
Proof.
  assert (H1 : BaseSkill.validate_input (deref two_chunks 0) = true)
    by (vm_compute; reflexivity).
  assert (H2 : HydroDataCleaner._quality_check example_cleaner
                 (@cleaned_text basic_ucd example_runtime example_cleaner
                    (deref two_chunks 0)) = true)
    by (vm_compute; reflexivity).
  assert (H3 : str_encode (@cleaned_text basic_ucd example_runtime example_cleaner
                             (deref two_chunks 0)) = Ok flood_bytes)
    by (vm_compute; reflexivity).
  assert (H4 : @known_duplicate basic_ucd example_cleaner (cleaner_state two_chunks)
                 (@cleaned_text basic_ucd example_runtime example_cleaner
                    (deref two_chunks 0))
                 (@md5_hexdigest example_runtime flood_bytes) = false)
    by (vm_compute; reflexivity).
  exact (accepted_chunk_bookkeeping basic_ucd example_runtime example_cleaner
           0%nat two_chunks flood_bytes H1 H2 H3 H4).
Defined.

(* ===================================================================== *)
(** * The statistics of a dataset                                          *)
(* ===================================================================== *)

Lemma data_type_counts (chunks : list DataChunk) :
  sum_list (map (fun dtype => length (filter (fun chunk => data_type chunk = dtype) chunks))
                ProcessedDataStatistics.all_data_types)
  = length chunks.
Proof.
  induction chunks as [|c chunks IH]; [reflexivity|].
  unfold ProcessedDataStatistics.all_data_types in *. cbn [map sum_list] in *.
  rewrite !filter_cons. cbn [length].
  destruct (data_type c); repeat case_decide; try congruence; cbn [length];
    unfold Datatypes.id in *; lia.
Qed.

Lemma language_counts (chunks : list DataChunk) :
  sum_list (map (fun lang => length (filter (fun chunk => language chunk = lang) chunks))
                ProcessedDataStatistics.all_languages)
  = length chunks.
Proof.
  induction chunks as [|c chunks IH]; [reflexivity|].
  unfold ProcessedDataStatistics.all_languages in *. cbn [map sum_list] in *.
  rewrite !filter_cons. cbn [length].
  destruct (language c); repeat case_decide; try congruence; cbn [length];
    unfold Datatypes.id in *; lia.
Qed.

(** X22.  The statistics of a dataset add up.  [get_statistics] counts
    the chunks and the pairs of the dataset; every chunk is counted under
    exactly one of the eight data types and under exactly one of the three
    languages, so that both tables sum to the number of chunks; the
    average chunk length times the number of chunks is the total number
    of characters; and for a dataset without chunks the average is 0
    rather than a division by zero.  The store is only read. *)
Theorem dataset_statistics_add_up (self : ProcessedData) (w : World) :
  exists s,
    ProcessedDataStatistics.get_statistics self w = (Ok s, w)
    /\ ProcessedDataStatistics.total_chunks s = length (pd_chunks self)
    /\ ProcessedDataStatistics.total_qa_pairs s = length (pd_qa_pairs self)
    /\ map fst (ProcessedDataStatistics.data_types s)
       = ["pdf"; "text"; "qa"; "table"; "image"; "json"; "csv"; "markdown"]%string
    /\ map fst (ProcessedDataStatistics.languages s) = ["zh"; "en"; "auto"]%string
    /\ sum_list (map snd (ProcessedDataStatistics.data_types s))
       = ProcessedDataStatistics.total_chunks s
    /\ sum_list (map snd (ProcessedDataStatistics.languages s))
       = ProcessedDataStatistics.total_chunks s
    /\ (ProcessedDataStatistics.average_chunk_length s
        * Qnat (ProcessedDataStatistics.total_chunks s)
        == Qnat (ProcessedDataStatistics.total_characters s))%Q
    /\ (pd_chunks self = [] ->
        ProcessedDataStatistics.average_chunk_length s = 0%Q
        /\ ProcessedDataStatistics.total_characters s = 0%nat).
Proof.
  unfold ProcessedDataStatistics.get_statistics, bind, get_world, ret.
  eexists. split; [reflexivity|].
  cbn [ProcessedDataStatistics.total_chunks ProcessedDataStatistics.total_qa_pairs
       ProcessedDataStatistics.data_types ProcessedDataStatistics.languages
       ProcessedDataStatistics.total_characters
       ProcessedDataStatistics.average_chunk_length].
  set (chunks := map (deref w) (pd_chunks self)).
  split; [unfold chunks; apply length_map|]. split; [reflexivity|].
  split; [reflexivity|]. split; [reflexivity|].
  split; [rewrite map_map; cbn [snd]; apply data_type_counts|].
  split; [rewrite map_map; cbn [snd]; apply language_counts|].
  split.
  - destruct chunks as [|c chunks'] eqn:E.
    + unfold Qeq. simpl. lia.
    + assert (Hq : (0 < Qnat (length (c :: chunks')))%Q).
      { unfold Qnat, Qlt. simpl. lia. }
      field. lra.
  - intros Hnil. unfold chunks. rewrite Hnil. split; reflexivity.
Qed.

(* ===================================================================== *)
(** * The Enhancer: terms, answers, tags and the knowledge base            *)
(* ===================================================================== *)

Lemma unique_terms_spec (terms : list pyval) :
  forall seen_terms,
    let r := HydroDataEnhancer.unique_terms terms seen_terms in
    NoDup (map HydroDataEnhancer.term_text r)
    /\ Forall (fun t => (HydroDataEnhancer.term_text t ∉ seen_terms)
                        /\ (1 < length (HydroDataEnhancer.term_text t))%nat) r
    /\ r `sublist_of` terms.
Proof.
  induction terms as [|term rest IH]; intros seen_terms; cbv zeta.
  - cbn [HydroDataEnhancer.unique_terms map]. split; [apply NoDup_nil_2|].
    split; [apply Forall_nil; exact I | reflexivity].
  - cbn [HydroDataEnhancer.unique_terms]. cbv zeta.
    destruct (bool_decide_reflect
                (HydroDataEnhancer.term_text term ∈ seen_terms)) as [Hin|Hnin];
      cbn [negb andb].
    + destruct (IH seen_terms) as (Hnd & Hall & Hsub).
      split; [exact Hnd|]. split; [exact Hall|]. now apply sublist_cons.
    + destruct (1 <? length (HydroDataEnhancer.term_text term))%nat eqn:Hlen.
      * destruct (IH (HydroDataEnhancer.term_text term :: seen_terms))
          as (Hnd & Hall & Hsub).
        apply Nat.ltb_lt in Hlen.
        split; [|split].
        -- cbn [map]. apply NoDup_cons. split; [|exact Hnd].
           intros Hin. apply list_elem_of_fmap in Hin. destruct Hin as (t & Ht & Hint).
           rewrite Forall_forall in Hall. destruct (Hall t Hint) as [Hn _].
           apply Hn. rewrite <- Ht. apply list_elem_of_here.
        -- apply Forall_cons. split; [now split|].
           eapply Forall_impl; [exact Hall|]. intros t [Hn Hl]. split; [|exact Hl].
           intros Hin. apply Hn. now apply list_elem_of_further.
        -- now apply sublist_skip.
      * destruct (IH seen_terms) as (Hnd & Hall & Hsub).
        split; [exact Hnd|]. split; [exact Hall|]. now apply sublist_cons.
Qed.

Lemma app_nonempty_r {A} (s t : list A) : t <> [] -> s ++ t <> [].
Proof. intros Ht H. apply app_eq_nil in H. tauto. Qed.

Lemma app_nonempty_l {A} (s t : list A) : s <> [] -> s ++ t <> [].
Proof. intros Hs H. apply app_eq_nil in H. tauto. Qed.

Lemma default_answer_nonempty (term qa_type : str) :
  HydroDataEnhancer._generate_default_answer term qa_type <> [].
Proof.
  unfold HydroDataEnhancer._generate_default_answer.
  repeat match goal with |- context [if ?c then _ else _] => destruct c end;
    try (apply app_nonempty_r; vm_compute; discriminate).
  apply app_nonempty_l. vm_compute. discriminate.
Qed.

Lemma longest_in (answers : list str) :
  forall best, HydroDataEnhancer.longest best answers ∈ (best :: answers).
Proof.
  induction answers as [|a rest IH]; intros best; cbn [HydroDataEnhancer.longest].
  - apply list_elem_of_here.
  - destruct (length best <? length a)%nat.
    + apply list_elem_of_further, IH.
    + specialize (IH best). apply elem_of_cons in IH. destruct IH as [->|IH].
      * apply list_elem_of_here.
      * now apply list_elem_of_further, list_elem_of_further.
Qed.

(** An answer taken from the content: the stripped window around an
    occurrence of the term, more than twenty characters long. *)
Definition window_answer (term content answer : str) : Prop :=
  exists pos,
    pos ∈ HydroDataEnhancer.find_all term content 0
    /\ answer = strip (slice content (pos - 100)
                         (Nat.min (length content) (pos + length term + 100)))
    /\ (20 < length answer)%nat.

Lemma answer_for_term_cases (term content qa_type : str) :
  let answer := HydroDataEnhancer._generate_answer_for_term term content qa_type in
  answer = HydroDataEnhancer._generate_default_answer term qa_type
  \/ window_answer term content answer.
Proof.
  cbv zeta. unfold HydroDataEnhancer._generate_answer_for_term. cbv zeta.
  destruct (HydroDataEnhancer.find_all term content 0) as [|p ps] eqn:Ep; [now left|].
  match goal with |- context [flat_map ?f (p :: ps)] =>
    set (answers := flat_map f (p :: ps));
    assert (Hall : Forall (window_answer term content) answers)
  end.
  { unfold answers. apply Forall_flat_map. apply Forall_forall. intros pos Hpos.
    cbv zeta.
    destruct (20 <? length _)%nat eqn:Hlen; [|apply Forall_nil; exact I].
    apply Forall_cons. split; [|apply Forall_nil; exact I].
    exists pos. rewrite Ep. split; [exact Hpos|]. split; [reflexivity|].
    now apply Nat.ltb_lt. }
  destruct answers as [|a rest]; [now left|]. right.
  rewrite Forall_forall in Hall. apply Hall. apply longest_in.
Qed.

Lemma answer_for_term_nonempty (term content qa_type : str) :
  HydroDataEnhancer._generate_answer_for_term term content qa_type <> [].
Proof.
  destruct (answer_for_term_cases term content qa_type) as [E|(pos & _ & _ & Hlen)].
  - rewrite E. apply default_answer_nonempty.
  - intros E. rewrite E in Hlen. cbn [length] in Hlen. lia.
Qed.

Section PairCounts.
Context {U : UnicodeData} {R : Runtime}.

Lemma template_loop_count content terms n_terms head :
  forall acc w,
    Forall (fun qa => answer qa <> []) acc ->
    match fst (HydroDataEnhancer.template_loop content terms n_terms head acc w) with
    | Ok qa_pairs =>
      length qa_pairs = (length acc + length head)%nat
      /\ Forall (fun qa => answer qa <> []) qa_pairs
    | Raise _ => True
    end.
Proof.
  induction head as [|term_info rest IH]; intros acc w Hacc.
  - cbn [HydroDataEnhancer.template_loop ret fst length]. split; [lia | exact Hacc].
  - cbn [HydroDataEnhancer.template_loop].
    unfold bind at 1.
    destruct (lift (HydroDataEnhancer.term_of term_info) w) as [[term|e] w1];
      [|exact I].
    unfold bind at 1.
    destruct (HydroDataEnhancer.random_choice HydroDataEnhancer.qa_templates w1)
      as [[[qa_type templates]|e] w2]; [|exact I].
    unfold bind at 1.
    destruct (HydroDataEnhancer.random_choice templates w2) as [[template|e] w3];
      [|exact I].
    unfold bind at 1.
    match goal with |- context [(if ?c then ?a else ?b) w3] =>
      destruct ((if c then a else b) w3) as [[question|e] w4] end; [|exact I].
    pose proof (answer_for_term_nonempty term content qa_type) as Hne.
    destruct (HydroDataEnhancer._generate_answer_for_term term content qa_type)
      as [|c tail] eqn:Ea; [congruence|].
    match goal with |- context [HydroDataEnhancer.template_loop _ _ _ rest ?acc' w4] =>
      specialize (IH acc' w4);
      destruct (HydroDataEnhancer.template_loop content terms n_terms rest acc' w4)
        as [[qa_pairs|e] w5]
    end; [|exact I].
    cbn [fst] in *. destruct IH as [Hlen Hall].
    + apply Forall_app. split; [exact Hacc|].
      apply Forall_cons. split; [|apply Forall_nil; exact I].
      unfold mkQA. cbn [answer]. discriminate.
    + split; [|exact Hall]. rewrite Hlen, length_app. cbn [length]. lia.
Qed.

Lemma content_based_count (d : DataChunk) :
  (length (HydroDataEnhancer._generate_content_based_qa d) <= 2)%nat
  /\ Forall (fun qa => answer qa <> []) (HydroDataEnhancer._generate_content_based_qa d).
Proof.
  unfold HydroDataEnhancer._generate_content_based_qa. cbv zeta.
  set (numbers := firstn 2 (re_findall HydroDataEnhancer.re_quantity (content d))).
  assert (Hn : (length numbers <= 2)%nat) by (unfold numbers; rewrite length_take; lia).
  clearbody numbers. split.
  - assert (Hle : forall l : list str,
      (length (flat_map (fun num =>
         match str_find (content d) num with
         | None => []
         | Some num_pos =>
           [mkQA (py "文中提到的" ++ num ++ py "这个数据代表什么含义？")
              (py "根据原文内容，"
               ++ strip (slice (content d) (num_pos - 50)
                           (Nat.min (length (content d)) (num_pos + length num + 50))))
              (Some (strip (slice (content d) (num_pos - 50)
                              (Nat.min (length (content d))
                                 (num_pos + length num + 50)))))
              (Some (py "数据")) (Some (7 # 10))]
         end) l) <= length l)%nat).
    { induction l as [|x l IHl]; [reflexivity|].
      cbn [flat_map]. rewrite length_app. cbn [length].
      destruct (str_find (content d) x); cbn [length]; lia. }
    specialize (Hle numbers). lia.
  - apply Forall_flat_map. apply Forall_forall. intros num _.
    destruct (str_find (content d) num); [|apply Forall_nil; exact I].
    apply Forall_cons. split; [|apply Forall_nil; exact I].
    unfold mkQA. cbn [answer]. apply app_nonempty_l. vm_compute. discriminate.
Qed.

Lemma generate_qa_pairs_count (d : DataChunk) (w : World) (terms : list pyval) :
  dict_get (extra_data d) "extracted_terms" (VList []) = VList terms ->
  match fst (HydroDataEnhancer._generate_qa_pairs d w) with
  | Ok qa_pairs =>
    (Nat.min 3 (length terms) <= length qa_pairs <= Nat.min 3 (length terms) + 2)%nat
    /\ Forall (fun qa => answer qa <> []) qa_pairs
  | Raise _ => True
  end.
Proof.
  intros Ht. unfold HydroDataEnhancer._generate_qa_pairs.
  unfold bind at 1. unfold HydroDataEnhancer._generate_template_qa.
  rewrite Ht. unfold bind at 1. unfold lift at 1. cbn [py_head].
  unfold bind at 1. unfold lift at 1. cbn [py_len].
  pose proof (template_loop_count (content d) (VList terms) (length terms)
                (firstn 3 terms) [] w (proj2 (Forall_nil _) I)) as Hl.
  destruct (HydroDataEnhancer.template_loop (content d) (VList terms) (length terms)
              (firstn 3 terms) [] w) as [[template_qa|e] w1]; [|exact I].
  cbn [fst] in Hl. destruct Hl as [Hlen Hall]. cbn [length] in Hlen.
  rewrite length_take in Hlen.
  destruct (content_based_count d) as [Hc Hcall].
  cbv zeta. unfold ret. cbn [fst].
  unfold HydroDataEnhancer._generate_model_qa.
  assert (Hm : (if qa_model_loaded then [] else []) = @nil QAData)
    by (destruct qa_model_loaded; reflexivity).
  rewrite Hm. cbn [app].
  rewrite firstn_all2 by (rewrite length_app; lia).
  split.
  - rewrite length_app. lia.
  - apply Forall_app. now split.
Qed.

End PairCounts.

Lemma contains_app_prefix (w p a : str) :
  contains w a = true -> contains w (p ++ a) = true.
Proof.
  intros H. induction p as [|x p IH]; [exact H|].
  cbn [app contains]. rewrite IH. apply orb_true_r.
Qed.

Lemma contains_any_inside (ws : list str) (pre a post : str) :
  contains_any ws a = true -> contains_any ws (pre ++ a ++ post) = true.
Proof.
  unfold contains_any. rewrite !existsb_exists.
  intros (w & Hin & Hw). exists w. split; [exact Hin|].
  apply contains_app_prefix. now apply contains_app_l.
Qed.

Lemma filter_sublist_mono {A} (P Q : A -> Prop)
    `{forall x, Decision (P x)} `{forall x, Decision (Q x)} (l : list A) :
  (forall x, P x -> Q x) -> filter P l `sublist_of` filter Q l.
Proof.
  intros HPQ. induction l as [|x l IH]; [reflexivity|].
  rewrite !filter_cons. destruct (decide (P x)) as [HP|HP].
  - destruct (decide (Q x)) as [_|HQ]; [now apply sublist_skip|].
    exfalso. apply HQ. now apply HPQ.
  - destruct (decide (Q x)); [now apply sublist_cons | exact IH].
Qed.

Lemma sublist_map {A B} (f : A -> B) (l1 l2 : list A) :
  l1 `sublist_of` l2 -> map f l1 `sublist_of` map f l2.
Proof.
  induction 1 as [|x l1 l2 _ IH|x l1 l2 _ IH]; cbn [map].
  - constructor.
  - now apply sublist_skip.
  - now apply sublist_cons.
Qed.

Lemma domain_names_distinct :
  NoDup (map fst HydroDataEnhancer.domain_keywords).
Proof. apply (bool_decide_unpack _). vm_compute. exact I. Qed.

Lemma domain_tags_sublist (content : str) :
  HydroDataEnhancer._assign_domain_tags content
  `sublist_of` map fst HydroDataEnhancer.domain_keywords.
Proof.
  unfold HydroDataEnhancer._assign_domain_tags.
  apply sublist_map. apply sublist_filter.
Qed.

Lemma domain_tags_mono (pre content post : str) :
  HydroDataEnhancer._assign_domain_tags content
  `sublist_of` HydroDataEnhancer._assign_domain_tags (pre ++ content ++ post).
Proof.
  unfold HydroDataEnhancer._assign_domain_tags.
  apply sublist_map. apply filter_sublist_mono.
  intros [domain keywords] Hk. now apply contains_any_inside.
Qed.

(** ** The knowledge base *)

Lemma lookup_setitem_eq {A} (k : str) (v : A) (d : list (str * A)) :
  HydroDataEnhancer.lookup_str k (KnowledgeBase.setitem k v d) = Some v.
Proof.
  induction d as [|[k' v'] d IH]; cbn [KnowledgeBase.setitem HydroDataEnhancer.lookup_str].
  - unfold str_eqb. now rewrite bool_decide_eq_true_2.
  - destruct (str_eqb k k') eqn:E; cbn [HydroDataEnhancer.lookup_str].
    + unfold str_eqb. now rewrite bool_decide_eq_true_2.
    + now rewrite E.
Qed.

Lemma lookup_setitem_ne {A} (k k0 : str) (v : A) (d : list (str * A)) :
  k0 <> k ->
  HydroDataEnhancer.lookup_str k0 (KnowledgeBase.setitem k v d)
  = HydroDataEnhancer.lookup_str k0 d.
Proof.
  intros Hne.
  assert (Hk : str_eqb k0 k = false) by (unfold str_eqb; now apply bool_decide_eq_false_2).
  induction d as [|[k' v'] d IH]; cbn [KnowledgeBase.setitem HydroDataEnhancer.lookup_str].
  - now rewrite Hk.
  - destruct (str_eqb k k') eqn:E; cbn [HydroDataEnhancer.lookup_str].
    + unfold str_eqb in E. apply bool_decide_eq_true in E. subst k'.
      now rewrite Hk.
    + destruct (str_eqb k0 k'); [reflexivity | exact IH].
Qed.

Lemma setitem_keys {A} (k : str) (v : A) (d : list (str * A)) :
  map fst (KnowledgeBase.setitem k v d)
  = if bool_decide (k ∈ map fst d) then map fst d else map fst d ++ [k].
Proof.
  induction d as [|[k' v'] d IH]; [reflexivity|].
  cbn [KnowledgeBase.setitem map fst]. unfold str_eqb.
  destruct (bool_decide_reflect (k = k')) as [->|Hne]; cbn [map fst].
  - rewrite bool_decide_eq_true_2 by apply list_elem_of_here. reflexivity.
  - rewrite IH. destruct (bool_decide_reflect (k ∈ map fst d)) as [Hin|Hnin].
    + rewrite bool_decide_eq_true_2 by now apply list_elem_of_further. reflexivity.
    + rewrite bool_decide_eq_false_2; [reflexivity|].
      intros Hin. apply elem_of_cons in Hin. destruct Hin; congruence.
Qed.

Lemma add_terms_spec (new_terms : list str) :
  forall self,
    let self' :=
      fold_left (fun self term =>
                   EnhancerKnowledge.with_terms
                     (KnowledgeBase.add_term term None (kb_terms self)) self)
                new_terms self in
    (forall t, t ∈ new_terms ->
       HydroDataEnhancer.lookup_str t (kb_terms self') = Some [])
    /\ (forall t, t ∉ new_terms ->
          HydroDataEnhancer.lookup_str t (kb_terms self')
          = HydroDataEnhancer.lookup_str t (kb_terms self))
    /\ kb_entities self' = kb_entities self
    /\ enhancer_config self' = enhancer_config self.
Proof.
  induction new_terms as [|term rest IH]; intros self; cbv zeta.
  - cbn [fold_left]. split; [intros t Ht; inversion Ht|]. auto.
  - cbn [fold_left].
    destruct (IH (EnhancerKnowledge.with_terms
                    (KnowledgeBase.add_term term None (kb_terms self)) self))
      as (Hin & Hout & He & Hc).
    cbv zeta in Hin, Hout, He, Hc.
    split; [|split; [|split; [exact He | exact Hc]]].
    + intros t Ht. destruct (decide (t ∈ rest)) as [Hr|Hr]; [now apply Hin|].
      apply elem_of_cons in Ht. destruct Ht as [->|Ht]; [|contradiction].
      rewrite (Hout term Hr). cbn [kb_terms EnhancerKnowledge.with_terms].
      apply lookup_setitem_eq.
    + intros t Ht. apply not_elem_of_cons in Ht. destruct Ht as [Hne Hr].
      rewrite (Hout t Hr). cbn [kb_terms EnhancerKnowledge.with_terms].
      now apply lookup_setitem_ne.
Qed.

Lemma add_entities_terms (items : list (str * list (string * pyval))) :
  forall self,
    kb_terms
      (fold_left (fun self '(entity_id, entity_info) =>
                    EnhancerKnowledge.with_entities
                      (KnowledgeBase.add_entity entity_id entity_info (kb_entities self))
                      self)
                 items self)
    = kb_terms self.
Proof.
  induction items as [|[entity_id entity_info] items IH]; intros self; [reflexivity|].
  cbn [fold_left]. now rewrite IH.
Qed.

Lemma add_entities_spec (items : list (str * list (string * pyval))) :
  forall self,
    let self' :=
      fold_left (fun self '(entity_id, entity_info) =>
                   EnhancerKnowledge.with_entities
                     (KnowledgeBase.add_entity entity_id entity_info (kb_entities self))
                     self)
                items self in
    (NoDup (map fst items) ->
     forall entity_id entity_info,
       (entity_id, entity_info) ∈ items ->
       HydroDataEnhancer.lookup_str entity_id (kb_entities self') = Some entity_info)
    /\ (forall entity_id,
          entity_id ∉ map fst items ->
          HydroDataEnhancer.lookup_str entity_id (kb_entities self')
          = HydroDataEnhancer.lookup_str entity_id (kb_entities self)).
Proof.
  induction items as [|[k v] items IH]; intros self; cbv zeta.
  - cbn [fold_left]. split; [intros _ i info Hin; inversion Hin | reflexivity].
  - cbn [fold_left].
    destruct (IH (EnhancerKnowledge.with_entities
                    (KnowledgeBase.add_entity k v (kb_entities self)) self))
      as (Hin & Hout).
    cbv zeta in Hin, Hout. split.
    + intros Hnd i info Hi. cbn [map fst] in Hnd. apply NoDup_cons in Hnd.
      destruct Hnd as [Hk Hnd].
      apply elem_of_cons in Hi. destruct Hi as [Heq|Hi].
      * inversion Heq; subst i info. rewrite (Hout k Hk).
        cbn [kb_entities EnhancerKnowledge.with_entities].
        apply lookup_setitem_eq.
      * now apply Hin.
    + intros i Hi. cbn [map fst] in Hi. apply not_elem_of_cons in Hi.
      destruct Hi as [Hne Hi]. rewrite (Hout i Hi).
      cbn [kb_entities EnhancerKnowledge.with_entities].
      now apply lookup_setitem_ne.
Qed.

(** X23.  The terms [_extract_terms] returns are pairwise distinct by
    their text, each text is longer than one character, and they come in
    the order in which the extractors found them.  Without jieba a text
    tagged Chinese, or tagged AUTO and holding a Chinese character, gives
    no term at all: the English extractor is not run on it. *)
Theorem extracted_terms_are_distinct (U : UnicodeData) (R : Runtime)
    (self : EnhancerSelf) (text : str) (lang : Language) :
  let terms := HydroDataEnhancer._extract_terms self text lang in
  NoDup (map HydroDataEnhancer.term_text terms)
  /\ Forall (fun t => (1 < length (HydroDataEnhancer.term_text t))%nat) terms
  /\ (jieba = None ->
      lang = CHINESE \/ (lang = AUTO /\ HydroDataEnhancer._contains_chinese text = true) ->
      terms = []).
Proof.
  cbv zeta. unfold HydroDataEnhancer._extract_terms. cbv zeta.
  match goal with |- context [HydroDataEnhancer.unique_terms ?ts []] =>
    destruct (unique_terms_spec ts []) as (Hnd & Hall & _)
  end.
  cbv zeta in Hnd, Hall.
  split; [exact Hnd|]. split.
  - eapply Forall_impl; [exact Hall|]. intros t [_ Hl]. exact Hl.
  - intros Hj Hl. unfold HydroDataEnhancer._extract_chinese_terms. rewrite Hj.
    destruct Hl as [->|[-> Hc]]; [reflexivity|]. now rewrite Hc.
Qed.

(** X24.  How many pairs a chunk gets.  When the extracted terms of the
    chunk are a list and [_generate_qa_pairs] returns, it returns one pair
    for each of the first three terms, then at most two pairs about
    quantities found in the content: never more than five, so the cut at
    five removes nothing.  Every pair has an answer that is not empty (the
    answer for a term is a window of the content longer than twenty
    characters or a stock sentence), so the test that skips empty answers
    never skips. *)
Theorem generated_pairs_per_chunk (U : UnicodeData) (R : Runtime)
    (d : DataChunk) (w : World) (terms : list pyval) :
  dict_get (extra_data d) "extracted_terms" (VList []) = VList terms ->
  (forall term content qa_type,
     HydroDataEnhancer._generate_answer_for_term term content qa_type <> [])
  /\ match fst (HydroDataEnhancer._generate_qa_pairs d w) with
     | Ok qa_pairs =>
       (Nat.min 3 (length terms) <= length qa_pairs <= Nat.min 3 (length terms) + 2)%nat
       /\ (length qa_pairs <= 5)%nat
       /\ Forall (fun qa => answer qa <> []) qa_pairs
     | Raise _ => True
     end.
Proof.
  intros Ht. split; [apply answer_for_term_nonempty|].
  pose proof (generate_qa_pairs_count d w terms Ht) as H.
  destruct (fst (HydroDataEnhancer._generate_qa_pairs d w)) as [qa_pairs|e]; [|exact I].
  destruct H as [Hlen Hall]. split; [exact Hlen|]. split; [lia | exact Hall].
Qed.

Lemma generated_pairs_per_chunk_witness :
  (forall term content qa_type,
     HydroDataEnhancer._generate_answer_for_term term content qa_type <> [])
  /\ match fst (@HydroDataEnhancer._generate_qa_pairs basic_ucd example_runtime
                  (deref dam_world 0) dam_world) with
     | Ok qa_pairs =>
       (Nat.min 3 (length (@nil pyval)) <= length qa_pairs
        <= Nat.min 3 (length (@nil pyval)) + 2)%nat
       /\ (length qa_pairs <= 5)%nat
       /\ Forall (fun qa => answer qa <> []) qa_pairs
     | Raise _ => True
     end.
Proof.
  apply (generated_pairs_per_chunk basic_ucd example_runtime (deref dam_world 0)
           dam_world []).
  reflexivity.
Defined.

(** X25.  The domain tags of a content are some of the six domain names,
    each at most once and in the order of the table; and they only grow
    with the text: every tag of a content is a tag of any text that
    contains it. *)
Theorem domain_tags_grow_with_content (pre content post : str) :
  HydroDataEnhancer._assign_domain_tags content
  `sublist_of` map py ["水资源"; "水文学"; "水工程"; "水环境"; "防洪"; "灌溉"]%string
  /\ NoDup (HydroDataEnhancer._assign_domain_tags content)
  /\ HydroDataEnhancer._assign_domain_tags content
     `sublist_of` HydroDataEnhancer._assign_domain_tags (pre ++ content ++ post).
Proof.
  split; [apply domain_tags_sublist|]. split; [|apply domain_tags_mono].
  exact (sublist_NoDup _ _ domain_names_distinct (domain_tags_sublist content)).
Qed.

(** X26.  [update_knowledge_base] gives every term it is passed an empty
    list of aliases, also a term that was in the base with aliases, and
    leaves the other terms alone.  Called without entities it adds the
    terms and then raises [TypeError], since its closing message takes the
    length of [None]; the entities are then untouched.  Called with a
    dictionary of entities, empty or not, it returns; every entity of the
    dictionary is then in the base under its identifier, in place of the
    record that identifier had, and the other entities are as they were. *)
Theorem update_knowledge_base_resets_aliases (self : EnhancerSelf)
    (new_terms : list str)
    (new_entities : option (list (str * list (string * pyval)))) :
  let run := EnhancerKnowledge.update_knowledge_base self new_terms new_entities in
  (forall t, t ∈ new_terms ->
     HydroDataEnhancer.lookup_str t (kb_terms (snd run)) = Some [])
  /\ (forall t, t ∉ new_terms ->
        HydroDataEnhancer.lookup_str t (kb_terms (snd run))
        = HydroDataEnhancer.lookup_str t (kb_terms self))
  /\ match new_entities with
     | None =>
       fst run = Raise (type_error "object of type 'NoneType' has no len()")
       /\ kb_entities (snd run) = kb_entities self
     | Some items =>
       fst run = Ok tt
       /\ (NoDup (map fst items) ->
           forall entity_id entity_info,
             (entity_id, entity_info) ∈ items ->
             HydroDataEnhancer.lookup_str entity_id (kb_entities (snd run))
             = Some entity_info)
       /\ (forall entity_id,
             entity_id ∉ map fst items ->
             HydroDataEnhancer.lookup_str entity_id (kb_entities (snd run))
             = HydroDataEnhancer.lookup_str entity_id (kb_entities self))
     end.
Proof.
  cbv zeta. unfold EnhancerKnowledge.update_knowledge_base. cbv zeta.
  destruct (add_terms_spec new_terms self) as (Hin & Hout & He & _).
  cbv zeta in Hin, Hout, He.
  destruct new_entities as [[|item items]|]; cbn [fst snd].
  - split; [exact Hin|]. split; [exact Hout|]. split; [reflexivity|].
    split; [intros _ i info Hi; inversion Hi|]. intros i _. now rewrite He.
  - rewrite add_entities_terms. split; [exact Hin|]. split; [exact Hout|].
    split; [reflexivity|].
    match goal with |- context [fold_left ?f (item :: items) ?s] =>
      destruct (add_entities_spec (item :: items) s) as (Hein & Heout)
    end.
    cbv zeta in Hein, Heout. split; [exact Hein|].
    intros i Hi. rewrite (Heout i Hi). now rewrite He.
  - split; [exact Hin|]. split; [exact Hout|]. split; [reflexivity | exact He].
Qed.

(** The default base holds a record for the Yangtze; passing another record
    under that identifier, as the only entity, replaces it. *)
Example entity_record_is_replaced :
  let self := HydroDataEnhancer.default_self ∅ in
  let info := [("type", VStr (py "河流"))]%string in
  let run := EnhancerKnowledge.update_knowledge_base self [] (Some [(py "长江", info)]) in
  HydroDataEnhancer.lookup_str (py "长江") (kb_entities self) <> Some info
  /\ HydroDataEnhancer.lookup_str (py "长江") (kb_entities (snd run)) = Some info
  /\ length (kb_entities (snd run)) = length (kb_entities self).
Proof. vm_compute. repeat split; try reflexivity. discriminate. Qed.

(** The default base holds the term for hydrology with three aliases;
    passing the term again leaves it with none. *)
Example hydrology_loses_its_aliases :
  let self := HydroDataEnhancer.default_self ∅ in
  let run := EnhancerKnowledge.update_knowledge_base self [py "水文"] None in
  HydroDataEnhancer.lookup_str (py "水文") (kb_terms self)
  = Some (map py ["水文学"; "水文分析"; "水文资料"]%string)
  /\ HydroDataEnhancer.lookup_str (py "水文") (kb_terms (snd run)) = Some []
  /\ length (kb_terms (snd run)) = length (kb_terms self).
Proof. vm_compute. repeat split; reflexivity. Qed.

(* ===================================================================== *)
(** * The Enhancer: a comparison question needs a second term              *)
(* ===================================================================== *)

Section ComparisonQuestion.
Context {U : UnicodeData} {R : Runtime}.
Variable self : EnhancerSelf.

(** The templates of the comparison type all name a second term. *)
Definition comparison_templates : list (list template_piece) :=
  [ [TTerm; TText (py "和"); TOther; TText (py "有什么区别？")];
    [TTerm; TText (py "与"); TOther; TText (py "相比有什么优势？")];
    [TText (py "请比较"); TTerm; TText (py "和"); TOther; TText (py "的特点。")] ].

Lemma comparison_is_fifth :
  HydroDataEnhancer.qa_templates !! 4%nat = Some (py "比较型", comparison_templates).
Proof. reflexivity. Qed.

Lemma comparison_format_raises template term :
  template ∈ comparison_templates ->
  exists e, HydroDataEnhancer.format template term None = Raise e.
Proof.
  intros Hin. unfold comparison_templates in Hin.
  repeat (apply elem_of_cons in Hin; destruct Hin as [->|Hin]);
    [eexists; reflexivity..|].
  inversion Hin.
Qed.

Lemma single_term_comparison_raises (d : DataChunk) (w : World) (t : pyval) (term : str) :
  dict_get (extra_data d) "extracted_terms" (VList []) = VList [t] ->
  HydroDataEnhancer.term_of t = Ok term ->
  random_index (draws w) 5 = 4%nat ->
  exists e w',
    HydroDataEnhancer._generate_qa_pairs d w = (Raise e, w')
    /\ heap w' = heap w /\ enhancer_state w' = enhancer_state w.
Proof.
  intros Ht Hterm Hidx. unfold HydroDataEnhancer._generate_qa_pairs.
  unfold bind at 1. unfold HydroDataEnhancer._generate_template_qa.
  rewrite Ht. unfold bind at 1. unfold lift at 1. cbn [py_head firstn].
  unfold bind at 1. unfold lift at 1. cbn [py_len length].
  cbn [HydroDataEnhancer.template_loop].
  unfold bind at 1. unfold lift at 1. rewrite Hterm.
  unfold bind at 1. unfold HydroDataEnhancer.random_choice at 1.
  change (length HydroDataEnhancer.qa_templates) with 5%nat.
  rewrite Hidx, comparison_is_fifth.
  unfold bind at 1. unfold HydroDataEnhancer.random_choice at 1.
  cbn [draws set_draws].
  destruct (comparison_templates !! random_index (S (draws w)) (length comparison_templates))
    as [template|] eqn:Et.
  - apply list_elem_of_lookup_2 in Et.
    destruct (comparison_format_raises template term Et) as [e He].
    unfold bind at 1.
    assert (Hc : str_eqb (py "比较型") (py "比较型") && (1 <? 1)%nat = false)
      by (rewrite andb_false_r; reflexivity).
    rewrite Hc. unfold lift at 1. rewrite He.
    eexists _, _. split; [reflexivity|]. split; reflexivity.
  - eexists _, _. split; [reflexivity|]. split; reflexivity.
Qed.

End ComparisonQuestion.

Section ComparisonFailure.
Context {U : UnicodeData} {R : Runtime}.
Variable self : EnhancerSelf.

(** The extracted terms question generation finds on the chunk: those of
    this run when term extraction is on and found any, else those the chunk
    came with. *)
Definition terms_seen (d : DataChunk) : pyval :=
  let stored := dict_get (extra_data d) "extracted_terms" (VList []) in
  if enable_term_extraction self then
    match HydroDataEnhancer._extract_terms self (content d) (language d) with
    | [] => stored
    | terms => VList terms
    end
  else stored.

(** The record [_create_process_metadata] makes for a failure. *)
Definition failure_record (m : ProcessMetadata) : Prop :=
  status m = FAILED /\ processor_name m = "HydroDataEnhancer"%string
  /\ parameters m = enhancer_config self /\ is_Some (error_message m).

Lemma enhancer_comparison_failure l w t term :
  let d := deref w l in
  BaseSkill.validate_input d = true ->
  enable_qa_generation self = true ->
  terms_seen d = VList [t] ->
  HydroDataEnhancer.term_of t = Ok term ->
  random_index (draws w) 5 = 4%nat ->
  exists w' m,
    HydroDataEnhancer.process_single self l w = (Ok l, w')
    /\ last (process_metadata (deref w' l)) = Some m
    /\ failure_record m
    /\ content (deref w' l) = content d
    /\ extra_data (deref w' l) !! "generated_qa"%string
       = extra_data d !! "generated_qa"%string
    /\ extra_data (deref w' l) !! "enhanced"%string = extra_data d !! "enhanced"%string
    /\ (forall x, x <> l -> deref w' x = deref w x).
Proof.
  intros d Hv Hqa Hseen Hterm Hidx.
  unfold HydroDataEnhancer.process_single.
  unfold bind at 1. unfold read at 1. fold d. rewrite Hv. cbn [negb].
  unfold try_except. cbv zeta. unfold bind at 1.
  match goal with |- context [match ?P w with _ => _ end] =>
    assert (HP : exists w1,
      P w = (Ok tt, w1)
      /\ dict_get (extra_data (deref w1 l)) "extracted_terms" (VList []) = VList [t]
      /\ content (deref w1 l) = content d
      /\ process_metadata (deref w1 l) = process_metadata d
      /\ extra_data (deref w1 l) !! "generated_qa"%string
         = extra_data d !! "generated_qa"%string
      /\ extra_data (deref w1 l) !! "enhanced"%string
         = extra_data d !! "enhanced"%string
      /\ draws w1 = draws w
      /\ (forall x, x <> l -> deref w1 x = deref w x))
  end.
  { unfold terms_seen in Hseen. cbv zeta in Hseen.
    destruct (enable_term_extraction self).
    - unfold bind at 1. unfold read at 1. fold d.
      destruct (HydroDataEnhancer._extract_terms self (content d) (language d))
        as [|t0 ts] eqn:Ets.
      + exists w. unfold ret. repeat split; try reflexivity. exact Hseen.
      + unfold bind, update, modify. eexists. split; [reflexivity|].
        cbn [draws set_enhancer_state set_heap].
        change (deref (set_enhancer_state ?s ?v) ?x) with (deref v x).
        rewrite deref_update_eq. fold d.
        cbn [set_extra extra_data content process_metadata].
        unfold dict_get. rewrite lookup_insert_eq.
        rewrite !lookup_insert_ne by discriminate.
        split; [exact Hseen|]. repeat (split; [reflexivity|]).
        intros x Hx. unfold deref. cbn [heap set_heap set_enhancer_state].
        now rewrite lookup_total_insert_ne by congruence.
    - exists w. unfold ret. repeat split; try reflexivity. exact Hseen. }
  destruct HP as (w1 & E1 & Ht1 & Hc1 & Hm1 & Hg1 & He1 & Hd1 & Hx1).
  rewrite E1. rewrite Hqa.
  unfold bind at 1. unfold bind at 1. unfold read at 1. unfold bind at 1.
  destruct (single_term_comparison_raises (deref w1 l) w1 t term Ht1 Hterm)
    as (e & w2 & E2 & Hh2 & _); [now rewrite Hd1|].
  rewrite E2.
  unfold bind, HydroDataEnhancer._create_process_metadata, now, update, modify, ret.
  cbn [ticks set_ticks].
  assert (Hd2 : forall x, deref (set_ticks (S (S (ticks w2))) w2) x = deref w1 x).
  { intros x. unfold deref. cbn [heap set_ticks]. now rewrite Hh2. }
  eexists _, _. split; [reflexivity|].
  rewrite (deref_update_eq (set_ticks (S (S (ticks w2))) w2)).
  cbn [process_metadata add_process_metadata content extra_data].
  rewrite (Hd2 l).
  split; [apply last_snoc|].
  split; [unfold failure_record; cbn [status processor_name parameters error_message];
          repeat split; eauto|].
  split; [exact Hc1|]. split; [exact Hg1|]. split; [exact He1|].
  intros x Hx.
  rewrite (deref_update_ne (set_ticks (S (S (ticks w2))) w2)) by congruence.
  rewrite Hd2. now apply Hx1.
Qed.

End ComparisonFailure.

(** An environment like [example_runtime] whose random choice always takes
    the last item. *)
Definition last_choice_runtime : Runtime := {|
  clock := fun n => Z.of_nat n;
  md5_hexdigest := fun bs => string_of_list_ascii (map ascii_of_N bs);
  jieba := None;
  spacy_en := None;
  numpy_loaded := true;
  qa_model_loaded := false;
  random_index := fun _ k => (k - 1)%nat;
|}.

(** A chunk that came with one extracted term. *)
Definition reservoir_term : pyval :=
  VDict [("term", VStr (py "水库")); ("type", VStr (py "专业术语"))]%string.

Definition one_term_world : World :=
  set_heap {[ 0%nat := set_extra "extracted_terms" (VList [reservoir_term])
                         (new_chunk "a" flood_text) ]} new_world.

(** X27.  A chunk with exactly one extracted term can fail in the
    Enhancer by chance.  With question generation on, when the chunk has
    content, question generation finds a single term on it, and the random
    choice of the question type takes the fifth type (comparison), no
    question can be made: every comparison template names a second term.
    The exception is caught by [process_single], which returns the chunk
    with a FAILED record of the Enhancer as its latest record, the
    content as it was, no generated pairs stored and the [enhanced] mark not
    set; no other chunk changes. *)
Theorem single_term_comparison_fails (U : UnicodeData) (R : Runtime)
    (self : EnhancerSelf) (l : nat) (w : World) (t : pyval) (term : str) :
  let d := deref w l in
  BaseSkill.validate_input d = true ->
  enable_qa_generation self = true ->
  terms_seen self d = VList [t] ->
  HydroDataEnhancer.term_of t = Ok term ->
  random_index (draws w) 5 = 4%nat ->
  exists w' m,
    HydroDataEnhancer.process_single self l w = (Ok l, w')
    /\ last (process_metadata (deref w' l)) = Some m
    /\ failure_record self m
    /\ get_latest_status (deref w' l) = FAILED
    /\ content (deref w' l) = content d
    /\ extra_data (deref w' l) !! "generated_qa"%string
       = extra_data d !! "generated_qa"%string
    /\ extra_data (deref w' l) !! "enhanced"%string = extra_data d !! "enhanced"%string
    /\ (forall x, x <> l -> deref w' x = deref w x).
Proof.
  intros d Hv Hqa Hseen Hterm Hidx.
  destruct (enhancer_comparison_failure self l w t term Hv Hqa Hseen Hterm Hidx)
    as (w' & m & E & Hlast & Hrec & Hrest).
  exists w', m. split; [exact E|]. split; [exact Hlast|]. split; [exact Hrec|].
  split; [|exact Hrest].
  unfold get_latest_status. rewrite Hlast. apply Hrec.
Qed.

Lemma single_term_comparison_fails_witness :
  exists w' m,
    @HydroDataEnhancer.process_single basic_ucd last_choice_runtime
      (HydroDataEnhancer.default_self ∅) 0%nat one_term_world = (Ok 0%nat, w')
    /\ last (process_metadata (deref w' 0)) = Some m
    /\ failure_record (HydroDataEnhancer.default_self ∅) m
    /\ get_latest_status (deref w' 0) = FAILED
    /\ content (deref w' 0) = content (deref one_term_world 0)
    /\ extra_data (deref w' 0) !! "generated_qa"%string
       = extra_data (deref one_term_world 0) !! "generated_qa"%string
    /\ extra_data (deref w' 0) !! "enhanced"%string
       = extra_data (deref one_term_world 0) !! "enhanced"%string
    /\ (forall x, x <> 0%nat -> deref w' x = deref one_term_world x).
Proof.
  assert (H1 : BaseSkill.validate_input (deref one_term_world 0) = true)
    by (vm_compute; reflexivity).
  assert (H2 : enable_qa_generation (HydroDataEnhancer.default_self ∅) = true)
    by reflexivity.
  assert (H3 : @terms_seen basic_ucd last_choice_runtime
                 (HydroDataEnhancer.default_self ∅) (deref one_term_world 0)
               = VList [reservoir_term])
    by (vm_compute; reflexivity).
  assert (H4 : HydroDataEnhancer.term_of reservoir_term = Ok (py "水库"))
    by (vm_compute; reflexivity).
  assert (H5 : @random_index last_choice_runtime (draws one_term_world) 5 = 4%nat)
    by reflexivity.
  exact (single_term_comparison_fails basic_ucd last_choice_runtime
           (HydroDataEnhancer.default_self ∅) 0%nat one_term_world reservoir_term
           (py "水库") H1 H2 H3 H4 H5).
Defined.

(* ===================================================================== *)
(** * The controller as a skill                                            *)
(* ===================================================================== *)

Lemma only_started {R : Runtime} l w : only l w (started w).
Proof. split; [reflexivity|]. split; reflexivity. Qed.

Section PipelineSingle.
Context {U : UnicodeData} {R : Runtime}.
Variable self : PipelineSelf.

Lemma optional_stage_spec {S : Type} (present : option S) (ps : S -> nat -> M nat) l w :
  (forall s l w, exists w', ps s l w = (Ok l, w') /\ extends w w' /\ only l w w') ->
  exists w',
    match present with
    | Some skill => ps skill l
    | None => ret l
    end w = (Ok l, w')
    /\ extends w w' /\ only l w w'.
Proof.
  intros Hps. destruct present as [skill|].
  - apply Hps.
  - exists w. split; [reflexivity|]. split; [apply extends_refl | apply only_refl].
Qed.

Lemma stage_single_full (cleaner : CleanerSelf) (enhancer : EnhancerSelf)
    (evaluator : EvaluatorSelf) stage l w :
  exists w',
    stage_process_single cleaner enhancer evaluator stage l w = (Ok l, w')
    /\ extends w w' /\ only l w w'.
Proof.
  destruct (stage_single_spec cleaner enhancer evaluator stage l w) as (w' & E & Hext).
  exists w'. split; [exact E|]. split; [exact Hext|].
  pose proof (stage_single_touches cleaner enhancer evaluator stage l w) as Ht.
  now rewrite E in Ht.
Qed.

Lemma pipeline_single_spec l w :
  exists w',
    PipelineInterface.process_single self l w = (Ok l, w')
    /\ extends w w' /\ only l w w'.
Proof.
  unfold PipelineInterface.process_single. cbv zeta.
  destruct (optional_stage_spec (cleaner_skill self)
              (@HydroDataCleaner.process_single U R) l w) as (w1 & E1 & Hx1 & Ho1).
  { intros s l' w'.
    apply (stage_single_full s (HydroDataEnhancer.default_self ∅)
             (HydroDataEvaluator.default_self ∅) Cleaner). }
  destruct (optional_stage_spec (enhancer_skill self)
              (@HydroDataEnhancer.process_single U R) l w1) as (w2 & E2 & Hx2 & Ho2).
  { intros s l' w'.
    apply (stage_single_full (HydroDataCleaner.default_self 0 ∅) s
             (HydroDataEvaluator.default_self ∅) Enhancer). }
  destruct (optional_stage_spec (evaluator_skill self)
              (@HydroDataEvaluator.process_single U R) l w2) as (w3 & E3 & Hx3 & Ho3).
  { intros s l' w'.
    apply (stage_single_full (HydroDataCleaner.default_self 0 ∅)
             (HydroDataEnhancer.default_self ∅) s Evaluator). }
  exists w3. unfold bind at 1. rewrite E1. unfold bind at 1. rewrite E2.
  unfold bind at 1. rewrite E3. split; [reflexivity|].
  split.
  - eapply extends_trans; [exact Hx1|]. eapply extends_trans; eassumption.
  - eapply only_trans; [exact Ho1|]. eapply only_trans; eassumption.
Qed.

End PipelineSingle.

(** X28.  The controller used as a skill: [process_single] of the
    pipeline passes the chunk through the stages that are there and always
    returns that same chunk, never raising.  Histories only grow by it; it
    touches no other chunk; and it leaves every stage counter and the
    pipeline statistics as they are, so that chunks processed this way are
    not counted anywhere. *)
Theorem pipeline_single_is_uncounted (U : UnicodeData) (R : Runtime)
    (self : PipelineSelf) (l : nat) (w : World) :
  exists w',
    PipelineInterface.process_single self l w = (Ok l, w')
    /\ (forall x, history w x `prefix_of` history w' x)
    /\ monitors w' = monitors w
    /\ processing_stats w' = processing_stats w
    /\ (forall x, x <> l -> deref w' x = deref w x).
Proof.
  destruct (pipeline_single_spec self l w) as (w' & E & Hext & Hm & Hs & Hd).
  exists w'. split; [exact E|]. split; [exact Hext|]. auto.
Qed.

(* ===================================================================== *)
(** * The configuration manager                                            *)
(* ===================================================================== *)

Lemma split_from_nonempty (key current : string) :
  ConfigManager.split_from current key <> [].
Proof.
  revert current. induction key as [|c rest IH]; intros current;
    cbn [ConfigManager.split_from]; [discriminate|].
  destruct (Ascii.eqb c "."); [discriminate | apply IH].
Qed.

Lemma assoc_setitem_eq (k : string) (v : pyval) (d : list (string * pyval)) :
  assoc k (ConfigManager.setitem k v d) = Some v.
Proof.
  induction d as [|[k' v'] d IH]; cbn [ConfigManager.setitem assoc].
  - now rewrite String.eqb_refl.
  - destruct (String.eqb k k') eqn:E; cbn [assoc].
    + now rewrite String.eqb_refl.
    + now rewrite E.
Qed.

Lemma assoc_setitem_ne (k k0 : string) (v : pyval) (d : list (string * pyval)) :
  k0 <> k -> assoc k0 (ConfigManager.setitem k v d) = assoc k0 d.
Proof.
  intros Hne. apply String.eqb_neq in Hne.
  induction d as [|[k' v'] d IH]; cbn [ConfigManager.setitem assoc].
  - now rewrite Hne.
  - destruct (String.eqb k k') eqn:E; cbn [assoc].
    + apply String.eqb_eq in E. subst k'. now rewrite Hne.
    + destruct (String.eqb k0 k'); [reflexivity | exact IH].
Qed.

Lemma set_keys_outcome (keys : list string) :
  forall config value,
    match ConfigManager.set_keys config keys value with
    | (Ok _, config') =>
      keys <> [] -> forall default, ConfigManager.get_keys config' keys default = value
    | (Raise _, config') => config' = config
    end.
Proof.
  induction keys as [|k keys IH]; intros config value.
  - cbn [ConfigManager.set_keys]. congruence.
  - cbn [ConfigManager.set_keys]. destruct keys as [|k2 keys].
    + destruct config; try reflexivity.
      intros _ default. cbn [ConfigManager.get_keys].
      now rewrite assoc_setitem_eq.
    + destruct config; try reflexivity. cbv zeta.
      match goal with |- context [ConfigManager.set_keys ?c (k2 :: keys) value] =>
        specialize (IH c value);
        destruct (ConfigManager.set_keys c (k2 :: keys) value) as [[[]|e] child']
      end; [|reflexivity].
      intros _ default. cbn [ConfigManager.get_keys].
      rewrite assoc_setitem_eq. apply IH. discriminate.
Qed.

Lemma set_keys_frame (k1 k2 : string) (rest1 rest2 : list string) config value :
  k1 <> k2 ->
  match ConfigManager.set_keys config (k1 :: rest1) value with
  | (Ok _, config') =>
    forall default,
      ConfigManager.get_keys config' (k2 :: rest2) default
      = ConfigManager.get_keys config (k2 :: rest2) default
  | (Raise _, _) => True
  end.
Proof.
  intros Hne. cbn [ConfigManager.set_keys]. destruct rest1 as [|k rest1].
  - destruct config; try exact I.
    intros default. cbn [ConfigManager.get_keys].
    now rewrite assoc_setitem_ne by congruence.
  - destruct config; try exact I. cbv zeta.
    match goal with |- context [ConfigManager.set_keys ?c (k :: rest1) value] =>
      destruct (ConfigManager.set_keys c (k :: rest1) value) as [[[]|e] child']
    end; [|exact I].
    intros default. cbn [ConfigManager.get_keys].
    rewrite assoc_setitem_ne by congruence.
    destruct (assoc k1 d); [reflexivity|].
    now rewrite assoc_setitem_ne by congruence.
Qed.

(** X29.  [ConfigManager.set] and [get] fit together, the configuration
    being a tree of dictionaries.  When [set] returns, [get] with the same
    dotted key gives the value just set, whatever the default, and the keys
    that start with another first component read as before.  When [set]
    raises (a value on the way is not a dictionary) the configuration is
    unchanged.  [get] itself never raises: on the empty configuration, as
    on any missing step, it gives the default. *)
Theorem config_set_then_get (config : pyval) (key : string) (value : pyval) :
  match ConfigManager.set config key value with
  | (Ok _, config') =>
    (forall default, ConfigManager.get config' key default = value)
    /\ (forall other k1 rest1 k2 rest2 default,
          ConfigManager.split key = k1 :: rest1 ->
          ConfigManager.split other = k2 :: rest2 ->
          k1 <> k2 ->
          ConfigManager.get config' other default
          = ConfigManager.get config other default)
  | (Raise _, config') => config' = config
  end
  /\ (forall default, ConfigManager.get (VDict []) key default = default).
Proof.
  unfold ConfigManager.set, ConfigManager.get. split.
  - pose proof (set_keys_outcome (ConfigManager.split key) config value) as Ho.
    destruct (ConfigManager.set_keys config (ConfigManager.split key) value)
      as [[[]|e] config'] eqn:Es; [|exact Ho].
    split.
    + apply Ho. apply split_from_nonempty.
    + intros other k1 rest1 k2 rest2 default H1 H2 Hne.
      pose proof (set_keys_frame k1 k2 rest1 rest2 config value Hne) as Hf.
      rewrite <- H1, Es in Hf. rewrite H2. apply Hf.
  - intros default.
    pose proof (split_from_nonempty key EmptyString) as Hne.
    unfold ConfigManager.split.
    destruct (ConfigManager.split_from EmptyString key); [congruence|reflexivity].
Qed.

(** Setting a nested key creates the dictionaries on the way. *)
Example config_creates_sections :
  ConfigManager.split "pipeline.batch_size" = ["pipeline"; "batch_size"]%string
  /\ ConfigManager.set (VDict [("global", VDict [])]%string) "pipeline.batch_size" (VInt 50)
     = (Ok tt, VDict [("global", VDict []);
                      ("pipeline", VDict [("batch_size", VInt 50)])]%string)
  /\ fst (ConfigManager.set (VDict [("pipeline", VInt 1)]%string)
            "pipeline.batch_size" (VInt 50))
     = Raise (type_error "object does not support item assignment")
  /\ fst (ConfigManager.set (VDict [("pipeline", VInt 1)]%string)
            "pipeline.stages.first" (VInt 50))
     = Raise (type_error "argument is not iterable").
Proof. repeat split; reflexivity. Qed.

(* ===================================================================== *)
(** * The Enhancer keeps the content it replaces, and never completes      *)
(* ===================================================================== *)

Section EnrichedContent.
Context {U : UnicodeData} {R : Runtime}.
Variable self : EnhancerSelf.

Lemma generate_qa_pairs_reads d w x :
  deref (snd (HydroDataEnhancer._generate_qa_pairs d w)) x = deref w x.
Proof.
  destruct (generate_qa_pairs_touches (S x) d w) as (_ & _ & H).
  apply H. lia.
Qed.

(** What an enriched chunk carries: the content it had, and two marks. *)
Definition keeps_original (before after : DataChunk) : Prop :=
  extra_data after !! "original_content"%string = Some (VStr (content before))
  /\ extra_data after !! "knowledge_enriched"%string = Some (VBool true)
  /\ extra_data after !! "enhanced"%string = Some (VBool true)
  /\ content after <> content before.

(** The last steps of [process_single]: the domain tags and the mark are
    set, then the read of the logger's start time raises. *)
Lemma closing_steps l w :
  exists e w',
    (let* text := read l content in
     let domain_tags := HydroDataEnhancer._assign_domain_tags text in
     let* _ :=
       match domain_tags with
       | [] => ret tt
       | _ => update l (set_extra "domain_tags" (VList (map VStr domain_tags)))
       end in
     let* _ := update l (set_extra "enhanced" (VBool true)) in
     let* start_time := lift logger_core_start_time in
     let* _ := update l (set_extra "enhancement_time" (VTime start_time)) in
     ret l) w = (Raise e, w')
    /\ content (deref w' l) = content (deref w l)
    /\ id (deref w' l) = id (deref w l)
    /\ language (deref w' l) = language (deref w l)
    /\ process_metadata (deref w' l) = process_metadata (deref w l)
    /\ extra_data (deref w' l) !! "enhanced"%string = Some (VBool true)
    /\ (forall k, k <> "domain_tags"%string -> k <> "enhanced"%string ->
          extra_data (deref w' l) !! k = extra_data (deref w l) !! k).
Proof.
  unfold bind at 1. unfold read at 1. cbv zeta.
  destruct (HydroDataEnhancer._assign_domain_tags (content (deref w l))) as [|tag tags].
  - unfold bind, update, modify, ret, lift, logger_core_start_time.
    eexists _, _. split; [reflexivity|].
    rewrite !deref_update_eq.
    cbn [set_extra content id language process_metadata extra_data].
    repeat (split; [reflexivity|]).
    split.
    + apply lookup_insert_eq.
    + intros k H1 H2. now rewrite !lookup_insert_ne by congruence.
  - unfold bind, update, modify, ret, lift, logger_core_start_time.
    eexists _, _. split; [reflexivity|].
    rewrite !deref_update_eq.
    cbn [set_extra content id language process_metadata extra_data].
    repeat (split; [reflexivity|]).
    split.
    + apply lookup_insert_eq.
    + intros k H1 H2. now rewrite !lookup_insert_ne by congruence.
Qed.

End EnrichedContent.

Ltac conjuncts :=
  repeat (split; [solve [reflexivity | assumption]|]);
  solve [reflexivity | assumption].

Section EnhancerContent.
Context {U : UnicodeData} {R : Runtime}.
Variable self : EnhancerSelf.

(** The handler of [process_single]: one FAILED record more. *)
Lemma failure_steps l msg w :
  exists w' m,
    (let* m := HydroDataEnhancer._create_process_metadata self FAILED msg in
     let* _ := update l (add_process_metadata m) in
     ret l) w = (Ok l, w')
    /\ failure_record self m
    /\ process_metadata (deref w' l) = process_metadata (deref w l) ++ [m]
    /\ content (deref w' l) = content (deref w l)
    /\ id (deref w' l) = id (deref w l)
    /\ language (deref w' l) = language (deref w l)
    /\ extra_data (deref w' l) = extra_data (deref w l).
Proof.
  unfold bind, HydroDataEnhancer._create_process_metadata, now, update, modify, ret.
  cbn [ticks set_ticks].
  eexists _, {| processor_name := "HydroDataEnhancer"; processing_time := 0;
                start_time := clock (ticks w); end_time := clock (S (ticks w));
                status := FAILED; error_message := Some msg;
                parameters := enhancer_config self |}.
  split; [reflexivity|].
  split; [unfold failure_record; cbn [status processor_name parameters error_message];
          repeat split; eauto|].
  rewrite (deref_update_eq (set_ticks (S (S (ticks w))) w)).
  repeat split; reflexivity.
Qed.

(** A chunk as [process_single] leaves it. *)
Definition enhancer_outcome (d d' : DataChunk) : Prop :=
  id d' = id d
  /\ language d' = language d
  /\ (content d' = content d \/ keeps_original d d')
  /\ extra_data d' !! "enhancement_time"%string = extra_data d !! "enhancement_time"%string
  /\ exists m, failure_record self m /\ process_metadata d' = process_metadata d ++ [m].

Lemma enhancer_single_content l w :
  let d := deref w l in
  exists w',
    HydroDataEnhancer.process_single self l w = (Ok l, w')
    /\ if BaseSkill.validate_input d then enhancer_outcome d (deref w' l) else w' = w.
Proof.
  intros d. unfold HydroDataEnhancer.process_single.
  unfold bind at 1. unfold read at 1. fold d.
  destruct (BaseSkill.validate_input d); cbn [negb];
    [|exists w; split; reflexivity].
  unfold try_except. cbv zeta. unfold bind at 1.
  (* term extraction *)
  match goal with |- context [match ?P w with _ => _ end] =>
    assert (HP1 : exists w1,
      P w = (Ok tt, w1)
      /\ content (deref w1 l) = content d
      /\ id (deref w1 l) = id d
      /\ language (deref w1 l) = language d
      /\ process_metadata (deref w1 l) = process_metadata d
      /\ extra_data (deref w1 l) !! "enhancement_time"%string
         = extra_data d !! "enhancement_time"%string)
  end.
  { destruct (enable_term_extraction self); [|exists w; conjuncts].
    unfold bind at 1. unfold read at 1. fold d.
    destruct (HydroDataEnhancer._extract_terms self (content d) (language d)).
    - exists w. conjuncts.
    - unfold bind, update, modify. eexists. split; [reflexivity|].
      change (deref (set_enhancer_state ?s ?v) ?x) with (deref v x).
      rewrite deref_update_eq. fold d.
      cbn [set_extra content id language process_metadata extra_data].
      repeat (split; [reflexivity|]).
      now rewrite lookup_insert_ne by discriminate. }
  destruct HP1 as (w1 & E1 & Hc1 & Hi1 & Hl1 & Hm1 & Ht1). rewrite E1.
  unfold bind at 1.
  (* question generation *)
  match goal with |- context [match ?P w1 with _ => _ end] =>
    assert (HP2 : exists r w2,
      P w1 = (r, w2)
      /\ content (deref w2 l) = content d
      /\ id (deref w2 l) = id d
      /\ language (deref w2 l) = language d
      /\ process_metadata (deref w2 l) = process_metadata d
      /\ extra_data (deref w2 l) !! "enhancement_time"%string
         = extra_data d !! "enhancement_time"%string)
  end.
  { destruct (enable_qa_generation self);
      [|exists (Ok tt), w1; conjuncts].
    unfold bind at 1. unfold read at 1. unfold bind at 1.
    pose proof (generate_qa_pairs_reads (deref w1 l) w1 l) as Hr.
    destruct (HydroDataEnhancer._generate_qa_pairs (deref w1 l) w1) as [[qa|e] w2];
      cbn [snd] in Hr.
    - destruct qa as [|q qs].
      + exists (Ok tt), w2. unfold ret. rewrite Hr. conjuncts.
      + unfold bind, update, modify. eexists _, _. split; [reflexivity|].
        change (deref (set_enhancer_state ?s ?v) ?x) with (deref v x).
        rewrite deref_update_eq, Hr.
        cbn [set_extra content id language process_metadata extra_data].
        repeat (split; [assumption|]).
        now rewrite lookup_insert_ne by discriminate.
    - exists (Raise e), w2. rewrite Hr. conjuncts. }
  destruct HP2 as (r & w2 & E2 & Hc2 & Hi2 & Hl2 & Hm2 & Ht2). rewrite E2.
  destruct r as [[]|e].
  2:{ destruct (failure_steps l (exn_msg e) w2) as (w' & m & E & Hf & Hm & Hc & Hi & Hl & Hx).
      exists w'. split; [exact E|]. unfold enhancer_outcome.
      rewrite Hc, Hi, Hl, Hx, Hm, Hm2.
      split; [exact Hi2|]. split; [exact Hl2|]. split; [now left|].
      split; [exact Ht2|]. now exists m. }
  (* knowledge enrichment *)
  unfold bind at 1.
  destruct (enable_knowledge_enrichment self).
  - unfold bind at 1. unfold read at 1. unfold bind at 1. unfold lift at 1.
    match goal with |- context [match ?r with Ok _ => _ | Raise _ => _ end] =>
      match r with
      | (_, _) => fail 1
      | _ => destruct r as [enriched|e]
      end
    end.
    + destruct (negb (str_eqb enriched (content (deref w2 l)))) eqn:Hch.
      * unfold bind at 1. unfold update at 1. unfold modify at 1.
        unfold bind at 1. unfold update at 1. unfold modify at 1.
        unfold update at 1. unfold modify at 1.
        match goal with |- context [bind (read l content) _ ?W] => set (w3 := W) end.
        assert (H3 : deref w3 l
                     = set_extra "knowledge_enriched" (VBool true)
                         (set_content enriched
                            (set_extra "original_content" (VStr (content (deref w2 l)))
                               (deref w2 l)))).
        { unfold w3. now rewrite !deref_update_eq. }
        destruct (closing_steps l w3) as (e & w4 & E & Hc & Hi & Hl & Hm & He & Hk).
        cbv zeta in E. rewrite E.
        destruct (failure_steps l (exn_msg e) w4)
          as (w' & m & E' & Hf & Hm' & Hc' & Hi' & Hl' & Hx').
        exists w'. split; [exact E'|]. unfold enhancer_outcome, keeps_original.
        rewrite Hc', Hi', Hl', Hx', Hm', Hc, Hi, Hl, Hm, He.
        rewrite !Hk by discriminate. rewrite H3.
        cbn [set_extra set_content id language process_metadata content extra_data].
        split; [exact Hi2|]. split; [exact Hl2|].
        split.
        { right.
          split; [rewrite lookup_insert_ne by discriminate; rewrite Hc2;
                  apply lookup_insert_eq|].
          split; [apply lookup_insert_eq|]. split; [reflexivity|].
          intros Heq. rewrite Hc2, Heq in Hch. unfold str_eqb in Hch.
          rewrite bool_decide_eq_true_2 in Hch by reflexivity. discriminate Hch. }
        split.
        { rewrite !lookup_insert_ne by discriminate. exact Ht2. }
        exists m. rewrite Hm2. now split.
      * unfold ret at 1.
        destruct (closing_steps l w2) as (e & w4 & E & Hc & Hi & Hl & Hm & He & Hk).
        cbv zeta in E. rewrite E.
        destruct (failure_steps l (exn_msg e) w4)
          as (w' & m & E' & Hf & Hm' & Hc' & Hi' & Hl' & Hx').
        exists w'. split; [exact E'|]. unfold enhancer_outcome.
        rewrite Hc', Hi', Hl', Hx', Hm', Hc, Hi, Hl, Hm, Hm2.
        split; [exact Hi2|]. split; [exact Hl2|]. split; [now left|].
        split; [rewrite Hk by discriminate; exact Ht2|]. now exists m.
    + destruct (failure_steps l (exn_msg e) w2) as (w' & m & E & Hf & Hm & Hc & Hi & Hl & Hx).
      exists w'. split; [exact E|]. unfold enhancer_outcome.
      rewrite Hc, Hi, Hl, Hx, Hm, Hm2.
      split; [exact Hi2|]. split; [exact Hl2|]. split; [now left|].
      split; [exact Ht2|]. now exists m.
  - unfold ret at 1.
    destruct (closing_steps l w2) as (e & w4 & E & Hc & Hi & Hl & Hm & He & Hk).
    cbv zeta in E. rewrite E.
    destruct (failure_steps l (exn_msg e) w4)
      as (w' & m & E' & Hf & Hm' & Hc' & Hi' & Hl' & Hx').
    exists w'. split; [exact E'|]. unfold enhancer_outcome.
    rewrite Hc', Hi', Hl', Hx', Hm', Hc, Hi, Hl, Hm, Hm2.
    split; [exact Hi2|]. split; [exact Hl2|]. split; [now left|].
    split; [rewrite Hk by discriminate; exact Ht2|]. now exists m.
Qed.

End EnhancerContent.

(** X30.  The Enhancer does not lose the text it replaces, and never
    completes a chunk.  [process_single] always returns the chunk it was
    given.  A chunk without content comes back untouched.  A chunk with
    content keeps its identifier and language tag and comes back either with
    the content it had, or with another content and then with the content it
    had stored under [original_content], next to the marks
    [knowledge_enriched] and [enhanced].  In both cases its history has
    exactly one record more, a FAILED one of the Enhancer with a message:
    when nothing else went wrong, the read of [logger._core.start_time] for
    the entry [enhancement_time] raises, so that this entry is never set. *)
Theorem enhancer_keeps_replaced_content (U : UnicodeData) (R : Runtime)
    (self : EnhancerSelf) (l : nat) (w : World) :
  exists w',
    HydroDataEnhancer.process_single self l w = (Ok l, w')
    /\ id (deref w' l) = id (deref w l)
    /\ language (deref w' l) = language (deref w l)
    /\ (content (deref w' l) = content (deref w l)
        \/ keeps_original (deref w l) (deref w' l))
    /\ extra_data (deref w' l) !! "enhancement_time"%string
       = extra_data (deref w l) !! "enhancement_time"%string
    /\ if BaseSkill.validate_input (deref w l)
       then exists m,
              status m = FAILED
              /\ processor_name m = "HydroDataEnhancer"%string
              /\ is_Some (error_message m)
              /\ process_metadata (deref w' l) = process_metadata (deref w l) ++ [m]
       else w' = w.
Proof.
  destruct (enhancer_single_content self l w) as (w' & E & H).
  exists w'. split; [exact E|].
  destruct (BaseSkill.validate_input (deref w l)).
  - destruct H as (Hi & Hl & Hc & Ht & m & (Hs & Hn & _ & Hmsg) & Hm).
    repeat (split; [assumption|]). exists m. auto.
  - subst w'. repeat split; auto.
Qed.

(** A chunk that came with the term for flood control, enriched. *)
Definition flood_term_world : World :=
  set_heap
    {[ 0%nat := set_extra "extracted_terms"
                  (VList [VDict [("term", VStr (py "防洪"));
                                 ("type", VStr (py "专业术语"))]%string])
                  (new_chunk "a" flood_text) ]} new_world.

Example enriched_flood_chunk :
  let w' := snd (@HydroDataEnhancer.process_single basic_ucd example_runtime
                   (HydroDataEnhancer.default_self ∅) 0%nat flood_term_world) in
  content (deref w' 0)
  = py "三峡水库的防洪（防止洪水灾害的各种措施）调度方案，保障长江流域安全。"
  /\ extra_data (deref w' 0) !! "original_content"%string = Some (VStr flood_text)
  /\ get_latest_status (deref w' 0) = FAILED.
Proof. vm_compute. repeat split; reflexivity. Qed.
